(** * The touchpad dispatcher of libinput (evdev-mt-touchpad.c)

    A shallow embedding of the multi-touch touchpad dispatcher: the
    per-touch state machine, the fake-finger tracker, the hover
    resolvers, the jump detector, the MSC_TIMESTAMP corrector, the palm
    and thumb classifiers, disable-while-typing and the frame pipeline,
    followed by the properties of the specification that were checked
    against them.

    Conventions.
    - A C function [f(tp, t, time)] that mutates the dispatcher becomes a
      function from a dispatcher to a dispatcher; the touch pointer [t]
      becomes the index of the touch in [touches tp], so that two
      pointers to the same touch alias in the model as they do in C.
    - [assert] and [abort] become [None] in the [option] monad.
    - Unsigned integers are [Z] with their wrap-around written out
      ([u8], [u32], [u64]); [int] arithmetic is left unwrapped, signed
      overflow being undefined in C.
    - [double] is the binary64 type of the kernel ([float]).
    - Calls into collaborators that are not part of the dispatcher (log
      messages of bug level, the pointer acceleration filter, timers,
      tap, edge scroll and gesture hooks) are recorded in the [trace]
      field, oldest first.  Debug-level log messages are not recorded. *)

From Stdlib Require Import ZArith List Bool Lia Floats.
From stdpp Require Import base option list.

Open Scope Z_scope.

(** ** Machine integers and doubles *)

Definition u8 (z : Z) : Z := z mod 2 ^ 8.
Definition u32 (z : Z) : Z := z mod 2 ^ 32.
Definition u64 (z : Z) : Z := z mod 2 ^ 64.

(** Conversion of an integer to [double], correctly rounded. *)
Definition Z2double (z : Z) : float :=
  SF2Prim (binary_normalize prec emax z 0 false).

(** [a > b] and [a >= b] on doubles (false when either is a NaN). *)
Definition dgt (a b : float) : bool := PrimFloat.ltb b a.
Definition dge (a b : float) : bool := PrimFloat.leb b a.
Definition dlt (a b : float) : bool := PrimFloat.ltb a b.
Definition dle (a b : float) : bool := PrimFloat.leb a b.

(** [ffs] of the C library: one plus the index of the least significant
    set bit of an [int], and 0 when no bit is set. *)
Fixpoint ffs_from (n : nat) (i : Z) (v : Z) : Z :=
  match n with
  | O => 0
  | S n' => if Z.testbit v i then i + 1 else ffs_from n' (i + 1) v
  end.

Definition ffs (v : Z) : Z := ffs_from 32 0 v.

(** [__builtin_popcount] on an [unsigned int]. *)
Fixpoint popcount_from (n : nat) (i : Z) (v : Z) : Z :=
  match n with
  | O => 0
  | S n' => (if Z.testbit v i then 1 else 0) + popcount_from n' (i + 1) v
  end.

Definition popcount (v : Z) : Z := popcount_from 32 0 v.

(** [~m] on an [unsigned int], used as [v & ~m]. *)
Definition clear_bits (v m : Z) : Z := Z.land v (u32 (Z.lnot m)).

(** [ms2us] of libinput-util.h. *)
Definition ms2us (ms : Z) : Z := u64 (ms * 1000).

(** ** Constants of evdev-mt-touchpad.c and of the kernel headers *)

Definition DEFAULT_TRACKPOINT_ACTIVITY_TIMEOUT : Z := ms2us 300.
Definition DEFAULT_TRACKPOINT_EVENT_TIMEOUT : Z := ms2us 40.
Definition DEFAULT_KEYBOARD_ACTIVITY_TIMEOUT_1 : Z := ms2us 200.
Definition DEFAULT_KEYBOARD_ACTIVITY_TIMEOUT_2 : Z := ms2us 500.
Definition THUMB_MOVE_TIMEOUT : Z := ms2us 300.
Definition FAKE_FINGER_OVERFLOW : Z := Z.shiftl 1 7.
Definition THUMB_IGNORE_SPEED_THRESHOLD : Z := 20.

(** Modelled from the spec: the header evdev-mt-touchpad.h, which defines
    the capacity of the motion history, is not among the sources; the
    specification asks for a ring of at least four entries, and four is
    what the speed computation of the source (which waits for
    [history.count >= 4]) relies on. *)
Definition TOUCHPAD_HISTORY_LENGTH : Z := 4.

(** Event types and codes of linux/input-event-codes.h. *)
Definition EV_SYN : Z := 0.
Definition EV_KEY : Z := 1.
Definition EV_ABS : Z := 3.
Definition EV_MSC : Z := 4.
Definition SYN_REPORT : Z := 0.
Definition MSC_TIMESTAMP : Z := 5.
Definition ABS_X : Z := 0.
Definition ABS_Y : Z := 1.
Definition ABS_PRESSURE : Z := 24.
Definition ABS_MT_SLOT : Z := 47.
Definition ABS_MT_TOUCH_MAJOR : Z := 48.
Definition ABS_MT_TOUCH_MINOR : Z := 49.
Definition ABS_MT_POSITION_X : Z := 53.
Definition ABS_MT_POSITION_Y : Z := 54.
Definition ABS_MT_TOOL_TYPE : Z := 55.
Definition ABS_MT_TRACKING_ID : Z := 57.
Definition ABS_MT_PRESSURE : Z := 58.
Definition MT_TOOL_PALM : Z := 2.
Definition BTN_TOOL_FINGER : Z := 325.
Definition BTN_TOOL_QUINTTAP : Z := 328.
Definition BTN_TOUCH : Z := 330.
Definition BTN_TOOL_DOUBLETAP : Z := 333.
Definition BTN_TOOL_TRIPLETAP : Z := 334.
Definition BTN_TOOL_QUADTAP : Z := 335.

Definition KEY_TAB : Z := 15.
Definition KEY_LEFTCTRL : Z := 29.
Definition KEY_A : Z := 30.
Definition KEY_LEFTSHIFT : Z := 42.
Definition KEY_RIGHTSHIFT : Z := 54.
Definition KEY_LEFTALT : Z := 56.
Definition KEY_CAPSLOCK : Z := 58.
Definition KEY_F1 : Z := 59.
Definition KEY_RIGHTCTRL : Z := 97.
Definition KEY_RIGHTALT : Z := 100.
Definition KEY_LEFTMETA : Z := 125.
Definition KEY_RIGHTMETA : Z := 126.
Definition KEY_COMPOSE : Z := 127.
Definition KEY_FN : Z := 464.
Definition KEY_CNT : Z := 768.

(** [enum touchpad_event]. *)
Definition TOUCHPAD_EVENT_NONE : Z := 0.
Definition TOUCHPAD_EVENT_MOTION : Z := Z.shiftl 1 0.
Definition TOUCHPAD_EVENT_BUTTON_PRESS : Z := Z.shiftl 1 1.
Definition TOUCHPAD_EVENT_BUTTON_RELEASE : Z := Z.shiftl 1 2.
Definition TOUCHPAD_EVENT_OTHERAXIS : Z := Z.shiftl 1 3.
Definition TOUCHPAD_EVENT_TIMESTAMP : Z := Z.shiftl 1 4.

(** Model flags of the device the dispatcher looks at (distinct bits of
    [enum evdev_device_model]). *)
Definition EVDEV_MODEL_WACOM_TOUCHPAD : Z := Z.shiftl 1 3.
Definition EVDEV_MODEL_SYNAPTICS_SERIAL_TOUCHPAD : Z := Z.shiftl 1 9.
Definition EVDEV_MODEL_LENOVO_T450_TOUCHPAD : Z := Z.shiftl 1 17.
Definition EVDEV_MODEL_TEST_DEVICE : Z := Z.shiftl 1 30.

(** Compass directions of [phys_get_direction]. *)
Definition dir_N : Z := Z.shiftl 1 0.
Definition dir_NE : Z := Z.shiftl 1 1.
Definition dir_E : Z := Z.shiftl 1 2.
Definition dir_SE : Z := Z.shiftl 1 3.
Definition dir_S : Z := Z.shiftl 1 4.
Definition dir_SW : Z := Z.shiftl 1 5.
Definition dir_W : Z := Z.shiftl 1 6.
Definition dir_NW : Z := Z.shiftl 1 7.

Definition EDGE_RIGHT : Z := Z.shiftl 1 0.

(** ** Data model *)

Inductive touch_state :=
| TOUCH_NONE
| TOUCH_HOVERING
| TOUCH_BEGIN
| TOUCH_UPDATE
| TOUCH_MAYBE_END
| TOUCH_END.

Inductive touch_palm_state :=
| PALM_NONE
| PALM_EDGE
| PALM_TYPING
| PALM_TRACKPOINT
| PALM_TOOL_PALM
| PALM_PRESSURE
| PALM_TOUCH_SIZE
| PALM_ARBITRATION.

Inductive tp_thumb_state :=
| THUMB_STATE_NO
| THUMB_STATE_YES
| THUMB_STATE_MAYBE.

Inductive tp_jump_state :=
| JUMP_STATE_IGNORE
| JUMP_STATE_EXPECT_FIRST
| JUMP_STATE_EXPECT_DELAY.

Inductive evdev_arbitration_state :=
| ARBITRATION_NOT_ACTIVE
| ARBITRATION_IGNORE_ALL
| ARBITRATION_IGNORE_RECT.

Inductive libinput_config_scroll_method :=
| LIBINPUT_CONFIG_SCROLL_NO_SCROLL
| LIBINPUT_CONFIG_SCROLL_2FG
| LIBINPUT_CONFIG_SCROLL_EDGE
| LIBINPUT_CONFIG_SCROLL_ON_BUTTON_DOWN.

#[global] Instance touch_state_eq_dec : EqDecision touch_state.
Proof. solve_decision. Defined.
#[global] Instance touch_palm_state_eq_dec : EqDecision touch_palm_state.
Proof. solve_decision. Defined.
#[global] Instance tp_thumb_state_eq_dec : EqDecision tp_thumb_state.
Proof. solve_decision. Defined.
#[global] Instance tp_jump_state_eq_dec : EqDecision tp_jump_state.
Proof. solve_decision. Defined.
#[global] Instance evdev_arbitration_state_eq_dec :
  EqDecision evdev_arbitration_state.
Proof. solve_decision. Defined.
#[global] Instance libinput_config_scroll_method_eq_dec :
  EqDecision libinput_config_scroll_method.
Proof. solve_decision. Defined.

Record device_coords := { x : Z; y : Z }.
Record device_float_coords := { fx : float; fy : float }.
Record phys_coords := { mm_x : float; mm_y : float }.

Record tp_history_point := { hp_time : Z; hp_point : device_coords }.

(** The bug-level log messages of the dispatcher. *)
Inductive bug :=
| invalid_fake_finger_state (fake_touches : Z)
| touch_ended_and_began_in_same_frame (index : Z)
| already_in_TOUCH_END (index : Z)
| should_be_MAYBE_END (index : Z) (st : touch_state)
| unable_to_find_topmost_touch
| touch_jump_detected_and_discarded.

Inductive timer := trackpoint_timer | keyboard_timer | arbitration_timer.

(** What the dispatcher asks of its collaborators. *)
Inductive effect :=
| evdev_log_bug_kernel (b : bug)
| evdev_log_bug_libinput (b : bug)
| filter_restart (time : Z)
| tp_edge_scroll_stop_events (time : Z)
| tp_gesture_cancel (time : Z)
| tp_tap_suspend (time : Z)
| tp_tap_resume (time : Z)
| libinput_timer_set (which : timer) (expire : Z)
| libinput_timer_cancel (which : timer).
(** [struct tp_touch]: one slot of the dispatcher.  A field [a.b] of the C
    structure is named [a_b]; the fields of the structure itself carry
    the prefix [t_].  Only the fields the dispatcher core reads or writes
    are kept. *)
Record tp_touch := {
  t_index : Z;  (* unsigned int index *)
  t_state : touch_state;
  t_has_ended : bool;  (* TRACKING_ID == -1 *)
  t_dirty : bool;
  t_point : device_coords;
  t_time : Z;  (* uint64_t *)
  t_pressure : Z;  (* int *)
  t_is_tool_palm : bool;  (* MT_TOOL_PALM *)
  t_major : Z;  (* int *)
  t_minor : Z;  (* int *)
  t_was_down : bool;
  quirks_reset_motion_history : bool;
  history_samples : list tp_history_point;  (* TOUCHPAD_HISTORY_LENGTH entries *)
  history_index : Z;  (* unsigned int *)
  history_count : Z;  (* unsigned int *)
  jumps_last_delta_mm : float;
  hysteresis_center : device_coords;
  hysteresis_x_motion_history : Z;  (* uint8_t *)
  pinned_is_pinned : bool;
  pinned_center : device_coords;
  tap_is_thumb : bool;
  tap_is_palm : bool;
  palm_state : touch_palm_state;
  palm_first : device_coords;
  palm_time : Z;  (* uint64_t *)
  thumb_state : tp_thumb_state;
  thumb_first_touch_time : Z;  (* uint64_t *)
  thumb_initial : device_coords;
  speed_last_speed : float;  (* mm/s *)
  speed_exceeded_count : Z  (* unsigned int *)
}.

Definition set_t_state (v : touch_state) (r : tp_touch) : tp_touch :=
  {| t_index := t_index r; t_state := v; t_has_ended := t_has_ended r;
     t_dirty := t_dirty r; t_point := t_point r; t_time := t_time r;
     t_pressure := t_pressure r; t_is_tool_palm := t_is_tool_palm r;
     t_major := t_major r; t_minor := t_minor r; t_was_down := t_was_down r;
     quirks_reset_motion_history := quirks_reset_motion_history r;
     history_samples := history_samples r; history_index := history_index r;
     history_count := history_count r;
     jumps_last_delta_mm := jumps_last_delta_mm r;
     hysteresis_center := hysteresis_center r;
     hysteresis_x_motion_history := hysteresis_x_motion_history r;
     pinned_is_pinned := pinned_is_pinned r;
     pinned_center := pinned_center r; tap_is_thumb := tap_is_thumb r;
     tap_is_palm := tap_is_palm r; palm_state := palm_state r;
     palm_first := palm_first r; palm_time := palm_time r;
     thumb_state := thumb_state r;
     thumb_first_touch_time := thumb_first_touch_time r;
     thumb_initial := thumb_initial r;
     speed_last_speed := speed_last_speed r;
     speed_exceeded_count := speed_exceeded_count r |}.

Definition set_t_has_ended (v : bool) (r : tp_touch) : tp_touch :=
  {| t_index := t_index r; t_state := t_state r; t_has_ended := v;
     t_dirty := t_dirty r; t_point := t_point r; t_time := t_time r;
     t_pressure := t_pressure r; t_is_tool_palm := t_is_tool_palm r;
     t_major := t_major r; t_minor := t_minor r; t_was_down := t_was_down r;
     quirks_reset_motion_history := quirks_reset_motion_history r;
     history_samples := history_samples r; history_index := history_index r;
     history_count := history_count r;
     jumps_last_delta_mm := jumps_last_delta_mm r;
     hysteresis_center := hysteresis_center r;
     hysteresis_x_motion_history := hysteresis_x_motion_history r;
     pinned_is_pinned := pinned_is_pinned r;
     pinned_center := pinned_center r; tap_is_thumb := tap_is_thumb r;
     tap_is_palm := tap_is_palm r; palm_state := palm_state r;
     palm_first := palm_first r; palm_time := palm_time r;
     thumb_state := thumb_state r;
     thumb_first_touch_time := thumb_first_touch_time r;
     thumb_initial := thumb_initial r;
     speed_last_speed := speed_last_speed r;
     speed_exceeded_count := speed_exceeded_count r |}.

Definition set_t_dirty (v : bool) (r : tp_touch) : tp_touch :=
  {| t_index := t_index r; t_state := t_state r;
     t_has_ended := t_has_ended r; t_dirty := v; t_point := t_point r;
     t_time := t_time r; t_pressure := t_pressure r;
     t_is_tool_palm := t_is_tool_palm r; t_major := t_major r;
     t_minor := t_minor r; t_was_down := t_was_down r;
     quirks_reset_motion_history := quirks_reset_motion_history r;
     history_samples := history_samples r; history_index := history_index r;
     history_count := history_count r;
     jumps_last_delta_mm := jumps_last_delta_mm r;
     hysteresis_center := hysteresis_center r;
     hysteresis_x_motion_history := hysteresis_x_motion_history r;
     pinned_is_pinned := pinned_is_pinned r;
     pinned_center := pinned_center r; tap_is_thumb := tap_is_thumb r;
     tap_is_palm := tap_is_palm r; palm_state := palm_state r;
     palm_first := palm_first r; palm_time := palm_time r;
     thumb_state := thumb_state r;
     thumb_first_touch_time := thumb_first_touch_time r;
     thumb_initial := thumb_initial r;
     speed_last_speed := speed_last_speed r;
     speed_exceeded_count := speed_exceeded_count r |}.

Definition set_t_point (v : device_coords) (r : tp_touch) : tp_touch :=
  {| t_index := t_index r; t_state := t_state r;
     t_has_ended := t_has_ended r; t_dirty := t_dirty r; t_point := v;
     t_time := t_time r; t_pressure := t_pressure r;
     t_is_tool_palm := t_is_tool_palm r; t_major := t_major r;
     t_minor := t_minor r; t_was_down := t_was_down r;
     quirks_reset_motion_history := quirks_reset_motion_history r;
     history_samples := history_samples r; history_index := history_index r;
     history_count := history_count r;
     jumps_last_delta_mm := jumps_last_delta_mm r;
     hysteresis_center := hysteresis_center r;
     hysteresis_x_motion_history := hysteresis_x_motion_history r;
     pinned_is_pinned := pinned_is_pinned r;
     pinned_center := pinned_center r; tap_is_thumb := tap_is_thumb r;
     tap_is_palm := tap_is_palm r; palm_state := palm_state r;
     palm_first := palm_first r; palm_time := palm_time r;
     thumb_state := thumb_state r;
     thumb_first_touch_time := thumb_first_touch_time r;
     thumb_initial := thumb_initial r;
     speed_last_speed := speed_last_speed r;
     speed_exceeded_count := speed_exceeded_count r |}.

Definition set_t_time (v : Z) (r : tp_touch) : tp_touch :=
  {| t_index := t_index r; t_state := t_state r;
     t_has_ended := t_has_ended r; t_dirty := t_dirty r;
     t_point := t_point r; t_time := v; t_pressure := t_pressure r;
     t_is_tool_palm := t_is_tool_palm r; t_major := t_major r;
     t_minor := t_minor r; t_was_down := t_was_down r;
     quirks_reset_motion_history := quirks_reset_motion_history r;
     history_samples := history_samples r; history_index := history_index r;
     history_count := history_count r;
     jumps_last_delta_mm := jumps_last_delta_mm r;
     hysteresis_center := hysteresis_center r;
     hysteresis_x_motion_history := hysteresis_x_motion_history r;
     pinned_is_pinned := pinned_is_pinned r;
     pinned_center := pinned_center r; tap_is_thumb := tap_is_thumb r;
     tap_is_palm := tap_is_palm r; palm_state := palm_state r;
     palm_first := palm_first r; palm_time := palm_time r;
     thumb_state := thumb_state r;
     thumb_first_touch_time := thumb_first_touch_time r;
     thumb_initial := thumb_initial r;
     speed_last_speed := speed_last_speed r;
     speed_exceeded_count := speed_exceeded_count r |}.

Definition set_t_pressure (v : Z) (r : tp_touch) : tp_touch :=
  {| t_index := t_index r; t_state := t_state r;
     t_has_ended := t_has_ended r; t_dirty := t_dirty r;
     t_point := t_point r; t_time := t_time r; t_pressure := v;
     t_is_tool_palm := t_is_tool_palm r; t_major := t_major r;
     t_minor := t_minor r; t_was_down := t_was_down r;
     quirks_reset_motion_history := quirks_reset_motion_history r;
     history_samples := history_samples r; history_index := history_index r;
     history_count := history_count r;
     jumps_last_delta_mm := jumps_last_delta_mm r;
     hysteresis_center := hysteresis_center r;
     hysteresis_x_motion_history := hysteresis_x_motion_history r;
     pinned_is_pinned := pinned_is_pinned r;
     pinned_center := pinned_center r; tap_is_thumb := tap_is_thumb r;
     tap_is_palm := tap_is_palm r; palm_state := palm_state r;
     palm_first := palm_first r; palm_time := palm_time r;
     thumb_state := thumb_state r;
     thumb_first_touch_time := thumb_first_touch_time r;
     thumb_initial := thumb_initial r;
     speed_last_speed := speed_last_speed r;
     speed_exceeded_count := speed_exceeded_count r |}.

Definition set_t_is_tool_palm (v : bool) (r : tp_touch) : tp_touch :=
  {| t_index := t_index r; t_state := t_state r;
     t_has_ended := t_has_ended r; t_dirty := t_dirty r;
     t_point := t_point r; t_time := t_time r; t_pressure := t_pressure r;
     t_is_tool_palm := v; t_major := t_major r; t_minor := t_minor r;
     t_was_down := t_was_down r;
     quirks_reset_motion_history := quirks_reset_motion_history r;
     history_samples := history_samples r; history_index := history_index r;
     history_count := history_count r;
     jumps_last_delta_mm := jumps_last_delta_mm r;
     hysteresis_center := hysteresis_center r;
     hysteresis_x_motion_history := hysteresis_x_motion_history r;
     pinned_is_pinned := pinned_is_pinned r;
     pinned_center := pinned_center r; tap_is_thumb := tap_is_thumb r;
     tap_is_palm := tap_is_palm r; palm_state := palm_state r;
     palm_first := palm_first r; palm_time := palm_time r;
     thumb_state := thumb_state r;
     thumb_first_touch_time := thumb_first_touch_time r;
     thumb_initial := thumb_initial r;
     speed_last_speed := speed_last_speed r;
     speed_exceeded_count := speed_exceeded_count r |}.

Definition set_t_major (v : Z) (r : tp_touch) : tp_touch :=
  {| t_index := t_index r; t_state := t_state r;
     t_has_ended := t_has_ended r; t_dirty := t_dirty r;
     t_point := t_point r; t_time := t_time r; t_pressure := t_pressure r;
     t_is_tool_palm := t_is_tool_palm r; t_major := v; t_minor := t_minor r;
     t_was_down := t_was_down r;
     quirks_reset_motion_history := quirks_reset_motion_history r;
     history_samples := history_samples r; history_index := history_index r;
     history_count := history_count r;
     jumps_last_delta_mm := jumps_last_delta_mm r;
     hysteresis_center := hysteresis_center r;
     hysteresis_x_motion_history := hysteresis_x_motion_history r;
     pinned_is_pinned := pinned_is_pinned r;
     pinned_center := pinned_center r; tap_is_thumb := tap_is_thumb r;
     tap_is_palm := tap_is_palm r; palm_state := palm_state r;
     palm_first := palm_first r; palm_time := palm_time r;
     thumb_state := thumb_state r;
     thumb_first_touch_time := thumb_first_touch_time r;
     thumb_initial := thumb_initial r;
     speed_last_speed := speed_last_speed r;
     speed_exceeded_count := speed_exceeded_count r |}.

Definition set_t_minor (v : Z) (r : tp_touch) : tp_touch :=
  {| t_index := t_index r; t_state := t_state r;
     t_has_ended := t_has_ended r; t_dirty := t_dirty r;
     t_point := t_point r; t_time := t_time r; t_pressure := t_pressure r;
     t_is_tool_palm := t_is_tool_palm r; t_major := t_major r; t_minor := v;
     t_was_down := t_was_down r;
     quirks_reset_motion_history := quirks_reset_motion_history r;
     history_samples := history_samples r; history_index := history_index r;
     history_count := history_count r;
     jumps_last_delta_mm := jumps_last_delta_mm r;
     hysteresis_center := hysteresis_center r;
     hysteresis_x_motion_history := hysteresis_x_motion_history r;
     pinned_is_pinned := pinned_is_pinned r;
     pinned_center := pinned_center r; tap_is_thumb := tap_is_thumb r;
     tap_is_palm := tap_is_palm r; palm_state := palm_state r;
     palm_first := palm_first r; palm_time := palm_time r;
     thumb_state := thumb_state r;
     thumb_first_touch_time := thumb_first_touch_time r;
     thumb_initial := thumb_initial r;
     speed_last_speed := speed_last_speed r;
     speed_exceeded_count := speed_exceeded_count r |}.

Definition set_t_was_down (v : bool) (r : tp_touch) : tp_touch :=
  {| t_index := t_index r; t_state := t_state r;
     t_has_ended := t_has_ended r; t_dirty := t_dirty r;
     t_point := t_point r; t_time := t_time r; t_pressure := t_pressure r;
     t_is_tool_palm := t_is_tool_palm r; t_major := t_major r;
     t_minor := t_minor r; t_was_down := v;
     quirks_reset_motion_history := quirks_reset_motion_history r;
     history_samples := history_samples r; history_index := history_index r;
     history_count := history_count r;
     jumps_last_delta_mm := jumps_last_delta_mm r;
     hysteresis_center := hysteresis_center r;
     hysteresis_x_motion_history := hysteresis_x_motion_history r;
     pinned_is_pinned := pinned_is_pinned r;
     pinned_center := pinned_center r; tap_is_thumb := tap_is_thumb r;
     tap_is_palm := tap_is_palm r; palm_state := palm_state r;
     palm_first := palm_first r; palm_time := palm_time r;
     thumb_state := thumb_state r;
     thumb_first_touch_time := thumb_first_touch_time r;
     thumb_initial := thumb_initial r;
     speed_last_speed := speed_last_speed r;
     speed_exceeded_count := speed_exceeded_count r |}.

Definition set_quirks_reset_motion_history (v : bool) (r : tp_touch)
  : tp_touch :=
  {| t_index := t_index r; t_state := t_state r;
     t_has_ended := t_has_ended r; t_dirty := t_dirty r;
     t_point := t_point r; t_time := t_time r; t_pressure := t_pressure r;
     t_is_tool_palm := t_is_tool_palm r; t_major := t_major r;
     t_minor := t_minor r; t_was_down := t_was_down r;
     quirks_reset_motion_history := v; history_samples := history_samples r;
     history_index := history_index r; history_count := history_count r;
     jumps_last_delta_mm := jumps_last_delta_mm r;
     hysteresis_center := hysteresis_center r;
     hysteresis_x_motion_history := hysteresis_x_motion_history r;
     pinned_is_pinned := pinned_is_pinned r;
     pinned_center := pinned_center r; tap_is_thumb := tap_is_thumb r;
     tap_is_palm := tap_is_palm r; palm_state := palm_state r;
     palm_first := palm_first r; palm_time := palm_time r;
     thumb_state := thumb_state r;
     thumb_first_touch_time := thumb_first_touch_time r;
     thumb_initial := thumb_initial r;
     speed_last_speed := speed_last_speed r;
     speed_exceeded_count := speed_exceeded_count r |}.

Definition set_history_samples (v : list tp_history_point) (r : tp_touch)
  : tp_touch :=
  {| t_index := t_index r; t_state := t_state r;
     t_has_ended := t_has_ended r; t_dirty := t_dirty r;
     t_point := t_point r; t_time := t_time r; t_pressure := t_pressure r;
     t_is_tool_palm := t_is_tool_palm r; t_major := t_major r;
     t_minor := t_minor r; t_was_down := t_was_down r;
     quirks_reset_motion_history := quirks_reset_motion_history r;
     history_samples := v; history_index := history_index r;
     history_count := history_count r;
     jumps_last_delta_mm := jumps_last_delta_mm r;
     hysteresis_center := hysteresis_center r;
     hysteresis_x_motion_history := hysteresis_x_motion_history r;
     pinned_is_pinned := pinned_is_pinned r;
     pinned_center := pinned_center r; tap_is_thumb := tap_is_thumb r;
     tap_is_palm := tap_is_palm r; palm_state := palm_state r;
     palm_first := palm_first r; palm_time := palm_time r;
     thumb_state := thumb_state r;
     thumb_first_touch_time := thumb_first_touch_time r;
     thumb_initial := thumb_initial r;
     speed_last_speed := speed_last_speed r;
     speed_exceeded_count := speed_exceeded_count r |}.

Definition set_history_index (v : Z) (r : tp_touch) : tp_touch :=
  {| t_index := t_index r; t_state := t_state r;
     t_has_ended := t_has_ended r; t_dirty := t_dirty r;
     t_point := t_point r; t_time := t_time r; t_pressure := t_pressure r;
     t_is_tool_palm := t_is_tool_palm r; t_major := t_major r;
     t_minor := t_minor r; t_was_down := t_was_down r;
     quirks_reset_motion_history := quirks_reset_motion_history r;
     history_samples := history_samples r; history_index := v;
     history_count := history_count r;
     jumps_last_delta_mm := jumps_last_delta_mm r;
     hysteresis_center := hysteresis_center r;
     hysteresis_x_motion_history := hysteresis_x_motion_history r;
     pinned_is_pinned := pinned_is_pinned r;
     pinned_center := pinned_center r; tap_is_thumb := tap_is_thumb r;
     tap_is_palm := tap_is_palm r; palm_state := palm_state r;
     palm_first := palm_first r; palm_time := palm_time r;
     thumb_state := thumb_state r;
     thumb_first_touch_time := thumb_first_touch_time r;
     thumb_initial := thumb_initial r;
     speed_last_speed := speed_last_speed r;
     speed_exceeded_count := speed_exceeded_count r |}.

Definition set_history_count (v : Z) (r : tp_touch) : tp_touch :=
  {| t_index := t_index r; t_state := t_state r;
     t_has_ended := t_has_ended r; t_dirty := t_dirty r;
     t_point := t_point r; t_time := t_time r; t_pressure := t_pressure r;
     t_is_tool_palm := t_is_tool_palm r; t_major := t_major r;
     t_minor := t_minor r; t_was_down := t_was_down r;
     quirks_reset_motion_history := quirks_reset_motion_history r;
     history_samples := history_samples r; history_index := history_index r;
     history_count := v; jumps_last_delta_mm := jumps_last_delta_mm r;
     hysteresis_center := hysteresis_center r;
     hysteresis_x_motion_history := hysteresis_x_motion_history r;
     pinned_is_pinned := pinned_is_pinned r;
     pinned_center := pinned_center r; tap_is_thumb := tap_is_thumb r;
     tap_is_palm := tap_is_palm r; palm_state := palm_state r;
     palm_first := palm_first r; palm_time := palm_time r;
     thumb_state := thumb_state r;
     thumb_first_touch_time := thumb_first_touch_time r;
     thumb_initial := thumb_initial r;
     speed_last_speed := speed_last_speed r;
     speed_exceeded_count := speed_exceeded_count r |}.

Definition set_jumps_last_delta_mm (v : float) (r : tp_touch) : tp_touch :=
  {| t_index := t_index r; t_state := t_state r;
     t_has_ended := t_has_ended r; t_dirty := t_dirty r;
     t_point := t_point r; t_time := t_time r; t_pressure := t_pressure r;
     t_is_tool_palm := t_is_tool_palm r; t_major := t_major r;
     t_minor := t_minor r; t_was_down := t_was_down r;
     quirks_reset_motion_history := quirks_reset_motion_history r;
     history_samples := history_samples r; history_index := history_index r;
     history_count := history_count r; jumps_last_delta_mm := v;
     hysteresis_center := hysteresis_center r;
     hysteresis_x_motion_history := hysteresis_x_motion_history r;
     pinned_is_pinned := pinned_is_pinned r;
     pinned_center := pinned_center r; tap_is_thumb := tap_is_thumb r;
     tap_is_palm := tap_is_palm r; palm_state := palm_state r;
     palm_first := palm_first r; palm_time := palm_time r;
     thumb_state := thumb_state r;
     thumb_first_touch_time := thumb_first_touch_time r;
     thumb_initial := thumb_initial r;
     speed_last_speed := speed_last_speed r;
     speed_exceeded_count := speed_exceeded_count r |}.

Definition set_hysteresis_center (v : device_coords) (r : tp_touch)
  : tp_touch :=
  {| t_index := t_index r; t_state := t_state r;
     t_has_ended := t_has_ended r; t_dirty := t_dirty r;
     t_point := t_point r; t_time := t_time r; t_pressure := t_pressure r;
     t_is_tool_palm := t_is_tool_palm r; t_major := t_major r;
     t_minor := t_minor r; t_was_down := t_was_down r;
     quirks_reset_motion_history := quirks_reset_motion_history r;
     history_samples := history_samples r; history_index := history_index r;
     history_count := history_count r;
     jumps_last_delta_mm := jumps_last_delta_mm r; hysteresis_center := v;
     hysteresis_x_motion_history := hysteresis_x_motion_history r;
     pinned_is_pinned := pinned_is_pinned r;
     pinned_center := pinned_center r; tap_is_thumb := tap_is_thumb r;
     tap_is_palm := tap_is_palm r; palm_state := palm_state r;
     palm_first := palm_first r; palm_time := palm_time r;
     thumb_state := thumb_state r;
     thumb_first_touch_time := thumb_first_touch_time r;
     thumb_initial := thumb_initial r;
     speed_last_speed := speed_last_speed r;
     speed_exceeded_count := speed_exceeded_count r |}.

Definition set_hysteresis_x_motion_history (v : Z) (r : tp_touch)
  : tp_touch :=
  {| t_index := t_index r; t_state := t_state r;
     t_has_ended := t_has_ended r; t_dirty := t_dirty r;
     t_point := t_point r; t_time := t_time r; t_pressure := t_pressure r;
     t_is_tool_palm := t_is_tool_palm r; t_major := t_major r;
     t_minor := t_minor r; t_was_down := t_was_down r;
     quirks_reset_motion_history := quirks_reset_motion_history r;
     history_samples := history_samples r; history_index := history_index r;
     history_count := history_count r;
     jumps_last_delta_mm := jumps_last_delta_mm r;
     hysteresis_center := hysteresis_center r;
     hysteresis_x_motion_history := v;
     pinned_is_pinned := pinned_is_pinned r;
     pinned_center := pinned_center r; tap_is_thumb := tap_is_thumb r;
     tap_is_palm := tap_is_palm r; palm_state := palm_state r;
     palm_first := palm_first r; palm_time := palm_time r;
     thumb_state := thumb_state r;
     thumb_first_touch_time := thumb_first_touch_time r;
     thumb_initial := thumb_initial r;
     speed_last_speed := speed_last_speed r;
     speed_exceeded_count := speed_exceeded_count r |}.

Definition set_pinned_is_pinned (v : bool) (r : tp_touch) : tp_touch :=
  {| t_index := t_index r; t_state := t_state r;
     t_has_ended := t_has_ended r; t_dirty := t_dirty r;
     t_point := t_point r; t_time := t_time r; t_pressure := t_pressure r;
     t_is_tool_palm := t_is_tool_palm r; t_major := t_major r;
     t_minor := t_minor r; t_was_down := t_was_down r;
     quirks_reset_motion_history := quirks_reset_motion_history r;
     history_samples := history_samples r; history_index := history_index r;
     history_count := history_count r;
     jumps_last_delta_mm := jumps_last_delta_mm r;
     hysteresis_center := hysteresis_center r;
     hysteresis_x_motion_history := hysteresis_x_motion_history r;
     pinned_is_pinned := v; pinned_center := pinned_center r;
     tap_is_thumb := tap_is_thumb r; tap_is_palm := tap_is_palm r;
     palm_state := palm_state r; palm_first := palm_first r;
     palm_time := palm_time r; thumb_state := thumb_state r;
     thumb_first_touch_time := thumb_first_touch_time r;
     thumb_initial := thumb_initial r;
     speed_last_speed := speed_last_speed r;
     speed_exceeded_count := speed_exceeded_count r |}.

Definition set_pinned_center (v : device_coords) (r : tp_touch) : tp_touch :=
  {| t_index := t_index r; t_state := t_state r;
     t_has_ended := t_has_ended r; t_dirty := t_dirty r;
     t_point := t_point r; t_time := t_time r; t_pressure := t_pressure r;
     t_is_tool_palm := t_is_tool_palm r; t_major := t_major r;
     t_minor := t_minor r; t_was_down := t_was_down r;
     quirks_reset_motion_history := quirks_reset_motion_history r;
     history_samples := history_samples r; history_index := history_index r;
     history_count := history_count r;
     jumps_last_delta_mm := jumps_last_delta_mm r;
     hysteresis_center := hysteresis_center r;
     hysteresis_x_motion_history := hysteresis_x_motion_history r;
     pinned_is_pinned := pinned_is_pinned r; pinned_center := v;
     tap_is_thumb := tap_is_thumb r; tap_is_palm := tap_is_palm r;
     palm_state := palm_state r; palm_first := palm_first r;
     palm_time := palm_time r; thumb_state := thumb_state r;
     thumb_first_touch_time := thumb_first_touch_time r;
     thumb_initial := thumb_initial r;
     speed_last_speed := speed_last_speed r;
     speed_exceeded_count := speed_exceeded_count r |}.

Definition set_tap_is_thumb (v : bool) (r : tp_touch) : tp_touch :=
  {| t_index := t_index r; t_state := t_state r;
     t_has_ended := t_has_ended r; t_dirty := t_dirty r;
     t_point := t_point r; t_time := t_time r; t_pressure := t_pressure r;
     t_is_tool_palm := t_is_tool_palm r; t_major := t_major r;
     t_minor := t_minor r; t_was_down := t_was_down r;
     quirks_reset_motion_history := quirks_reset_motion_history r;
     history_samples := history_samples r; history_index := history_index r;
     history_count := history_count r;
     jumps_last_delta_mm := jumps_last_delta_mm r;
     hysteresis_center := hysteresis_center r;
     hysteresis_x_motion_history := hysteresis_x_motion_history r;
     pinned_is_pinned := pinned_is_pinned r;
     pinned_center := pinned_center r; tap_is_thumb := v;
     tap_is_palm := tap_is_palm r; palm_state := palm_state r;
     palm_first := palm_first r; palm_time := palm_time r;
     thumb_state := thumb_state r;
     thumb_first_touch_time := thumb_first_touch_time r;
     thumb_initial := thumb_initial r;
     speed_last_speed := speed_last_speed r;
     speed_exceeded_count := speed_exceeded_count r |}.

Definition set_tap_is_palm (v : bool) (r : tp_touch) : tp_touch :=
  {| t_index := t_index r; t_state := t_state r;
     t_has_ended := t_has_ended r; t_dirty := t_dirty r;
     t_point := t_point r; t_time := t_time r; t_pressure := t_pressure r;
     t_is_tool_palm := t_is_tool_palm r; t_major := t_major r;
     t_minor := t_minor r; t_was_down := t_was_down r;
     quirks_reset_motion_history := quirks_reset_motion_history r;
     history_samples := history_samples r; history_index := history_index r;
     history_count := history_count r;
     jumps_last_delta_mm := jumps_last_delta_mm r;
     hysteresis_center := hysteresis_center r;
     hysteresis_x_motion_history := hysteresis_x_motion_history r;
     pinned_is_pinned := pinned_is_pinned r;
     pinned_center := pinned_center r; tap_is_thumb := tap_is_thumb r;
     tap_is_palm := v; palm_state := palm_state r;
     palm_first := palm_first r; palm_time := palm_time r;
     thumb_state := thumb_state r;
     thumb_first_touch_time := thumb_first_touch_time r;
     thumb_initial := thumb_initial r;
     speed_last_speed := speed_last_speed r;
     speed_exceeded_count := speed_exceeded_count r |}.

Definition set_palm_state (v : touch_palm_state) (r : tp_touch) : tp_touch :=
  {| t_index := t_index r; t_state := t_state r;
     t_has_ended := t_has_ended r; t_dirty := t_dirty r;
     t_point := t_point r; t_time := t_time r; t_pressure := t_pressure r;
     t_is_tool_palm := t_is_tool_palm r; t_major := t_major r;
     t_minor := t_minor r; t_was_down := t_was_down r;
     quirks_reset_motion_history := quirks_reset_motion_history r;
     history_samples := history_samples r; history_index := history_index r;
     history_count := history_count r;
     jumps_last_delta_mm := jumps_last_delta_mm r;
     hysteresis_center := hysteresis_center r;
     hysteresis_x_motion_history := hysteresis_x_motion_history r;
     pinned_is_pinned := pinned_is_pinned r;
     pinned_center := pinned_center r; tap_is_thumb := tap_is_thumb r;
     tap_is_palm := tap_is_palm r; palm_state := v;
     palm_first := palm_first r; palm_time := palm_time r;
     thumb_state := thumb_state r;
     thumb_first_touch_time := thumb_first_touch_time r;
     thumb_initial := thumb_initial r;
     speed_last_speed := speed_last_speed r;
     speed_exceeded_count := speed_exceeded_count r |}.

Definition set_palm_first (v : device_coords) (r : tp_touch) : tp_touch :=
  {| t_index := t_index r; t_state := t_state r;
     t_has_ended := t_has_ended r; t_dirty := t_dirty r;
     t_point := t_point r; t_time := t_time r; t_pressure := t_pressure r;
     t_is_tool_palm := t_is_tool_palm r; t_major := t_major r;
     t_minor := t_minor r; t_was_down := t_was_down r;
     quirks_reset_motion_history := quirks_reset_motion_history r;
     history_samples := history_samples r; history_index := history_index r;
     history_count := history_count r;
     jumps_last_delta_mm := jumps_last_delta_mm r;
     hysteresis_center := hysteresis_center r;
     hysteresis_x_motion_history := hysteresis_x_motion_history r;
     pinned_is_pinned := pinned_is_pinned r;
     pinned_center := pinned_center r; tap_is_thumb := tap_is_thumb r;
     tap_is_palm := tap_is_palm r; palm_state := palm_state r;
     palm_first := v; palm_time := palm_time r; thumb_state := thumb_state r;
     thumb_first_touch_time := thumb_first_touch_time r;
     thumb_initial := thumb_initial r;
     speed_last_speed := speed_last_speed r;
     speed_exceeded_count := speed_exceeded_count r |}.

Definition set_palm_time (v : Z) (r : tp_touch) : tp_touch :=
  {| t_index := t_index r; t_state := t_state r;
     t_has_ended := t_has_ended r; t_dirty := t_dirty r;
     t_point := t_point r; t_time := t_time r; t_pressure := t_pressure r;
     t_is_tool_palm := t_is_tool_palm r; t_major := t_major r;
     t_minor := t_minor r; t_was_down := t_was_down r;
     quirks_reset_motion_history := quirks_reset_motion_history r;
     history_samples := history_samples r; history_index := history_index r;
     history_count := history_count r;
     jumps_last_delta_mm := jumps_last_delta_mm r;
     hysteresis_center := hysteresis_center r;
     hysteresis_x_motion_history := hysteresis_x_motion_history r;
     pinned_is_pinned := pinned_is_pinned r;
     pinned_center := pinned_center r; tap_is_thumb := tap_is_thumb r;
     tap_is_palm := tap_is_palm r; palm_state := palm_state r;
     palm_first := palm_first r; palm_time := v;
     thumb_state := thumb_state r;
     thumb_first_touch_time := thumb_first_touch_time r;
     thumb_initial := thumb_initial r;
     speed_last_speed := speed_last_speed r;
     speed_exceeded_count := speed_exceeded_count r |}.

Definition set_thumb_state (v : tp_thumb_state) (r : tp_touch) : tp_touch :=
  {| t_index := t_index r; t_state := t_state r;
     t_has_ended := t_has_ended r; t_dirty := t_dirty r;
     t_point := t_point r; t_time := t_time r; t_pressure := t_pressure r;
     t_is_tool_palm := t_is_tool_palm r; t_major := t_major r;
     t_minor := t_minor r; t_was_down := t_was_down r;
     quirks_reset_motion_history := quirks_reset_motion_history r;
     history_samples := history_samples r; history_index := history_index r;
     history_count := history_count r;
     jumps_last_delta_mm := jumps_last_delta_mm r;
     hysteresis_center := hysteresis_center r;
     hysteresis_x_motion_history := hysteresis_x_motion_history r;
     pinned_is_pinned := pinned_is_pinned r;
     pinned_center := pinned_center r; tap_is_thumb := tap_is_thumb r;
     tap_is_palm := tap_is_palm r; palm_state := palm_state r;
     palm_first := palm_first r; palm_time := palm_time r; thumb_state := v;
     thumb_first_touch_time := thumb_first_touch_time r;
     thumb_initial := thumb_initial r;
     speed_last_speed := speed_last_speed r;
     speed_exceeded_count := speed_exceeded_count r |}.

Definition set_thumb_first_touch_time (v : Z) (r : tp_touch) : tp_touch :=
  {| t_index := t_index r; t_state := t_state r;
     t_has_ended := t_has_ended r; t_dirty := t_dirty r;
     t_point := t_point r; t_time := t_time r; t_pressure := t_pressure r;
     t_is_tool_palm := t_is_tool_palm r; t_major := t_major r;
     t_minor := t_minor r; t_was_down := t_was_down r;
     quirks_reset_motion_history := quirks_reset_motion_history r;
     history_samples := history_samples r; history_index := history_index r;
     history_count := history_count r;
     jumps_last_delta_mm := jumps_last_delta_mm r;
     hysteresis_center := hysteresis_center r;
     hysteresis_x_motion_history := hysteresis_x_motion_history r;
     pinned_is_pinned := pinned_is_pinned r;
     pinned_center := pinned_center r; tap_is_thumb := tap_is_thumb r;
     tap_is_palm := tap_is_palm r; palm_state := palm_state r;
     palm_first := palm_first r; palm_time := palm_time r;
     thumb_state := thumb_state r; thumb_first_touch_time := v;
     thumb_initial := thumb_initial r;
     speed_last_speed := speed_last_speed r;
     speed_exceeded_count := speed_exceeded_count r |}.

Definition set_thumb_initial (v : device_coords) (r : tp_touch) : tp_touch :=
  {| t_index := t_index r; t_state := t_state r;
     t_has_ended := t_has_ended r; t_dirty := t_dirty r;
     t_point := t_point r; t_time := t_time r; t_pressure := t_pressure r;
     t_is_tool_palm := t_is_tool_palm r; t_major := t_major r;
     t_minor := t_minor r; t_was_down := t_was_down r;
     quirks_reset_motion_history := quirks_reset_motion_history r;
     history_samples := history_samples r; history_index := history_index r;
     history_count := history_count r;
     jumps_last_delta_mm := jumps_last_delta_mm r;
     hysteresis_center := hysteresis_center r;
     hysteresis_x_motion_history := hysteresis_x_motion_history r;
     pinned_is_pinned := pinned_is_pinned r;
     pinned_center := pinned_center r; tap_is_thumb := tap_is_thumb r;
     tap_is_palm := tap_is_palm r; palm_state := palm_state r;
     palm_first := palm_first r; palm_time := palm_time r;
     thumb_state := thumb_state r;
     thumb_first_touch_time := thumb_first_touch_time r; thumb_initial := v;
     speed_last_speed := speed_last_speed r;
     speed_exceeded_count := speed_exceeded_count r |}.

Definition set_speed_last_speed (v : float) (r : tp_touch) : tp_touch :=
  {| t_index := t_index r; t_state := t_state r;
     t_has_ended := t_has_ended r; t_dirty := t_dirty r;
     t_point := t_point r; t_time := t_time r; t_pressure := t_pressure r;
     t_is_tool_palm := t_is_tool_palm r; t_major := t_major r;
     t_minor := t_minor r; t_was_down := t_was_down r;
     quirks_reset_motion_history := quirks_reset_motion_history r;
     history_samples := history_samples r; history_index := history_index r;
     history_count := history_count r;
     jumps_last_delta_mm := jumps_last_delta_mm r;
     hysteresis_center := hysteresis_center r;
     hysteresis_x_motion_history := hysteresis_x_motion_history r;
     pinned_is_pinned := pinned_is_pinned r;
     pinned_center := pinned_center r; tap_is_thumb := tap_is_thumb r;
     tap_is_palm := tap_is_palm r; palm_state := palm_state r;
     palm_first := palm_first r; palm_time := palm_time r;
     thumb_state := thumb_state r;
     thumb_first_touch_time := thumb_first_touch_time r;
     thumb_initial := thumb_initial r; speed_last_speed := v;
     speed_exceeded_count := speed_exceeded_count r |}.

Definition set_speed_exceeded_count (v : Z) (r : tp_touch) : tp_touch :=
  {| t_index := t_index r; t_state := t_state r;
     t_has_ended := t_has_ended r; t_dirty := t_dirty r;
     t_point := t_point r; t_time := t_time r; t_pressure := t_pressure r;
     t_is_tool_palm := t_is_tool_palm r; t_major := t_major r;
     t_minor := t_minor r; t_was_down := t_was_down r;
     quirks_reset_motion_history := quirks_reset_motion_history r;
     history_samples := history_samples r; history_index := history_index r;
     history_count := history_count r;
     jumps_last_delta_mm := jumps_last_delta_mm r;
     hysteresis_center := hysteresis_center r;
     hysteresis_x_motion_history := hysteresis_x_motion_history r;
     pinned_is_pinned := pinned_is_pinned r;
     pinned_center := pinned_center r; tap_is_thumb := tap_is_thumb r;
     tap_is_palm := tap_is_palm r; palm_state := palm_state r;
     palm_first := palm_first r; palm_time := palm_time r;
     thumb_state := thumb_state r;
     thumb_first_touch_time := thumb_first_touch_time r;
     thumb_initial := thumb_initial r;
     speed_last_speed := speed_last_speed r; speed_exceeded_count := v |}.

(** Setters: [set_f v r] is [r] after the assignment [r.f = v]. *)

(** [struct tp_dispatch], with the fields of [tp->device] the dispatcher
    reads.  [tp->ntouches] is the length of [touches]. *)
Record tp_dispatch := {
  device_model_flags : Z;  (* tp->device->model_flags *)
  device_left_handed_enabled : bool;  (* tp->device->left_handed.enabled *)
  device_abs_x_minimum : Z;  (* tp->device->abs.absinfo_x->minimum *)
  device_abs_x_maximum : Z;
  device_abs_y_minimum : Z;
  device_abs_y_maximum : Z;
  device_is_suspended : bool;  (* tp->device->is_suspended *)
  nfingers_down : Z;  (* unsigned int *)
  old_nfingers_down : Z;  (* unsigned int *)
  slot : Z;  (* unsigned int *)
  has_mt : bool;
  semi_mt : bool;
  arbitration_state : evdev_arbitration_state;  (* tp->arbitration.state *)
  num_slots : Z;  (* unsigned int *)
  touches : list tp_touch;  (* ntouches entries *)
  fake_touches : Z;  (* unsigned int *)
  pressure_use_pressure : bool;
  pressure_high : Z;  (* int *)
  pressure_low : Z;  (* int *)
  touch_size_use_touch_size : bool;
  touch_size_high : Z;  (* int *)
  touch_size_low : Z;  (* int *)
  hysteresis_enabled : bool;
  hysteresis_margin : device_coords;
  hysteresis_last_motion_time : Z;  (* uint64_t *)
  buttons_is_clickpad : bool;
  scroll_method : libinput_config_scroll_method;
  queued : Z;  (* enum touchpad_event *)
  palm_right_edge : Z;  (* int32_t *)
  palm_left_edge : Z;  (* int32_t *)
  palm_upper_edge : Z;  (* int32_t *)
  palm_trackpoint_active : bool;
  palm_trackpoint_last_event_time : Z;  (* uint64_t *)
  palm_monitor_trackpoint : bool;
  palm_use_mt_tool : bool;
  palm_use_pressure : bool;
  palm_pressure_threshold : Z;  (* int *)
  palm_use_size : bool;
  palm_size_threshold : Z;  (* int *)
  dwt_dwt_enabled : bool;
  dwt_key_mask : list Z;  (* unsigned long [NLONGS(KEY_CNT)] *)
  dwt_mod_mask : list Z;  (* unsigned long [NLONGS(KEY_CNT)] *)
  dwt_keyboard_active : bool;
  dwt_keyboard_last_press_time : Z;  (* uint64_t *)
  thumb_detect_thumbs : bool;
  thumb_upper_thumb_line : Z;  (* int *)
  thumb_lower_thumb_line : Z;  (* int *)
  thumb_use_pressure : bool;
  thumb_pressure_threshold : Z;  (* int *)
  thumb_use_size : bool;
  thumb_size_threshold : Z;  (* int *)
  quirks_nonmotion_event_count : Z;  (* unsigned int *)
  msc_timestamp_state : tp_jump_state;  (* tp->quirks.msc_timestamp.state *)
  msc_timestamp_interval : Z;  (* uint32_t *)
  msc_timestamp_now : Z;  (* uint32_t *)
  left_handed_rotate : bool;
  trace : list effect  (* collaborator calls, oldest first *)
}.



Definition set_arbitration_state (v : evdev_arbitration_state) (r : tp_dispatch)
  : tp_dispatch :=
  {| device_model_flags := device_model_flags r;
     device_left_handed_enabled := device_left_handed_enabled r;
     device_abs_x_minimum := device_abs_x_minimum r;
     device_abs_x_maximum := device_abs_x_maximum r;
     device_abs_y_minimum := device_abs_y_minimum r;
     device_abs_y_maximum := device_abs_y_maximum r;
     device_is_suspended := device_is_suspended r;
     nfingers_down := nfingers_down r;
     old_nfingers_down := old_nfingers_down r; slot := slot r;
     has_mt := has_mt r; semi_mt := semi_mt r; arbitration_state := v;
     num_slots := num_slots r; touches := touches r;
     fake_touches := fake_touches r;
     pressure_use_pressure := pressure_use_pressure r;
     pressure_high := pressure_high r; pressure_low := pressure_low r;
     touch_size_use_touch_size := touch_size_use_touch_size r;
     touch_size_high := touch_size_high r;
     touch_size_low := touch_size_low r;
     hysteresis_enabled := hysteresis_enabled r;
     hysteresis_margin := hysteresis_margin r;
     hysteresis_last_motion_time := hysteresis_last_motion_time r;
     buttons_is_clickpad := buttons_is_clickpad r;
     scroll_method := scroll_method r; queued := queued r;
     palm_right_edge := palm_right_edge r;
     palm_left_edge := palm_left_edge r;
     palm_upper_edge := palm_upper_edge r;
     palm_trackpoint_active := palm_trackpoint_active r;
     palm_trackpoint_last_event_time := palm_trackpoint_last_event_time r;
     palm_monitor_trackpoint := palm_monitor_trackpoint r;
     palm_use_mt_tool := palm_use_mt_tool r;
     palm_use_pressure := palm_use_pressure r;
     palm_pressure_threshold := palm_pressure_threshold r;
     palm_use_size := palm_use_size r;
     palm_size_threshold := palm_size_threshold r;
     dwt_dwt_enabled := dwt_dwt_enabled r; dwt_key_mask := dwt_key_mask r;
     dwt_mod_mask := dwt_mod_mask r;
     dwt_keyboard_active := dwt_keyboard_active r;
     dwt_keyboard_last_press_time := dwt_keyboard_last_press_time r;
     thumb_detect_thumbs := thumb_detect_thumbs r;
     thumb_upper_thumb_line := thumb_upper_thumb_line r;
     thumb_lower_thumb_line := thumb_lower_thumb_line r;
     thumb_use_pressure := thumb_use_pressure r;
     thumb_pressure_threshold := thumb_pressure_threshold r;
     thumb_use_size := thumb_use_size r;
     thumb_size_threshold := thumb_size_threshold r;
     quirks_nonmotion_event_count := quirks_nonmotion_event_count r;
     msc_timestamp_state := msc_timestamp_state r;
     msc_timestamp_interval := msc_timestamp_interval r;
     msc_timestamp_now := msc_timestamp_now r;
     left_handed_rotate := left_handed_rotate r; trace := trace r |}.

Definition set_nfingers_down (v : Z) (r : tp_dispatch) : tp_dispatch :=
  {| device_model_flags := device_model_flags r;
     device_left_handed_enabled := device_left_handed_enabled r;
     device_abs_x_minimum := device_abs_x_minimum r;
     device_abs_x_maximum := device_abs_x_maximum r;
     device_abs_y_minimum := device_abs_y_minimum r;
     device_abs_y_maximum := device_abs_y_maximum r;
     device_is_suspended := device_is_suspended r; nfingers_down := v;
     old_nfingers_down := old_nfingers_down r; slot := slot r;
     has_mt := has_mt r; semi_mt := semi_mt r;
     arbitration_state := arbitration_state r; num_slots := num_slots r;
     touches := touches r; fake_touches := fake_touches r;
     pressure_use_pressure := pressure_use_pressure r;
     pressure_high := pressure_high r; pressure_low := pressure_low r;
     touch_size_use_touch_size := touch_size_use_touch_size r;
     touch_size_high := touch_size_high r;
     touch_size_low := touch_size_low r;
     hysteresis_enabled := hysteresis_enabled r;
     hysteresis_margin := hysteresis_margin r;
     hysteresis_last_motion_time := hysteresis_last_motion_time r;
     buttons_is_clickpad := buttons_is_clickpad r;
     scroll_method := scroll_method r; queued := queued r;
     palm_right_edge := palm_right_edge r;
     palm_left_edge := palm_left_edge r;
     palm_upper_edge := palm_upper_edge r;
     palm_trackpoint_active := palm_trackpoint_active r;
     palm_trackpoint_last_event_time := palm_trackpoint_last_event_time r;
     palm_monitor_trackpoint := palm_monitor_trackpoint r;
     palm_use_mt_tool := palm_use_mt_tool r;
     palm_use_pressure := palm_use_pressure r;
     palm_pressure_threshold := palm_pressure_threshold r;
     palm_use_size := palm_use_size r;
     palm_size_threshold := palm_size_threshold r;
     dwt_dwt_enabled := dwt_dwt_enabled r; dwt_key_mask := dwt_key_mask r;
     dwt_mod_mask := dwt_mod_mask r;
     dwt_keyboard_active := dwt_keyboard_active r;
     dwt_keyboard_last_press_time := dwt_keyboard_last_press_time r;
     thumb_detect_thumbs := thumb_detect_thumbs r;
     thumb_upper_thumb_line := thumb_upper_thumb_line r;
     thumb_lower_thumb_line := thumb_lower_thumb_line r;
     thumb_use_pressure := thumb_use_pressure r;
     thumb_pressure_threshold := thumb_pressure_threshold r;
     thumb_use_size := thumb_use_size r;
     thumb_size_threshold := thumb_size_threshold r;
     quirks_nonmotion_event_count := quirks_nonmotion_event_count r;
     msc_timestamp_state := msc_timestamp_state r;
     msc_timestamp_interval := msc_timestamp_interval r;
     msc_timestamp_now := msc_timestamp_now r;
     left_handed_rotate := left_handed_rotate r; trace := trace r |}.

Definition set_old_nfingers_down (v : Z) (r : tp_dispatch) : tp_dispatch :=
  {| device_model_flags := device_model_flags r;
     device_left_handed_enabled := device_left_handed_enabled r;
     device_abs_x_minimum := device_abs_x_minimum r;
     device_abs_x_maximum := device_abs_x_maximum r;
     device_abs_y_minimum := device_abs_y_minimum r;
     device_abs_y_maximum := device_abs_y_maximum r;
     device_is_suspended := device_is_suspended r;
     nfingers_down := nfingers_down r; old_nfingers_down := v;
     slot := slot r; has_mt := has_mt r; semi_mt := semi_mt r;
     arbitration_state := arbitration_state r; num_slots := num_slots r;
     touches := touches r; fake_touches := fake_touches r;
     pressure_use_pressure := pressure_use_pressure r;
     pressure_high := pressure_high r; pressure_low := pressure_low r;
     touch_size_use_touch_size := touch_size_use_touch_size r;
     touch_size_high := touch_size_high r;
     touch_size_low := touch_size_low r;
     hysteresis_enabled := hysteresis_enabled r;
     hysteresis_margin := hysteresis_margin r;
     hysteresis_last_motion_time := hysteresis_last_motion_time r;
     buttons_is_clickpad := buttons_is_clickpad r;
     scroll_method := scroll_method r; queued := queued r;
     palm_right_edge := palm_right_edge r;
     palm_left_edge := palm_left_edge r;
     palm_upper_edge := palm_upper_edge r;
     palm_trackpoint_active := palm_trackpoint_active r;
     palm_trackpoint_last_event_time := palm_trackpoint_last_event_time r;
     palm_monitor_trackpoint := palm_monitor_trackpoint r;
     palm_use_mt_tool := palm_use_mt_tool r;
     palm_use_pressure := palm_use_pressure r;
     palm_pressure_threshold := palm_pressure_threshold r;
     palm_use_size := palm_use_size r;
     palm_size_threshold := palm_size_threshold r;
     dwt_dwt_enabled := dwt_dwt_enabled r; dwt_key_mask := dwt_key_mask r;
     dwt_mod_mask := dwt_mod_mask r;
     dwt_keyboard_active := dwt_keyboard_active r;
     dwt_keyboard_last_press_time := dwt_keyboard_last_press_time r;
     thumb_detect_thumbs := thumb_detect_thumbs r;
     thumb_upper_thumb_line := thumb_upper_thumb_line r;
     thumb_lower_thumb_line := thumb_lower_thumb_line r;
     thumb_use_pressure := thumb_use_pressure r;
     thumb_pressure_threshold := thumb_pressure_threshold r;
     thumb_use_size := thumb_use_size r;
     thumb_size_threshold := thumb_size_threshold r;
     quirks_nonmotion_event_count := quirks_nonmotion_event_count r;
     msc_timestamp_state := msc_timestamp_state r;
     msc_timestamp_interval := msc_timestamp_interval r;
     msc_timestamp_now := msc_timestamp_now r;
     left_handed_rotate := left_handed_rotate r; trace := trace r |}.

Definition set_slot (v : Z) (r : tp_dispatch) : tp_dispatch :=
  {| device_model_flags := device_model_flags r;
     device_left_handed_enabled := device_left_handed_enabled r;
     device_abs_x_minimum := device_abs_x_minimum r;
     device_abs_x_maximum := device_abs_x_maximum r;
     device_abs_y_minimum := device_abs_y_minimum r;
     device_abs_y_maximum := device_abs_y_maximum r;
     device_is_suspended := device_is_suspended r;
     nfingers_down := nfingers_down r;
     old_nfingers_down := old_nfingers_down r; slot := v; has_mt := has_mt r;
     semi_mt := semi_mt r; arbitration_state := arbitration_state r;
     num_slots := num_slots r; touches := touches r;
     fake_touches := fake_touches r;
     pressure_use_pressure := pressure_use_pressure r;
     pressure_high := pressure_high r; pressure_low := pressure_low r;
     touch_size_use_touch_size := touch_size_use_touch_size r;
     touch_size_high := touch_size_high r;
     touch_size_low := touch_size_low r;
     hysteresis_enabled := hysteresis_enabled r;
     hysteresis_margin := hysteresis_margin r;
     hysteresis_last_motion_time := hysteresis_last_motion_time r;
     buttons_is_clickpad := buttons_is_clickpad r;
     scroll_method := scroll_method r; queued := queued r;
     palm_right_edge := palm_right_edge r;
     palm_left_edge := palm_left_edge r;
     palm_upper_edge := palm_upper_edge r;
     palm_trackpoint_active := palm_trackpoint_active r;
     palm_trackpoint_last_event_time := palm_trackpoint_last_event_time r;
     palm_monitor_trackpoint := palm_monitor_trackpoint r;
     palm_use_mt_tool := palm_use_mt_tool r;
     palm_use_pressure := palm_use_pressure r;
     palm_pressure_threshold := palm_pressure_threshold r;
     palm_use_size := palm_use_size r;
     palm_size_threshold := palm_size_threshold r;
     dwt_dwt_enabled := dwt_dwt_enabled r; dwt_key_mask := dwt_key_mask r;
     dwt_mod_mask := dwt_mod_mask r;
     dwt_keyboard_active := dwt_keyboard_active r;
     dwt_keyboard_last_press_time := dwt_keyboard_last_press_time r;
     thumb_detect_thumbs := thumb_detect_thumbs r;
     thumb_upper_thumb_line := thumb_upper_thumb_line r;
     thumb_lower_thumb_line := thumb_lower_thumb_line r;
     thumb_use_pressure := thumb_use_pressure r;
     thumb_pressure_threshold := thumb_pressure_threshold r;
     thumb_use_size := thumb_use_size r;
     thumb_size_threshold := thumb_size_threshold r;
     quirks_nonmotion_event_count := quirks_nonmotion_event_count r;
     msc_timestamp_state := msc_timestamp_state r;
     msc_timestamp_interval := msc_timestamp_interval r;
     msc_timestamp_now := msc_timestamp_now r;
     left_handed_rotate := left_handed_rotate r; trace := trace r |}.

Definition set_touches (v : list tp_touch) (r : tp_dispatch) : tp_dispatch :=
  {| device_model_flags := device_model_flags r;
     device_left_handed_enabled := device_left_handed_enabled r;
     device_abs_x_minimum := device_abs_x_minimum r;
     device_abs_x_maximum := device_abs_x_maximum r;
     device_abs_y_minimum := device_abs_y_minimum r;
     device_abs_y_maximum := device_abs_y_maximum r;
     device_is_suspended := device_is_suspended r;
     nfingers_down := nfingers_down r;
     old_nfingers_down := old_nfingers_down r; slot := slot r;
     has_mt := has_mt r; semi_mt := semi_mt r;
     arbitration_state := arbitration_state r; num_slots := num_slots r;
     touches := v; fake_touches := fake_touches r;
     pressure_use_pressure := pressure_use_pressure r;
     pressure_high := pressure_high r; pressure_low := pressure_low r;
     touch_size_use_touch_size := touch_size_use_touch_size r;
     touch_size_high := touch_size_high r;
     touch_size_low := touch_size_low r;
     hysteresis_enabled := hysteresis_enabled r;
     hysteresis_margin := hysteresis_margin r;
     hysteresis_last_motion_time := hysteresis_last_motion_time r;
     buttons_is_clickpad := buttons_is_clickpad r;
     scroll_method := scroll_method r; queued := queued r;
     palm_right_edge := palm_right_edge r;
     palm_left_edge := palm_left_edge r;
     palm_upper_edge := palm_upper_edge r;
     palm_trackpoint_active := palm_trackpoint_active r;
     palm_trackpoint_last_event_time := palm_trackpoint_last_event_time r;
     palm_monitor_trackpoint := palm_monitor_trackpoint r;
     palm_use_mt_tool := palm_use_mt_tool r;
     palm_use_pressure := palm_use_pressure r;
     palm_pressure_threshold := palm_pressure_threshold r;
     palm_use_size := palm_use_size r;
     palm_size_threshold := palm_size_threshold r;
     dwt_dwt_enabled := dwt_dwt_enabled r; dwt_key_mask := dwt_key_mask r;
     dwt_mod_mask := dwt_mod_mask r;
     dwt_keyboard_active := dwt_keyboard_active r;
     dwt_keyboard_last_press_time := dwt_keyboard_last_press_time r;
     thumb_detect_thumbs := thumb_detect_thumbs r;
     thumb_upper_thumb_line := thumb_upper_thumb_line r;
     thumb_lower_thumb_line := thumb_lower_thumb_line r;
     thumb_use_pressure := thumb_use_pressure r;
     thumb_pressure_threshold := thumb_pressure_threshold r;
     thumb_use_size := thumb_use_size r;
     thumb_size_threshold := thumb_size_threshold r;
     quirks_nonmotion_event_count := quirks_nonmotion_event_count r;
     msc_timestamp_state := msc_timestamp_state r;
     msc_timestamp_interval := msc_timestamp_interval r;
     msc_timestamp_now := msc_timestamp_now r;
     left_handed_rotate := left_handed_rotate r; trace := trace r |}.

Definition set_fake_touches (v : Z) (r : tp_dispatch) : tp_dispatch :=
  {| device_model_flags := device_model_flags r;
     device_left_handed_enabled := device_left_handed_enabled r;
     device_abs_x_minimum := device_abs_x_minimum r;
     device_abs_x_maximum := device_abs_x_maximum r;
     device_abs_y_minimum := device_abs_y_minimum r;
     device_abs_y_maximum := device_abs_y_maximum r;
     device_is_suspended := device_is_suspended r;
     nfingers_down := nfingers_down r;
     old_nfingers_down := old_nfingers_down r; slot := slot r;
     has_mt := has_mt r; semi_mt := semi_mt r;
     arbitration_state := arbitration_state r; num_slots := num_slots r;
     touches := touches r; fake_touches := v;
     pressure_use_pressure := pressure_use_pressure r;
     pressure_high := pressure_high r; pressure_low := pressure_low r;
     touch_size_use_touch_size := touch_size_use_touch_size r;
     touch_size_high := touch_size_high r;
     touch_size_low := touch_size_low r;
     hysteresis_enabled := hysteresis_enabled r;
     hysteresis_margin := hysteresis_margin r;
     hysteresis_last_motion_time := hysteresis_last_motion_time r;
     buttons_is_clickpad := buttons_is_clickpad r;
     scroll_method := scroll_method r; queued := queued r;
     palm_right_edge := palm_right_edge r;
     palm_left_edge := palm_left_edge r;
     palm_upper_edge := palm_upper_edge r;
     palm_trackpoint_active := palm_trackpoint_active r;
     palm_trackpoint_last_event_time := palm_trackpoint_last_event_time r;
     palm_monitor_trackpoint := palm_monitor_trackpoint r;
     palm_use_mt_tool := palm_use_mt_tool r;
     palm_use_pressure := palm_use_pressure r;
     palm_pressure_threshold := palm_pressure_threshold r;
     palm_use_size := palm_use_size r;
     palm_size_threshold := palm_size_threshold r;
     dwt_dwt_enabled := dwt_dwt_enabled r; dwt_key_mask := dwt_key_mask r;
     dwt_mod_mask := dwt_mod_mask r;
     dwt_keyboard_active := dwt_keyboard_active r;
     dwt_keyboard_last_press_time := dwt_keyboard_last_press_time r;
     thumb_detect_thumbs := thumb_detect_thumbs r;
     thumb_upper_thumb_line := thumb_upper_thumb_line r;
     thumb_lower_thumb_line := thumb_lower_thumb_line r;
     thumb_use_pressure := thumb_use_pressure r;
     thumb_pressure_threshold := thumb_pressure_threshold r;
     thumb_use_size := thumb_use_size r;
     thumb_size_threshold := thumb_size_threshold r;
     quirks_nonmotion_event_count := quirks_nonmotion_event_count r;
     msc_timestamp_state := msc_timestamp_state r;
     msc_timestamp_interval := msc_timestamp_interval r;
     msc_timestamp_now := msc_timestamp_now r;
     left_handed_rotate := left_handed_rotate r; trace := trace r |}.

Definition set_hysteresis_enabled (v : bool) (r : tp_dispatch)
  : tp_dispatch :=
  {| device_model_flags := device_model_flags r;
     device_left_handed_enabled := device_left_handed_enabled r;
     device_abs_x_minimum := device_abs_x_minimum r;
     device_abs_x_maximum := device_abs_x_maximum r;
     device_abs_y_minimum := device_abs_y_minimum r;
     device_abs_y_maximum := device_abs_y_maximum r;
     device_is_suspended := device_is_suspended r;
     nfingers_down := nfingers_down r;
     old_nfingers_down := old_nfingers_down r; slot := slot r;
     has_mt := has_mt r; semi_mt := semi_mt r;
     arbitration_state := arbitration_state r; num_slots := num_slots r;
     touches := touches r; fake_touches := fake_touches r;
     pressure_use_pressure := pressure_use_pressure r;
     pressure_high := pressure_high r; pressure_low := pressure_low r;
     touch_size_use_touch_size := touch_size_use_touch_size r;
     touch_size_high := touch_size_high r;
     touch_size_low := touch_size_low r; hysteresis_enabled := v;
     hysteresis_margin := hysteresis_margin r;
     hysteresis_last_motion_time := hysteresis_last_motion_time r;
     buttons_is_clickpad := buttons_is_clickpad r;
     scroll_method := scroll_method r; queued := queued r;
     palm_right_edge := palm_right_edge r;
     palm_left_edge := palm_left_edge r;
     palm_upper_edge := palm_upper_edge r;
     palm_trackpoint_active := palm_trackpoint_active r;
     palm_trackpoint_last_event_time := palm_trackpoint_last_event_time r;
     palm_monitor_trackpoint := palm_monitor_trackpoint r;
     palm_use_mt_tool := palm_use_mt_tool r;
     palm_use_pressure := palm_use_pressure r;
     palm_pressure_threshold := palm_pressure_threshold r;
     palm_use_size := palm_use_size r;
     palm_size_threshold := palm_size_threshold r;
     dwt_dwt_enabled := dwt_dwt_enabled r; dwt_key_mask := dwt_key_mask r;
     dwt_mod_mask := dwt_mod_mask r;
     dwt_keyboard_active := dwt_keyboard_active r;
     dwt_keyboard_last_press_time := dwt_keyboard_last_press_time r;
     thumb_detect_thumbs := thumb_detect_thumbs r;
     thumb_upper_thumb_line := thumb_upper_thumb_line r;
     thumb_lower_thumb_line := thumb_lower_thumb_line r;
     thumb_use_pressure := thumb_use_pressure r;
     thumb_pressure_threshold := thumb_pressure_threshold r;
     thumb_use_size := thumb_use_size r;
     thumb_size_threshold := thumb_size_threshold r;
     quirks_nonmotion_event_count := quirks_nonmotion_event_count r;
     msc_timestamp_state := msc_timestamp_state r;
     msc_timestamp_interval := msc_timestamp_interval r;
     msc_timestamp_now := msc_timestamp_now r;
     left_handed_rotate := left_handed_rotate r; trace := trace r |}.

Definition set_hysteresis_last_motion_time (v : Z) (r : tp_dispatch)
  : tp_dispatch :=
  {| device_model_flags := device_model_flags r;
     device_left_handed_enabled := device_left_handed_enabled r;
     device_abs_x_minimum := device_abs_x_minimum r;
     device_abs_x_maximum := device_abs_x_maximum r;
     device_abs_y_minimum := device_abs_y_minimum r;
     device_abs_y_maximum := device_abs_y_maximum r;
     device_is_suspended := device_is_suspended r;
     nfingers_down := nfingers_down r;
     old_nfingers_down := old_nfingers_down r; slot := slot r;
     has_mt := has_mt r; semi_mt := semi_mt r;
     arbitration_state := arbitration_state r; num_slots := num_slots r;
     touches := touches r; fake_touches := fake_touches r;
     pressure_use_pressure := pressure_use_pressure r;
     pressure_high := pressure_high r; pressure_low := pressure_low r;
     touch_size_use_touch_size := touch_size_use_touch_size r;
     touch_size_high := touch_size_high r;
     touch_size_low := touch_size_low r;
     hysteresis_enabled := hysteresis_enabled r;
     hysteresis_margin := hysteresis_margin r;
     hysteresis_last_motion_time := v;
     buttons_is_clickpad := buttons_is_clickpad r;
     scroll_method := scroll_method r; queued := queued r;
     palm_right_edge := palm_right_edge r;
     palm_left_edge := palm_left_edge r;
     palm_upper_edge := palm_upper_edge r;
     palm_trackpoint_active := palm_trackpoint_active r;
     palm_trackpoint_last_event_time := palm_trackpoint_last_event_time r;
     palm_monitor_trackpoint := palm_monitor_trackpoint r;
     palm_use_mt_tool := palm_use_mt_tool r;
     palm_use_pressure := palm_use_pressure r;
     palm_pressure_threshold := palm_pressure_threshold r;
     palm_use_size := palm_use_size r;
     palm_size_threshold := palm_size_threshold r;
     dwt_dwt_enabled := dwt_dwt_enabled r; dwt_key_mask := dwt_key_mask r;
     dwt_mod_mask := dwt_mod_mask r;
     dwt_keyboard_active := dwt_keyboard_active r;
     dwt_keyboard_last_press_time := dwt_keyboard_last_press_time r;
     thumb_detect_thumbs := thumb_detect_thumbs r;
     thumb_upper_thumb_line := thumb_upper_thumb_line r;
     thumb_lower_thumb_line := thumb_lower_thumb_line r;
     thumb_use_pressure := thumb_use_pressure r;
     thumb_pressure_threshold := thumb_pressure_threshold r;
     thumb_use_size := thumb_use_size r;
     thumb_size_threshold := thumb_size_threshold r;
     quirks_nonmotion_event_count := quirks_nonmotion_event_count r;
     msc_timestamp_state := msc_timestamp_state r;
     msc_timestamp_interval := msc_timestamp_interval r;
     msc_timestamp_now := msc_timestamp_now r;
     left_handed_rotate := left_handed_rotate r; trace := trace r |}.

Definition set_queued (v : Z) (r : tp_dispatch) : tp_dispatch :=
  {| device_model_flags := device_model_flags r;
     device_left_handed_enabled := device_left_handed_enabled r;
     device_abs_x_minimum := device_abs_x_minimum r;
     device_abs_x_maximum := device_abs_x_maximum r;
     device_abs_y_minimum := device_abs_y_minimum r;
     device_abs_y_maximum := device_abs_y_maximum r;
     device_is_suspended := device_is_suspended r;
     nfingers_down := nfingers_down r;
     old_nfingers_down := old_nfingers_down r; slot := slot r;
     has_mt := has_mt r; semi_mt := semi_mt r;
     arbitration_state := arbitration_state r; num_slots := num_slots r;
     touches := touches r; fake_touches := fake_touches r;
     pressure_use_pressure := pressure_use_pressure r;
     pressure_high := pressure_high r; pressure_low := pressure_low r;
     touch_size_use_touch_size := touch_size_use_touch_size r;
     touch_size_high := touch_size_high r;
     touch_size_low := touch_size_low r;
     hysteresis_enabled := hysteresis_enabled r;
     hysteresis_margin := hysteresis_margin r;
     hysteresis_last_motion_time := hysteresis_last_motion_time r;
     buttons_is_clickpad := buttons_is_clickpad r;
     scroll_method := scroll_method r; queued := v;
     palm_right_edge := palm_right_edge r;
     palm_left_edge := palm_left_edge r;
     palm_upper_edge := palm_upper_edge r;
     palm_trackpoint_active := palm_trackpoint_active r;
     palm_trackpoint_last_event_time := palm_trackpoint_last_event_time r;
     palm_monitor_trackpoint := palm_monitor_trackpoint r;
     palm_use_mt_tool := palm_use_mt_tool r;
     palm_use_pressure := palm_use_pressure r;
     palm_pressure_threshold := palm_pressure_threshold r;
     palm_use_size := palm_use_size r;
     palm_size_threshold := palm_size_threshold r;
     dwt_dwt_enabled := dwt_dwt_enabled r; dwt_key_mask := dwt_key_mask r;
     dwt_mod_mask := dwt_mod_mask r;
     dwt_keyboard_active := dwt_keyboard_active r;
     dwt_keyboard_last_press_time := dwt_keyboard_last_press_time r;
     thumb_detect_thumbs := thumb_detect_thumbs r;
     thumb_upper_thumb_line := thumb_upper_thumb_line r;
     thumb_lower_thumb_line := thumb_lower_thumb_line r;
     thumb_use_pressure := thumb_use_pressure r;
     thumb_pressure_threshold := thumb_pressure_threshold r;
     thumb_use_size := thumb_use_size r;
     thumb_size_threshold := thumb_size_threshold r;
     quirks_nonmotion_event_count := quirks_nonmotion_event_count r;
     msc_timestamp_state := msc_timestamp_state r;
     msc_timestamp_interval := msc_timestamp_interval r;
     msc_timestamp_now := msc_timestamp_now r;
     left_handed_rotate := left_handed_rotate r; trace := trace r |}.

Definition set_dwt_key_mask (v : list Z) (r : tp_dispatch) : tp_dispatch :=
  {| device_model_flags := device_model_flags r;
     device_left_handed_enabled := device_left_handed_enabled r;
     device_abs_x_minimum := device_abs_x_minimum r;
     device_abs_x_maximum := device_abs_x_maximum r;
     device_abs_y_minimum := device_abs_y_minimum r;
     device_abs_y_maximum := device_abs_y_maximum r;
     device_is_suspended := device_is_suspended r;
     nfingers_down := nfingers_down r;
     old_nfingers_down := old_nfingers_down r; slot := slot r;
     has_mt := has_mt r; semi_mt := semi_mt r;
     arbitration_state := arbitration_state r; num_slots := num_slots r;
     touches := touches r; fake_touches := fake_touches r;
     pressure_use_pressure := pressure_use_pressure r;
     pressure_high := pressure_high r; pressure_low := pressure_low r;
     touch_size_use_touch_size := touch_size_use_touch_size r;
     touch_size_high := touch_size_high r;
     touch_size_low := touch_size_low r;
     hysteresis_enabled := hysteresis_enabled r;
     hysteresis_margin := hysteresis_margin r;
     hysteresis_last_motion_time := hysteresis_last_motion_time r;
     buttons_is_clickpad := buttons_is_clickpad r;
     scroll_method := scroll_method r; queued := queued r;
     palm_right_edge := palm_right_edge r;
     palm_left_edge := palm_left_edge r;
     palm_upper_edge := palm_upper_edge r;
     palm_trackpoint_active := palm_trackpoint_active r;
     palm_trackpoint_last_event_time := palm_trackpoint_last_event_time r;
     palm_monitor_trackpoint := palm_monitor_trackpoint r;
     palm_use_mt_tool := palm_use_mt_tool r;
     palm_use_pressure := palm_use_pressure r;
     palm_pressure_threshold := palm_pressure_threshold r;
     palm_use_size := palm_use_size r;
     palm_size_threshold := palm_size_threshold r;
     dwt_dwt_enabled := dwt_dwt_enabled r; dwt_key_mask := v;
     dwt_mod_mask := dwt_mod_mask r;
     dwt_keyboard_active := dwt_keyboard_active r;
     dwt_keyboard_last_press_time := dwt_keyboard_last_press_time r;
     thumb_detect_thumbs := thumb_detect_thumbs r;
     thumb_upper_thumb_line := thumb_upper_thumb_line r;
     thumb_lower_thumb_line := thumb_lower_thumb_line r;
     thumb_use_pressure := thumb_use_pressure r;
     thumb_pressure_threshold := thumb_pressure_threshold r;
     thumb_use_size := thumb_use_size r;
     thumb_size_threshold := thumb_size_threshold r;
     quirks_nonmotion_event_count := quirks_nonmotion_event_count r;
     msc_timestamp_state := msc_timestamp_state r;
     msc_timestamp_interval := msc_timestamp_interval r;
     msc_timestamp_now := msc_timestamp_now r;
     left_handed_rotate := left_handed_rotate r; trace := trace r |}.

Definition set_dwt_mod_mask (v : list Z) (r : tp_dispatch) : tp_dispatch :=
  {| device_model_flags := device_model_flags r;
     device_left_handed_enabled := device_left_handed_enabled r;
     device_abs_x_minimum := device_abs_x_minimum r;
     device_abs_x_maximum := device_abs_x_maximum r;
     device_abs_y_minimum := device_abs_y_minimum r;
     device_abs_y_maximum := device_abs_y_maximum r;
     device_is_suspended := device_is_suspended r;
     nfingers_down := nfingers_down r;
     old_nfingers_down := old_nfingers_down r; slot := slot r;
     has_mt := has_mt r; semi_mt := semi_mt r;
     arbitration_state := arbitration_state r; num_slots := num_slots r;
     touches := touches r; fake_touches := fake_touches r;
     pressure_use_pressure := pressure_use_pressure r;
     pressure_high := pressure_high r; pressure_low := pressure_low r;
     touch_size_use_touch_size := touch_size_use_touch_size r;
     touch_size_high := touch_size_high r;
     touch_size_low := touch_size_low r;
     hysteresis_enabled := hysteresis_enabled r;
     hysteresis_margin := hysteresis_margin r;
     hysteresis_last_motion_time := hysteresis_last_motion_time r;
     buttons_is_clickpad := buttons_is_clickpad r;
     scroll_method := scroll_method r; queued := queued r;
     palm_right_edge := palm_right_edge r;
     palm_left_edge := palm_left_edge r;
     palm_upper_edge := palm_upper_edge r;
     palm_trackpoint_active := palm_trackpoint_active r;
     palm_trackpoint_last_event_time := palm_trackpoint_last_event_time r;
     palm_monitor_trackpoint := palm_monitor_trackpoint r;
     palm_use_mt_tool := palm_use_mt_tool r;
     palm_use_pressure := palm_use_pressure r;
     palm_pressure_threshold := palm_pressure_threshold r;
     palm_use_size := palm_use_size r;
     palm_size_threshold := palm_size_threshold r;
     dwt_dwt_enabled := dwt_dwt_enabled r; dwt_key_mask := dwt_key_mask r;
     dwt_mod_mask := v; dwt_keyboard_active := dwt_keyboard_active r;
     dwt_keyboard_last_press_time := dwt_keyboard_last_press_time r;
     thumb_detect_thumbs := thumb_detect_thumbs r;
     thumb_upper_thumb_line := thumb_upper_thumb_line r;
     thumb_lower_thumb_line := thumb_lower_thumb_line r;
     thumb_use_pressure := thumb_use_pressure r;
     thumb_pressure_threshold := thumb_pressure_threshold r;
     thumb_use_size := thumb_use_size r;
     thumb_size_threshold := thumb_size_threshold r;
     quirks_nonmotion_event_count := quirks_nonmotion_event_count r;
     msc_timestamp_state := msc_timestamp_state r;
     msc_timestamp_interval := msc_timestamp_interval r;
     msc_timestamp_now := msc_timestamp_now r;
     left_handed_rotate := left_handed_rotate r; trace := trace r |}.

Definition set_dwt_keyboard_active (v : bool) (r : tp_dispatch)
  : tp_dispatch :=
  {| device_model_flags := device_model_flags r;
     device_left_handed_enabled := device_left_handed_enabled r;
     device_abs_x_minimum := device_abs_x_minimum r;
     device_abs_x_maximum := device_abs_x_maximum r;
     device_abs_y_minimum := device_abs_y_minimum r;
     device_abs_y_maximum := device_abs_y_maximum r;
     device_is_suspended := device_is_suspended r;
     nfingers_down := nfingers_down r;
     old_nfingers_down := old_nfingers_down r; slot := slot r;
     has_mt := has_mt r; semi_mt := semi_mt r;
     arbitration_state := arbitration_state r; num_slots := num_slots r;
     touches := touches r; fake_touches := fake_touches r;
     pressure_use_pressure := pressure_use_pressure r;
     pressure_high := pressure_high r; pressure_low := pressure_low r;
     touch_size_use_touch_size := touch_size_use_touch_size r;
     touch_size_high := touch_size_high r;
     touch_size_low := touch_size_low r;
     hysteresis_enabled := hysteresis_enabled r;
     hysteresis_margin := hysteresis_margin r;
     hysteresis_last_motion_time := hysteresis_last_motion_time r;
     buttons_is_clickpad := buttons_is_clickpad r;
     scroll_method := scroll_method r; queued := queued r;
     palm_right_edge := palm_right_edge r;
     palm_left_edge := palm_left_edge r;
     palm_upper_edge := palm_upper_edge r;
     palm_trackpoint_active := palm_trackpoint_active r;
     palm_trackpoint_last_event_time := palm_trackpoint_last_event_time r;
     palm_monitor_trackpoint := palm_monitor_trackpoint r;
     palm_use_mt_tool := palm_use_mt_tool r;
     palm_use_pressure := palm_use_pressure r;
     palm_pressure_threshold := palm_pressure_threshold r;
     palm_use_size := palm_use_size r;
     palm_size_threshold := palm_size_threshold r;
     dwt_dwt_enabled := dwt_dwt_enabled r; dwt_key_mask := dwt_key_mask r;
     dwt_mod_mask := dwt_mod_mask r; dwt_keyboard_active := v;
     dwt_keyboard_last_press_time := dwt_keyboard_last_press_time r;
     thumb_detect_thumbs := thumb_detect_thumbs r;
     thumb_upper_thumb_line := thumb_upper_thumb_line r;
     thumb_lower_thumb_line := thumb_lower_thumb_line r;
     thumb_use_pressure := thumb_use_pressure r;
     thumb_pressure_threshold := thumb_pressure_threshold r;
     thumb_use_size := thumb_use_size r;
     thumb_size_threshold := thumb_size_threshold r;
     quirks_nonmotion_event_count := quirks_nonmotion_event_count r;
     msc_timestamp_state := msc_timestamp_state r;
     msc_timestamp_interval := msc_timestamp_interval r;
     msc_timestamp_now := msc_timestamp_now r;
     left_handed_rotate := left_handed_rotate r; trace := trace r |}.

Definition set_dwt_keyboard_last_press_time (v : Z) (r : tp_dispatch)
  : tp_dispatch :=
  {| device_model_flags := device_model_flags r;
     device_left_handed_enabled := device_left_handed_enabled r;
     device_abs_x_minimum := device_abs_x_minimum r;
     device_abs_x_maximum := device_abs_x_maximum r;
     device_abs_y_minimum := device_abs_y_minimum r;
     device_abs_y_maximum := device_abs_y_maximum r;
     device_is_suspended := device_is_suspended r;
     nfingers_down := nfingers_down r;
     old_nfingers_down := old_nfingers_down r; slot := slot r;
     has_mt := has_mt r; semi_mt := semi_mt r;
     arbitration_state := arbitration_state r; num_slots := num_slots r;
     touches := touches r; fake_touches := fake_touches r;
     pressure_use_pressure := pressure_use_pressure r;
     pressure_high := pressure_high r; pressure_low := pressure_low r;
     touch_size_use_touch_size := touch_size_use_touch_size r;
     touch_size_high := touch_size_high r;
     touch_size_low := touch_size_low r;
     hysteresis_enabled := hysteresis_enabled r;
     hysteresis_margin := hysteresis_margin r;
     hysteresis_last_motion_time := hysteresis_last_motion_time r;
     buttons_is_clickpad := buttons_is_clickpad r;
     scroll_method := scroll_method r; queued := queued r;
     palm_right_edge := palm_right_edge r;
     palm_left_edge := palm_left_edge r;
     palm_upper_edge := palm_upper_edge r;
     palm_trackpoint_active := palm_trackpoint_active r;
     palm_trackpoint_last_event_time := palm_trackpoint_last_event_time r;
     palm_monitor_trackpoint := palm_monitor_trackpoint r;
     palm_use_mt_tool := palm_use_mt_tool r;
     palm_use_pressure := palm_use_pressure r;
     palm_pressure_threshold := palm_pressure_threshold r;
     palm_use_size := palm_use_size r;
     palm_size_threshold := palm_size_threshold r;
     dwt_dwt_enabled := dwt_dwt_enabled r; dwt_key_mask := dwt_key_mask r;
     dwt_mod_mask := dwt_mod_mask r;
     dwt_keyboard_active := dwt_keyboard_active r;
     dwt_keyboard_last_press_time := v;
     thumb_detect_thumbs := thumb_detect_thumbs r;
     thumb_upper_thumb_line := thumb_upper_thumb_line r;
     thumb_lower_thumb_line := thumb_lower_thumb_line r;
     thumb_use_pressure := thumb_use_pressure r;
     thumb_pressure_threshold := thumb_pressure_threshold r;
     thumb_use_size := thumb_use_size r;
     thumb_size_threshold := thumb_size_threshold r;
     quirks_nonmotion_event_count := quirks_nonmotion_event_count r;
     msc_timestamp_state := msc_timestamp_state r;
     msc_timestamp_interval := msc_timestamp_interval r;
     msc_timestamp_now := msc_timestamp_now r;
     left_handed_rotate := left_handed_rotate r; trace := trace r |}.

Definition set_quirks_nonmotion_event_count (v : Z) (r : tp_dispatch)
  : tp_dispatch :=
  {| device_model_flags := device_model_flags r;
     device_left_handed_enabled := device_left_handed_enabled r;
     device_abs_x_minimum := device_abs_x_minimum r;
     device_abs_x_maximum := device_abs_x_maximum r;
     device_abs_y_minimum := device_abs_y_minimum r;
     device_abs_y_maximum := device_abs_y_maximum r;
     device_is_suspended := device_is_suspended r;
     nfingers_down := nfingers_down r;
     old_nfingers_down := old_nfingers_down r; slot := slot r;
     has_mt := has_mt r; semi_mt := semi_mt r;
     arbitration_state := arbitration_state r; num_slots := num_slots r;
     touches := touches r; fake_touches := fake_touches r;
     pressure_use_pressure := pressure_use_pressure r;
     pressure_high := pressure_high r; pressure_low := pressure_low r;
     touch_size_use_touch_size := touch_size_use_touch_size r;
     touch_size_high := touch_size_high r;
     touch_size_low := touch_size_low r;
     hysteresis_enabled := hysteresis_enabled r;
     hysteresis_margin := hysteresis_margin r;
     hysteresis_last_motion_time := hysteresis_last_motion_time r;
     buttons_is_clickpad := buttons_is_clickpad r;
     scroll_method := scroll_method r; queued := queued r;
     palm_right_edge := palm_right_edge r;
     palm_left_edge := palm_left_edge r;
     palm_upper_edge := palm_upper_edge r;
     palm_trackpoint_active := palm_trackpoint_active r;
     palm_trackpoint_last_event_time := palm_trackpoint_last_event_time r;
     palm_monitor_trackpoint := palm_monitor_trackpoint r;
     palm_use_mt_tool := palm_use_mt_tool r;
     palm_use_pressure := palm_use_pressure r;
     palm_pressure_threshold := palm_pressure_threshold r;
     palm_use_size := palm_use_size r;
     palm_size_threshold := palm_size_threshold r;
     dwt_dwt_enabled := dwt_dwt_enabled r; dwt_key_mask := dwt_key_mask r;
     dwt_mod_mask := dwt_mod_mask r;
     dwt_keyboard_active := dwt_keyboard_active r;
     dwt_keyboard_last_press_time := dwt_keyboard_last_press_time r;
     thumb_detect_thumbs := thumb_detect_thumbs r;
     thumb_upper_thumb_line := thumb_upper_thumb_line r;
     thumb_lower_thumb_line := thumb_lower_thumb_line r;
     thumb_use_pressure := thumb_use_pressure r;
     thumb_pressure_threshold := thumb_pressure_threshold r;
     thumb_use_size := thumb_use_size r;
     thumb_size_threshold := thumb_size_threshold r;
     quirks_nonmotion_event_count := v;
     msc_timestamp_state := msc_timestamp_state r;
     msc_timestamp_interval := msc_timestamp_interval r;
     msc_timestamp_now := msc_timestamp_now r;
     left_handed_rotate := left_handed_rotate r; trace := trace r |}.

Definition set_msc_timestamp_state (v : tp_jump_state) (r : tp_dispatch)
  : tp_dispatch :=
  {| device_model_flags := device_model_flags r;
     device_left_handed_enabled := device_left_handed_enabled r;
     device_abs_x_minimum := device_abs_x_minimum r;
     device_abs_x_maximum := device_abs_x_maximum r;
     device_abs_y_minimum := device_abs_y_minimum r;
     device_abs_y_maximum := device_abs_y_maximum r;
     device_is_suspended := device_is_suspended r;
     nfingers_down := nfingers_down r;
     old_nfingers_down := old_nfingers_down r; slot := slot r;
     has_mt := has_mt r; semi_mt := semi_mt r;
     arbitration_state := arbitration_state r; num_slots := num_slots r;
     touches := touches r; fake_touches := fake_touches r;
     pressure_use_pressure := pressure_use_pressure r;
     pressure_high := pressure_high r; pressure_low := pressure_low r;
     touch_size_use_touch_size := touch_size_use_touch_size r;
     touch_size_high := touch_size_high r;
     touch_size_low := touch_size_low r;
     hysteresis_enabled := hysteresis_enabled r;
     hysteresis_margin := hysteresis_margin r;
     hysteresis_last_motion_time := hysteresis_last_motion_time r;
     buttons_is_clickpad := buttons_is_clickpad r;
     scroll_method := scroll_method r; queued := queued r;
     palm_right_edge := palm_right_edge r;
     palm_left_edge := palm_left_edge r;
     palm_upper_edge := palm_upper_edge r;
     palm_trackpoint_active := palm_trackpoint_active r;
     palm_trackpoint_last_event_time := palm_trackpoint_last_event_time r;
     palm_monitor_trackpoint := palm_monitor_trackpoint r;
     palm_use_mt_tool := palm_use_mt_tool r;
     palm_use_pressure := palm_use_pressure r;
     palm_pressure_threshold := palm_pressure_threshold r;
     palm_use_size := palm_use_size r;
     palm_size_threshold := palm_size_threshold r;
     dwt_dwt_enabled := dwt_dwt_enabled r; dwt_key_mask := dwt_key_mask r;
     dwt_mod_mask := dwt_mod_mask r;
     dwt_keyboard_active := dwt_keyboard_active r;
     dwt_keyboard_last_press_time := dwt_keyboard_last_press_time r;
     thumb_detect_thumbs := thumb_detect_thumbs r;
     thumb_upper_thumb_line := thumb_upper_thumb_line r;
     thumb_lower_thumb_line := thumb_lower_thumb_line r;
     thumb_use_pressure := thumb_use_pressure r;
     thumb_pressure_threshold := thumb_pressure_threshold r;
     thumb_use_size := thumb_use_size r;
     thumb_size_threshold := thumb_size_threshold r;
     quirks_nonmotion_event_count := quirks_nonmotion_event_count r;
     msc_timestamp_state := v;
     msc_timestamp_interval := msc_timestamp_interval r;
     msc_timestamp_now := msc_timestamp_now r;
     left_handed_rotate := left_handed_rotate r; trace := trace r |}.

Definition set_msc_timestamp_interval (v : Z) (r : tp_dispatch)
  : tp_dispatch :=
  {| device_model_flags := device_model_flags r;
     device_left_handed_enabled := device_left_handed_enabled r;
     device_abs_x_minimum := device_abs_x_minimum r;
     device_abs_x_maximum := device_abs_x_maximum r;
     device_abs_y_minimum := device_abs_y_minimum r;
     device_abs_y_maximum := device_abs_y_maximum r;
     device_is_suspended := device_is_suspended r;
     nfingers_down := nfingers_down r;
     old_nfingers_down := old_nfingers_down r; slot := slot r;
     has_mt := has_mt r; semi_mt := semi_mt r;
     arbitration_state := arbitration_state r; num_slots := num_slots r;
     touches := touches r; fake_touches := fake_touches r;
     pressure_use_pressure := pressure_use_pressure r;
     pressure_high := pressure_high r; pressure_low := pressure_low r;
     touch_size_use_touch_size := touch_size_use_touch_size r;
     touch_size_high := touch_size_high r;
     touch_size_low := touch_size_low r;
     hysteresis_enabled := hysteresis_enabled r;
     hysteresis_margin := hysteresis_margin r;
     hysteresis_last_motion_time := hysteresis_last_motion_time r;
     buttons_is_clickpad := buttons_is_clickpad r;
     scroll_method := scroll_method r; queued := queued r;
     palm_right_edge := palm_right_edge r;
     palm_left_edge := palm_left_edge r;
     palm_upper_edge := palm_upper_edge r;
     palm_trackpoint_active := palm_trackpoint_active r;
     palm_trackpoint_last_event_time := palm_trackpoint_last_event_time r;
     palm_monitor_trackpoint := palm_monitor_trackpoint r;
     palm_use_mt_tool := palm_use_mt_tool r;
     palm_use_pressure := palm_use_pressure r;
     palm_pressure_threshold := palm_pressure_threshold r;
     palm_use_size := palm_use_size r;
     palm_size_threshold := palm_size_threshold r;
     dwt_dwt_enabled := dwt_dwt_enabled r; dwt_key_mask := dwt_key_mask r;
     dwt_mod_mask := dwt_mod_mask r;
     dwt_keyboard_active := dwt_keyboard_active r;
     dwt_keyboard_last_press_time := dwt_keyboard_last_press_time r;
     thumb_detect_thumbs := thumb_detect_thumbs r;
     thumb_upper_thumb_line := thumb_upper_thumb_line r;
     thumb_lower_thumb_line := thumb_lower_thumb_line r;
     thumb_use_pressure := thumb_use_pressure r;
     thumb_pressure_threshold := thumb_pressure_threshold r;
     thumb_use_size := thumb_use_size r;
     thumb_size_threshold := thumb_size_threshold r;
     quirks_nonmotion_event_count := quirks_nonmotion_event_count r;
     msc_timestamp_state := msc_timestamp_state r;
     msc_timestamp_interval := v; msc_timestamp_now := msc_timestamp_now r;
     left_handed_rotate := left_handed_rotate r; trace := trace r |}.

Definition set_msc_timestamp_now (v : Z) (r : tp_dispatch) : tp_dispatch :=
  {| device_model_flags := device_model_flags r;
     device_left_handed_enabled := device_left_handed_enabled r;
     device_abs_x_minimum := device_abs_x_minimum r;
     device_abs_x_maximum := device_abs_x_maximum r;
     device_abs_y_minimum := device_abs_y_minimum r;
     device_abs_y_maximum := device_abs_y_maximum r;
     device_is_suspended := device_is_suspended r;
     nfingers_down := nfingers_down r;
     old_nfingers_down := old_nfingers_down r; slot := slot r;
     has_mt := has_mt r; semi_mt := semi_mt r;
     arbitration_state := arbitration_state r; num_slots := num_slots r;
     touches := touches r; fake_touches := fake_touches r;
     pressure_use_pressure := pressure_use_pressure r;
     pressure_high := pressure_high r; pressure_low := pressure_low r;
     touch_size_use_touch_size := touch_size_use_touch_size r;
     touch_size_high := touch_size_high r;
     touch_size_low := touch_size_low r;
     hysteresis_enabled := hysteresis_enabled r;
     hysteresis_margin := hysteresis_margin r;
     hysteresis_last_motion_time := hysteresis_last_motion_time r;
     buttons_is_clickpad := buttons_is_clickpad r;
     scroll_method := scroll_method r; queued := queued r;
     palm_right_edge := palm_right_edge r;
     palm_left_edge := palm_left_edge r;
     palm_upper_edge := palm_upper_edge r;
     palm_trackpoint_active := palm_trackpoint_active r;
     palm_trackpoint_last_event_time := palm_trackpoint_last_event_time r;
     palm_monitor_trackpoint := palm_monitor_trackpoint r;
     palm_use_mt_tool := palm_use_mt_tool r;
     palm_use_pressure := palm_use_pressure r;
     palm_pressure_threshold := palm_pressure_threshold r;
     palm_use_size := palm_use_size r;
     palm_size_threshold := palm_size_threshold r;
     dwt_dwt_enabled := dwt_dwt_enabled r; dwt_key_mask := dwt_key_mask r;
     dwt_mod_mask := dwt_mod_mask r;
     dwt_keyboard_active := dwt_keyboard_active r;
     dwt_keyboard_last_press_time := dwt_keyboard_last_press_time r;
     thumb_detect_thumbs := thumb_detect_thumbs r;
     thumb_upper_thumb_line := thumb_upper_thumb_line r;
     thumb_lower_thumb_line := thumb_lower_thumb_line r;
     thumb_use_pressure := thumb_use_pressure r;
     thumb_pressure_threshold := thumb_pressure_threshold r;
     thumb_use_size := thumb_use_size r;
     thumb_size_threshold := thumb_size_threshold r;
     quirks_nonmotion_event_count := quirks_nonmotion_event_count r;
     msc_timestamp_state := msc_timestamp_state r;
     msc_timestamp_interval := msc_timestamp_interval r;
     msc_timestamp_now := v; left_handed_rotate := left_handed_rotate r;
     trace := trace r |}.

Definition set_trace (v : list effect) (r : tp_dispatch) : tp_dispatch :=
  {| device_model_flags := device_model_flags r;
     device_left_handed_enabled := device_left_handed_enabled r;
     device_abs_x_minimum := device_abs_x_minimum r;
     device_abs_x_maximum := device_abs_x_maximum r;
     device_abs_y_minimum := device_abs_y_minimum r;
     device_abs_y_maximum := device_abs_y_maximum r;
     device_is_suspended := device_is_suspended r;
     nfingers_down := nfingers_down r;
     old_nfingers_down := old_nfingers_down r; slot := slot r;
     has_mt := has_mt r; semi_mt := semi_mt r;
     arbitration_state := arbitration_state r; num_slots := num_slots r;
     touches := touches r; fake_touches := fake_touches r;
     pressure_use_pressure := pressure_use_pressure r;
     pressure_high := pressure_high r; pressure_low := pressure_low r;
     touch_size_use_touch_size := touch_size_use_touch_size r;
     touch_size_high := touch_size_high r;
     touch_size_low := touch_size_low r;
     hysteresis_enabled := hysteresis_enabled r;
     hysteresis_margin := hysteresis_margin r;
     hysteresis_last_motion_time := hysteresis_last_motion_time r;
     buttons_is_clickpad := buttons_is_clickpad r;
     scroll_method := scroll_method r; queued := queued r;
     palm_right_edge := palm_right_edge r;
     palm_left_edge := palm_left_edge r;
     palm_upper_edge := palm_upper_edge r;
     palm_trackpoint_active := palm_trackpoint_active r;
     palm_trackpoint_last_event_time := palm_trackpoint_last_event_time r;
     palm_monitor_trackpoint := palm_monitor_trackpoint r;
     palm_use_mt_tool := palm_use_mt_tool r;
     palm_use_pressure := palm_use_pressure r;
     palm_pressure_threshold := palm_pressure_threshold r;
     palm_use_size := palm_use_size r;
     palm_size_threshold := palm_size_threshold r;
     dwt_dwt_enabled := dwt_dwt_enabled r; dwt_key_mask := dwt_key_mask r;
     dwt_mod_mask := dwt_mod_mask r;
     dwt_keyboard_active := dwt_keyboard_active r;
     dwt_keyboard_last_press_time := dwt_keyboard_last_press_time r;
     thumb_detect_thumbs := thumb_detect_thumbs r;
     thumb_upper_thumb_line := thumb_upper_thumb_line r;
     thumb_lower_thumb_line := thumb_lower_thumb_line r;
     thumb_use_pressure := thumb_use_pressure r;
     thumb_pressure_threshold := thumb_pressure_threshold r;
     thumb_use_size := thumb_use_size r;
     thumb_size_threshold := thumb_size_threshold r;
     quirks_nonmotion_event_count := quirks_nonmotion_event_count r;
     msc_timestamp_state := msc_timestamp_state r;
     msc_timestamp_interval := msc_timestamp_interval r;
     msc_timestamp_now := msc_timestamp_now r;
     left_handed_rotate := left_handed_rotate r; trace := v |}.

(** ** Access to the touches *)

Definition zero_coords : device_coords := {| x := 0; y := 0 |}.

Definition zero_history_point : tp_history_point :=
  {| hp_time := 0; hp_point := zero_coords |}.

(** A touch as [tp_init_slots] leaves it: zeroed by [zalloc], then
    [tp_init_touch]. *)
Definition tp_init_touch (index : Z) : tp_touch :=
  {| t_index := index; t_state := TOUCH_NONE; t_has_ended := true;
     t_dirty := false; t_point := zero_coords; t_time := 0;
     t_pressure := 0; t_is_tool_palm := false; t_major := 0; t_minor := 0;
     t_was_down := false; quirks_reset_motion_history := false;
     history_samples :=
       replicate (Z.to_nat TOUCHPAD_HISTORY_LENGTH) zero_history_point;
     history_index := 0; history_count := 0; jumps_last_delta_mm := 0%float;
     hysteresis_center := zero_coords; hysteresis_x_motion_history := 0;
     pinned_is_pinned := false; pinned_center := zero_coords;
     tap_is_thumb := false; tap_is_palm := false; palm_state := PALM_NONE;
     palm_first := zero_coords; palm_time := 0;
     thumb_state := THUMB_STATE_NO; thumb_first_touch_time := 0;
     thumb_initial := zero_coords; speed_last_speed := 0%float;
     speed_exceeded_count := 0 |}.

Definition ntouches (tp : tp_dispatch) : Z := Z.of_nat (length (touches tp)).

(** [tp->touches[i]], read and written. *)
Definition touch (tp : tp_dispatch) (i : nat) : tp_touch :=
  default (tp_init_touch (Z.of_nat i)) (touches tp !! i).

Definition set_touch (i : nat) (t : tp_touch) (tp : tp_dispatch)
  : tp_dispatch :=
  set_touches (<[i := t]> (touches tp)) tp.

(** A function of the touch alone, applied to [tp->touches[i]]. *)
Definition on_touch (i : nat) (f : tp_touch -> tp_touch) (tp : tp_dispatch)
  : tp_dispatch :=
  set_touch i (f (touch tp i)) tp.

Definition log (e : effect) (tp : tp_dispatch) : tp_dispatch :=
  set_trace (trace tp ++ [e]) tp.

(** [tp_for_each_touch]: the indices [0 .. ntouches - 1], in order. *)
Definition tp_for_each_touch (tp : tp_dispatch) : list nat :=
  seq 0 (length (touches tp)).

(** [for (i = lo; i < hi; i++)] over unsigned indices. *)
Definition range (lo hi : Z) : list Z :=
  map (fun k => lo + Z.of_nat k) (seq 0 (Z.to_nat (hi - lo))).

Definition tp_current_touch (tp : tp_dispatch) : nat :=
  Z.to_nat (Z.min (slot tp) (u32 (ntouches tp - 1))).

Definition tp_get_touch (tp : tp_dispatch) (slot : Z) : option nat :=
  if slot <? ntouches tp then Some (Z.to_nat slot) else None.

(** ** Motion history *)

Definition tp_motion_history_offset_index (t : tp_touch) (offset : Z)
  : nat :=
  Z.to_nat
    (u32 (history_index t - offset + TOUCHPAD_HISTORY_LENGTH)
       mod TOUCHPAD_HISTORY_LENGTH).

Definition tp_motion_history_offset (t : tp_touch) (offset : Z)
  : tp_history_point :=
  default zero_history_point
    (history_samples t !! tp_motion_history_offset_index t offset).

Definition tp_motion_history_push (t : tp_touch) : tp_touch :=
  let motion_index :=
    u32 (history_index t + 1) mod TOUCHPAD_HISTORY_LENGTH in
  let t :=
    if history_count t <? TOUCHPAD_HISTORY_LENGTH
    then set_history_count (u32 (history_count t + 1)) t
    else t in
  let t :=
    set_history_samples
      (<[Z.to_nat motion_index :=
           {| hp_time := t_time t; hp_point := t_point t |}]>
         (history_samples t)) t in
  set_history_index motion_index t.

Definition tp_motion_history_reset (t : tp_touch) : tp_touch :=
  set_history_count 0 t.

(** ** Fake-finger tracker *)

Definition tp_fake_finger_count (tp : tp_dispatch) : Z * tp_dispatch :=
  let tp' :=
    if popcount
         (clear_bits (fake_touches tp) (Z.lor FAKE_FINGER_OVERFLOW 1)) >? 1
    then log (evdev_log_bug_kernel
                (invalid_fake_finger_state (fake_touches tp))) tp
    else tp in
  if negb (Z.land (fake_touches tp) FAKE_FINGER_OVERFLOW =? 0)
  then (FAKE_FINGER_OVERFLOW, tp')
  else (* don't count BTN_TOUCH *)
    (ffs (Z.shiftr (fake_touches tp) 1), tp').

Definition tp_fake_finger_is_touching (tp : tp_dispatch) : bool :=
  negb (Z.land (fake_touches tp) 1 =? 0).

Definition tp_fake_finger_set (tp : tp_dispatch) (code : Z)
    (is_press : bool) : tp_dispatch :=
  let set_or_clear (tp : tp_dispatch) (shift : Z) : tp_dispatch :=
    if is_press
    then
      let tp :=
        set_fake_touches
          (clear_bits (fake_touches tp) FAKE_FINGER_OVERFLOW) tp in
      set_fake_touches (Z.lor (fake_touches tp) (Z.shiftl 1 shift)) tp
    else
      set_fake_touches (clear_bits (fake_touches tp) (Z.shiftl 1 shift)) tp
  in
  if code =? BTN_TOUCH then
    let tp :=
      if negb is_press
      then set_fake_touches
             (clear_bits (fake_touches tp) FAKE_FINGER_OVERFLOW) tp
      else tp in
    set_or_clear tp 0
  else if code =? BTN_TOOL_FINGER then
    set_or_clear tp 1
  else if (code =? BTN_TOOL_DOUBLETAP) || (code =? BTN_TOOL_TRIPLETAP)
          || (code =? BTN_TOOL_QUADTAP) then
    set_or_clear tp (code - BTN_TOOL_DOUBLETAP + 2)
  else if code =? BTN_TOOL_QUINTTAP then
    (* when QUINTTAP is released we're either switching to 6 fingers
       (flag stays in place until BTN_TOUCH is released) or one of
       DOUBLE/TRIPLE/QUADTAP (will clear the flag on press) *)
    if is_press
    then set_fake_touches (Z.lor (fake_touches tp) FAKE_FINGER_OVERFLOW) tp
    else tp
  else tp.

(** ** The life cycle of a touch *)

Definition tp_new_touch (tp : tp_dispatch) (i : nat) (time : Z)
  : tp_dispatch :=
  let t := touch tp i in
  match t_state t with
  | TOUCH_BEGIN | TOUCH_UPDATE | TOUCH_HOVERING => tp
  | TOUCH_MAYBE_END =>
      (* Bug #161: touch ends in the same event frame where it restarts
         again. That's a kernel bug, so let's complain. *)
      let tp :=
        log (evdev_log_bug_kernel
               (touch_ended_and_began_in_same_frame (t_index t))) tp in
      let tp := set_nfingers_down (u32 (nfingers_down tp + 1)) tp in
      set_touch i (set_t_has_ended false (set_t_state TOUCH_UPDATE t)) tp
  | TOUCH_NONE | TOUCH_END =>
      (* we begin the touch as hovering because until BTN_TOUCH happens
         we don't know if it's a touch down or not *)
      let t := tp_motion_history_reset t in
      let t := set_t_dirty true t in
      let t := set_t_has_ended false t in
      let t := set_t_was_down false t in
      let t := set_palm_state PALM_NONE t in
      let t := set_t_state TOUCH_HOVERING t in
      let t := set_pinned_is_pinned false t in
      let t := set_t_time time t in
      let t := set_speed_last_speed 0%float t in
      let t := set_speed_exceeded_count 0 t in
      let t := set_hysteresis_x_motion_history 0 t in
      set_queued (Z.lor (queued tp) TOUCHPAD_EVENT_MOTION) (set_touch i t tp)
  end.

Definition tp_begin_touch (tp : tp_dispatch) (i : nat) (time : Z)
  : option tp_dispatch :=
  let t := touch tp i in
  let t := set_t_dirty true t in
  let t := set_t_state TOUCH_BEGIN t in
  let t := set_t_time time t in
  let t := set_t_was_down true t in
  let tp := set_nfingers_down (u32 (nfingers_down tp + 1)) tp in
  let t := set_palm_time time t in
  let t := set_thumb_state THUMB_STATE_MAYBE t in
  let t := set_thumb_first_touch_time time t in
  let t := set_tap_is_thumb false t in
  let t := set_tap_is_palm false t in
  let t := set_speed_exceeded_count 0 t in
  if nfingers_down tp >=? 1
  then Some (set_hysteresis_last_motion_time time (set_touch i t tp))
  else None.

(** Schedule a touch to be ended, based on either the events or some
    attributes of the touch (size, pressure). *)
Definition tp_maybe_end_touch (tp : tp_dispatch) (i : nat) (time : Z)
  : option tp_dispatch :=
  let t := touch tp i in
  match t_state t with
  | TOUCH_NONE | TOUCH_MAYBE_END => Some tp
  | TOUCH_END =>
      Some (log (evdev_log_bug_libinput (already_in_TOUCH_END (t_index t)))
              tp)
  | TOUCH_HOVERING =>
      Some (set_touch i (set_t_dirty true (set_t_state TOUCH_NONE t)) tp)
  | TOUCH_BEGIN | TOUCH_UPDATE =>
      if nfingers_down tp >=? 1
      then
        let tp := set_nfingers_down (u32 (nfingers_down tp - 1)) tp in
        Some (set_touch i (set_t_dirty true (set_t_state TOUCH_MAYBE_END t))
                tp)
      else None
  end.

(** Inverse to [tp_maybe_end_touch], restores a touch back to its
    previous state. *)
Definition tp_recover_ended_touch (tp : tp_dispatch) (i : nat)
  : tp_dispatch :=
  let t := touch tp i in
  let t := set_t_dirty true t in
  let t := set_t_state TOUCH_UPDATE t in
  set_nfingers_down (u32 (nfingers_down tp + 1)) (set_touch i t tp).

(** End a touch, even if the touch sequence is still active. *)
Definition tp_end_touch (tp : tp_dispatch) (i : nat) (time : Z)
  : tp_dispatch :=
  let t := touch tp i in
  if decide (t_state t = TOUCH_MAYBE_END) then
    let t := set_t_dirty true t in
    let t := set_palm_state PALM_NONE t in
    let t := set_t_state TOUCH_END t in
    let t := set_pinned_is_pinned false t in
    let t := set_t_time time t in
    let t := set_palm_time 0 t in
    let t := set_speed_exceeded_count 0 t in
    set_queued (Z.lor (queued tp) TOUCHPAD_EVENT_MOTION) (set_touch i t tp)
  else
    log (evdev_log_bug_libinput
           (should_be_MAYBE_END (t_index t) (t_state t))) tp.

(** End the touch sequence on ABS_MT_TRACKING_ID -1 or when the
    BTN_TOOL_* 0 is received. *)
Definition tp_end_sequence (tp : tp_dispatch) (i : nat) (time : Z)
  : option tp_dispatch :=
  let tp := set_touch i (set_t_has_ended true (touch tp i)) tp in
  tp_maybe_end_touch tp i time.

Definition tp_stop_actions (tp : tp_dispatch) (time : Z) : tp_dispatch :=
  let tp := log (tp_edge_scroll_stop_events time) tp in
  let tp := log (tp_gesture_cancel time) tp in
  log (tp_tap_suspend time) tp.
(** ** Loops *)

(** [for] loops over a state (the dispatcher, with the local variables
    the loop updates, if any), with [assert] inside the body. *)
Fixpoint for_each {A S : Type} (l : list A) (body : S -> A -> option S)
    (s : S) : option S :=
  match l with
  | [] => Some s
  | a :: l' =>
      match body s a with
      | Some s' => for_each l' body s'
      | None => None
      end
  end.

(** The same with [break]: the body says whether the loop stops. *)
Inductive loop_exit := loop_continue | loop_break.

Fixpoint for_each_break {A S : Type} (l : list A)
    (body : S -> A -> option (loop_exit * S)) (s : S) : option S :=
  match l with
  | [] => Some s
  | a :: l' =>
      match body s a with
      | Some (loop_continue, s') => for_each_break l' body s'
      | Some (loop_break, s') => Some s'
      | None => None
      end
  end.

(** ** Collaborators

    Functions of the C library and of the other modules of the library
    the dispatcher calls for a value.  They are fixed for a device. *)
Record collaborators := {
  (* math.h: the C library's [hypot] on doubles *)
  hypot : float -> float -> float;
  (* evdev.h: device units to millimetres, by the axis resolutions *)
  evdev_device_unit_delta_to_mm : device_coords -> phys_coords;
  (* evdev-mt-touchpad.h: the same on a floating point delta *)
  tp_phys_delta : device_float_coords -> phys_coords;
  (* evdev.h: the set of compass directions of a vector *)
  phys_get_direction : phys_coords -> Z;
  (* evdev.h: [evdev_hysteresis in center margin] *)
  evdev_hysteresis :
    device_coords -> device_coords -> device_coords -> device_coords;
  (* evdev-mt-touchpad-buttons.c: the bits [tp_process_button] queues for
     a button code and value *)
  tp_process_button : Z -> Z -> Z;
  tp_button_is_inside_softbutton_area : tp_touch -> bool;
  tp_button_touch_active : tp_touch -> bool;
  (* evdev-mt-touchpad-edge-scroll.c *)
  tp_touch_get_edge : tp_touch -> Z;
  tp_edge_scroll_touch_active : tp_touch -> bool;
  (* evdev-mt-touchpad-tap.c and evdev-mt-touchpad-buttons.c: what
     [tp_tap_handle_state] and [tp_post_button_events] return, nonzero
     to filter the motion of the frame *)
  tp_tap_handle_state : tp_dispatch -> Z -> Z;
  tp_post_button_events : tp_dispatch -> Z -> Z
}.

Record input_event := { ev_type : Z; ev_code : Z; ev_value : Z }.

(** [length_in_mm] and [device_delta] of evdev.h. *)
Definition length_in_mm (ext : collaborators) (mm : phys_coords) : float :=
  hypot ext (mm_x mm) (mm_y mm).

Definition device_delta (a b : device_coords) : device_float_coords :=
  {| fx := Z2double (x a - x b); fy := Z2double (y a - y b) |}.

(** ** Frame decoder *)

Definition rotated (tp : tp_dispatch) (code : Z) (value : Z) : option Z :=
  if negb (device_left_handed_enabled tp) || negb (left_handed_rotate tp)
  then Some value
  else if (code =? ABS_X) || (code =? ABS_MT_POSITION_X) then
    Some (device_abs_x_maximum tp - (value - device_abs_x_minimum tp))
  else if (code =? ABS_Y) || (code =? ABS_MT_POSITION_Y) then
    Some (device_abs_y_maximum tp - (value - device_abs_y_minimum tp))
  else None.

Definition set_point_x (v : Z) (t : tp_touch) : tp_touch :=
  set_t_point {| x := v; y := y (t_point t) |} t.

Definition set_point_y (v : Z) (t : tp_touch) : tp_touch :=
  set_t_point {| x := x (t_point t); y := v |} t.

Definition queue (bits : Z) (tp : tp_dispatch) : tp_dispatch :=
  set_queued (Z.lor (queued tp) bits) tp.

Definition tp_process_absolute (tp : tp_dispatch) (e : input_event)
    (time : Z) : option tp_dispatch :=
  let i := tp_current_touch tp in
  let t := touch tp i in
  let code := ev_code e in
  if code =? ABS_MT_POSITION_X then
    match rotated tp code (ev_value e) with
    | Some v =>
        let t := set_t_dirty true (set_t_time time (set_point_x v t)) in
        Some (queue TOUCHPAD_EVENT_MOTION (set_touch i t tp))
    | None => None
    end
  else if code =? ABS_MT_POSITION_Y then
    match rotated tp code (ev_value e) with
    | Some v =>
        let t := set_t_dirty true (set_t_time time (set_point_y v t)) in
        Some (queue TOUCHPAD_EVENT_MOTION (set_touch i t tp))
    | None => None
    end
  else if code =? ABS_MT_SLOT then
    Some (set_slot (u32 (ev_value e)) tp)
  else if code =? ABS_MT_TRACKING_ID then
    if negb (ev_value e =? -1)
    then Some (tp_new_touch tp i time)
    else tp_end_sequence tp i time
  else if code =? ABS_MT_PRESSURE then
    let t :=
      set_t_dirty true (set_t_time time (set_t_pressure (ev_value e) t)) in
    Some (queue TOUCHPAD_EVENT_OTHERAXIS (set_touch i t tp))
  else if code =? ABS_MT_TOOL_TYPE then
    let t :=
      set_t_dirty true
        (set_t_time time
           (set_t_is_tool_palm (ev_value e =? MT_TOOL_PALM) t)) in
    Some (queue TOUCHPAD_EVENT_OTHERAXIS (set_touch i t tp))
  else if code =? ABS_MT_TOUCH_MAJOR then
    let t := set_t_dirty true (set_t_major (ev_value e) t) in
    Some (queue TOUCHPAD_EVENT_OTHERAXIS (set_touch i t tp))
  else if code =? ABS_MT_TOUCH_MINOR then
    let t := set_t_dirty true (set_t_minor (ev_value e) t) in
    Some (queue TOUCHPAD_EVENT_OTHERAXIS (set_touch i t tp))
  else Some tp.

Definition tp_process_absolute_st (tp : tp_dispatch) (e : input_event)
    (time : Z) : option tp_dispatch :=
  let i := tp_current_touch tp in
  let t := touch tp i in
  let code := ev_code e in
  if code =? ABS_X then
    match rotated tp code (ev_value e) with
    | Some v =>
        let t := set_t_dirty true (set_t_time time (set_point_x v t)) in
        Some (queue TOUCHPAD_EVENT_MOTION (set_touch i t tp))
    | None => None
    end
  else if code =? ABS_Y then
    match rotated tp code (ev_value e) with
    | Some v =>
        let t := set_t_dirty true (set_t_time time (set_point_y v t)) in
        Some (queue TOUCHPAD_EVENT_MOTION (set_touch i t tp))
    | None => None
    end
  else if code =? ABS_PRESSURE then
    let t :=
      set_t_dirty true (set_t_time time (set_t_pressure (ev_value e) t)) in
    Some (queue TOUCHPAD_EVENT_OTHERAXIS (set_touch i t tp))
  else Some tp.

Definition tp_restore_synaptics_touches (tp : tp_dispatch) (time : Z)
  : option tp_dispatch :=
  let '(nfake_touches, tp) := tp_fake_finger_count tp in
  if nfake_touches <? 3 then Some tp
  else if (nfingers_down tp >=? nfake_touches)
          || ((nfingers_down tp =? num_slots tp)
              && (nfake_touches =? num_slots tp))
  then Some tp
  else
    (* Synaptics devices may end touch 2 on BTN_TOOL_TRIPLETAP and start
       it again on the next frame with different coordinates (#91352). *)
    for_each (range 0 (num_slots tp))
      (fun tp i =>
         match tp_get_touch tp i with
         | Some t =>
             if decide (t_state (touch tp t) = TOUCH_MAYBE_END)
             then Some (tp_recover_ended_touch tp t)
             else Some tp
         | None => None
         end) tp.

Definition tp_process_fake_touches (tp : tp_dispatch) (time : Z)
  : option tp_dispatch :=
  let '(nfake_touches, tp) := tp_fake_finger_count tp in
  if nfake_touches =? FAKE_FINGER_OVERFLOW then Some tp
  else
    match
      (if negb (Z.land (device_model_flags tp)
                  EVDEV_MODEL_SYNAPTICS_SERIAL_TOUCHPAD =? 0)
       then tp_restore_synaptics_touches tp time
       else Some tp)
    with
    | None => None
    | Some tp =>
        let start := if has_mt tp then num_slots tp else 0 in
        for_each (range start (ntouches tp))
          (fun tp i =>
             match tp_get_touch tp i with
             | Some t =>
                 if i <? nfake_touches
                 then Some (tp_new_touch tp t time)
                 else tp_end_sequence tp t time
             | None => None
             end) tp
    end.

Definition tp_process_msc (tp : tp_dispatch) (e : input_event) (time : Z)
  : tp_dispatch :=
  if negb (ev_code e =? MSC_TIMESTAMP) then tp
  else
    queue TOUCHPAD_EVENT_TIMESTAMP
      (set_msc_timestamp_now (u32 (ev_value e)) tp).

(** ** Hover resolver *)

Definition touch_is_down (t : tp_touch) : bool :=
  bool_decide (t_state t = TOUCH_BEGIN)
  || bool_decide (t_state t = TOUCH_UPDATE).

Definition tp_unhover_pressure (tp : tp_dispatch) (time : Z)
  : option tp_dispatch :=
  let '(nfake_touches, tp) := tp_fake_finger_count tp in
  let nfake_touches :=
    if nfake_touches =? FAKE_FINGER_OVERFLOW then 0 else nfake_touches in
  match
    for_each (range 0 (num_slots tp))
      (fun '(tp, real_fingers_down) i =>
         match tp_get_touch tp i with
         | None => None
         | Some t =>
             if decide (t_state (touch tp t) = TOUCH_NONE)
             then Some (tp, real_fingers_down)
             else
               match
                 (if t_dirty (touch tp t) then
                    if decide (t_state (touch tp t) = TOUCH_HOVERING) then
                      if t_pressure (touch tp t) >=? pressure_high tp
                      then
                        (* avoid jumps when landing a finger *)
                        let tp := on_touch t tp_motion_history_reset tp in
                        tp_begin_touch tp t time
                      else Some tp
                    (* don't unhover for pressure if we have too many
                       fake fingers down.  Except for single-finger
                       touches where the real touch decides for the
                       rest. *)
                    else if (nfake_touches <=? num_slots tp)
                            || (num_slots tp =? 1) then
                      if t_pressure (touch tp t) <? pressure_low tp
                      then tp_maybe_end_touch tp t time
                      else Some tp
                    else Some tp
                  else Some tp)
               with
               | None => None
               | Some tp =>
                   Some (tp,
                         if touch_is_down (touch tp t)
                         then u32 (real_fingers_down + 1)
                         else real_fingers_down)
               end
         end) (tp, 0)
  with
  | None => None
  | Some (tp, real_fingers_down) =>
      if (nfake_touches <=? num_slots tp) || (nfingers_down tp =? 0)
      then Some tp
      else
        (* if we have more fake fingers down than slots, we assume _all_
           fingers have enough pressure, even if some of the slotted
           ones don't. *)
        match
          (if real_fingers_down >? 0 then
             for_each_break (tp_for_each_touch tp)
               (fun tp t =>
                  if decide (t_state (touch tp t) = TOUCH_HOVERING) then
                    (* avoid jumps when landing a finger *)
                    let tp := on_touch t tp_motion_history_reset tp in
                    match tp_begin_touch tp t time with
                    | None => None
                    | Some tp =>
                        Some (if nfingers_down tp >=? nfake_touches
                              then loop_break else loop_continue, tp)
                    end
                  else Some (loop_continue, tp)) tp
           else Some tp)
        with
        | None => None
        | Some tp =>
            if (nfingers_down tp >? nfake_touches)
               || (real_fingers_down =? 0)
            then
              for_each_break (rev (range 0 (ntouches tp)))
                (fun tp i =>
                   match tp_get_touch tp i with
                   | None => None
                   | Some t =>
                       match t_state (touch tp t) with
                       | TOUCH_HOVERING | TOUCH_NONE | TOUCH_MAYBE_END =>
                           Some (loop_continue, tp)
                       | _ =>
                           match tp_maybe_end_touch tp t time with
                           | None => None
                           | Some tp =>
                               Some (if (real_fingers_down >? 0)
                                        && (nfingers_down tp
                                            =? nfake_touches)
                                     then loop_break else loop_continue,
                                     tp)
                           end
                       end
                   end) tp
            else Some tp
        end
  end.

Definition tp_unhover_size (tp : tp_dispatch) (time : Z)
  : option tp_dispatch :=
  let low := touch_size_low tp in
  let high := touch_size_high tp in
  (* We require 5 slots for size handling, so we don't need to care about
     fake touches here *)
  for_each (range 0 (num_slots tp))
    (fun tp i =>
       match tp_get_touch tp i with
       | None => None
       | Some t =>
           if decide (t_state (touch tp t) = TOUCH_NONE) then Some tp
           else if negb (t_dirty (touch tp t)) then Some tp
           else if decide (t_state (touch tp t) = TOUCH_HOVERING) then
             if ((t_major (touch tp t) >? high)
                 && (t_minor (touch tp t) >? low))
                || ((t_major (touch tp t) >? low)
                    && (t_minor (touch tp t) >? high))
             then
               (* avoid jumps when landing a finger *)
               let tp := on_touch t tp_motion_history_reset tp in
               tp_begin_touch tp t time
             else Some tp
           else
             if (t_major (touch tp t) <? low)
                || (t_minor (touch tp t) <? low)
             then tp_maybe_end_touch tp t time
             else Some tp
       end) tp.

Definition tp_unhover_fake_touches (tp : tp_dispatch) (time : Z)
  : option tp_dispatch :=
  if (fake_touches tp =? 0) && (nfingers_down tp =? 0) then Some tp
  else
    let '(nfake_touches, tp) := tp_fake_finger_count tp in
    if nfake_touches =? FAKE_FINGER_OVERFLOW then Some tp
    else if (nfingers_down tp =? nfake_touches)
            && (((nfingers_down tp =? 0)
                 && negb (tp_fake_finger_is_touching tp))
                || ((nfingers_down tp >? 0)
                    && tp_fake_finger_is_touching tp))
    then Some tp
    else
      (* if BTN_TOUCH is set and we have less fingers down than fake
         touches, switch each hovering touch to BEGIN until
         nfingers_down matches nfake_touches *)
      match
        (if tp_fake_finger_is_touching tp
            && (nfingers_down tp <? nfake_touches)
         then
           for_each_break (tp_for_each_touch tp)
             (fun tp t =>
                if decide (t_state (touch tp t) = TOUCH_HOVERING) then
                  match tp_begin_touch tp t time with
                  | None => None
                  | Some tp =>
                      Some (if nfingers_down tp >=? nfake_touches
                            then loop_break else loop_continue, tp)
                  end
                else Some (loop_continue, tp)) tp
         else Some tp)
      with
      | None => None
      | Some tp =>
          (* if BTN_TOUCH is unset end all touches, we're hovering now.
             If we have too many touches also end some of them.  This is
             done in reverse order. *)
          if (nfingers_down tp >? nfake_touches)
             || negb (tp_fake_finger_is_touching tp)
          then
            for_each_break (rev (range 0 (ntouches tp)))
              (fun tp i =>
                 match tp_get_touch tp i with
                 | None => None
                 | Some t =>
                     match t_state (touch tp t) with
                     | TOUCH_HOVERING | TOUCH_NONE =>
                         Some (loop_continue, tp)
                     | _ =>
                         match tp_maybe_end_touch tp t time with
                         | None => None
                         | Some tp =>
                             Some (if tp_fake_finger_is_touching tp
                                      && (nfingers_down tp
                                          =? nfake_touches)
                                   then loop_break else loop_continue,
                                   tp)
                         end
                     end
                 end) tp
          else Some tp
      end.

Definition tp_unhover_touches (tp : tp_dispatch) (time : Z)
  : option tp_dispatch :=
  if pressure_use_pressure tp then tp_unhover_pressure tp time
  else if touch_size_use_touch_size tp then tp_unhover_size tp time
  else tp_unhover_fake_touches tp time.

Definition BTN_LEFT : Z := 272.
Definition BTN_RIGHT : Z := 273.
Definition BTN_MIDDLE : Z := 274.

Section Dispatcher.

(** The collaborators of the device at hand. *)
Variable ext : collaborators.

Definition tp_process_key (tp : tp_dispatch) (e : input_event) (time : Z)
  : tp_dispatch :=
  let code := ev_code e in
  if (code =? BTN_LEFT) || (code =? BTN_MIDDLE) || (code =? BTN_RIGHT) then
    queue (tp_process_button ext code (ev_value e)) tp
  else if (code =? BTN_TOUCH) || (code =? BTN_TOOL_FINGER)
          || (code =? BTN_TOOL_DOUBLETAP) || (code =? BTN_TOOL_TRIPLETAP)
          || (code =? BTN_TOOL_QUADTAP) || (code =? BTN_TOOL_QUINTTAP) then
    tp_fake_finger_set tp code (negb (ev_value e =? 0))
  else
    (* BTN_0, BTN_1, BTN_2 are forwarded to the trackpoint *)
    tp.

(** ** Pinning *)

Definition tp_unpin_finger (tp : tp_dispatch) (t : tp_touch) : tp_touch :=
  if negb (pinned_is_pinned t) then t
  else
    let delta :=
      {| x := Z.abs (x (t_point t) - x (pinned_center t));
         y := Z.abs (y (t_point t) - y (pinned_center t)) |} in
    let mm := evdev_device_unit_delta_to_mm ext delta in
    (* 1.5mm movement -> unpin *)
    if dge (hypot ext (mm_x mm) (mm_y mm)) 1.5%float
    then set_pinned_is_pinned false t
    else t.

Definition tp_pin_fingers (tp : tp_dispatch) : tp_dispatch :=
  set_touches
    (map (fun t => set_pinned_center (t_point t) (set_pinned_is_pinned true t))
       (touches tp)) tp.

Definition tp_touch_active (tp : tp_dispatch) (t : tp_touch) : bool :=
  touch_is_down t
  && bool_decide (palm_state t = PALM_NONE)
  && negb (pinned_is_pinned t)
  && negb (bool_decide (thumb_state t = THUMB_STATE_YES))
  && tp_button_touch_active ext t
  && tp_edge_scroll_touch_active ext t.

(** ** Palm classifier *)

Definition tp_palm_was_in_side_edge (tp : tp_dispatch) (t : tp_touch)
  : bool :=
  (x (palm_first t) <? palm_left_edge tp)
  || (x (palm_first t) >? palm_right_edge tp).

Definition tp_palm_was_in_top_edge (tp : tp_dispatch) (t : tp_touch)
  : bool :=
  y (palm_first t) <? palm_upper_edge tp.

Definition tp_palm_in_side_edge (tp : tp_dispatch) (t : tp_touch) : bool :=
  (x (t_point t) <? palm_left_edge tp)
  || (x (t_point t) >? palm_right_edge tp).

Definition tp_palm_in_top_edge (tp : tp_dispatch) (t : tp_touch) : bool :=
  y (t_point t) <? palm_upper_edge tp.

Definition tp_palm_in_edge (tp : tp_dispatch) (t : tp_touch) : bool :=
  tp_palm_in_side_edge tp t || tp_palm_in_top_edge tp t.

Definition tp_palm_tap_is_palm (tp : tp_dispatch) (t : tp_touch) : bool :=
  if negb (bool_decide (t_state t = TOUCH_BEGIN)) then false
  else if negb (tp_palm_in_edge tp t) then false
  else true.

Definition tp_palm_detect_dwt_triggered (tp : tp_dispatch) (i : nat)
    (time : Z) : bool * tp_dispatch :=
  let t := touch tp i in
  if dwt_dwt_enabled tp && dwt_keyboard_active tp
     && bool_decide (t_state t = TOUCH_BEGIN) then
    let t := set_palm_state PALM_TYPING t in
    let t := set_palm_first (t_point t) t in
    (true, set_touch i t tp)
  else if negb (dwt_keyboard_active tp)
          && bool_decide (t_state t = TOUCH_UPDATE)
          && bool_decide (palm_state t = PALM_TYPING) then
    (* If a touch has started before the first or after the last key
       press, release it on timeout. *)
    if (palm_time t =? 0)
       || (palm_time t >? dwt_keyboard_last_press_time tp)
    then (false, set_touch i (set_palm_state PALM_NONE t) tp)
    else (false, tp)
  else (false, tp).

Definition tp_palm_detect_trackpoint_triggered (tp : tp_dispatch) (i : nat)
    (time : Z) : bool * tp_dispatch :=
  let t := touch tp i in
  if negb (palm_monitor_trackpoint tp) then (false, tp)
  else if bool_decide (palm_state t = PALM_NONE)
          && bool_decide (t_state t = TOUCH_BEGIN)
          && palm_trackpoint_active tp then
    (true, set_touch i (set_palm_state PALM_TRACKPOINT t) tp)
  else if bool_decide (palm_state t = PALM_TRACKPOINT)
          && bool_decide (t_state t = TOUCH_UPDATE)
          && negb (palm_trackpoint_active tp) then
    if (palm_time t =? 0)
       || (palm_time t >? palm_trackpoint_last_event_time tp)
    then (false, set_touch i (set_palm_state PALM_NONE t) tp)
    else (false, tp)
  else (false, tp).

Definition tp_palm_detect_tool_triggered (tp : tp_dispatch) (i : nat)
    (time : Z) : bool * tp_dispatch :=
  let t := touch tp i in
  if negb (palm_use_mt_tool tp) then (false, tp)
  else if negb (bool_decide (palm_state t = PALM_NONE))
          && negb (bool_decide (palm_state t = PALM_TOOL_PALM)) then
    (false, tp)
  else
    let tp :=
      if bool_decide (palm_state t = PALM_NONE) && t_is_tool_palm t
      then set_touch i (set_palm_state PALM_TOOL_PALM t) tp
      else if bool_decide (palm_state t = PALM_TOOL_PALM)
              && negb (t_is_tool_palm t)
      then set_touch i (set_palm_state PALM_NONE t) tp
      else tp in
    (bool_decide (palm_state (touch tp i) = PALM_TOOL_PALM), tp).

Definition tp_palm_detect_move_out_of_edge (tp : tp_dispatch) (i : nat)
    (time : Z) : bool :=
  let t := touch tp i in
  let PALM_TIMEOUT := ms2us 200 in
  if (time <? u64 (palm_time t + PALM_TIMEOUT))
     && negb (tp_palm_in_edge tp t) then
    let directions :=
      if tp_palm_was_in_side_edge tp t then
        Z.lor dir_NE (Z.lor dir_E (Z.lor dir_SE
          (Z.lor dir_SW (Z.lor dir_W dir_NW))))
      else if tp_palm_was_in_top_edge tp t then
        Z.lor dir_S (Z.lor dir_SE dir_SW)
      else 0 in
    if negb (directions =? 0) then
      let delta := device_delta (t_point t) (palm_first t) in
      let dirs := phys_get_direction ext (tp_phys_delta ext delta) in
      negb (Z.land dirs directions =? 0)
      && (Z.land dirs (Z.lnot directions) =? 0)
    else false
  else false.

Definition tp_palm_detect_multifinger (tp : tp_dispatch) (i : nat)
    (time : Z) : bool :=
  if nfingers_down tp <? 2 then false
  else
    (* If we have at least one other active non-palm touch make this
       touch non-palm too. *)
    existsb
      (fun other =>
         negb (Nat.eqb other i)
         && tp_touch_active tp (touch tp other)
         && bool_decide (palm_state (touch tp other) = PALM_NONE))
      (tp_for_each_touch tp).

Definition tp_palm_detect_touch_size_triggered (tp : tp_dispatch) (i : nat)
    (time : Z) : bool * tp_dispatch :=
  let t := touch tp i in
  if negb (palm_use_size tp) then (false, tp)
  (* If a finger size is large enough for palm, we stick with that and
     force the user to release and reset the finger *)
  else if negb (bool_decide (palm_state t = PALM_NONE))
          && negb (bool_decide (palm_state t = PALM_TOUCH_SIZE)) then
    (false, tp)
  else if (t_major t >? palm_size_threshold tp)
          || (t_minor t >? palm_size_threshold tp) then
    (true, set_touch i (set_palm_state PALM_TOUCH_SIZE t) tp)
  else (false, tp).

Definition tp_palm_detect_edge (tp : tp_dispatch) (i : nat) (time : Z)
  : bool * tp_dispatch :=
  let t := touch tp i in
  if bool_decide (palm_state t = PALM_EDGE) then
    if tp_palm_detect_multifinger tp i time then
      (false, set_touch i (set_palm_state PALM_NONE t) tp)
    (* If labelled a touch as palm, we unlabel as palm when we move out
       of the palm edge zone within the timeout, provided the direction
       is within 45 degrees of the horizontal. *)
    else if tp_palm_detect_move_out_of_edge tp i time then
      (false, set_touch i (set_palm_state PALM_NONE t) tp)
    else (false, tp)
  else if tp_palm_detect_multifinger tp i time then (false, tp)
  (* palm must start in exclusion zone, it's ok to move into the zone
     without being a palm *)
  else if negb (bool_decide (t_state t = TOUCH_BEGIN))
          || negb (tp_palm_in_edge tp t) then (false, tp)
  (* don't detect palm in software button areas *)
  else if buttons_is_clickpad tp
          && tp_button_is_inside_softbutton_area ext t then (false, tp)
  else if negb (Z.land (tp_touch_get_edge ext t) EDGE_RIGHT =? 0) then
    (false, tp)
  else
    let t := set_palm_state PALM_EDGE t in
    let t := set_palm_time time t in
    let t := set_palm_first (t_point t) t in
    (true, set_touch i t tp).

Definition tp_palm_detect_pressure_triggered (tp : tp_dispatch) (i : nat)
    (time : Z) : bool * tp_dispatch :=
  let t := touch tp i in
  if negb (palm_use_pressure tp) then (false, tp)
  else if negb (bool_decide (palm_state t = PALM_NONE))
          && negb (bool_decide (palm_state t = PALM_PRESSURE)) then
    (false, tp)
  else
    let tp :=
      if t_pressure t >? palm_pressure_threshold tp
      then set_touch i (set_palm_state PALM_PRESSURE t) tp
      else tp in
    (bool_decide (palm_state (touch tp i) = PALM_PRESSURE), tp).

Definition tp_palm_detect_arbitration_triggered (tp : tp_dispatch)
    (i : nat) (time : Z) : bool * tp_dispatch :=
  if bool_decide (arbitration_state tp = ARBITRATION_NOT_ACTIVE)
  then (false, tp)
  else (true, set_touch i (set_palm_state PALM_ARBITRATION (touch tp i)) tp).

(** The label [out] of [tp_palm_detect]: nothing but a debug message,
    and [abort] when a trigger reported a palm whose state is
    [PALM_NONE]. *)
Definition tp_palm_detect_out (oldstate : touch_palm_state)
    (tp : tp_dispatch) (i : nat) : option tp_dispatch :=
  if decide (oldstate = palm_state (touch tp i)) then Some tp
  else
    match palm_state (touch tp i) with
    | PALM_NONE => None
    | _ => Some tp
    end.

Definition tp_palm_detect (tp : tp_dispatch) (i : nat) (time : Z)
  : option tp_dispatch :=
  let oldstate := palm_state (touch tp i) in
  let '(r, tp) := tp_palm_detect_pressure_triggered tp i time in
  if r then tp_palm_detect_out oldstate tp i else
  let '(r, tp) := tp_palm_detect_arbitration_triggered tp i time in
  if r then tp_palm_detect_out oldstate tp i else
  let '(r, tp) := tp_palm_detect_dwt_triggered tp i time in
  if r then tp_palm_detect_out oldstate tp i else
  let '(r, tp) := tp_palm_detect_trackpoint_triggered tp i time in
  if r then tp_palm_detect_out oldstate tp i else
  let '(r, tp) := tp_palm_detect_tool_triggered tp i time in
  if r then tp_palm_detect_out oldstate tp i else
  let '(r, tp) := tp_palm_detect_touch_size_triggered tp i time in
  if r then tp_palm_detect_out oldstate tp i else
  let '(r, tp) := tp_palm_detect_edge tp i time in
  if r then tp_palm_detect_out oldstate tp i else
  (* Pressure is highest priority because it cannot be released and
     overrides all other checks.  So we check once before anything else
     in case pressure triggers on a non-palm touch.  And again after
     everything in case one of the others released but we have a
     pressure trigger now. *)
  let '(r, tp) := tp_palm_detect_pressure_triggered tp i time in
  if r then tp_palm_detect_out oldstate tp i else
  Some tp.

(** ** Thumb classifier *)

Definition tp_thumb_detect (tp : tp_dispatch) (i : nat) (time : Z)
  : tp_dispatch :=
  let t := touch tp i in
  (* once a thumb, always a thumb, once ruled out always ruled out *)
  if negb (thumb_detect_thumbs tp)
     || negb (bool_decide (thumb_state t = THUMB_STATE_MAYBE)) then tp
  else if y (t_point t) <? thumb_upper_thumb_line tp then
    (* if a potential thumb is above the line, it won't ever label as
       thumb *)
    set_touch i (set_thumb_state THUMB_STATE_NO t) tp
  else
    (* If the thumb moves by more than 7mm, it's not a resting thumb *)
    let moved :=
      bool_decide (t_state t = TOUCH_UPDATE)
      && dgt (length_in_mm ext
                (tp_phys_delta ext
                   (device_delta (t_point t) (thumb_initial t))))
             (Z2double 7) in
    if moved then set_touch i (set_thumb_state THUMB_STATE_NO t) tp
    else
      let tp :=
        if bool_decide (t_state t = TOUCH_BEGIN)
        then set_touch i (set_thumb_initial (t_point t) t) tp
        else tp in
      (* If the finger is below the upper thumb line and we have another
         finger in the same area, neither finger is a thumb (unless
         we've already labeled it as such). *)
      let tp :=
        if (y (t_point (touch tp i)) >? thumb_upper_thumb_line tp)
           && (nfingers_down tp >? 1) then
          match
            find (fun other =>
                    touch_is_down (touch tp other)
                    && (y (t_point (touch tp other))
                        >? thumb_upper_thumb_line tp))
              (tp_for_each_touch tp)
          with
          | Some other =>
              let tp := on_touch i (set_thumb_state THUMB_STATE_NO) tp in
              if bool_decide
                   (thumb_state (touch tp other) = THUMB_STATE_MAYBE)
              then on_touch other (set_thumb_state THUMB_STATE_NO) tp
              else tp
          | None => tp
          end
        else tp in
      (* Note: a thumb at the edge of the touchpad won't trigger the
         threshold, the surface area is usually too small.  So we have a
         two-stage detection: pressure and time within the area. *)
      let t := touch tp i in
      if thumb_use_pressure tp
         && (t_pressure t >? thumb_pressure_threshold tp) then
        set_touch i (set_thumb_state THUMB_STATE_YES t) tp
      else if thumb_use_size tp
              && (t_major t >? thumb_size_threshold tp)
              && dlt (Z2double (t_minor t))
                     (Z2double (thumb_size_threshold tp)
                      * 0x1.3333333333333p-1 (* 0.6 *))%float then
        set_touch i (set_thumb_state THUMB_STATE_YES t) tp
      else if (y (t_point t) >? thumb_lower_thumb_line tp)
              && negb (bool_decide
                         (scroll_method tp = LIBINPUT_CONFIG_SCROLL_EDGE))
              && (u64 (thumb_first_touch_time t + THUMB_MOVE_TIMEOUT)
                  <? time) then
        set_touch i (set_thumb_state THUMB_STATE_YES t) tp
      else tp.

(** The loop of [tp_detect_thumb_while_moving] that finds [first] (a
    touch that is down but did not begin in this frame) and [second]
    (one that began in this frame). *)
Definition first_and_second (tp : tp_dispatch)
  : option nat * option nat :=
  default (None, None)
    (for_each_break (tp_for_each_touch tp)
       (fun '(first, second) t =>
          match t_state (touch tp t) with
          | TOUCH_NONE | TOUCH_HOVERING =>
              Some (loop_continue, (first, second))
          | st =>
              let '(first, second) :=
                if negb (bool_decide (st = TOUCH_BEGIN))
                then (Some t, second)
                else (first, Some t) in
              Some (if bool_decide (is_Some first)
                       && bool_decide (is_Some second)
                    then loop_break else loop_continue, (first, second))
          end) (None, None)).

Definition tp_detect_thumb_while_moving (tp : tp_dispatch)
  : option tp_dispatch :=
  match first_and_second tp with
  | (Some first, Some second) =>
      let near :=
        if bool_decide (scroll_method tp = LIBINPUT_CONFIG_SCROLL_2FG) then
          (* If the second finger comes down next to the other one, we
             assume this is a scroll motion. *)
          let distance :=
            {| x := Z.abs (x (t_point (touch tp first))
                           - x (t_point (touch tp second)));
               y := Z.abs (y (t_point (touch tp first))
                           - y (t_point (touch tp second))) |} in
          let mm := evdev_device_unit_delta_to_mm ext distance in
          dle (mm_x mm) (Z2double 25) && dle (mm_y mm) (Z2double 15)
        else false in
      if near then Some tp
      else
        (* Finger are too far apart or 2fg scrolling is disabled, mark
           second finger as thumb *)
        Some (on_touch second (set_thumb_state THUMB_STATE_YES) tp)
  | _ => None (* assert(first); assert(second); *)
  end.

(** ** Jump detector *)

Definition tp_detect_jumps (tp : tp_dispatch) (i : nat) (time : Z)
  : bool * tp_dispatch :=
  let t := touch tp i in
  (* Reference interval from the touchpad the various thresholds were
     measured from *)
  let reference_interval := u32 (ms2us 12) in
  (* We haven't seen pointer jumps on Wacom tablets yet, so exclude
     those. *)
  if negb (Z.land (device_model_flags tp) EVDEV_MODEL_WACOM_TOUCHPAD =? 0)
  then (false, tp)
  else if history_count t =? 0 then
    (false, set_touch i (set_jumps_last_delta_mm 0%float t) tp)
  else
    (* called before tp_motion_history_push, so offset 0 is the most
       recent coordinate *)
    let last := tp_motion_history_offset t 0 in
    let tdelta := u64 (time - hp_time last) in
    (* For test devices we always force the time delta to 12, at least
       until the test suite actually does proper intervals. *)
    let reference_interval :=
      if negb (Z.land (device_model_flags tp) EVDEV_MODEL_TEST_DEVICE =? 0)
      then u32 tdelta
      else reference_interval in
    (* If the last frame is more than 25ms ago, we have irregular
       frames, who knows what's a pointer jump here and what's
       legitimate movement.... *)
    if (tdelta >? u32 (2 * reference_interval)) || (tdelta =? 0)
    then (false, tp)
    else
      let delta :=
        {| x := Z.abs (x (t_point t) - x (hp_point last));
           y := Z.abs (y (t_point t) - y (hp_point last)) |} in
      let mm := evdev_device_unit_delta_to_mm ext delta in
      let abs_distance :=
        (hypot ext (mm_x mm) (mm_y mm) * Z2double reference_interval
         / Z2double tdelta)%float in
      let rel_distance := (abs_distance - jumps_last_delta_mm t)%float in
      (* Cursor jump if:
         - current single-event delta is >20mm, or
         - we increased the delta by over 7mm within a 12ms frame. *)
      let is_jump :=
        dgt abs_distance 20%float || dgt rel_distance (Z2double 7) in
      (is_jump, set_touch i (set_jumps_last_delta_mm abs_distance t) tp).

(** ** MSC_TIMESTAMP jump corrector *)

(** Rewrite the motion history so that previous points' timestamps are
    the current point's timestamp minus whatever MSC_TIMESTAMP gives
    us. *)
Definition tp_motion_history_fix_last (t : tp_touch)
    (jumping_interval normal_interval : Z) (time : Z) : tp_touch :=
  if negb (bool_decide (t_state t = TOUCH_UPDATE)) then t
  else
    fold_left
      (fun t i =>
         let p := tp_motion_history_offset_index t i in
         set_history_samples
           (alter
              (fun s =>
                 {| hp_time :=
                      u64 (time - jumping_interval
                           - u32 (normal_interval * i));
                    hp_point := hp_point s |})
              p (history_samples t)) t)
      (range 0 (history_count t)) t.

Definition tp_process_msc_timestamp (tp : tp_dispatch) (time : Z)
  : tp_dispatch :=
  if msc_timestamp_now tp =? 0 then
    set_msc_timestamp_interval 0
      (set_msc_timestamp_state JUMP_STATE_EXPECT_FIRST tp)
  else
    match msc_timestamp_state tp with
    | JUMP_STATE_EXPECT_FIRST =>
        if msc_timestamp_now tp >? ms2us 20 then
          set_msc_timestamp_state JUMP_STATE_IGNORE tp
        else
          set_msc_timestamp_interval (msc_timestamp_now tp)
            (set_msc_timestamp_state JUMP_STATE_EXPECT_DELAY tp)
    | JUMP_STATE_EXPECT_DELAY =>
        if msc_timestamp_now tp >? u32 (msc_timestamp_interval tp * 2) then
          (* The current time is > 2 times the interval so we have a
             jump.  Fix the motion history *)
          let tdelta :=
            u32 (msc_timestamp_now tp - msc_timestamp_interval tp) in
          let tp :=
            set_touches
              (map (fun t =>
                      tp_motion_history_fix_last t tdelta
                        (msc_timestamp_interval tp) time)
                 (touches tp)) tp in
          let tp := set_msc_timestamp_state JUMP_STATE_IGNORE tp in
          (* We need to restart the acceleration filter to forget its
             history. *)
          log (filter_restart (u64 (time - tdelta))) tp
        else tp
    | JUMP_STATE_IGNORE => tp
    end.

(** ** Wobble detection, hysteresis and speed *)

Definition tp_detect_wobbling (tp : tp_dispatch) (i : nat) (time : Z)
  : tp_dispatch :=
  let t := touch tp i in
  if negb (nfingers_down tp =? 1)
     || negb (nfingers_down tp =? old_nfingers_down tp) then tp
  else if hysteresis_enabled tp || (history_count t =? 0) then tp
  else if Z.land (queued tp) TOUCHPAD_EVENT_MOTION =? 0 then
    set_touch i (set_hysteresis_x_motion_history 0 t) tp
  else
    let prev_point := hp_point (tp_motion_history_offset t 0) in
    let dx := x prev_point - x (t_point t) in
    let dy := y prev_point - y (t_point t) in
    let dtime := u64 (time - hysteresis_last_motion_time tp) in
    let tp := set_hysteresis_last_motion_time time tp in
    if ((dx =? 0) && negb (dy =? 0)) || (dtime >? ms2us 40) then
      set_touch i (set_hysteresis_x_motion_history 0 t) tp
    else
      let t :=
        set_hysteresis_x_motion_history
          (Z.shiftr (hysteresis_x_motion_history t) 1) t in
      if dx >? 0 then (* right move *)
        let t :=
          set_hysteresis_x_motion_history
            (u8 (Z.lor (hysteresis_x_motion_history t) (Z.shiftl 1 2))) t in
        let tp := set_touch i t tp in
        if hysteresis_x_motion_history t =? 5 (* {Right, Left, Right} *)
        then set_hysteresis_enabled true tp
        else tp
      else set_touch i t tp.

Definition tp_motion_hysteresis (tp : tp_dispatch) (t : tp_touch)
  : tp_touch :=
  if negb (hysteresis_enabled tp) then t
  else
    let t :=
      if history_count t >? 0
      then set_t_point
             (evdev_hysteresis ext (t_point t) (hysteresis_center t)
                (hysteresis_margin tp)) t
      else t in
    set_hysteresis_center (t_point t) t.

Definition tp_calculate_motion_speed (tp : tp_dispatch) (t : tp_touch)
  : tp_touch :=
  (* Don't do this on single-touch or semi-mt devices *)
  if negb (has_mt tp) || semi_mt tp then t
  else if negb (bool_decide (t_state t = TOUCH_UPDATE)) then t
  (* This doesn't kick in until we have at least 4 events in the motion
     history. *)
  else if history_count t <? 4 then t
  else
    let last := tp_motion_history_offset t 1 in
    let delta :=
      {| x := Z.abs (x (t_point t) - x (hp_point last));
         y := Z.abs (y (t_point t) - y (hp_point last)) |} in
    let mm := evdev_device_unit_delta_to_mm ext delta in
    let distance := length_in_mm ext mm in
    let speed :=
      (distance / Z2double (u64 (t_time t - hp_time last)))%float in
    let speed := (speed * Z2double 1000000)%float in
    set_speed_last_speed speed t.

(** ** Frame pipeline *)

Definition tp_pre_process_state (tp : tp_dispatch) (time : Z)
  : option tp_dispatch :=
  let tp :=
    if negb (Z.land (queued tp) TOUCHPAD_EVENT_TIMESTAMP =? 0)
    then tp_process_msc_timestamp tp time
    else tp in
  match tp_process_fake_touches tp time with
  | None => None
  | Some tp =>
      match tp_unhover_touches tp time with
      | None => None
      | Some tp =>
          for_each (tp_for_each_touch tp)
            (fun tp t =>
               let tp :=
                 if decide (t_state (touch tp t) = TOUCH_MAYBE_END)
                 then tp_end_touch tp t time
                 else tp in
               (* Ignore motion when pressure/touch size fell below the
                  threshold, thus ending the touch *)
               if bool_decide (t_state (touch tp t) = TOUCH_END)
                  && (history_count (touch tp t) >? 0)
               then
                 Some (on_touch t
                         (fun t =>
                            set_t_point
                              (hp_point (tp_motion_history_offset t 0)) t)
                         tp)
               else Some tp) tp
      end
  end.

Definition tp_position_fake_touches (tp : tp_dispatch)
  : option tp_dispatch :=
  let '(nfake_touches, tp) := tp_fake_finger_count tp in
  if (nfake_touches <=? num_slots tp) || (nfingers_down tp =? 0)
  then Some tp
  else
    (* We have at least one fake touch down.  Find the top-most real
       touch and copy its coordinates over to to all fake touches. *)
    match
      for_each (range 0 (num_slots tp))
        (fun (topmost : option nat) i =>
           match tp_get_touch tp i with
           | None => None
           | Some t =>
               match t_state (touch tp t) with
               | TOUCH_END | TOUCH_NONE => Some topmost
               | _ =>
                   match topmost with
                   | None => Some (Some t)
                   | Some top =>
                       if y (t_point (touch tp t))
                          <? y (t_point (touch tp top))
                       then Some (Some t)
                       else Some topmost
                   end
               end
           end) None
    with
    | None => None
    | Some None =>
        Some (log (evdev_log_bug_libinput unable_to_find_topmost_touch) tp)
    | Some (Some topmost) =>
        let start := if has_mt tp then num_slots tp else 1 in
        for_each (range start (ntouches tp))
          (fun tp i =>
             match tp_get_touch tp i with
             | None => None
             | Some t =>
                 if decide (t_state (touch tp t) = TOUCH_NONE) then Some tp
                 else
                   let tp :=
                     on_touch t (set_t_point (t_point (touch tp topmost)))
                       tp in
                   let tp :=
                     on_touch t
                       (set_t_pressure (t_pressure (touch tp topmost))) tp in
                   if negb (t_dirty (touch tp t))
                   then Some (on_touch t
                                (set_t_dirty (t_dirty (touch tp topmost)))
                                tp)
                   else Some tp
             end) tp
    end.

Definition tp_need_motion_history_reset (tp : tp_dispatch)
  : bool * tp_dispatch :=
  (* Changing the numbers of fingers can cause a jump in the coordinates,
     always reset the motion history for all touches when that
     happens. *)
  if negb (nfingers_down tp =? old_nfingers_down tp) then (true, tp)
  (* Quirk: if we had multiple events without x/y axis information, the
     next x/y event is going to be a jump. *)
  else if negb (Z.land (device_model_flags tp)
                  EVDEV_MODEL_LENOVO_T450_TOUCHPAD =? 0) then
    let '(rc, tp) :=
      if negb (Z.land (queued tp) TOUCHPAD_EVENT_MOTION =? 0) then
        let '(rc, tp) :=
          if quirks_nonmotion_event_count tp >? 10
          then (true,
                set_queued (clear_bits (queued tp) TOUCHPAD_EVENT_MOTION) tp)
          else (false, tp) in
        (rc, set_quirks_nonmotion_event_count 0 tp)
      else (false, tp) in
    let tp :=
      if Z.land (queued tp)
           (Z.lor TOUCHPAD_EVENT_OTHERAXIS TOUCHPAD_EVENT_MOTION)
         =? TOUCHPAD_EVENT_OTHERAXIS
      then set_quirks_nonmotion_event_count
             (u32 (quirks_nonmotion_event_count tp + 1)) tp
      else tp in
    (rc, tp)
  else (false, tp).

(** The local variables of [tp_process_state]. *)
Record process_locals := {
  restart_filter : bool;
  have_new_touch : bool;
  speed_exceeded_count_max : Z (* unsigned int speed_exceeded_count *)
}.

(** The body of the loop of [tp_process_state], for the touch [i]. *)
Definition tp_process_state_touch (want_motion_reset : bool) (time : Z)
    (s : tp_dispatch * process_locals) (i : nat)
  : option (tp_dispatch * process_locals) :=
  let '(tp, l) := s in
  if decide (t_state (touch tp i) = TOUCH_NONE) then Some (tp, l)
  else
    let tp :=
      if want_motion_reset then
        on_touch i
          (fun t =>
             set_quirks_reset_motion_history true
               (tp_motion_history_reset t)) tp
      else if quirks_reset_motion_history (touch tp i) then
        on_touch i
          (fun t =>
             set_quirks_reset_motion_history false
               (tp_motion_history_reset t)) tp
      else tp in
    if negb (t_dirty (touch tp i)) then
      (* A non-dirty touch must be below the speed limit *)
      let tp :=
        if speed_exceeded_count (touch tp i) >? 0
        then on_touch i
               (fun t =>
                  set_speed_exceeded_count
                    (u32 (speed_exceeded_count t - 1)) t) tp
        else tp in
      Some (tp,
            {| restart_filter := restart_filter l;
               have_new_touch := have_new_touch l;
               speed_exceeded_count_max :=
                 Z.max (speed_exceeded_count_max l)
                   (speed_exceeded_count (touch tp i)) |})
    else
      let '(is_jump, tp) := tp_detect_jumps tp i time in
      let tp :=
        if is_jump then
          let tp :=
            if negb (semi_mt tp)
            then log (evdev_log_bug_kernel
                        touch_jump_detected_and_discarded) tp
            else tp in
          on_touch i tp_motion_history_reset tp
        else tp in
      let tp := tp_thumb_detect tp i time in
      match tp_palm_detect tp i time with
      | None => None
      | Some tp =>
          let tp := tp_detect_wobbling tp i time in
          let tp := on_touch i (tp_motion_hysteresis tp) tp in
          let tp := on_touch i tp_motion_history_push tp in
          (* Touch speed handling: if we'are above the threshold, count
             each event that we're over the threshold up to 10 events.
             Count down when we are below the speed. *)
          let tp :=
            if dgt (speed_last_speed (touch tp i))
                 (Z2double THUMB_IGNORE_SPEED_THRESHOLD) then
              if speed_exceeded_count (touch tp i) <? 10
              then on_touch i
                     (fun t =>
                        set_speed_exceeded_count
                          (u32 (speed_exceeded_count t + 1)) t) tp
              else tp
            else if speed_exceeded_count (touch tp i) >? 0
            then on_touch i
                   (fun t =>
                      set_speed_exceeded_count
                        (u32 (speed_exceeded_count t - 1)) t) tp
            else tp in
          let speed_exceeded_count :=
            Z.max (speed_exceeded_count_max l)
              (speed_exceeded_count (touch tp i)) in
          let tp := on_touch i (tp_calculate_motion_speed tp) tp in
          let tp := on_touch i (tp_unpin_finger tp) tp in
          let begins := bool_decide (t_state (touch tp i) = TOUCH_BEGIN) in
          Some (tp,
                {| restart_filter := restart_filter l || begins;
                   have_new_touch := have_new_touch l || begins;
                   speed_exceeded_count_max := speed_exceeded_count |})
      end.

(** [tp_process_state] up to the end of its loop over the touches. *)
Definition tp_process_state_touches (tp : tp_dispatch) (time : Z)
  : option (tp_dispatch * process_locals) :=
  match tp_position_fake_touches tp with
  | None => None
  | Some tp =>
      let '(want_motion_reset, tp) := tp_need_motion_history_reset tp in
      for_each (tp_for_each_touch tp)
        (tp_process_state_touch want_motion_reset time)
        (tp,
         {| restart_filter := false; have_new_touch := false;
            speed_exceeded_count_max := 0 |})
  end.

(** [tp_process_state] after its loop.  The state machines of the
    button, edge scroll and gesture modules it advances live in fields
    of their own, which are not part of this model. *)
Definition tp_process_state_rest (tp : tp_dispatch) (l : process_locals)
    (time : Z) : option tp_dispatch :=
  (* If we have one touch that exceeds the speed and we get a new touch
     down while doing that, the second touch is a thumb *)
  match
    (if have_new_touch l && (nfingers_down tp =? 2)
        && (speed_exceeded_count_max l >? 5)
     then tp_detect_thumb_while_moving tp
     else Some tp)
  with
  | None => None
  | Some tp =>
      let tp :=
        if restart_filter l then log (filter_restart time) tp else tp in
      (* We have a physical button down event on a clickpad.  To avoid
         spurious pointer moves by the clicking finger we pin all
         fingers. *)
      if negb (Z.land (queued tp) TOUCHPAD_EVENT_BUTTON_PRESS =? 0)
         && buttons_is_clickpad tp
      then Some (tp_pin_fingers tp)
      else Some tp
  end.

Definition tp_process_state (tp : tp_dispatch) (time : Z)
  : option tp_dispatch :=
  match tp_process_state_touches tp time with
  | None => None
  | Some (tp, l) => tp_process_state_rest tp l time
  end.

Definition tp_post_process_state (tp : tp_dispatch) (time : Z)
  : tp_dispatch :=
  let tp :=
    set_touches
      (map (fun t =>
              if negb (t_dirty t) then t
              else
                let t :=
                  match t_state t with
                  | TOUCH_END =>
                      if t_has_ended t
                      then set_t_state TOUCH_NONE t
                      else set_t_state TOUCH_HOVERING t
                  | TOUCH_BEGIN => set_t_state TOUCH_UPDATE t
                  | _ => t
                  end in
                set_t_dirty false t)
         (touches tp)) tp in
  let tp := set_old_nfingers_down (nfingers_down tp) tp in
  set_queued TOUCHPAD_EVENT_NONE tp.

(** [tp_post_events].  Posting the events of the frame is the business
    of the tap, button, edge scroll and gesture modules; what they
    return to filter the motion is a collaborator's, and the calls that
    stop the scrolling and cancel the gesture are recorded. *)
Definition tp_post_events (tp : tp_dispatch) (time : Z) : tp_dispatch :=
  (* Only post (top) button events while suspended *)
  if device_is_suspended tp then tp
  else
    let filter_motion := 0 in
    let filter_motion :=
      Z.lor filter_motion (tp_tap_handle_state ext tp time) in
    let filter_motion :=
      Z.lor filter_motion (tp_post_button_events ext tp time) in
    if negb (filter_motion =? 0) || palm_trackpoint_active tp
       || dwt_keyboard_active tp
    then
      let tp := log (tp_edge_scroll_stop_events time) tp in
      log (tp_gesture_cancel time) tp
    else tp.

Definition tp_handle_state (tp : tp_dispatch) (time : Z)
  : option tp_dispatch :=
  match tp_pre_process_state tp time with
  | None => None
  | Some tp =>
      match tp_process_state tp time with
      | None => None
      | Some tp =>
          let tp := tp_post_events tp time in
          Some (tp_post_process_state tp time)
      end
  end.

Definition tp_interface_process (tp : tp_dispatch) (e : input_event)
    (time : Z) : option tp_dispatch :=
  if ev_type e =? EV_ABS then
    if has_mt tp
    then tp_process_absolute tp e time
    else tp_process_absolute_st tp e time
  else if ev_type e =? EV_KEY then Some (tp_process_key tp e time)
  else if ev_type e =? EV_MSC then Some (tp_process_msc tp e time)
  else if ev_type e =? EV_SYN then tp_handle_state tp time
  else Some tp.

(** A stream of events with their times, fed to the dispatcher. *)
Definition tp_interface_process_all (tp : tp_dispatch)
    (events : list (input_event * Z)) : option tp_dispatch :=
  for_each events (fun tp '(e, time) => tp_interface_process tp e time) tp.

(** ** Lifting all touches, and touch arbitration *)

Definition tp_release_fake_touches (tp : tp_dispatch) : tp_dispatch :=
  set_fake_touches 0 tp.

(** [tp_clear_state], with the value [now] of the clock it reads.
    Releasing the buttons and the taps is the business of the button and
    tap modules. *)
Definition tp_clear_state (tp : tp_dispatch) (now : Z)
  : option tp_dispatch :=
  match
    for_each (tp_for_each_touch tp)
      (fun tp t => tp_end_sequence tp t now) tp
  with
  | None => None
  | Some tp =>
      let tp := tp_release_fake_touches tp in
      tp_handle_state tp now
  end.

Definition tp_arbitration_timeout (tp : tp_dispatch) (now : Z)
  : tp_dispatch :=
  if negb (bool_decide (arbitration_state tp = ARBITRATION_NOT_ACTIVE))
  then set_arbitration_state ARBITRATION_NOT_ACTIVE tp
  else tp.

Definition tp_interface_toggle_touch (tp : tp_dispatch)
    (which : evdev_arbitration_state) (time now : Z)
  : option tp_dispatch :=
  if decide (which = arbitration_state tp) then Some tp
  else
    match which with
    | ARBITRATION_IGNORE_ALL | ARBITRATION_IGNORE_RECT =>
        let tp := log (libinput_timer_cancel arbitration_timer) tp in
        match tp_clear_state tp now with
        | None => None
        | Some tp => Some (set_arbitration_state which tp)
        end
    | ARBITRATION_NOT_ACTIVE =>
        (* delay arbitration by just a little bit so that any touch in
           event is caught as palm touch *)
        Some (log (libinput_timer_set arbitration_timer
                     (u64 (time + ms2us 90))) tp)
    end.

End Dispatcher.

(** ** Disable-while-typing *)

Definition LONG_BITS : Z := 64.
Definition NLONGS (n : Z) : Z := (n + LONG_BITS - 1) / LONG_BITS.

Definition long_set_bit (array : list Z) (bit : Z) : list Z :=
  alter (fun w => Z.lor w (Z.shiftl 1 (bit mod LONG_BITS)))
    (Z.to_nat (bit / LONG_BITS)) array.

Definition long_clear_bit (array : list Z) (bit : Z) : list Z :=
  alter (fun w => Z.land w (u64 (Z.lnot (Z.shiftl 1 (bit mod LONG_BITS)))))
    (Z.to_nat (bit / LONG_BITS)) array.

Definition long_bit_is_set (array : list Z) (bit : Z) : bool :=
  negb (Z.land (default 0 (array !! Z.to_nat (bit / LONG_BITS)))
          (Z.shiftl 1 (bit mod LONG_BITS)) =? 0).

Definition long_any_bit_set (array : list Z) (size : Z) : option bool :=
  if size >? 0
  then Some (existsb (fun w => negb (w =? 0)) (take (Z.to_nat size) array))
  else None.

Inductive libinput_key_state :=
| LIBINPUT_KEY_STATE_RELEASED
| LIBINPUT_KEY_STATE_PRESSED.

Inductive libinput_event :=
| LIBINPUT_EVENT_KEYBOARD_KEY (key : Z) (key_state : libinput_key_state)
| LIBINPUT_EVENT_OTHER.

Definition tp_keyboard_timeout (tp : tp_dispatch) (now : Z)
  : option tp_dispatch :=
  let refresh :=
    let tp :=
      log (libinput_timer_set keyboard_timer
             (u64 (now + DEFAULT_KEYBOARD_ACTIVITY_TIMEOUT_2))) tp in
    set_dwt_keyboard_last_press_time now tp in
  let timeout :=
    let tp := log (tp_tap_resume now) tp in
    set_dwt_keyboard_active false tp in
  if dwt_dwt_enabled tp then
    match long_any_bit_set (dwt_key_mask tp) (NLONGS KEY_CNT) with
    | None => None
    | Some true => Some refresh
    | Some false => Some timeout
    end
  else Some timeout.

Definition tp_key_is_modifier (keycode : Z) : bool :=
  (* Ignore modifiers to be responsive to ctrl-click, alt-tab, etc. *)
  (keycode =? KEY_LEFTCTRL) || (keycode =? KEY_RIGHTCTRL)
  || (keycode =? KEY_LEFTALT) || (keycode =? KEY_RIGHTALT)
  || (keycode =? KEY_LEFTSHIFT) || (keycode =? KEY_RIGHTSHIFT)
  || (keycode =? KEY_FN) || (keycode =? KEY_CAPSLOCK)
  || (keycode =? KEY_TAB) || (keycode =? KEY_COMPOSE)
  || (keycode =? KEY_RIGHTMETA) || (keycode =? KEY_LEFTMETA).

Definition tp_key_ignore_for_dwt (keycode : Z) : bool :=
  (* Ignore keys not part of the "typewriter set", i.e. F-keys,
     multimedia keys, numpad, etc. *)
  if tp_key_is_modifier keycode then false
  else keycode >=? KEY_F1.

Definition tp_keyboard_event (tp : tp_dispatch) (time : Z)
    (event : libinput_event) : option tp_dispatch :=
  match event with
  | LIBINPUT_EVENT_OTHER => Some tp
  | LIBINPUT_EVENT_KEYBOARD_KEY key LIBINPUT_KEY_STATE_RELEASED =>
      (* Only trigger the timer on key down. *)
      let tp := set_dwt_key_mask (long_clear_bit (dwt_key_mask tp) key) tp in
      Some (set_dwt_mod_mask (long_clear_bit (dwt_mod_mask tp) key) tp)
  | LIBINPUT_EVENT_KEYBOARD_KEY key LIBINPUT_KEY_STATE_PRESSED =>
      if negb (dwt_dwt_enabled tp) then Some tp
      else if tp_key_ignore_for_dwt key then Some tp
      (* modifier keys don't trigger disable-while-typing so things like
         ctrl+zoom or ctrl+click are possible *)
      else if tp_key_is_modifier key then
        Some (set_dwt_mod_mask (long_set_bit (dwt_mod_mask tp) key) tp)
      else
        let after (tp : tp_dispatch) (timeout : Z) : tp_dispatch :=
          let tp := set_dwt_keyboard_last_press_time time tp in
          let tp :=
            set_dwt_key_mask (long_set_bit (dwt_key_mask tp) key) tp in
          log (libinput_timer_set keyboard_timer (u64 (time + timeout))) tp
        in
        if negb (dwt_keyboard_active tp) then
          (* This is the first non-modifier key press.  Check if the
             modifier mask is set.  If any modifier is down we don't
             trigger dwt because it's likely to be combination like
             Ctrl+S or similar *)
          match long_any_bit_set (dwt_mod_mask tp) (NLONGS KEY_CNT) with
          | None => None
          | Some true => Some tp
          | Some false =>
              let tp := tp_stop_actions tp time in
              let tp := set_dwt_keyboard_active true tp in
              Some (after tp (u32 DEFAULT_KEYBOARD_ACTIVITY_TIMEOUT_1))
          end
        else Some (after tp (u32 DEFAULT_KEYBOARD_ACTIVITY_TIMEOUT_2))
  end.

(** ** Devices and collaborators for the examples *)

(** A [hypot] for the examples: the square root of the exact sum of the
    squares, rounded once to the nearest double; infinite when an
    argument is, whatever the other. *)
Definition hypot_correctly_rounded (a b : float) : float :=
  match Prim2SF a, Prim2SF b with
  | S754_infinity _, _ | _, S754_infinity _ => infinity
  | S754_nan, _ | _, S754_nan => nan
  | S754_zero _, S754_zero _ => 0%float
  | S754_finite _ ma ea, S754_zero _ => SF2Prim (S754_finite false ma ea)
  | S754_zero _, S754_finite _ mb eb => SF2Prim (S754_finite false mb eb)
  | S754_finite _ ma ea, S754_finite _ mb eb =>
      let e := Z.min (2 * ea) (2 * eb) in
      let m :=
        Z.shiftl (Z.pos (ma * ma)) (2 * ea - e)
        + Z.shiftl (Z.pos (mb * mb)) (2 * eb - e) in
      match m with
      | Z.pos m => SF2Prim (SFsqrt prec emax (S754_finite false m e))
      | _ => nan
      end
  end.

(** Collaborators of a device with the given axis resolutions (units per
    millimetre), without software buttons and with edge scrolling off;
    the hysteresis is left off in the examples below, and neither the
    tap nor the button module filters the motion. *)
Definition example_ext (res_x res_y : Z) : collaborators :=
  {| hypot := hypot_correctly_rounded;
     evdev_device_unit_delta_to_mm :=
       fun units =>
         {| mm_x := (Z2double (x units) / Z2double res_x)%float;
            mm_y := (Z2double (y units) / Z2double res_y)%float |};
     tp_phys_delta :=
       fun delta =>
         {| mm_x := (fx delta / Z2double res_x)%float;
            mm_y := (fy delta / Z2double res_y)%float |};
     phys_get_direction := fun _ => 0;
     evdev_hysteresis := fun p _ _ => p;
     tp_process_button :=
       fun _ value =>
         if value =? 0 then TOUCHPAD_EVENT_BUTTON_RELEASE
         else TOUCHPAD_EVENT_BUTTON_PRESS;
     tp_button_is_inside_softbutton_area := fun _ => false;
     tp_button_touch_active := fun _ => true;
     tp_touch_get_edge := fun _ => 0;
     tp_edge_scroll_touch_active := fun _ => true;
     tp_tap_handle_state := fun _ _ => 0;
     tp_post_button_events := fun _ _ => 0 |}.

(** A dispatcher as [tp_init] leaves it, for a touchpad of 1000 x 1000
    units with [n] touches: nothing down, nothing queued.  Palm
    detection by touch size is on, with a threshold of 40. *)
Definition example_dispatch (model_flags : Z) (mt : bool) (slots : Z)
    (n : nat) (by_pressure by_size : bool) (clickpad : bool)
    (scroll : libinput_config_scroll_method) : tp_dispatch :=
  {| device_model_flags := model_flags;
     device_left_handed_enabled := false;
     device_abs_x_minimum := 0; device_abs_x_maximum := 1000;
     device_abs_y_minimum := 0; device_abs_y_maximum := 1000;
     device_is_suspended := false;
     nfingers_down := 0; old_nfingers_down := 0; slot := 0;
     has_mt := mt; semi_mt := false;
     arbitration_state := ARBITRATION_NOT_ACTIVE;
     num_slots := slots;
     touches := map (fun i => tp_init_touch (Z.of_nat i)) (seq 0 n);
     fake_touches := 0;
     pressure_use_pressure := by_pressure;
     pressure_high := 30; pressure_low := 25;
     touch_size_use_touch_size := by_size;
     touch_size_high := 10; touch_size_low := 8;
     hysteresis_enabled := false;
     hysteresis_margin := {| x := 2; y := 2 |};
     hysteresis_last_motion_time := 0;
     buttons_is_clickpad := clickpad;
     scroll_method := scroll;
     queued := TOUCHPAD_EVENT_NONE;
     palm_right_edge := 920; palm_left_edge := 80; palm_upper_edge := 50;
     palm_trackpoint_active := false;
     palm_trackpoint_last_event_time := 0;
     palm_monitor_trackpoint := true;
     palm_use_mt_tool := true;
     palm_use_pressure := by_pressure; palm_pressure_threshold := 130;
     palm_use_size := true; palm_size_threshold := 40;
     dwt_dwt_enabled := true;
     dwt_key_mask := replicate (Z.to_nat (NLONGS KEY_CNT)) 0;
     dwt_mod_mask := replicate (Z.to_nat (NLONGS KEY_CNT)) 0;
     dwt_keyboard_active := false;
     dwt_keyboard_last_press_time := 0;
     thumb_detect_thumbs := clickpad;
     thumb_upper_thumb_line := 850; thumb_lower_thumb_line := 920;
     thumb_use_pressure := by_pressure; thumb_pressure_threshold := 100;
     thumb_use_size := by_size; thumb_size_threshold := 30;
     quirks_nonmotion_event_count := 0;
     msc_timestamp_state := JUMP_STATE_IGNORE;
     msc_timestamp_interval := 0; msc_timestamp_now := 0;
     left_handed_rotate := false;
     trace := [] |}.

Definition ev (type code value time : Z) : input_event * Z :=
  ({| ev_type := type; ev_code := code; ev_value := value |}, time).

(** ** Definitions the statements below use *)

(** The overflow flag of the fake-finger mask. *)
Definition fake_finger_overflow (tp : tp_dispatch) : bool :=
  negb (Z.land (fake_touches tp) FAKE_FINGER_OVERFLOW =? 0).

(** The finger count as the specification words it: the index of the
    highest asserted tool bit (BTN_TOOL_FINGER is bit 1, ...,
    BTN_TOOL_QUADTAP is bit 4), 0 when none is asserted. *)
Definition highest_tool_bit (fake_touches : Z) : Z :=
  if Z.testbit fake_touches 4 then 4
  else if Z.testbit fake_touches 3 then 3
  else if Z.testbit fake_touches 2 then 2
  else if Z.testbit fake_touches 1 then 1
  else 0.

(** A value of an [unsigned long] of the bit arrays. *)
Definition word64 (w : Z) : Prop := 0 <= w < 2 ^ 64.

(** Bit [bit] of an array of [unsigned long], read off the value of the
    word that holds it. *)
Definition mask_bit (array : list Z) (bit : Z) : bool :=
  Z.testbit (nth (Z.to_nat (bit / 64)) array 0) (bit mod 64).

(** A key mask of the dispatcher: NLONGS(KEY_CNT) words of 64 bits, a
    bit for each key code below KEY_CNT. *)
Definition key_mask_wf (mask : list Z) : Prop :=
  length mask = Z.to_nat (NLONGS KEY_CNT) /\ Forall word64 mask.

(** Some key has its bit set in the mask. *)
Definition some_key_set (mask : list Z) : Prop :=
  exists key, 0 <= key < KEY_CNT /\ mask_bit mask key = true.

(** The motion history of a touch is well formed: the ring has its
    [TOUCHPAD_HISTORY_LENGTH] entries, and index and count are within
    it, as [tp_motion_history_push] keeps them. *)
Definition history_wf (t : tp_touch) : Prop :=
  length (history_samples t) = Z.to_nat TOUCHPAD_HISTORY_LENGTH /\
  0 <= history_index t < TOUCHPAD_HISTORY_LENGTH /\
  0 <= history_count t <= TOUCHPAD_HISTORY_LENGTH.

(** The loop of [tp_motion_history_fix_last], for any new timestamp
    [g i] of the entry [i] steps back. *)
Definition rewrite_history_times (g : Z -> Z) (t : tp_touch) : tp_touch :=
  fold_left
    (fun t i =>
       set_history_samples
         (alter (fun s => {| hp_time := g i; hp_point := hp_point s |})
            (tp_motion_history_offset_index t i) (history_samples t)) t)
    (range 0 (history_count t)) t.

(** ** Scenarios *)

(** A single-touch touchpad without pressure axis (the fake-finger
    variant of the hover resolver), at 10 units per millimetre. *)
Definition st_device : tp_dispatch :=
  example_dispatch 0 false 1 1 false false false LIBINPUT_CONFIG_SCROLL_EDGE.

Definition st_ext : collaborators := example_ext 10 10.

(** The dispatcher after a stream of events, when none aborts. *)
Definition after (ext : collaborators) (tp : tp_dispatch)
    (events : list (input_event * Z)) : tp_dispatch :=
  default tp (tp_interface_process_all ext tp events).

(** Scenario S5, up to the frame end that sees the large MSC_TIMESTAMP:
    a finger lands with MSC_TIMESTAMP 0, the next frame reports the
    hardware interval 7300, the third one 123456. *)
Definition s5_events : list (input_event * Z) :=
  [ ev EV_KEY BTN_TOOL_FINGER 1 1000000; ev EV_KEY BTN_TOUCH 1 1000000;
    ev EV_ABS ABS_X 100 1000000; ev EV_ABS ABS_Y 100 1000000;
    ev EV_MSC MSC_TIMESTAMP 0 1000000; ev EV_SYN SYN_REPORT 0 1000000;
    ev EV_ABS ABS_X 110 1002000; ev EV_MSC MSC_TIMESTAMP 7300 1002000;
    ev EV_SYN SYN_REPORT 0 1002000;
    ev EV_ABS ABS_X 400 1004000; ev EV_MSC MSC_TIMESTAMP 123456 1004000 ].

Definition s5_state : tp_dispatch :=
  Eval vm_compute in after st_ext st_device s5_events.

(** The delta of a dirty touch against the most recent history entry,
    in millimetres and normalised to the 12 ms reference interval, as
    [tp_detect_jumps] computes it: hypot(dx, dy) * 12 ms / dt. *)
Definition normalized_delta_mm (ext : collaborators) (t : tp_touch)
    (time : Z) : float :=
  let last := tp_motion_history_offset t 0 in
  let mm :=
    evdev_device_unit_delta_to_mm ext
      {| x := Z.abs (x (t_point t) - x (hp_point last));
         y := Z.abs (y (t_point t) - y (hp_point last)) |} in
  (hypot ext (mm_x mm) (mm_y mm) * Z2double (12 * 1000)
   / Z2double (u64 (time - hp_time last)))%float.

(** A touch in TOUCH_UPDATE at (1000, 0) whose one history entry is
    (0, 0) at time 0, on a test device and on an ordinary one. *)
Definition jump_touch : tp_touch :=
  set_history_count 1
    (set_t_dirty true
       (set_t_point {| x := 1000; y := 0 |}
          (set_t_state TOUCH_UPDATE (tp_init_touch 0)))).

Definition jump_test_device : tp_dispatch :=
  set_nfingers_down 1
    (set_touch 0 jump_touch
       (example_dispatch EVDEV_MODEL_TEST_DEVICE true 2 2 true false false
          LIBINPUT_CONFIG_SCROLL_2FG)).

(** The same touch at (93, 124) with a stored delta of 15 mm: at
    10 units per millimetre and 9.3 ms after the history entry, the
    normalised delta is 15.5 mm * 12 / 9.3 = 20 mm. *)
Definition jump_boundary_device : tp_dispatch :=
  set_nfingers_down 1
    (set_touch 0
       (set_jumps_last_delta_mm 15%float
          (set_t_point {| x := 93; y := 124 |} jump_touch))
       (example_dispatch 0 true 2 2 true false false
          LIBINPUT_CONFIG_SCROLL_2FG)).

Definition jump_device : tp_dispatch :=
  set_nfingers_down 1
    (set_touch 0 jump_touch
       (example_dispatch 0 true 2 2 true false false
          LIBINPUT_CONFIG_SCROLL_2FG)).

(** A touchpad with two slots and a pressure axis (the pressure variant
    of the hover resolver: a touch lands at pressure 30). *)
Definition mt_device : tp_dispatch :=
  example_dispatch 0 true 2 2 true false false LIBINPUT_CONFIG_SCROLL_2FG.

(** A wide contact hovers in slot 0 (pressure 10, major axis 50). *)
Definition wide_hover_events : list (input_event * Z) :=
  [ ev EV_ABS ABS_MT_SLOT 0 1000; ev EV_ABS ABS_MT_TRACKING_ID 7 1000;
    ev EV_ABS ABS_MT_POSITION_X 500 1000;
    ev EV_ABS ABS_MT_POSITION_Y 500 1000;
    ev EV_ABS ABS_MT_PRESSURE 10 1000;
    ev EV_ABS ABS_MT_TOUCH_MAJOR 50 1000;
    ev EV_ABS ABS_MT_TOUCH_MINOR 20 1000; ev EV_SYN SYN_REPORT 0 1000 ].

(** It lands (pressure 40). *)
Definition wide_landing_events : list (input_event * Z) :=
  [ ev EV_ABS ABS_MT_PRESSURE 40 3000; ev EV_SYN SYN_REPORT 0 3000 ].

(** It moves, up to the end of the frame. *)
Definition wide_motion_events : list (input_event * Z) :=
  [ ev EV_ABS ABS_MT_POSITION_X 510 15000 ].

Definition wide_hover_state : tp_dispatch :=
  Eval vm_compute in after st_ext mt_device wide_hover_events.

(** The A key goes down on the paired keyboard while the contact
    hovers; then the contact lands. *)
Definition wide_key_state : tp_dispatch :=
  Eval vm_compute in
    default wide_hover_state
      (tp_keyboard_event wide_hover_state 2000
         (LIBINPUT_EVENT_KEYBOARD_KEY KEY_A LIBINPUT_KEY_STATE_PRESSED)).

Definition wide_typing_state : tp_dispatch :=
  Eval vm_compute in after st_ext wide_key_state wide_landing_events.

(** No key is pressed; the contact lands and moves. *)
Definition wide_moving_state : tp_dispatch :=
  Eval vm_compute in
    after st_ext wide_hover_state
      (wide_landing_events ++ wide_motion_events).

(** A finger hovers over the single-touch touchpad (BTN_TOOL_FINGER
    without BTN_TOUCH) for a frame, then touches: the state at the end
    of the frame that reports BTN_TOUCH, before it is processed. *)
Definition hover_then_touch_events : list (input_event * Z) :=
  [ ev EV_KEY BTN_TOOL_FINGER 1 1000; ev EV_ABS ABS_X 100 1000;
    ev EV_ABS ABS_Y 100 1000; ev EV_SYN SYN_REPORT 0 1000;
    ev EV_KEY BTN_TOUCH 1 13000 ].

Definition hover_then_touch_state : tp_dispatch :=
  Eval vm_compute in after st_ext st_device hover_then_touch_events.

(** The wide contact of [wide_hover_events] on the pressure device, with
    the pressure of its landing reported: the state before the frame is
    processed. *)
Definition wide_landing_state : tp_dispatch :=
  Eval vm_compute in
    after st_ext wide_hover_state [ev EV_ABS ABS_MT_PRESSURE 40 3000].

(** A touchpad with five slots that lands touches by their size (the
    size variant: above 10 on one axis and 8 on the other).  A small
    contact hovers for a frame, then grows: the state before that frame
    is processed. *)
Definition size_device : tp_dispatch :=
  example_dispatch 0 true 5 5 false true false LIBINPUT_CONFIG_SCROLL_2FG.

Definition small_hover_events : list (input_event * Z) :=
  [ ev EV_ABS ABS_MT_SLOT 0 1000; ev EV_ABS ABS_MT_TRACKING_ID 3 1000;
    ev EV_ABS ABS_MT_POSITION_X 500 1000;
    ev EV_ABS ABS_MT_POSITION_Y 500 1000;
    ev EV_ABS ABS_MT_TOUCH_MAJOR 5 1000;
    ev EV_ABS ABS_MT_TOUCH_MINOR 5 1000; ev EV_SYN SYN_REPORT 0 1000;
    ev EV_ABS ABS_MT_TOUCH_MAJOR 20 13000;
    ev EV_ABS ABS_MT_TOUCH_MINOR 12 13000 ].

Definition small_hover_state : tp_dispatch :=
  Eval vm_compute in after st_ext size_device small_hover_events.

(** A touchpad with two slots and no pressure axis (the fake-finger
    variant).  Two contacts are tracked and the device reports one
    finger down: slot 0 begins, slot 1 hovers and moves.  Then slot 0
    is lifted with the finger count unchanged: the state at the end of
    that frame, before it is processed. *)
Definition mt_fake_device : tp_dispatch :=
  example_dispatch 0 true 2 2 false false false LIBINPUT_CONFIG_SCROLL_2FG.

Definition swap_fingers_events : list (input_event * Z) :=
  [ ev EV_ABS ABS_MT_SLOT 0 1000; ev EV_ABS ABS_MT_TRACKING_ID 1 1000;
    ev EV_ABS ABS_MT_POSITION_X 100 1000;
    ev EV_ABS ABS_MT_POSITION_Y 100 1000;
    ev EV_ABS ABS_MT_SLOT 1 1000; ev EV_ABS ABS_MT_TRACKING_ID 2 1000;
    ev EV_ABS ABS_MT_POSITION_X 800 1000;
    ev EV_ABS ABS_MT_POSITION_Y 800 1000;
    ev EV_KEY BTN_TOOL_FINGER 1 1000; ev EV_KEY BTN_TOUCH 1 1000;
    ev EV_SYN SYN_REPORT 0 1000;
    ev EV_ABS ABS_MT_POSITION_X 810 13000; ev EV_SYN SYN_REPORT 0 13000;
    ev EV_ABS ABS_MT_POSITION_X 820 25000; ev EV_SYN SYN_REPORT 0 25000;
    ev EV_ABS ABS_MT_SLOT 0 37000; ev EV_ABS ABS_MT_TRACKING_ID (-1) 37000 ].

Definition swap_fingers_state : tp_dispatch :=
  Eval vm_compute in after st_ext mt_fake_device swap_fingers_events.

(** A clickpad with two slots and a pressure axis, thumb detection on
    (upper thumb line at y = 850), two-finger scrolling.  A finger lands
    and moves to the right at 5 mm per 12 ms frame for eleven frames;
    in the next frame a second finger lands 40 mm above it, far above
    the thumb line: the state at the end of that frame, before it is
    processed. *)
Definition click_device : tp_dispatch :=
  example_dispatch 0 true 2 2 true false true LIBINPUT_CONFIG_SCROLL_2FG.

Definition first_finger_lands : list (input_event * Z) :=
  [ ev EV_ABS ABS_MT_SLOT 0 12000; ev EV_ABS ABS_MT_TRACKING_ID 1 12000;
    ev EV_ABS ABS_MT_POSITION_X 100 12000;
    ev EV_ABS ABS_MT_POSITION_Y 500 12000;
    ev EV_ABS ABS_MT_PRESSURE 40 12000; ev EV_SYN SYN_REPORT 0 12000 ].

Definition first_finger_moves (n : nat) : list (input_event * Z) :=
  flat_map
    (fun k =>
       let time := 12000 * (Z.of_nat k + 1) in
       [ ev EV_ABS ABS_MT_POSITION_X (100 + 50 * Z.of_nat k) time;
         ev EV_SYN SYN_REPORT 0 time ])
    (seq 1 n).

Definition second_finger_lands : list (input_event * Z) :=
  [ ev EV_ABS ABS_MT_POSITION_X 700 156000;
    ev EV_ABS ABS_MT_SLOT 1 156000; ev EV_ABS ABS_MT_TRACKING_ID 2 156000;
    ev EV_ABS ABS_MT_POSITION_X 800 156000;
    ev EV_ABS ABS_MT_POSITION_Y 100 156000;
    ev EV_ABS ABS_MT_PRESSURE 40 156000 ].

Definition second_finger_events : list (input_event * Z) :=
  first_finger_lands ++ first_finger_moves 11 ++ second_finger_lands.

Definition second_finger_state : tp_dispatch :=
  Eval vm_compute in after st_ext click_device second_finger_events.

(** The same frame after [tp_pre_process_state], after the loop of
    [tp_process_state] over the touches (with the local variables of
    that function), and at its end. *)
Definition second_finger_begun : tp_dispatch :=
  Eval vm_compute in
    default second_finger_state
      (tp_pre_process_state second_finger_state 156000).

Definition second_finger_classified : tp_dispatch * process_locals :=
  Eval vm_compute in
    default
      (second_finger_begun,
       {| restart_filter := false; have_new_touch := false;
          speed_exceeded_count_max := 0 |})
      (tp_process_state_touches st_ext second_finger_begun 156000).

Definition second_finger_frame_end : tp_dispatch :=
  Eval vm_compute in
    default second_finger_state
      (tp_handle_state st_ext second_finger_state 156000).

(** ** The finger count *)

(** The number of touches in TOUCH_BEGIN or TOUCH_UPDATE. *)
Fixpoint count_down (l : list tp_touch) : Z :=
  match l with
  | [] => 0
  | t :: l' => (if touch_is_down t then 1 else 0) + count_down l'
  end.

(** The number of touches in TOUCH_UPDATE. *)
Fixpoint count_update (l : list tp_touch) : Z :=
  match l with
  | [] => 0
  | t :: l' =>
      (if bool_decide (t_state t = TOUCH_UPDATE) then 1 else 0)
      + count_update l'
  end.

(** The invariant of the dispatcher: [nfingers_down] counts the touches
    that are down; the touch array has a length an [unsigned int]
    holds; and a touch in TOUCH_BEGIN is dirty, so that the end of the
    frame commits it to TOUCH_UPDATE. *)
Definition fingers_down_inv (tp : tp_dispatch) : Prop :=
  nfingers_down tp = count_down (touches tp) /\
  Z.of_nat (length (touches tp)) < 2 ^ 32 /\
  Forall (fun t => t_state t = TOUCH_BEGIN -> t_dirty t = true) (touches tp).

(** [t'] is [t] with the same state, and dirty if [t] is. *)
Definition same_state (t t' : tp_touch) : Prop :=
  t_state t' = t_state t /\ (t_dirty t = true -> t_dirty t' = true).

(** [tp'] is [tp] up to what does not matter to the invariant: the same
    finger count, and the same touches up to [same_state]. *)
Definition same_lifecycle (tp tp' : tp_dispatch) : Prop :=
  nfingers_down tp' = nfingers_down tp /\
  Forall2 same_state (touches tp) (touches tp').

(** What a touch contributes to the finger count. *)
Definition down_bit (t : tp_touch) : Z := if touch_is_down t then 1 else 0.

(** A call that may abort keeps the invariant when it returns. *)
Definition keeps_inv (r : option tp_dispatch) : Prop :=
  forall tp', r = Some tp' -> fingers_down_inv tp'.

(** * More of the dispatcher and of its helpers *)

(** ** Motion delta *)

(** [tp_get_delta]: the step between the two most recent history
    entries. *)
Definition tp_get_delta (t : tp_touch) : device_coords :=
  if history_count t <=? 1 then zero_coords
  else
    {| x := x (hp_point (tp_motion_history_offset t 0))
            - x (hp_point (tp_motion_history_offset t 1));
       y := y (hp_point (tp_motion_history_offset t 0))
            - y (hp_point (tp_motion_history_offset t 1)) |}.

(** ** Helpers of libinput-util.h *)

(** The bit arrays of [unsigned char]: [array[bit / 8]] is promoted to
    [int] for the operation and the result stored back in a byte. *)
Definition bit_is_set (array : list Z) (bit : Z) : bool :=
  negb (Z.land (default 0 (array !! Z.to_nat (bit / 8)))
          (Z.shiftl 1 (bit mod 8)) =? 0).

Definition set_bit (array : list Z) (bit : Z) : list Z :=
  alter (fun b => u8 (Z.lor b (Z.shiftl 1 (bit mod 8))))
    (Z.to_nat (bit / 8)) array.

Definition clear_bit (array : list Z) (bit : Z) : list Z :=
  alter (fun b => u8 (Z.land b (Z.lnot (Z.shiftl 1 (bit mod 8)))))
    (Z.to_nat (bit / 8)) array.

(** [long_set_bit_state]. *)
Definition long_set_bit_state (array : list Z) (bit : Z) (state : Z)
  : list Z :=
  if negb (state =? 0) then long_set_bit array bit
  else long_clear_bit array bit.

(** Times: microseconds in [uint64_t], milliseconds in [uint32_t], and
    [struct timeval] with its two signed fields. *)
Definition us (v : Z) : Z := v.
Definition ns2us (ns : Z) : Z := us (ns / 1000).
Definition s2us (s : Z) : Z := ms2us (u64 (s * 1000)).
Definition us2ms (v : Z) : Z := u32 (v / 1000).

Record timeval := { tv_sec : Z; tv_usec : Z }.

Definition tv2us (tv : timeval) : Z :=
  u64 (s2us (u64 (tv_sec tv)) + u64 (tv_usec tv)).

Definition us2tv (time : Z) : timeval :=
  {| tv_sec := time / ms2us 1000; tv_usec := time mod ms2us 1000 |}.

(** ** What a frame leaves alone

    The fields of the dispatcher that neither the events of a frame nor
    its end write, with the number of touches: the current slot and the
    fake-finger mask (written by the frame decoder only, on ABS_MT_SLOT
    and on the BTN_TOOL_* and BTN_TOUCH keys), the arbitration state,
    whether the device is suspended, whether the trackpoint is active,
    the state of disable-while-typing, and the left-handed setting. *)
Record setup := {
  su_slot : Z;
  su_fake_touches : Z;
  su_arbitration_state : evdev_arbitration_state;
  su_is_suspended : bool;
  su_trackpoint_active : bool;
  su_dwt_enabled : bool;
  su_keyboard_active : bool;
  su_keyboard_last_press_time : Z;
  su_key_mask : list Z;
  su_mod_mask : list Z;
  su_left_handed_enabled : bool;
  su_left_handed_rotate : bool;
  su_ntouches : nat }.

Definition frame_setup (tp : tp_dispatch) : setup :=
  {| su_slot := slot tp;
     su_fake_touches := fake_touches tp;
     su_arbitration_state := arbitration_state tp;
     su_is_suspended := device_is_suspended tp;
     su_trackpoint_active := palm_trackpoint_active tp;
     su_dwt_enabled := dwt_dwt_enabled tp;
     su_keyboard_active := dwt_keyboard_active tp;
     su_keyboard_last_press_time := dwt_keyboard_last_press_time tp;
     su_key_mask := dwt_key_mask tp;
     su_mod_mask := dwt_mod_mask tp;
     su_left_handed_enabled := device_left_handed_enabled tp;
     su_left_handed_rotate := left_handed_rotate tp;
     su_ntouches := length (touches tp) |}.

(** A call that may abort, returning a state of which [proj] is the
    dispatcher, leaves a view of the dispatcher at [c] when it
    returns. *)
Definition kept_in {S X : Type} (view : tp_dispatch -> X)
    (proj : S -> tp_dispatch) (c : X) (r : option S) : Prop :=
  forall s, r = Some s -> view (proj s) = c.


(** The state of a touch, with whether its sequence has ended. *)
Definition touch_life (t : tp_touch) : touch_state * bool :=
  (t_state t, t_has_ended t).

Definition touches_life (tp : tp_dispatch) : list (touch_state * bool) :=
  map touch_life (touches tp).

(** ** A touchpad in a neutral state

    A touch that is lifted: not in use, or scheduled to end or ended
    with its sequence over, an ended touch being dirty, so that the end
    of the frame releases it. *)
Definition touch_lifted (t : tp_touch) : bool :=
  match t_state t with
  | TOUCH_NONE => true
  | TOUCH_MAYBE_END => t_has_ended t
  | TOUCH_END => t_has_ended t && t_dirty t
  | _ => false
  end.

(** All touches lifted, and no fake finger. *)
Definition lifted (tp : tp_dispatch) : Prop :=
  nfingers_down tp = 0 /\ fake_touches tp = 0 /\
  (forall j : nat, touch_lifted (touch tp j) = true).

(** A touch in TOUCH_END is dirty. *)
Definition ended_dirty (t : tp_touch) : Prop :=
  t_state t = TOUCH_END -> t_dirty t = true.

(** * Properties of the dispatcher *)

(** ** Bits *)

Lemma land_pow2_eqb (z k : Z) :
  0 <= k -> (Z.land z (2 ^ k) =? 0) = negb (Z.testbit z k).
Proof.
  intros Hk. destruct (Z.testbit z k) eqn:Hb; simpl.
  - apply Z.eqb_neq. intros H0.
    assert (Hl : Z.testbit (Z.land z (2 ^ k)) k = true).
    { rewrite Z.land_spec, Hb, Z.pow2_bits_true; auto. }
    rewrite H0, Z.bits_0 in Hl. discriminate.
  - apply Z.eqb_eq. apply Z.bits_inj_0. intros n.
    rewrite Z.land_spec.
    destruct (Z.eq_dec n k) as [->|Hne].
    + rewrite Hb. reflexivity.
    + destruct (Z.le_gt_cases 0 n).
      * rewrite Z.pow2_bits_false by lia. apply andb_false_r.
      * rewrite (Z.testbit_neg_r (2 ^ k)) by lia. apply andb_false_r.
Qed.

Lemma fake_finger_overflow_testbit (tp : tp_dispatch) :
  fake_finger_overflow tp = Z.testbit (fake_touches tp) 7.
Proof.
  unfold fake_finger_overflow.
  change FAKE_FINGER_OVERFLOW with (2 ^ 7).
  rewrite land_pow2_eqb by lia. apply negb_involutive.
Qed.

Lemma ffs_from_first (n : nat) (i v k : Z) :
  i <= k < i + Z.of_nat n ->
  Z.testbit v k = true ->
  (forall j, i <= j < k -> Z.testbit v j = false) ->
  ffs_from n i v = k + 1.
Proof.
  revert i. induction n as [|n IH]; intros i Hk Hb Hlow; [lia|].
  simpl. destruct (Z.eq_dec i k) as [->|Hne].
  - rewrite Hb. reflexivity.
  - rewrite Hlow by lia. apply IH; [lia|assumption|].
    intros j Hj. apply Hlow. lia.
Qed.

Lemma ffs_from_none (n : nat) (i v : Z) :
  (forall j, i <= j < i + Z.of_nat n -> Z.testbit v j = false) ->
  ffs_from n i v = 0.
Proof.
  revert i. induction n as [|n IH]; intros i Hz; [reflexivity|].
  simpl. rewrite Hz by lia. apply IH. intros j Hj. apply Hz. lia.
Qed.

Lemma testbit_above (z n k : Z) :
  0 <= z < 2 ^ n -> 0 <= n <= k -> Z.testbit z k = false.
Proof.
  intros Hz Hk. destruct (Z.eq_dec z 0) as [->|Hne].
  - apply Z.bits_0.
  - apply Z.bits_above_log2; [lia|].
    assert (Z.log2 z < n) by (apply Z.log2_lt_pow2; lia). lia.
Qed.

(** ** The fake-finger tracker *)

Lemma tp_fake_finger_count_value (tp : tp_dispatch) :
  fst (tp_fake_finger_count tp) =
  if Z.testbit (fake_touches tp) 7 then FAKE_FINGER_OVERFLOW
  else ffs (Z.shiftr (fake_touches tp) 1).
Proof.
  unfold tp_fake_finger_count.
  change (negb (Z.land (fake_touches tp) FAKE_FINGER_OVERFLOW =? 0))
    with (fake_finger_overflow tp).
  rewrite fake_finger_overflow_testbit.
  destruct (Z.testbit (fake_touches tp) 7); reflexivity.
Qed.

(** The log aside, counting the fake fingers does not change the
    dispatcher. *)
Lemma tp_fake_finger_count_state (tp : tp_dispatch) :
  snd (tp_fake_finger_count tp) = tp \/
  snd (tp_fake_finger_count tp) =
    log (evdev_log_bug_kernel (invalid_fake_finger_state (fake_touches tp)))
      tp.
Proof.
  unfold tp_fake_finger_count.
  destruct (popcount _ >? 1);
    destruct (negb (Z.land (fake_touches tp) FAKE_FINGER_OVERFLOW =? 0));
    simpl; auto.
Qed.

(** C4 (as amended).  For every 32-bit value of the mask: with the
    overflow flag set, [tp_fake_finger_count] returns the overflow
    sentinel; otherwise it returns the index of the LOWEST asserted bit
    above bit 0 (BTN_TOUCH, which is never counted), and 0 when there is
    none.  With a single tool bit asserted that is BTN_TOOL_FINGER -> 1,
    DOUBLETAP -> 2, TRIPLETAP -> 3, QUADTAP -> 4, whatever BTN_TOUCH
    is. *)
Theorem tp_fake_finger_count_lowest_tool_bit (tp : tp_dispatch) :
  0 <= fake_touches tp < 2 ^ 32 ->
  let n := fst (tp_fake_finger_count tp) in
  (Z.testbit (fake_touches tp) 7 = true -> n = FAKE_FINGER_OVERFLOW) /\
  (Z.testbit (fake_touches tp) 7 = false ->
   (forall k, 1 <= k ->
      Z.testbit (fake_touches tp) k = true ->
      (forall j, 1 <= j < k -> Z.testbit (fake_touches tp) j = false) ->
      n = k) /\
   ((forall j, 1 <= j -> Z.testbit (fake_touches tp) j = false) -> n = 0) /\
   (forall k touching, 1 <= k <= 4 -> 0 <= touching <= 1 ->
      fake_touches tp = Z.shiftl 1 k + touching -> n = k)).
Proof.
  intros Hrange n. subst n. rewrite tp_fake_finger_count_value.
  split; [intros ->; reflexivity|]. intros ->.
  assert (Hlowest : forall k, 1 <= k ->
            Z.testbit (fake_touches tp) k = true ->
            (forall j, 1 <= j < k -> Z.testbit (fake_touches tp) j = false) ->
            ffs (Z.shiftr (fake_touches tp) 1) = k).
  { intros k Hk Hb Hlow.
    assert (k < 32).
    { destruct (Z.lt_ge_cases k 32); [assumption|].
      rewrite (testbit_above _ 32 k) in Hb by lia. discriminate. }
    unfold ffs. transitivity ((k - 1) + 1); [|lia].
    apply ffs_from_first; [lia| |].
    - rewrite Z.shiftr_spec by lia. replace (k - 1 + 1) with k by lia.
      assumption.
    - intros j Hj. rewrite Z.shiftr_spec by lia. apply Hlow. lia. }
  split; [exact Hlowest|]. split.
  - intros Hz. unfold ffs. apply ffs_from_none. intros j Hj.
    rewrite Z.shiftr_spec by lia. apply Hz. lia.
  - intros k touching Hk Ht Hft. apply Hlowest; [lia| |];
      rewrite Hft;
      assert (Hc : k = 1 \/ k = 2 \/ k = 3 \/ k = 4) by lia;
      assert (Hd : touching = 0 \/ touching = 1) by lia.
    + destruct Hc as [->|[->|[->| ->]]]; destruct Hd as [-> | ->];
        reflexivity.
    + intros j Hj.
      assert (Hj' : j = 1 \/ j = 2 \/ j = 3) by lia.
      destruct Hc as [->|[->|[->| ->]]]; destruct Hd as [-> | ->];
        destruct Hj' as [->|[->| ->]]; try lia; reflexivity.
Qed.

(** The mask with BTN_TOOL_DOUBLETAP alone (and BTN_TOUCH) gives 2. *)
Lemma tp_fake_finger_count_lowest_tool_bit_witness :
  0 <= 5 < 2 ^ 32 /\
  fst (tp_fake_finger_count
         (set_fake_touches 5
            (example_dispatch 0 true 2 2 false false false
               LIBINPUT_CONFIG_SCROLL_2FG))) = 2.
Proof.
  split; [lia|].
  refine (proj1 (proj2 (tp_fake_finger_count_lowest_tool_bit
                          (set_fake_touches 5
                             (example_dispatch 0 true 2 2 false false false
                                LIBINPUT_CONFIG_SCROLL_2FG)) _) _) 2 _ _ _).
  - simpl. lia.
  - reflexivity.
  - lia.
  - reflexivity.
  - intros j Hj. assert (j = 1) as -> by lia. reflexivity.
Defined.

(** C4 (as stated) fails when several tool bits are asserted: with
    BTN_TOOL_FINGER and BTN_TOOL_DOUBLETAP both set the count is 1, the
    lowest of the two, and not 2, the highest. *)
Lemma tp_fake_finger_count_not_highest_tool_bit :
  let tp :=
    set_fake_touches 6
      (example_dispatch 0 true 2 2 false false false
         LIBINPUT_CONFIG_SCROLL_2FG) in
  fake_finger_overflow tp = false /\
  fst (tp_fake_finger_count tp) = 1 /\
  highest_tool_bit (fake_touches tp) = 2.
Proof. repeat split. Qed.

Lemma clear_overflow_testbit (z : Z) :
  Z.testbit (clear_bits z FAKE_FINGER_OVERFLOW) 7 = false.
Proof. unfold clear_bits. rewrite Z.land_spec. apply andb_false_r. Qed.

Lemma clear_bits_testbit_keeps_false (z m k : Z) :
  Z.testbit z k = false -> Z.testbit (clear_bits z m) k = false.
Proof. intros H. unfold clear_bits. rewrite Z.land_spec, H. reflexivity. Qed.

(** Setting or clearing one of the bits 0..4, the tail of
    [tp_fake_finger_set]: a press clears the overflow flag, a release
    leaves it as it was. *)
Lemma set_or_clear_overflow (ft shift : Z) :
  0 <= shift <= 4 ->
  Z.testbit
    (Z.lor (clear_bits ft FAKE_FINGER_OVERFLOW) (Z.shiftl 1 shift)) 7
  = false /\
  (Z.testbit ft 7 = false ->
   Z.testbit (clear_bits ft (Z.shiftl 1 shift)) 7 = false).
Proof.
  intros Hs. split.
  - rewrite Z.lor_spec, clear_overflow_testbit.
    assert (Hc : shift = 0 \/ shift = 1 \/ shift = 2 \/ shift = 3
                 \/ shift = 4) by lia.
    destruct Hc as [->|[->|[->|[->| ->]]]]; reflexivity.
  - apply clear_bits_testbit_keeps_false.
Qed.


Ltac small_range := vm_compute; split; discriminate.

Ltac fake_finger_set_cases code :=
  unfold tp_fake_finger_set;
  destruct (Z.eqb_spec code BTN_TOUCH) as [->|?];
    [|destruct (Z.eqb_spec code BTN_TOOL_FINGER) as [->|?];
      [|destruct (Z.eqb_spec code BTN_TOOL_DOUBLETAP) as [->|?];
        [|destruct (Z.eqb_spec code BTN_TOOL_TRIPLETAP) as [->|?];
          [|destruct (Z.eqb_spec code BTN_TOOL_QUADTAP) as [->|?];
            [|destruct (Z.eqb_spec code BTN_TOOL_QUINTTAP) as [->|?]]]]]];
  cbn [fake_touches set_fake_touches orb negb].

(** C10.  In [tp_fake_finger_set], a press of any of BTN_TOUCH,
    BTN_TOOL_FINGER, BTN_TOOL_DOUBLETAP, BTN_TOOL_TRIPLETAP and
    BTN_TOOL_QUADTAP clears the overflow flag; a press of
    BTN_TOOL_QUINTTAP sets it and is the only event after which the flag
    is set when it was not before; a release of BTN_TOOL_QUINTTAP
    changes nothing. *)
Theorem tp_fake_finger_set_overflow (tp : tp_dispatch) (code : Z)
    (is_press : bool) :
  let tp' := tp_fake_finger_set tp code is_press in
  (is_press = true ->
   code = BTN_TOUCH \/ code = BTN_TOOL_FINGER \/ code = BTN_TOOL_DOUBLETAP
   \/ code = BTN_TOOL_TRIPLETAP \/ code = BTN_TOOL_QUADTAP ->
   fake_finger_overflow tp' = false) /\
  (fake_finger_overflow tp = false -> fake_finger_overflow tp' = true ->
   code = BTN_TOOL_QUINTTAP /\ is_press = true) /\
  (code = BTN_TOOL_QUINTTAP -> is_press = true ->
   fake_finger_overflow tp' = true) /\
  (code = BTN_TOOL_QUINTTAP -> is_press = false -> tp' = tp).
Proof.
  intros tp'. subst tp'. rewrite !fake_finger_overflow_testbit.
  split; [|split; [|split]].
  - intros -> Hcode. fake_finger_set_cases code;
      try (apply set_or_clear_overflow; small_range).
    exfalso. intuition congruence. exfalso. intuition congruence.
  - intros Hclear. fake_finger_set_cases code; destruct is_press;
      cbn [fake_touches set_fake_touches orb negb]; intros Hset;
      try (split; reflexivity); exfalso; revert Hset;
      first
        [ match goal with
          | |- Z.testbit (Z.lor (clear_bits ?f _) (Z.shiftl 1 ?s)) 7 = _
               -> _ =>
              rewrite (proj1 (set_or_clear_overflow f s
                                ltac:(small_range)));
              discriminate
          end
        | rewrite clear_bits_testbit_keeps_false;
          [discriminate|first [assumption|apply clear_overflow_testbit]]
        | rewrite Hclear; discriminate ].
  - intros -> ->.
    change (tp_fake_finger_set tp BTN_TOOL_QUINTTAP true)
      with (set_fake_touches
              (Z.lor (fake_touches tp) FAKE_FINGER_OVERFLOW) tp).
    cbn [fake_touches set_fake_touches].
    rewrite Z.lor_spec. apply orb_true_r.
  - intros -> ->. reflexivity.
Qed.

(** ** Reading and writing touches *)

Lemma touches_set_touch (i : nat) (t : tp_touch) (tp : tp_dispatch) :
  touches (set_touch i t tp) = <[i := t]> (touches tp).
Proof. reflexivity. Qed.

Lemma length_set_touch (i : nat) (t : tp_touch) (tp : tp_dispatch) :
  length (touches (set_touch i t tp)) = length (touches tp).
Proof. rewrite touches_set_touch. apply length_insert. Qed.

Lemma touch_lookup (tp : tp_dispatch) (i : nat) (t : tp_touch) :
  touches tp !! i = Some t -> touch tp i = t.
Proof. intros H. unfold touch. rewrite H. reflexivity. Qed.

Lemma touch_lookup_lt (tp : tp_dispatch) (i : nat) :
  (i < length (touches tp))%nat -> touches tp !! i = Some (touch tp i).
Proof.
  intros H. destruct (lookup_lt_is_Some_2 (touches tp) i H) as [t Ht].
  rewrite (touch_lookup _ _ _ Ht). exact Ht.
Qed.

Lemma touch_out_of_range (tp : tp_dispatch) (i : nat) :
  (length (touches tp) <= i)%nat -> touch tp i = tp_init_touch (Z.of_nat i).
Proof.
  intros H. unfold touch. rewrite lookup_ge_None_2 by exact H. reflexivity.
Qed.

(** A touch whose state is not [TOUCH_NONE] is one of the array. *)
Lemma touch_in_range (tp : tp_dispatch) (i : nat) :
  t_state (touch tp i) <> TOUCH_NONE -> (i < length (touches tp))%nat.
Proof.
  intros H. destruct (Nat.lt_ge_cases i (length (touches tp))); [assumption|].
  rewrite touch_out_of_range in H by assumption. contradiction H. reflexivity.
Qed.

Lemma touch_set_touch_eq (tp : tp_dispatch) (i : nat) (t : tp_touch) :
  (i < length (touches tp))%nat -> touch (set_touch i t tp) i = t.
Proof.
  intros H. apply touch_lookup. rewrite touches_set_touch.
  apply list_lookup_insert_eq. exact H.
Qed.

Lemma touch_set_touch_ne (tp : tp_dispatch) (i j : nat) (t : tp_touch) :
  i <> j -> touch (set_touch i t tp) j = touch tp j.
Proof.
  intros H. unfold touch. rewrite touches_set_touch.
  rewrite list_lookup_insert_ne by exact H. reflexivity.
Qed.

Lemma set_touch_out_of_range (tp : tp_dispatch) (i : nat) (t : tp_touch) :
  (length (touches tp) <= i)%nat -> touches (set_touch i t tp) = touches tp.
Proof. intros H. rewrite touches_set_touch. apply list_insert_ge. exact H. Qed.

(** ** Ending a touch that is not scheduled to end *)

(** C9.  [tp_end_touch] on a touch whose state is not TOUCH_MAYBE_END
    does nothing but log a library bug: the touch, all other touches and
    every field of the dispatcher (nfingers_down and queued among them)
    are as before. *)
Theorem tp_end_touch_not_maybe_end (tp : tp_dispatch) (i : nat) (time : Z) :
  t_state (touch tp i) <> TOUCH_MAYBE_END ->
  let tp' := tp_end_touch tp i time in
  tp' = set_trace
          (trace tp
           ++ [evdev_log_bug_libinput
                 (should_be_MAYBE_END (t_index (touch tp i))
                    (t_state (touch tp i)))]) tp /\
  touches tp' = touches tp /\
  touch tp' i = touch tp i /\
  nfingers_down tp' = nfingers_down tp /\
  queued tp' = queued tp.
Proof.
  intros Hstate tp'. subst tp'. unfold tp_end_touch.
  destruct (decide (t_state (touch tp i) = TOUCH_MAYBE_END)) as [He|_];
    [contradiction|].
  repeat split.
Qed.

Lemma tp_end_touch_not_maybe_end_witness :
  let tp :=
    set_nfingers_down 1
      (set_touch 0 (set_t_state TOUCH_UPDATE (tp_init_touch 0))
         (example_dispatch 0 true 2 2 true false false
            LIBINPUT_CONFIG_SCROLL_2FG)) in
  t_state (touch tp 0) = TOUCH_UPDATE /\
  touches (tp_end_touch tp 0 1000) = touches tp /\
  nfingers_down (tp_end_touch tp 0 1000) = 1.
Proof.
  intros tp. split; [reflexivity|].
  pose proof (tp_end_touch_not_maybe_end tp 0 1000) as H.
  destruct H as (_ & Ht & _ & Hn & _); [discriminate|].
  split; [exact Ht|exact Hn].
Defined.

(** ** Disable-while-typing *)

Lemma tp_key_ignore_modifier (key : Z) :
  tp_key_is_modifier key = true -> tp_key_ignore_for_dwt key = false.
Proof. intros H. unfold tp_key_ignore_for_dwt. rewrite H. reflexivity. Qed.

Lemma mask_bit_nonzero (mask : list Z) :
  Forall word64 mask ->
  ((exists w, In w mask /\ w <> 0) <->
   exists bit,
     0 <= bit < 64 * Z.of_nat (length mask) /\ mask_bit mask bit = true).
Proof.
  intros Hall. split.
  - intros (w & Hin & Hw).
    apply (In_nth _ _ 0) in Hin. destruct Hin as (i & Hi & Hnth).
    rewrite List.Forall_forall in Hall.
    assert (Hw64 : word64 w) by (apply Hall; rewrite <- Hnth; apply nth_In, Hi).
    destruct Hw64 as [Hw0 Hw64].
    assert (Hlog : 0 <= Z.log2 w < 64).
    { split; [apply Z.log2_nonneg|]. apply Z.log2_lt_pow2; lia. }
    exists (64 * Z.of_nat i + Z.log2 w). split; [lia|].
    unfold mask_bit.
    replace ((64 * Z.of_nat i + Z.log2 w) / 64) with (Z.of_nat i)
      by (rewrite Z.mul_comm, Z.div_add_l, Z.div_small by lia; lia).
    replace ((64 * Z.of_nat i + Z.log2 w) mod 64) with (Z.log2 w)
      by (rewrite Z.add_comm, Z.mul_comm, Z.mod_add, Z.mod_small by lia;
          reflexivity).
    rewrite Nat2Z.id, Hnth. apply Z.bit_log2. lia.
  - intros (bit & Hbit & Hset). unfold mask_bit in Hset.
    assert (Hi : (Z.to_nat (bit / 64) < length mask)%nat).
    { assert (bit / 64 < Z.of_nat (length mask))
        by (apply Z.div_lt_upper_bound; lia).
      assert (0 <= bit / 64) by (apply Z.div_pos; lia). lia. }
    exists (nth (Z.to_nat (bit / 64)) mask 0). split; [apply nth_In, Hi|].
    intros H0. rewrite H0, Z.bits_0 in Hset. discriminate.
Qed.

(** [long_any_bit_set] over a key mask does not abort, and says whether
    some key has its bit set. *)
Lemma long_any_bit_set_key_mask (mask : list Z) :
  key_mask_wf mask ->
  exists b,
    long_any_bit_set mask (NLONGS KEY_CNT) = Some b /\
    (b = true <-> some_key_set mask).
Proof.
  intros [Hlen Hall]. unfold long_any_bit_set.
  change (NLONGS KEY_CNT >? 0) with true. cbv iota.
  rewrite <- Hlen, firstn_all. eexists. split; [reflexivity|].
  rewrite existsb_exists. unfold some_key_set.
  replace KEY_CNT with (64 * Z.of_nat (length mask))
    by (rewrite Hlen; reflexivity).
  rewrite <- (mask_bit_nonzero mask Hall).
  split; intros (w & Hin & Hw); exists w; (split; [exact Hin|]).
  - intros ->. discriminate.
  - apply negb_true_iff, Z.eqb_neq. exact Hw.
Qed.

(** C8.  A key-down from a paired keyboard while dwt is enabled, the
    modifier mask being an array of NLONGS(KEY_CNT) words of 64 bits;
    the event is handled without abort.  For a key that is neither a
    modifier nor ignored: when dwt is not active, it becomes active
    exactly when no key has its bit set in mod_mask, and then tap,
    gestures and scroll are stopped and the timer is set 200 ms ahead;
    with the bit of some key set in mod_mask nothing at all changes.
    When dwt is active already the timer is set 500 ms ahead.  A
    modifier key-down sets its bit in mod_mask and changes nothing
    else. *)
Theorem tp_keyboard_event_key_down (tp : tp_dispatch) (time key : Z) :
  dwt_dwt_enabled tp = true -> key_mask_wf (dwt_mod_mask tp) ->
  let modifier_held := some_key_set (dwt_mod_mask tp) in
  exists tp',
    tp_keyboard_event tp time
      (LIBINPUT_EVENT_KEYBOARD_KEY key LIBINPUT_KEY_STATE_PRESSED)
    = Some tp' /\
    (tp_key_is_modifier key = false -> tp_key_ignore_for_dwt key = false ->
     (dwt_keyboard_active tp = false ->
      (dwt_keyboard_active tp' = true <-> ~ modifier_held) /\
      (modifier_held -> tp' = tp) /\
      (~ modifier_held ->
       trace tp' =
         trace tp
         ++ [tp_edge_scroll_stop_events time; tp_gesture_cancel time;
             tp_tap_suspend time;
             libinput_timer_set keyboard_timer (u64 (time + 200 * 1000))] /\
       dwt_keyboard_last_press_time tp' = time /\
       dwt_key_mask tp' = long_set_bit (dwt_key_mask tp) key /\
       dwt_mod_mask tp' = dwt_mod_mask tp)) /\
     (dwt_keyboard_active tp = true ->
      dwt_keyboard_active tp' = true /\
      trace tp' =
        trace tp
        ++ [libinput_timer_set keyboard_timer (u64 (time + 500 * 1000))] /\
      dwt_keyboard_last_press_time tp' = time /\
      dwt_key_mask tp' = long_set_bit (dwt_key_mask tp) key /\
      dwt_mod_mask tp' = dwt_mod_mask tp)) /\
    (tp_key_is_modifier key = true ->
     tp' = set_dwt_mod_mask (long_set_bit (dwt_mod_mask tp) key) tp /\
     dwt_keyboard_active tp' = dwt_keyboard_active tp /\
     trace tp' = trace tp).
Proof.
  intros Hen Hwf modifier_held. subst modifier_held.
  destruct (long_any_bit_set_key_mask _ Hwf) as (held & Hany & Hheld).
  unfold tp_keyboard_event. rewrite Hen. cbn [negb].
  destruct (tp_key_is_modifier key) eqn:Hmod.
  { rewrite (tp_key_ignore_modifier _ Hmod).
    eexists. split; [reflexivity|]. split; [discriminate|].
    intros _. repeat split. }
  destruct (tp_key_ignore_for_dwt key) eqn:Hign.
  { eexists. split; [reflexivity|]. split; discriminate. }
  destruct (dwt_keyboard_active tp) eqn:Hactive; cbn [negb].
  { eexists. split; [reflexivity|]. split; [|discriminate].
    intros _ _. split; [discriminate|]. intros _. unfold log.
    cbn [trace set_trace set_dwt_key_mask set_dwt_keyboard_active
         set_dwt_keyboard_last_press_time dwt_keyboard_last_press_time
         dwt_key_mask dwt_mod_mask dwt_keyboard_active].
    repeat split. exact Hactive. }
  rewrite Hany. destruct held.
  - assert (Hset : some_key_set (dwt_mod_mask tp))
      by (apply Hheld; reflexivity).
    eexists. split; [reflexivity|]. split; [|discriminate].
    intros _ _. split; [|discriminate]. intros _.
    split; [|split].
    + rewrite Hactive. split; [discriminate|]. intros Hno. contradiction.
    + reflexivity.
    + intros Hno. contradiction.
  - assert (Hno : ~ some_key_set (dwt_mod_mask tp)).
    { intros Hset. apply Hheld in Hset. discriminate. }
    eexists. split; [reflexivity|]. split; [|discriminate].
    intros _ _. split; [|discriminate]. intros _.
    split; [|split].
    + split; [intros _; exact Hno|reflexivity].
    + intros Hset. contradiction.
    + intros _. unfold tp_stop_actions, log.
      cbn [trace set_trace set_dwt_key_mask set_dwt_keyboard_active
           set_dwt_keyboard_last_press_time dwt_keyboard_last_press_time
           dwt_key_mask dwt_mod_mask].
      rewrite <- !app_assoc. repeat split.
Qed.

Lemma mask_bit_zero (mask : list Z) (bit : Z) :
  Forall (fun w => w = 0) mask -> mask_bit mask bit = false.
Proof.
  intros Hall. unfold mask_bit.
  assert (Hnth : forall i, nth i mask 0 = 0).
  { induction Hall as [|w l -> _ IH]; intros [|i]; cbn; auto. }
  rewrite Hnth. apply Z.bits_0.
Qed.

(** With no modifier down, a press of the A key activates dwt: tap,
    gestures and scroll are stopped and the timer is set for 200 ms
    later.  Scenario S6: with the left control key down, a press of the
    A key 10 ms later leaves dwt inactive and the dispatcher as it
    was. *)
Lemma tp_keyboard_event_key_down_witness :
  (exists tp',
     tp_keyboard_event mt_device 1000
       (LIBINPUT_EVENT_KEYBOARD_KEY KEY_A LIBINPUT_KEY_STATE_PRESSED)
     = Some tp' /\
     dwt_keyboard_active tp' = true /\
     trace tp'
     = [tp_edge_scroll_stop_events 1000; tp_gesture_cancel 1000;
        tp_tap_suspend 1000; libinput_timer_set keyboard_timer 201000]) /\
  (exists tp1,
     tp_keyboard_event mt_device 1000
       (LIBINPUT_EVENT_KEYBOARD_KEY KEY_LEFTCTRL LIBINPUT_KEY_STATE_PRESSED)
     = Some tp1 /\
     mask_bit (dwt_mod_mask tp1) KEY_LEFTCTRL = true /\
     tp_keyboard_event tp1 11000
       (LIBINPUT_EVENT_KEYBOARD_KEY KEY_A LIBINPUT_KEY_STATE_PRESSED)
     = Some tp1 /\
     dwt_keyboard_active tp1 = false).
Proof.
  assert (Hwf0 : key_mask_wf (dwt_mod_mask mt_device)).
  { split; [reflexivity|]. repeat constructor; vm_compute; discriminate. }
  split.
  - destruct (tp_keyboard_event_key_down mt_device 1000 KEY_A eq_refl Hwf0)
      as (tp' & Hev & Hkey & _).
    destruct (Hkey eq_refl eq_refl) as [Hinactive _].
    destruct (Hinactive eq_refl) as (Hiff & _ & Hact).
    assert (Hno : ~ some_key_set (dwt_mod_mask mt_device)).
    { intros (k & _ & Hk). rewrite mask_bit_zero in Hk; [discriminate|].
      repeat constructor. }
    exists tp'. split; [exact Hev|]. split; [apply Hiff, Hno|].
    destruct (Hact Hno) as (Htrace & _). rewrite Htrace. reflexivity.
  - destruct (tp_keyboard_event_key_down mt_device 1000 KEY_LEFTCTRL
                eq_refl Hwf0) as (tp1 & Hev1 & _ & Hmod).
    destruct (Hmod eq_refl) as (Htp1 & _ & _).
    assert (Hbit : mask_bit (dwt_mod_mask tp1) KEY_LEFTCTRL = true)
      by (rewrite Htp1; vm_compute; reflexivity).
    assert (Hwf1 : key_mask_wf (dwt_mod_mask tp1)).
    { rewrite Htp1. split; [reflexivity|].
      repeat constructor; vm_compute; discriminate. }
    assert (Hen1 : dwt_dwt_enabled tp1 = true) by (rewrite Htp1; reflexivity).
    destruct (tp_keyboard_event_key_down tp1 11000 KEY_A Hen1 Hwf1)
      as (tp2 & Hev2 & Hkey & _).
    destruct (Hkey eq_refl eq_refl) as [Hinactive _].
    assert (Hinact1 : dwt_keyboard_active tp1 = false)
      by (rewrite Htp1; reflexivity).
    destruct (Hinactive Hinact1) as (_ & Hheld & _).
    assert (Hset : some_key_set (dwt_mod_mask tp1)).
    { exists KEY_LEFTCTRL. split; [|exact Hbit].
      vm_compute. split; [discriminate|reflexivity]. }
    exists tp1. split; [exact Hev1|]. split; [exact Hbit|].
    split; [rewrite Hev2; f_equal; exact (Hheld Hset)|exact Hinact1].
Defined.

(** ** The MSC_TIMESTAMP corrector *)

Lemma u32_small (z : Z) : 0 <= z < 2 ^ 32 -> u32 z = z.
Proof. intros H. apply Z.mod_small. exact H. Qed.

Lemma u64_small (z : Z) : 0 <= z < 2 ^ 64 -> u64 z = z.
Proof. intros H. apply Z.mod_small. exact H. Qed.

Lemma tp_motion_history_fix_last_not_update (t : tp_touch)
    (jumping normal time : Z) :
  t_state t <> TOUCH_UPDATE ->
  tp_motion_history_fix_last t jumping normal time = t.
Proof.
  intros H. unfold tp_motion_history_fix_last.
  rewrite bool_decide_eq_false_2 by exact H. reflexivity.
Qed.

Lemma rewrite_history_times_spec (g : Z -> Z) (t : tp_touch) :
  history_wf t ->
  let t' := rewrite_history_times g t in
  (forall i, 0 <= i < history_count t ->
     tp_motion_history_offset t' i =
     {| hp_time := g i; hp_point := hp_point (tp_motion_history_offset t i) |})
  /\
  (forall i, history_count t <= i < TOUCHPAD_HISTORY_LENGTH ->
     tp_motion_history_offset t' i = tp_motion_history_offset t i) /\
  t' = set_history_samples (history_samples t') t.
Proof.
  intros (Hlen & Hidx & Hcnt) t'. subst t'.
  destruct t as [f1 f2 f3 f4 f5 f6 f7 f8 f9 f10 f11 f12 samples index count
                   f16 f17 f18 f19 f20 f21 f22 f23 f24 f25 f26 f27 f28 f29
                   f30].
  cbn [history_samples history_index history_count t_state] in *.
  change TOUCHPAD_HISTORY_LENGTH with 4 in *.
  destruct samples as [|a [|b [|c [|d [|]]]]]; try discriminate Hlen.
  assert (Hi : index = 0 \/ index = 1 \/ index = 2 \/ index = 3) by lia.
  assert (Hc : count = 0 \/ count = 1 \/ count = 2 \/ count = 3
               \/ count = 4) by lia.
  destruct Hi as [->|[->|[-> | ->]]];
    destruct Hc as [->|[->|[->|[-> | ->]]]];
    (split; [|split; [|reflexivity]]); intros i Hi;
    assert (Hi' : i = 0 \/ i = 1 \/ i = 2 \/ i = 3) by lia;
    destruct Hi' as [->|[->|[-> | ->]]]; try lia; reflexivity.
Qed.

(** The rewriting of the history of one touch in TOUCH_UPDATE. *)
Lemma tp_motion_history_fix_last_update (t : tp_touch)
    (jumping normal time : Z) :
  history_wf t -> t_state t = TOUCH_UPDATE -> 0 <= normal <= 20000 ->
  let t' := tp_motion_history_fix_last t jumping normal time in
  (forall i, 0 <= i < history_count t ->
     tp_motion_history_offset t' i =
     {| hp_time := u64 (time - jumping - normal * i);
        hp_point := hp_point (tp_motion_history_offset t i) |}) /\
  (forall i, history_count t <= i < TOUCHPAD_HISTORY_LENGTH ->
     tp_motion_history_offset t' i = tp_motion_history_offset t i) /\
  t' = set_history_samples (history_samples t') t.
Proof.
  intros Hwf Hst Hn t'. subst t'.
  unfold tp_motion_history_fix_last.
  rewrite bool_decide_eq_true_2 by exact Hst. cbn [negb].
  change (fold_left _ _ t)
    with (rewrite_history_times
            (fun i => u64 (time - jumping - u32 (normal * i))) t).
  destruct (rewrite_history_times_spec
              (fun i => u64 (time - jumping - u32 (normal * i))) t Hwf)
    as (Hnew & Hold & Hrest).
  split; [|split; assumption].
  intros i Hi. rewrite (Hnew i Hi). cbv beta.
  destruct Hwf as (_ & _ & Hcnt). change TOUCHPAD_HISTORY_LENGTH with 4 in *.
  rewrite u32_small by nia. reflexivity.
Qed.

Lemma touch_map_touches (f : tp_touch -> tp_touch) (tp : tp_dispatch)
    (j : nat) :
  touch (set_touches (map f (touches tp)) tp) j =
  if decide (j < length (touches tp))%nat then f (touch tp j)
  else touch tp j.
Proof.
  unfold touch. cbn [touches set_touches].
  destruct (decide (j < length (touches tp))%nat) as [Hlt|Hge].
  - destruct (lookup_lt_is_Some_2 (touches tp) j Hlt) as [t Ht].
    rewrite Ht. change (map f (touches tp)) with (f <$> touches tp).
    rewrite list_lookup_fmap, Ht. reflexivity.
  - rewrite !lookup_ge_None_2; [reflexivity|lia|].
    rewrite length_map. lia.
Qed.

Lemma touch_elem_of (tp : tp_dispatch) (j : nat) :
  (j < length (touches tp))%nat -> In (touch tp j) (touches tp).
Proof.
  intros H. apply list_elem_of_In, list_elem_of_lookup. exists j.
  apply touch_lookup_lt. exact H.
Qed.

(** C7.  A frame with msc.now == 0 always re-enters EXPECT_FIRST with
    the interval reset to 0.  In EXPECT_DELAY with a nonzero msc.now
    (the interval being one EXPECT_FIRST latched, at most 20 ms): if
    msc.now > 2 * interval, then with tdelta = msc.now - interval every
    touch in TOUCH_UPDATE has the timestamp of its history entry i
    (i < history.count) rewritten to time - tdelta - interval * i (in
    uint64_t), the positions and all else kept; every other touch is
    unchanged; the filter is restarted exactly once, at time - tdelta;
    the state becomes IGNORE and nothing else changes.  If msc.now <= 2 *
    interval nothing changes. *)
Theorem tp_process_msc_timestamp_expect_delay (tp : tp_dispatch) (time : Z) :
  let tp' := tp_process_msc_timestamp tp time in
  let now := msc_timestamp_now tp in
  let interval := msc_timestamp_interval tp in
  (now = 0 ->
   msc_timestamp_state tp' = JUMP_STATE_EXPECT_FIRST /\
   msc_timestamp_interval tp' = 0) /\
  (msc_timestamp_state tp = JUMP_STATE_EXPECT_DELAY -> now <> 0 ->
   0 <= interval <= ms2us 20 -> 0 <= now < 2 ^ 32 ->
   (forall t, In t (touches tp) -> history_wf t) ->
   (now > 2 * interval ->
    let tdelta := now - interval in
    tp' =
      log (filter_restart (u64 (time - tdelta)))
        (set_msc_timestamp_state JUMP_STATE_IGNORE
           (set_touches (touches tp') tp)) /\
    msc_timestamp_state tp' = JUMP_STATE_IGNORE /\
    trace tp' = trace tp ++ [filter_restart (u64 (time - tdelta))] /\
    forall j,
      (t_state (touch tp j) = TOUCH_UPDATE ->
       (forall i, 0 <= i < history_count (touch tp j) ->
          tp_motion_history_offset (touch tp' j) i =
          {| hp_time := u64 (time - tdelta - interval * i);
             hp_point :=
               hp_point (tp_motion_history_offset (touch tp j) i) |}) /\
       (forall i,
          history_count (touch tp j) <= i < TOUCHPAD_HISTORY_LENGTH ->
          tp_motion_history_offset (touch tp' j) i =
          tp_motion_history_offset (touch tp j) i) /\
       touch tp' j =
         set_history_samples (history_samples (touch tp' j)) (touch tp j)) /\
      (t_state (touch tp j) <> TOUCH_UPDATE -> touch tp' j = touch tp j)) /\
   (now <= 2 * interval -> tp' = tp)).
Proof.
  intros tp' now interval. subst tp' now interval.
  unfold tp_process_msc_timestamp. split.
  - intros ->. cbn. split; reflexivity.
  - intros Hstate Hnow Hint Hrange Hwf.
    change (ms2us 20) with 20000 in Hint.
    rewrite (proj2 (Z.eqb_neq _ _) Hnow), Hstate.
    rewrite (u32_small (msc_timestamp_interval tp * 2)) by lia.
    split.
    + intros Hgt.
      rewrite (proj2 (Z.gtb_gt _ _)) by lia.
      rewrite (u32_small (msc_timestamp_now tp - msc_timestamp_interval tp))
        by lia.
      split; [reflexivity|]. split; [reflexivity|].
      split; [reflexivity|].
      intros j. unfold log.
      cbn [touches set_trace set_msc_timestamp_state].
      change (touch
                (set_trace _
                   (set_msc_timestamp_state _ (set_touches ?l tp))) j)
        with (touch (set_touches l tp) j).
      rewrite touch_map_touches.
      destruct (decide (j < length (touches tp))%nat) as [Hlt|Hge].
      * split.
        -- intros Hupd.
           apply tp_motion_history_fix_last_update;
             [apply Hwf, touch_elem_of, Hlt|exact Hupd|lia].
        -- apply tp_motion_history_fix_last_not_update.
      * split; [|reflexivity].
        intros Hupd. exfalso. apply Hge, touch_in_range.
        rewrite Hupd. discriminate.
    + intros Hle.
      destruct (msc_timestamp_now tp >? msc_timestamp_interval tp * 2)
        eqn:Hcmp; [|reflexivity].
      apply Z.gtb_gt in Hcmp. lia.
Qed.

Lemma s5_state_reached :
  tp_interface_process_all st_ext st_device s5_events = Some s5_state.
Proof. vm_compute. reflexivity. Qed.

(** Scenario S5: the third frame rewrites the one history entry of the
    touch to 1004000 - 116156 and restarts the filter there. *)
Lemma tp_process_msc_timestamp_expect_delay_witness :
  let tp := s5_state in
  let tp' := tp_process_msc_timestamp tp 1004000 in
  (msc_timestamp_state tp = JUMP_STATE_EXPECT_DELAY /\
   msc_timestamp_now tp = 123456 /\ msc_timestamp_interval tp = 7300 /\
   t_state (touch tp 0) = TOUCH_UPDATE /\ history_count (touch tp 0) = 1) /\
  msc_timestamp_state tp' = JUMP_STATE_IGNORE /\
  trace tp' = trace tp ++ [filter_restart 887844] /\
  hp_time (tp_motion_history_offset (touch tp' 0) 0) = 887844.
Proof.
  intros tp tp'.
  assert (Hstate : msc_timestamp_state tp = JUMP_STATE_EXPECT_DELAY)
    by (vm_compute; reflexivity).
  assert (Hnow : msc_timestamp_now tp = 123456) by (vm_compute; reflexivity).
  assert (Hint : msc_timestamp_interval tp = 7300)
    by (vm_compute; reflexivity).
  assert (Hupd : t_state (touch tp 0) = TOUCH_UPDATE)
    by (vm_compute; reflexivity).
  assert (Hcnt : history_count (touch tp 0) = 1) by (vm_compute; reflexivity).
  assert (Hwf : forall t, In t (touches tp) -> history_wf t).
  { intros t Hin. vm_compute in Hin. destruct Hin as [<-|[]].
    vm_compute. repeat split; discriminate. }
  destruct (proj2 (tp_process_msc_timestamp_expect_delay tp 1004000))
    as [Hjump _].
  - exact Hstate.
  - rewrite Hnow. discriminate.
  - rewrite Hint. vm_compute. split; discriminate.
  - rewrite Hnow. vm_compute. split; [discriminate|reflexivity].
  - exact Hwf.
  - destruct Hjump as (_ & Hignore & Htrace & Htouches).
    + rewrite Hnow, Hint. reflexivity.
    + destruct (proj1 (Htouches 0%nat) Hupd) as (Hentries & _).
      split; [repeat split; assumption|].
      split; [exact Hignore|]. split.
      * fold tp' in Htrace. rewrite Htrace, Hnow, Hint. reflexivity.
      * fold tp' in Hentries. rewrite (Hentries 0).
        -- rewrite Hnow, Hint. reflexivity.
        -- rewrite Hcnt. lia.
Defined.

(** ** The jump detector *)

(** C6 (as amended).  On a device that is neither a Wacom touchpad nor a
    test device: with an empty history [tp_detect_jumps] declares no
    jump; with a nonempty one it declares a jump exactly when the frame
    is regular (0 < dt <= 24 ms, with dt the time since the most recent
    history entry, in uint64_t) and the delta normalised to 12 ms, the
    C library's [hypot] of the step in millimetres times 12 ms / dt,
    exceeds 20 mm or exceeds the stored delta of the previous frame by
    more than 7 mm; so never when dt > 24 ms or dt = 0. *)
Theorem tp_detect_jumps_regular_device (ext : collaborators)
    (tp : tp_dispatch) (i : nat) (time : Z) :
  Z.land (device_model_flags tp) EVDEV_MODEL_WACOM_TOUCHPAD = 0 ->
  Z.land (device_model_flags tp) EVDEV_MODEL_TEST_DEVICE = 0 ->
  let t := touch tp i in
  let dt := u64 (time - hp_time (tp_motion_history_offset t 0)) in
  let delta_mm := normalized_delta_mm ext t time in
  let is_jump := fst (tp_detect_jumps ext tp i time) in
  (history_count t = 0 -> is_jump = false) /\
  (history_count t <> 0 ->
   (is_jump = true <->
    0 < dt <= 24 * 1000 /\
    (dgt delta_mm 20 = true \/
     dgt (delta_mm - jumps_last_delta_mm t) (Z2double 7) = true)) /\
   (dt > 24 * 1000 \/ dt = 0 -> is_jump = false)).
Proof.
  intros Hwacom Htest t dt delta_mm is_jump.
  assert (Hdt : 0 <= dt < 2 ^ 64) by (apply Z.mod_pos_bound; lia).
  assert (Hjump :
    is_jump =
    if history_count t =? 0 then false
    else if (dt >? 24 * 1000) || (dt =? 0) then false
    else dgt delta_mm 20
         || dgt (delta_mm - jumps_last_delta_mm t) (Z2double 7)).
  { subst is_jump. unfold tp_detect_jumps. rewrite Hwacom, Htest.
    cbn [Z.eqb negb]. fold t.
    destruct (history_count t =? 0); [reflexivity|].
    fold dt. change (u32 (2 * u32 (ms2us 12))) with (24 * 1000).
    destruct ((dt >? 24 * 1000) || (dt =? 0)); reflexivity. }
  rewrite Hjump. split.
  - intros ->. reflexivity.
  - intros Hcount. rewrite (proj2 (Z.eqb_neq _ _) Hcount). split.
    + destruct (Z.gtb_spec dt (24 * 1000)) as [Hgt|Hle];
        destruct (Z.eqb_spec dt 0) as [Hz|Hnz]; cbn [orb].
      * split; [discriminate|lia].
      * split; [discriminate|lia].
      * split; [discriminate|lia].
      * rewrite orb_true_iff. split; [intros H; split; [lia|exact H]|].
        intros [_ H]. exact H.
    + intros [Hgt|Hz].
      * rewrite (proj2 (Z.gtb_gt _ _)) by lia. reflexivity.
      * rewrite Hz. reflexivity.
Qed.

(** 100 mm within 10 ms on an ordinary device: a jump.  And 15.5 mm
    within 9.3 ms after a frame of 15 mm: the normalised delta is 20 mm,
    which neither exceeds 20 mm nor the stored delta by more than 7 mm:
    no jump. *)
Lemma tp_detect_jumps_regular_device_witness :
  Z.land (device_model_flags jump_device) EVDEV_MODEL_WACOM_TOUCHPAD = 0 /\
  Z.land (device_model_flags jump_device) EVDEV_MODEL_TEST_DEVICE = 0 /\
  history_count (touch jump_device 0) = 1 /\
  fst (tp_detect_jumps st_ext jump_device 0 10000) = true /\
  hypot st_ext (Z2double 93 / Z2double 10) (Z2double 124 / Z2double 10)
  = 15.5%float /\
  normalized_delta_mm st_ext (touch jump_boundary_device 0) 9300
  = 20%float /\
  jumps_last_delta_mm (touch jump_boundary_device 0) = 15%float /\
  fst (tp_detect_jumps st_ext jump_boundary_device 0 9300) = false.
Proof.
  split; [reflexivity|]. split; [reflexivity|]. split; [reflexivity|].
  split.
  - destruct (tp_detect_jumps_regular_device st_ext jump_device 0 10000)
      as [_ Hnonempty]; [reflexivity|reflexivity|].
    destruct Hnonempty as [Hiff _]; [discriminate|].
    apply Hiff. split.
    + vm_compute. split; [reflexivity|discriminate].
    + left. vm_compute. reflexivity.
  - split; [vm_compute; reflexivity|]. split; [vm_compute; reflexivity|].
    split; [reflexivity|].
    destruct (tp_detect_jumps_regular_device st_ext jump_boundary_device 0
                9300) as [_ Hnonempty]; [reflexivity|reflexivity|].
    destruct Hnonempty as [Hiff _]; [discriminate|].
    destruct (fst (tp_detect_jumps st_ext jump_boundary_device 0 9300));
      [|reflexivity].
    destruct (proj1 Hiff eq_refl) as [_ [Habs|Hrel]].
    + vm_compute in Habs. discriminate Habs.
    + vm_compute in Hrel. discriminate Hrel.
Defined.

(** C6 (as stated) fails on a test device: the reference interval is the
    frame's own dt there, so a frame 30 ms after the last one, more than
    the 24 ms of the claim, is not skipped, and its 100 mm are a jump. *)
Lemma tp_detect_jumps_test_device_irregular_frame :
  Z.land (device_model_flags jump_test_device) EVDEV_MODEL_WACOM_TOUCHPAD
  = 0 /\
  t_dirty (touch jump_test_device 0) = true /\
  history_count (touch jump_test_device 0) = 1 /\
  u64 (30000 - hp_time (tp_motion_history_offset (touch jump_test_device 0) 0))
  = 30000 /\
  24 * 1000 < 30000 /\
  fst (tp_detect_jumps st_ext jump_test_device 0 30000) = true.
Proof.
  repeat split; vm_compute; reflexivity.
Qed.

(** ** The palm classifier *)

Lemma set_touch_id (tp : tp_dispatch) (i : nat) :
  set_touch i (touch tp i) tp = tp.
Proof.
  unfold set_touch.
  assert (Hl : <[i := touch tp i]> (touches tp) = touches tp).
  { destruct (Nat.lt_ge_cases i (length (touches tp))) as [Hlt|Hge].
    - apply list_insert_id, touch_lookup_lt, Hlt.
    - apply list_insert_ge, Hge. }
  rewrite Hl. destruct tp. reflexivity.
Qed.

Lemma set_palm_state_id (t : tp_touch) (s : touch_palm_state) :
  palm_state t = s -> set_palm_state s t = t.
Proof. intros <-. destruct t. reflexivity. Qed.

Lemma palm_in_range (tp : tp_dispatch) (i : nat) :
  palm_state (touch tp i) <> PALM_NONE -> (i < length (touches tp))%nat.
Proof.
  intros H. destruct (Nat.lt_ge_cases i (length (touches tp))); [assumption|].
  rewrite touch_out_of_range in H by assumption. contradiction H. reflexivity.
Qed.

(** A palm by pressure stays one through every evaluation. *)
Lemma tp_palm_detect_pressure_sticky (ext : collaborators)
    (tp : tp_dispatch) (i : nat) (time : Z) :
  palm_use_pressure tp = true ->
  palm_state (touch tp i) = PALM_PRESSURE ->
  tp_palm_detect ext tp i time = Some tp.
Proof.
  intros Huse Hpalm. unfold tp_palm_detect.
  assert (Hfirst : tp_palm_detect_pressure_triggered tp i time = (true, tp)).
  { unfold tp_palm_detect_pressure_triggered. rewrite Huse, Hpalm.
    cbn [negb andb bool_decide decide_rel]. 
    rewrite (set_palm_state_id _ _ Hpalm), set_touch_id.
    destruct (t_pressure (touch tp i) >? palm_pressure_threshold tp);
      rewrite Hpalm; reflexivity. }
  rewrite Hfirst. unfold tp_palm_detect_out.
  rewrite decide_True by reflexivity. reflexivity.
Qed.

(** What each rule does to a palm by touch size. *)
Section TouchSizePalm.

Variable ext : collaborators.
Variables (tp : tp_dispatch) (i : nat) (time : Z).
Hypothesis Hpalm : palm_state (touch tp i) = PALM_TOUCH_SIZE.

Lemma touch_size_pressure_rule :
  tp_palm_detect_pressure_triggered tp i time = (false, tp).
Proof.
  unfold tp_palm_detect_pressure_triggered. rewrite Hpalm.
  destruct (palm_use_pressure tp); reflexivity.
Qed.

Lemma touch_size_dwt_release_rule :
  t_state (touch tp i) <> TOUCH_BEGIN ->
  tp_palm_detect_dwt_triggered tp i time = (false, tp).
Proof.
  intros Hstate. unfold tp_palm_detect_dwt_triggered.
  rewrite (bool_decide_eq_false_2 _ Hstate), Hpalm.
  rewrite !andb_false_r. reflexivity.
Qed.

Lemma touch_size_trackpoint_rule :
  tp_palm_detect_trackpoint_triggered tp i time = (false, tp).
Proof.
  unfold tp_palm_detect_trackpoint_triggered. rewrite Hpalm.
  destruct (palm_monitor_trackpoint tp); reflexivity.
Qed.

Lemma touch_size_tool_rule :
  tp_palm_detect_tool_triggered tp i time = (false, tp).
Proof.
  unfold tp_palm_detect_tool_triggered. rewrite Hpalm.
  destruct (palm_use_mt_tool tp); reflexivity.
Qed.

Lemma touch_size_size_rule :
  tp_palm_detect_touch_size_triggered tp i time = (false, tp) \/
  tp_palm_detect_touch_size_triggered tp i time = (true, tp).
Proof.
  unfold tp_palm_detect_touch_size_triggered.
  rewrite (set_palm_state_id _ _ Hpalm), set_touch_id, Hpalm.
  destruct (palm_use_size tp); [|left; reflexivity].
  cbn [negb andb bool_decide decide_rel].
  destruct ((t_major (touch tp i) >? palm_size_threshold tp)
            || (t_minor (touch tp i) >? palm_size_threshold tp));
    [right|left]; reflexivity.
Qed.

Lemma touch_size_edge_rule :
  t_state (touch tp i) <> TOUCH_BEGIN ->
  tp_palm_detect_edge ext tp i time = (false, tp).
Proof.
  intros Hstate. unfold tp_palm_detect_edge.
  rewrite Hpalm, (bool_decide_eq_false_2 _ Hstate).
  cbn [negb orb bool_decide decide_rel].
  destruct (tp_palm_detect_multifinger ext tp i time); reflexivity.
Qed.

(** Outside the frame in which the touch begins, and with no
    arbitration, the evaluation leaves the dispatcher as it is. *)
Lemma tp_palm_detect_touch_size_sticky :
  arbitration_state tp = ARBITRATION_NOT_ACTIVE ->
  t_state (touch tp i) <> TOUCH_BEGIN ->
  tp_palm_detect ext tp i time = Some tp.
Proof.
  intros Harb Hstate. unfold tp_palm_detect.
  rewrite touch_size_pressure_rule. cbv beta iota zeta.
  unfold tp_palm_detect_arbitration_triggered.
  rewrite (bool_decide_eq_true_2 _ Harb). cbv beta iota zeta.
  rewrite (touch_size_dwt_release_rule Hstate). cbv beta iota zeta.
  rewrite touch_size_trackpoint_rule. cbv beta iota zeta.
  rewrite touch_size_tool_rule. cbv beta iota zeta.
  destruct touch_size_size_rule as [-> | ->]; cbv beta iota zeta.
  - rewrite (touch_size_edge_rule Hstate). cbv beta iota zeta.
    rewrite touch_size_pressure_rule. reflexivity.
  - unfold tp_palm_detect_out. rewrite decide_True by reflexivity.
    reflexivity.
Qed.

(** Arbitration comes before the size rule and relabels the palm. *)
Lemma tp_palm_detect_touch_size_arbitration :
  arbitration_state tp <> ARBITRATION_NOT_ACTIVE ->
  tp_palm_detect ext tp i time =
  Some (set_touch i (set_palm_state PALM_ARBITRATION (touch tp i)) tp).
Proof.
  intros Harb. unfold tp_palm_detect.
  rewrite touch_size_pressure_rule. cbv beta iota zeta.
  unfold tp_palm_detect_arbitration_triggered.
  rewrite (bool_decide_eq_false_2 _ Harb). cbv beta iota zeta.
  unfold tp_palm_detect_out.
  rewrite touch_set_touch_eq
    by (apply palm_in_range; rewrite Hpalm; discriminate).
  rewrite Hpalm. reflexivity.
Qed.

(** So does disable-while-typing, in the frame in which the touch
    begins. *)
Lemma tp_palm_detect_touch_size_typing :
  arbitration_state tp = ARBITRATION_NOT_ACTIVE ->
  dwt_dwt_enabled tp = true -> dwt_keyboard_active tp = true ->
  t_state (touch tp i) = TOUCH_BEGIN ->
  tp_palm_detect ext tp i time =
  Some (set_touch i
          (set_palm_first (t_point (touch tp i))
             (set_palm_state PALM_TYPING (touch tp i))) tp).
Proof.
  intros Harb Hdwt Hkbd Hstate. unfold tp_palm_detect.
  rewrite touch_size_pressure_rule. cbv beta iota zeta.
  unfold tp_palm_detect_arbitration_triggered.
  rewrite (bool_decide_eq_true_2 _ Harb). cbv beta iota zeta.
  unfold tp_palm_detect_dwt_triggered. rewrite Hdwt, Hkbd.
  rewrite (bool_decide_eq_true_2 _ Hstate). cbv beta iota zeta.
  cbn [andb]. cbv beta iota zeta.
  unfold tp_palm_detect_out.
  rewrite touch_set_touch_eq
    by (apply palm_in_range; rewrite Hpalm; discriminate).
  rewrite Hpalm. reflexivity.
Qed.

End TouchSizePalm.

Lemma tp_end_touch_clears_palm (tp : tp_dispatch) (i : nat) (time : Z) :
  t_state (touch tp i) = TOUCH_MAYBE_END ->
  palm_state (touch (tp_end_touch tp i time) i) = PALM_NONE /\
  t_state (touch (tp_end_touch tp i time) i) = TOUCH_END.
Proof.
  intros Hstate. unfold tp_end_touch. rewrite decide_True by exact Hstate.
  assert (Hin : (i < length (touches tp))%nat)
    by (apply touch_in_range; rewrite Hstate; discriminate).
  change (touch (set_queued _ (set_touch i ?t tp)) i)
    with (touch (set_touch i t tp) i).
  rewrite touch_set_touch_eq by exact Hin. split; reflexivity.
Qed.

(** C3 (as amended).  Once palm.state is PALM_PRESSURE (a state entered
    only with palm detection by pressure in use), no evaluation by
    [tp_palm_detect] changes it, nor anything else.  Once it is
    PALM_TOUCH_SIZE, [tp_palm_detect] changes nothing while arbitration
    is not active and the touch is not in the frame of its TOUCH_BEGIN;
    the rules that come before the size rule win over it: active
    arbitration relabels the palm PALM_ARBITRATION, and a touch that
    begins while the keyboard is active is relabelled PALM_TYPING.
    [tp_end_touch] sets palm.state to PALM_NONE. *)
Theorem tp_palm_detect_sticky_states (ext : collaborators)
    (tp : tp_dispatch) (i : nat) (time : Z) :
  (palm_state (touch tp i) = PALM_PRESSURE ->
   palm_use_pressure tp = true ->
   tp_palm_detect ext tp i time = Some tp) /\
  (palm_state (touch tp i) = PALM_TOUCH_SIZE ->
   (arbitration_state tp = ARBITRATION_NOT_ACTIVE ->
    t_state (touch tp i) <> TOUCH_BEGIN ->
    tp_palm_detect ext tp i time = Some tp) /\
   (arbitration_state tp <> ARBITRATION_NOT_ACTIVE ->
    exists tp',
      tp_palm_detect ext tp i time = Some tp' /\
      palm_state (touch tp' i) = PALM_ARBITRATION) /\
   (arbitration_state tp = ARBITRATION_NOT_ACTIVE ->
    dwt_dwt_enabled tp = true -> dwt_keyboard_active tp = true ->
    t_state (touch tp i) = TOUCH_BEGIN ->
    exists tp',
      tp_palm_detect ext tp i time = Some tp' /\
      palm_state (touch tp' i) = PALM_TYPING)) /\
  (t_state (touch tp i) = TOUCH_MAYBE_END ->
   palm_state (touch (tp_end_touch tp i time) i) = PALM_NONE).
Proof.
  split; [|split].
  - intros Hpalm Huse. apply tp_palm_detect_pressure_sticky; assumption.
  - intros Hpalm.
    assert (Hin : (i < length (touches tp))%nat)
      by (apply palm_in_range; rewrite Hpalm; discriminate).
    split; [|split].
    + apply tp_palm_detect_touch_size_sticky. exact Hpalm.
    + intros Harb. eexists. split.
      * apply tp_palm_detect_touch_size_arbitration; assumption.
      * rewrite touch_set_touch_eq by exact Hin. reflexivity.
    + intros Harb Hdwt Hkbd Hstate. eexists. split.
      * apply tp_palm_detect_touch_size_typing; assumption.
      * rewrite touch_set_touch_eq by exact Hin. reflexivity.
  - intros Hstate. apply tp_end_touch_clears_palm. exact Hstate.
Qed.

(** A wide contact that has landed with no key pressed stays a palm by
    touch size when it moves. *)
Lemma tp_palm_detect_sticky_states_witness :
  palm_state (touch wide_moving_state 0) = PALM_TOUCH_SIZE /\
  arbitration_state wide_moving_state = ARBITRATION_NOT_ACTIVE /\
  t_state (touch wide_moving_state 0) = TOUCH_UPDATE /\
  tp_palm_detect st_ext wide_moving_state 0 15000 = Some wide_moving_state.
Proof.
  split; [reflexivity|]. split; [reflexivity|]. split; [reflexivity|].
  destruct (tp_palm_detect_sticky_states st_ext wide_moving_state 0 15000)
    as (_ & Hsize & _).
  destruct Hsize as (Hsticky & _); [reflexivity|].
  apply Hsticky; [reflexivity|discriminate].
Defined.

Lemma wide_states_reached :
  tp_interface_process_all st_ext mt_device wide_hover_events
  = Some wide_hover_state /\
  tp_keyboard_event wide_hover_state 2000
    (LIBINPUT_EVENT_KEYBOARD_KEY KEY_A LIBINPUT_KEY_STATE_PRESSED)
  = Some wide_key_state /\
  tp_interface_process_all st_ext wide_key_state wide_landing_events
  = Some wide_typing_state /\
  tp_interface_process_all st_ext wide_hover_state
    (wide_landing_events ++ wide_motion_events)
  = Some wide_moving_state.
Proof. repeat split; vm_compute; reflexivity. Qed.

(** C3 (as stated) fails for PALM_TOUCH_SIZE: a wide contact is labelled
    a palm by touch size while it hovers; a key goes down; the contact
    lands, and the evaluation of that frame relabels it PALM_TYPING,
    the touch being in TOUCH_UPDATE at the end of the frame, not
    ended. *)
Lemma tp_palm_detect_touch_size_not_sticky :
  t_state (touch wide_hover_state 0) = TOUCH_HOVERING /\
  palm_state (touch wide_hover_state 0) = PALM_TOUCH_SIZE /\
  tp_keyboard_event wide_hover_state 2000
    (LIBINPUT_EVENT_KEYBOARD_KEY KEY_A LIBINPUT_KEY_STATE_PRESSED)
  = Some wide_key_state /\
  tp_interface_process_all st_ext wide_key_state wide_landing_events
  = Some wide_typing_state /\
  t_state (touch wide_typing_state 0) = TOUCH_UPDATE /\
  palm_state (touch wide_typing_state 0) = PALM_TYPING.
Proof. repeat split; vm_compute; reflexivity. Qed.

(** ** Landing of a hovering touch *)

(** [tp_begin_touch] does not touch the motion history. *)
Lemma tp_begin_touch_history (tp tp' : tp_dispatch) (i : nat) (time : Z) :
  tp_begin_touch tp i time = Some tp' ->
  t_state (touch tp i) <> TOUCH_NONE ->
  t_state (touch tp' i) = TOUCH_BEGIN /\
  history_count (touch tp' i) = history_count (touch tp i).
Proof.
  unfold tp_begin_touch. intros H Hstate.
  destruct (nfingers_down _ >=? 1); [|discriminate].
  injection H as <-.
  change (touch (set_hysteresis_last_motion_time _ (set_touch i ?t ?p)) i)
    with (touch (set_touch i t p) i).
  rewrite touch_set_touch_eq by exact (touch_in_range _ _ Hstate).
  split; reflexivity.
Qed.

(** The landing of the pressure and size variants: the history is reset,
    then the touch begins. *)
Lemma tp_begin_touch_after_reset (tp tp' : tp_dispatch) (i : nat)
    (time : Z) :
  tp_begin_touch (on_touch i tp_motion_history_reset tp) i time = Some tp' ->
  t_state (touch tp i) <> TOUCH_NONE ->
  t_state (touch tp' i) = TOUCH_BEGIN /\ history_count (touch tp' i) = 0.
Proof.
  intros H Hstate.
  assert (Hin : (i < length (touches tp))%nat)
    by exact (touch_in_range _ _ Hstate).
  assert (Hreset :
    touch (on_touch i tp_motion_history_reset tp) i
    = tp_motion_history_reset (touch tp i))
    by (apply touch_set_touch_eq; exact Hin).
  destruct (tp_begin_touch_history _ _ _ _ H) as [Hb Hc].
  - rewrite Hreset. exact Hstate.
  - split; [exact Hb|]. rewrite Hc, Hreset. reflexivity.
Qed.

Lemma landing_states_reached :
  tp_interface_process_all st_ext st_device hover_then_touch_events
  = Some hover_then_touch_state /\
  tp_interface_process_all st_ext mt_fake_device swap_fingers_events
  = Some swap_fingers_state.
Proof. split; vm_compute; reflexivity. Qed.

(** The pressure and the size variant at work: the hovering touch has
    one entry in its history, and begins with none. *)
Lemma tp_unhover_pressure_resets_history :
  tp_interface_process_all st_ext wide_hover_state
    [ev EV_ABS ABS_MT_PRESSURE 40 3000]
  = Some wide_landing_state /\
  pressure_use_pressure wide_landing_state = true /\
  t_state (touch wide_landing_state 0) = TOUCH_HOVERING /\
  history_count (touch wide_landing_state 0) = 1 /\
  exists tp',
    tp_unhover_touches wide_landing_state 3000 = Some tp' /\
    t_state (touch tp' 0) = TOUCH_BEGIN /\
    history_count (touch tp' 0) = 0.
Proof.
  split; [vm_compute; reflexivity|]. repeat split.
  eexists. split; [vm_compute; reflexivity|]. split; reflexivity.
Qed.

Lemma tp_unhover_size_resets_history :
  tp_interface_process_all st_ext size_device small_hover_events
  = Some small_hover_state /\
  pressure_use_pressure small_hover_state = false /\
  touch_size_use_touch_size small_hover_state = true /\
  t_state (touch small_hover_state 0) = TOUCH_HOVERING /\
  history_count (touch small_hover_state 0) = 1 /\
  exists tp',
    tp_unhover_touches small_hover_state 13000 = Some tp' /\
    t_state (touch tp' 0) = TOUCH_BEGIN /\
    history_count (touch tp' 0) = 0.
Proof.
  split; [vm_compute; reflexivity|]. repeat split.
  eexists. split; [vm_compute; reflexivity|]. split; reflexivity.
Qed.

(** C5, at the failing input.  In the fake-finger variant a hovering
    touch that has one entry in its motion history is promoted to
    TOUCH_BEGIN with that entry still counted: [tp_unhover_fake_touches]
    calls [tp_begin_touch] without [tp_motion_history_reset]. *)
Theorem tp_unhover_fake_touches_keeps_history :
  pressure_use_pressure hover_then_touch_state = false /\
  touch_size_use_touch_size hover_then_touch_state = false /\
  t_state (touch hover_then_touch_state 0) = TOUCH_HOVERING /\
  history_count (touch hover_then_touch_state 0) = 1 /\
  exists tp',
    tp_unhover_touches hover_then_touch_state 13000 = Some tp' /\
    t_state (touch tp' 0) = TOUCH_BEGIN /\
    history_count (touch tp' 0) = 1.
Proof.
  repeat split. eexists. repeat split.
Qed.

(** When another touch ends in the same frame the finger count does not
    change, [tp_process_state] does not reset the history either, and
    the touch that has landed ends the frame with the positions it
    hovered at in its history (810 and 820 at offsets 2 and 1, the
    landing position at offset 0). *)
Lemma tp_unhover_fake_touches_history_survives_frame :
  t_state (touch swap_fingers_state 1) = TOUCH_HOVERING /\
  history_count (touch swap_fingers_state 1) = 2 /\
  exists tp',
    tp_handle_state st_ext swap_fingers_state 37000 = Some tp' /\
    t_state (touch tp' 1) = TOUCH_UPDATE /\
    history_count (touch tp' 1) = 3 /\
    x (hp_point (tp_motion_history_offset (touch tp' 1) 2)) = 810 /\
    x (hp_point (tp_motion_history_offset (touch tp' 1) 1)) = 820.
Proof.
  split; [reflexivity|]. split; [reflexivity|].
  eexists. split; [vm_compute; reflexivity|]. repeat split.
Qed.

(** ** The thumb classifier *)

(** [tp_thumb_detect] leaves the label of its own touch alone once it is
    THUMB_STATE_YES or THUMB_STATE_NO: "once a thumb, always a thumb,
    once ruled out always ruled out". *)
Lemma tp_thumb_detect_decided (ext : collaborators) (tp : tp_dispatch)
    (i : nat) (time : Z) :
  thumb_state (touch tp i) <> THUMB_STATE_MAYBE ->
  tp_thumb_detect ext tp i time = tp.
Proof.
  intros H. unfold tp_thumb_detect.
  rewrite (bool_decide_eq_false_2 _ H). cbn [negb].
  rewrite orb_true_r. reflexivity.
Qed.

Lemma thumb_state_on_touch_other (tp : tp_dispatch) (i j : nat)
    (f : tp_touch -> tp_touch) :
  i <> j -> thumb_state (touch (on_touch i f tp) j) = thumb_state (touch tp j).
Proof.
  intros H. unfold on_touch. rewrite touch_set_touch_ne by exact H.
  reflexivity.
Qed.

(** Nor does it change the label of any other touch that is decided: the
    rule for two fingers below the line rules the other finger out only
    when its label is still open. *)
Lemma tp_thumb_detect_keeps_decided (ext : collaborators) (tp : tp_dispatch)
    (i j : nat) (time : Z) :
  thumb_state (touch tp j) <> THUMB_STATE_MAYBE ->
  thumb_state (touch (tp_thumb_detect ext tp i time) j)
  = thumb_state (touch tp j).
Proof.
  intros Hj.
  destruct (decide (thumb_state (touch tp i) = THUMB_STATE_MAYBE))
    as [Hi|Hi]; [|rewrite tp_thumb_detect_decided by exact Hi; reflexivity].
  assert (Hne : i <> j) by (intros ->; contradiction).
  unfold tp_thumb_detect.
  repeat
    match goal with
    | |- context [if ?b then _ else _] => destruct b eqn:?
    | |- context [match find ?p ?l with _ => _ end] =>
        destruct (find p l) as [other|] eqn:?
    | |- thumb_state (touch (set_touch i _ _) j) = _ =>
        rewrite touch_set_touch_ne by exact Hne
    | |- thumb_state (touch (on_touch i _ _) j) = _ =>
        rewrite thumb_state_on_touch_other by exact Hne
    | |- thumb_state (touch (on_touch ?o _ _) j) = _ =>
        destruct (decide (o = j)) as [->|?];
        [exfalso|rewrite thumb_state_on_touch_other by assumption]
    | |- _ = _ => reflexivity
    | H : bool_decide (thumb_state (touch (on_touch i _ _) j) = _) = true
      |- False =>
        apply bool_decide_eq_true_1 in H;
        rewrite thumb_state_on_touch_other in H by exact Hne;
        rewrite ?touch_set_touch_ne in H by exact Hne;
        contradiction
    end.
Qed.

Lemma second_finger_states_reached :
  tp_interface_process_all st_ext click_device second_finger_events
  = Some second_finger_state /\
  tp_pre_process_state second_finger_state 156000
  = Some second_finger_begun /\
  tp_process_state_touches st_ext second_finger_begun 156000
  = Some second_finger_classified /\
  tp_handle_state st_ext second_finger_state 156000
  = Some second_finger_frame_end.
Proof. repeat split; vm_compute; reflexivity. Qed.

(** C2, at the failing input.  A finger has been moving fast for eleven
    frames when a second one lands far above the upper thumb line.  In
    the frame of its TOUCH_BEGIN [tp_thumb_detect] rules the new touch
    out (THUMB_STATE_NO); then, still in [tp_process_state],
    [tp_detect_thumb_while_moving] labels the same touch
    THUMB_STATE_YES, and so it ends the frame, in TOUCH_UPDATE. *)
Theorem tp_detect_thumb_while_moving_overrides_no :
  let classified := fst second_finger_classified in
  let locals := snd second_finger_classified in
  (* the new touch begins with its label open *)
  t_state (touch second_finger_begun 1) = TOUCH_BEGIN /\
  thumb_state (touch second_finger_begun 1) = THUMB_STATE_MAYBE /\
  y (t_point (touch second_finger_begun 1))
  < thumb_upper_thumb_line second_finger_begun /\
  (* the loop over the touches rules it out *)
  tp_process_state_touches st_ext second_finger_begun 156000
  = Some (classified, locals) /\
  thumb_state (touch classified 1) = THUMB_STATE_NO /\
  (* the condition of the speed-based rule holds *)
  have_new_touch locals = true /\ nfingers_down classified = 2 /\
  speed_exceeded_count_max locals > 5 /\
  (* and the rule turns NO into YES *)
  (exists tp',
     tp_detect_thumb_while_moving st_ext classified = Some tp' /\
     t_state (touch tp' 1) = TOUCH_BEGIN /\
     thumb_state (touch tp' 1) = THUMB_STATE_YES) /\
  tp_handle_state st_ext second_finger_state 156000
  = Some second_finger_frame_end /\
  t_state (touch second_finger_frame_end 1) = TOUCH_UPDATE /\
  thumb_state (touch second_finger_frame_end 1) = THUMB_STATE_YES.
Proof.
  cbv zeta.
  split; [reflexivity|]. split; [reflexivity|]. split; [reflexivity|].
  split; [vm_compute; reflexivity|]. split; [reflexivity|].
  split; [reflexivity|]. split; [reflexivity|]. split; [reflexivity|].
  split.
  - eexists. split; [vm_compute; reflexivity|]. split; reflexivity.
  - split; [vm_compute; reflexivity|]. split; reflexivity.
Qed.

(** ** The finger count: what keeps the invariant without looking *)

Lemma same_state_refl (t : tp_touch) : same_state t t.
Proof. split; auto. Qed.

Lemma same_state_trans (t1 t2 t3 : tp_touch) :
  same_state t1 t2 -> same_state t2 t3 -> same_state t1 t3.
Proof. intros [H1 H2] [H3 H4]. split; [congruence|auto]. Qed.

Lemma same_lifecycle_refl (tp : tp_dispatch) : same_lifecycle tp tp.
Proof.
  split; [reflexivity|]. apply Forall_Forall2_diag, Forall_forall.
  intros t _. apply same_state_refl.
Qed.

Lemma same_lifecycle_trans (tp1 tp2 tp3 : tp_dispatch) :
  same_lifecycle tp1 tp2 -> same_lifecycle tp2 tp3 -> same_lifecycle tp1 tp3.
Proof.
  intros [H1 H2] [H3 H4]. split; [congruence|].
  eapply Forall2_trans; [|exact H2|exact H4].
  intros ? ? ?. apply same_state_trans.
Qed.

(** Writing a field other than [nfingers_down] and [touches]. *)
Lemma same_lifecycle_field (tp0 tp1 tp2 : tp_dispatch) :
  same_lifecycle tp0 tp1 ->
  nfingers_down tp2 = nfingers_down tp1 -> touches tp2 = touches tp1 ->
  same_lifecycle tp0 tp2.
Proof. intros [H1 H2] Hn Ht. split; [congruence|]. rewrite Ht. exact H2. Qed.

Lemma Forall2_same_state_insert (l l1 : list tp_touch) (i : nat)
    (t' : tp_touch) :
  Forall2 same_state l l1 ->
  (forall t1, l1 !! i = Some t1 -> same_state t1 t') ->
  Forall2 same_state l (<[i := t']> l1).
Proof.
  intros H. revert i. induction H as [|t t1 l l1 Ht Hl IH]; intros i Hi.
  - constructor.
  - destruct i as [|i]; cbn.
    + constructor; [|exact Hl].
      apply (same_state_trans _ t1); [exact Ht|]. apply Hi. reflexivity.
    + constructor; [exact Ht|]. apply IH. exact Hi.
Qed.

(** Writing a touch with the state it has. *)
Lemma same_lifecycle_set_touch (tp0 tp1 : tp_dispatch) (i : nat)
    (t' : tp_touch) :
  same_lifecycle tp0 tp1 ->
  t_state t' = t_state (touch tp1 i) ->
  (t_dirty (touch tp1 i) = true -> t_dirty t' = true) ->
  same_lifecycle tp0 (set_touch i t' tp1).
Proof.
  intros [H1 H2] Hs Hd. split; [exact H1|].
  rewrite touches_set_touch. apply Forall2_same_state_insert; [exact H2|].
  intros t1 Ht1. rewrite (touch_lookup _ _ _ Ht1) in Hs, Hd.
  split; assumption.
Qed.

Lemma same_lifecycle_on_touch (tp0 tp1 : tp_dispatch) (i : nat)
    (f : tp_touch -> tp_touch) :
  same_lifecycle tp0 tp1 ->
  (forall t, same_state t (f t)) ->
  same_lifecycle tp0 (on_touch i f tp1).
Proof.
  intros H Hf. apply same_lifecycle_set_touch; [exact H| |]; apply Hf.
Qed.

(** Writing every touch with the state it has. *)
Lemma same_lifecycle_map (tp0 tp1 : tp_dispatch)
    (f : tp_touch -> tp_touch) :
  same_lifecycle tp0 tp1 ->
  (forall t, same_state t (f t)) ->
  same_lifecycle tp0 (set_touches (map f (touches tp1)) tp1).
Proof.
  intros [H1 H2] Hf. split; [exact H1|]. cbn [touches set_touches].
  change (map f (touches tp1)) with (f <$> touches tp1).
  apply Forall2_fmap_r.
  eapply Forall2_impl; [exact H2|].
  intros t t1 Ht. apply (same_state_trans _ t1); [exact Ht|apply Hf].
Qed.

Lemma count_down_same_state (l l' : list tp_touch) :
  Forall2 same_state l l' -> count_down l' = count_down l.
Proof.
  induction 1 as [|t t' l l' [Hs _] _ IH]; [reflexivity|].
  cbn. unfold touch_is_down. rewrite Hs, IH. reflexivity.
Qed.

Lemma fingers_down_inv_same_lifecycle (tp tp' : tp_dispatch) :
  same_lifecycle tp tp' -> fingers_down_inv tp -> fingers_down_inv tp'.
Proof.
  intros [Hn Ht] (Hc & Hlen & Hdirty). split; [|split].
  - rewrite Hn, Hc. symmetry. apply count_down_same_state. exact Ht.
  - rewrite <- (Forall2_length _ _ _ Ht). exact Hlen.
  - clear Hn Hc Hlen.
    induction Ht as [|t t' l l' [Hs Hd] _ IH]; [constructor|].
    inversion Hdirty as [|? ? Hb Hrest]; subst.
    constructor; [|apply IH; exact Hrest].
    intros Hbegin. apply Hd, Hb. congruence.
Qed.

(** Loops keep what their bodies keep. *)
Lemma for_each_invariant {A S : Type} (P : S -> Prop) (l : list A)
    (body : S -> A -> option S) (s s' : S) :
  (forall s a s', In a l -> P s -> body s a = Some s' -> P s') ->
  P s -> for_each l body s = Some s' -> P s'.
Proof.
  revert s. induction l as [|a l IH]; intros s Hbody Hs Hrun.
  - injection Hrun as <-. exact Hs.
  - cbn in Hrun. destruct (body s a) as [s1|] eqn:H1; [|discriminate].
    apply (IH s1); [|eapply Hbody; [left; reflexivity|exact Hs|exact H1]
                    |exact Hrun].
    intros s2 a2 s3 Hin. apply Hbody. right. exact Hin.
Qed.

Lemma for_each_break_invariant {A S : Type} (P : S -> Prop) (l : list A)
    (body : S -> A -> option (loop_exit * S)) (s s' : S) :
  (forall s a e s', In a l -> P s -> body s a = Some (e, s') -> P s') ->
  P s -> for_each_break l body s = Some s' -> P s'.
Proof.
  revert s. induction l as [|a l IH]; intros s Hbody Hs Hrun.
  - injection Hrun as <-. exact Hs.
  - cbn in Hrun. destruct (body s a) as [[[|] s1]|] eqn:H1; [| |discriminate].
    + apply (IH s1); [|eapply Hbody; [left; reflexivity|exact Hs|exact H1]
                      |exact Hrun].
      intros s2 a2 e s3 Hin. apply Hbody. right. exact Hin.
    + injection Hrun as <-.
      eapply Hbody; [left; reflexivity|exact Hs|exact H1].
Qed.

(** A step of a proof that an expression built from conditionals and
    from writes that keep the states is [same_lifecycle]. *)
Ltac lifecycle_step :=
  lazymatch goal with
  | |- same_lifecycle ?tp ?tp => apply same_lifecycle_refl
  | |- same_lifecycle _ (if ?b then _ else _) => destruct b eqn:?
  | |- same_lifecycle _ (snd (if ?b then _ else _)) => destruct b eqn:?
  | |- same_lifecycle _ (snd (_, _)) => cbn [snd]
  | |- same_lifecycle _ (match ?x with _ => _ end) => destruct x eqn:?
  | |- same_lifecycle _ (set_touch _ _ _) =>
      apply same_lifecycle_set_touch;
      [|reflexivity|first [reflexivity|intros H; exact H]]
  | |- same_lifecycle _ (on_touch _ _ _) =>
      apply same_lifecycle_on_touch;
      [|intros ?; split; [reflexivity|first [reflexivity|intros H; exact H]]]
  | |- same_lifecycle _ (?f _ ?tp1) =>
      apply (same_lifecycle_field _ tp1); [|reflexivity|reflexivity]
  end.

Ltac lifecycle := cbv zeta; repeat lifecycle_step.

Lemma tp_fake_finger_count_lifecycle (tp0 tp : tp_dispatch) :
  same_lifecycle tp0 tp -> same_lifecycle tp0 (snd (tp_fake_finger_count tp)).
Proof.
  intros H. destruct (tp_fake_finger_count_state tp) as [-> | ->];
    [exact H|]. lifecycle. exact H.
Qed.

Lemma tp_fake_finger_set_lifecycle (tp : tp_dispatch) (code : Z)
    (is_press : bool) :
  same_lifecycle tp (tp_fake_finger_set tp code is_press).
Proof. unfold tp_fake_finger_set. lifecycle. Qed.

Lemma tp_process_msc_lifecycle (tp : tp_dispatch) (e : input_event)
    (time : Z) :
  same_lifecycle tp (tp_process_msc tp e time).
Proof. unfold tp_process_msc, queue. lifecycle. Qed.

Lemma tp_motion_history_fix_last_same_state (t : tp_touch)
    (jumping normal time : Z) :
  same_state t (tp_motion_history_fix_last t jumping normal time).
Proof.
  unfold tp_motion_history_fix_last.
  destruct (negb (bool_decide (t_state t = TOUCH_UPDATE)));
    [apply same_state_refl|].
  generalize (range 0 (history_count t)). intros l.
  assert (H : same_state t t) by apply same_state_refl.
  revert H. generalize t at 2 4. induction l as [|i l IH]; intros t' H.
  - exact H.
  - cbn [fold_left]. apply IH. destruct H as [Hs Hd]. split; assumption.
Qed.

Lemma tp_process_msc_timestamp_lifecycle (tp : tp_dispatch) (time : Z) :
  same_lifecycle tp (tp_process_msc_timestamp tp time).
Proof.
  unfold tp_process_msc_timestamp, log. lifecycle.
  apply same_lifecycle_map; [apply same_lifecycle_refl|].
  intros t. apply tp_motion_history_fix_last_same_state.
Qed.

Section ProcessLifecycle.

Variable ext : collaborators.

Lemma tp_process_key_lifecycle (tp : tp_dispatch) (e : input_event)
    (time : Z) :
  same_lifecycle tp (tp_process_key ext tp e time).
Proof.
  unfold tp_process_key, queue. lifecycle.
  apply tp_fake_finger_set_lifecycle.
Qed.

Lemma tp_detect_jumps_lifecycle (tp : tp_dispatch) (i : nat) (time : Z) :
  same_lifecycle tp (snd (tp_detect_jumps ext tp i time)).
Proof. unfold tp_detect_jumps. lifecycle. Qed.

Lemma tp_thumb_detect_lifecycle (tp : tp_dispatch) (i : nat) (time : Z) :
  same_lifecycle tp (tp_thumb_detect ext tp i time).
Proof. unfold tp_thumb_detect. lifecycle. Qed.

Lemma tp_palm_detect_pressure_triggered_lifecycle (tp : tp_dispatch)
    (i : nat) (time : Z) :
  same_lifecycle tp (snd (tp_palm_detect_pressure_triggered tp i time)).
Proof. unfold tp_palm_detect_pressure_triggered. lifecycle. Qed.

Lemma tp_palm_detect_arbitration_triggered_lifecycle (tp : tp_dispatch)
    (i : nat) (time : Z) :
  same_lifecycle tp (snd (tp_palm_detect_arbitration_triggered tp i time)).
Proof. unfold tp_palm_detect_arbitration_triggered. lifecycle. Qed.

Lemma tp_palm_detect_dwt_triggered_lifecycle (tp : tp_dispatch) (i : nat)
    (time : Z) :
  same_lifecycle tp (snd (tp_palm_detect_dwt_triggered tp i time)).
Proof. unfold tp_palm_detect_dwt_triggered. lifecycle. Qed.

Lemma tp_palm_detect_trackpoint_triggered_lifecycle (tp : tp_dispatch)
    (i : nat) (time : Z) :
  same_lifecycle tp (snd (tp_palm_detect_trackpoint_triggered tp i time)).
Proof. unfold tp_palm_detect_trackpoint_triggered. lifecycle. Qed.

Lemma tp_palm_detect_tool_triggered_lifecycle (tp : tp_dispatch) (i : nat)
    (time : Z) :
  same_lifecycle tp (snd (tp_palm_detect_tool_triggered tp i time)).
Proof. unfold tp_palm_detect_tool_triggered. lifecycle. Qed.

Lemma tp_palm_detect_touch_size_triggered_lifecycle (tp : tp_dispatch)
    (i : nat) (time : Z) :
  same_lifecycle tp (snd (tp_palm_detect_touch_size_triggered tp i time)).
Proof. unfold tp_palm_detect_touch_size_triggered. lifecycle. Qed.

Lemma tp_palm_detect_edge_lifecycle (tp : tp_dispatch) (i : nat)
    (time : Z) :
  same_lifecycle tp (snd (tp_palm_detect_edge ext tp i time)).
Proof. unfold tp_palm_detect_edge. lifecycle. Qed.

End ProcessLifecycle.

Section ProcessLifecycle2.

Variable ext : collaborators.

Lemma tp_palm_detect_out_some (oldstate : touch_palm_state)
    (tp tp' : tp_dispatch) (i : nat) :
  tp_palm_detect_out oldstate tp i = Some tp' -> tp' = tp.
Proof.
  unfold tp_palm_detect_out. destruct (decide _); [congruence|].
  destruct (palm_state (touch tp i)); congruence.
Qed.

(** One rule of the chain of [tp_palm_detect]. *)
Lemma tp_palm_detect_rule (rule : tp_dispatch -> bool * tp_dispatch)
    (rest : tp_dispatch -> option tp_dispatch)
    (oldstate : touch_palm_state) (i : nat) (tp0 tp tp' : tp_dispatch) :
  (forall tp, same_lifecycle tp (snd (rule tp))) ->
  (forall tp1, same_lifecycle tp0 tp1 -> rest tp1 = Some tp' ->
               same_lifecycle tp0 tp') ->
  same_lifecycle tp0 tp ->
  (let '(r, tp1) := rule tp in
   if r then tp_palm_detect_out oldstate tp1 i else rest tp1) = Some tp' ->
  same_lifecycle tp0 tp'.
Proof.
  intros Hrule Hrest H0 Hrun. specialize (Hrule tp).
  destruct (rule tp) as [r tp1]. cbn [snd] in Hrule.
  assert (H1 : same_lifecycle tp0 tp1)
    by (eapply same_lifecycle_trans; eassumption).
  destruct r.
  - apply tp_palm_detect_out_some in Hrun. subst tp'. exact H1.
  - eapply Hrest; eassumption.
Qed.

Lemma tp_palm_detect_lifecycle (tp tp' : tp_dispatch) (i : nat) (time : Z) :
  tp_palm_detect ext tp i time = Some tp' -> same_lifecycle tp tp'.
Proof.
  unfold tp_palm_detect. intros Hrun.
  refine (tp_palm_detect_rule
            (fun tp => tp_palm_detect_pressure_triggered tp i time)
            _ _ _ _ _ _ _ _ (same_lifecycle_refl tp) Hrun);
    [intros; apply tp_palm_detect_pressure_triggered_lifecycle|].
  clear Hrun. intros tp1 H1 Hrun.
  refine (tp_palm_detect_rule
            (fun tp => tp_palm_detect_arbitration_triggered tp i time)
            _ _ _ _ _ _ _ _ H1 Hrun);
    [intros; apply tp_palm_detect_arbitration_triggered_lifecycle|].
  clear Hrun. intros tp2 H2 Hrun.
  refine (tp_palm_detect_rule
            (fun tp => tp_palm_detect_dwt_triggered tp i time)
            _ _ _ _ _ _ _ _ H2 Hrun);
    [intros; apply tp_palm_detect_dwt_triggered_lifecycle|].
  clear Hrun. intros tp3 H3 Hrun.
  refine (tp_palm_detect_rule
            (fun tp => tp_palm_detect_trackpoint_triggered tp i time)
            _ _ _ _ _ _ _ _ H3 Hrun);
    [intros; apply tp_palm_detect_trackpoint_triggered_lifecycle|].
  clear Hrun. intros tp4 H4 Hrun.
  refine (tp_palm_detect_rule
            (fun tp => tp_palm_detect_tool_triggered tp i time)
            _ _ _ _ _ _ _ _ H4 Hrun);
    [intros; apply tp_palm_detect_tool_triggered_lifecycle|].
  clear Hrun. intros tp5 H5 Hrun.
  refine (tp_palm_detect_rule
            (fun tp => tp_palm_detect_touch_size_triggered tp i time)
            _ _ _ _ _ _ _ _ H5 Hrun);
    [intros; apply tp_palm_detect_touch_size_triggered_lifecycle|].
  clear Hrun. intros tp6 H6 Hrun.
  refine (tp_palm_detect_rule
            (fun tp => tp_palm_detect_edge ext tp i time)
            _ _ _ _ _ _ _ _ H6 Hrun);
    [intros; apply tp_palm_detect_edge_lifecycle|].
  clear Hrun. intros tp7 H7 Hrun.
  refine (tp_palm_detect_rule
            (fun tp => tp_palm_detect_pressure_triggered tp i time)
            (fun tp => Some tp) _ _ _ _ _ _ _ H7 Hrun);
    [intros; apply tp_palm_detect_pressure_triggered_lifecycle|].
  intros tp8 H8 [= <-]. exact H8.
Qed.

Lemma tp_detect_wobbling_lifecycle (tp : tp_dispatch) (i : nat) (time : Z) :
  same_lifecycle tp (tp_detect_wobbling tp i time).
Proof. unfold tp_detect_wobbling. lifecycle. Qed.

Lemma tp_motion_hysteresis_same_state (tp : tp_dispatch) (t : tp_touch) :
  same_state t (tp_motion_hysteresis ext tp t).
Proof.
  unfold tp_motion_hysteresis.
  destruct (negb (hysteresis_enabled tp)); [apply same_state_refl|].
  destruct (history_count t >? 0); split; auto.
Qed.

Lemma tp_motion_history_push_same_state (t : tp_touch) :
  same_state t (tp_motion_history_push t).
Proof.
  unfold tp_motion_history_push.
  destruct (history_count t <? TOUCHPAD_HISTORY_LENGTH); split; auto.
Qed.

Lemma tp_calculate_motion_speed_same_state (tp : tp_dispatch)
    (t : tp_touch) :
  same_state t (tp_calculate_motion_speed ext tp t).
Proof.
  unfold tp_calculate_motion_speed.
  repeat match goal with
         | |- same_state _ (if ?b then _ else _) => destruct b
         end; split; auto.
Qed.

Lemma tp_unpin_finger_same_state (tp : tp_dispatch) (t : tp_touch) :
  same_state t (tp_unpin_finger ext tp t).
Proof.
  unfold tp_unpin_finger.
  repeat match goal with
         | |- same_state _ (if ?b then _ else _) => destruct b
         end; split; auto.
Qed.

Lemma tp_pin_fingers_lifecycle (tp : tp_dispatch) :
  same_lifecycle tp (tp_pin_fingers tp).
Proof.
  unfold tp_pin_fingers.
  apply same_lifecycle_map; [apply same_lifecycle_refl|].
  intros t. split; auto.
Qed.

Lemma tp_need_motion_history_reset_lifecycle (tp : tp_dispatch) :
  same_lifecycle tp (snd (tp_need_motion_history_reset tp)).
Proof.
  unfold tp_need_motion_history_reset.
  destruct (negb (nfingers_down tp =? old_nfingers_down tp));
    [lifecycle|].
  destruct (negb (Z.land (device_model_flags tp)
                    EVDEV_MODEL_LENOVO_T450_TOUCHPAD =? 0)); [|lifecycle].
  destruct (negb (Z.land (queued tp) TOUCHPAD_EVENT_MOTION =? 0));
    [destruct (quirks_nonmotion_event_count tp >? 10)|];
    cbv beta iota zeta; lifecycle.
Qed.

Lemma tp_detect_thumb_while_moving_lifecycle (tp tp' : tp_dispatch) :
  tp_detect_thumb_while_moving ext tp = Some tp' -> same_lifecycle tp tp'.
Proof.
  unfold tp_detect_thumb_while_moving.
  destruct (first_and_second tp) as [[first|] [second|]]; try discriminate.
  match goal with
  | |- (if ?b then _ else _) = _ -> _ => destruct b
  end; intros [= <-]; lifecycle.
Qed.

End ProcessLifecycle2.

(** In a hypothesis [H : (let tp := E in K tp) = r], name [E] and keep
    only that it is [same_lifecycle] with [tp0], proved by [tac]. *)
Ltac name_let tp0 H tac :=
  lazymatch type of H with
  | (let x := ?E in @?K x) = ?r =>
      let HE := fresh "HE" in
      let tp1 := fresh "tp" in
      assert (HE : same_lifecycle tp0 E) by tac;
      pose (tp1 := E); change E with tp1 in HE;
      change (K tp1 = r) in H; cbv beta in H; clearbody tp1
  end.

Section ProcessLifecycle3.

Variable ext : collaborators.

Lemma tp_position_fake_touches_lifecycle (tp tp' : tp_dispatch) :
  tp_position_fake_touches tp = Some tp' -> same_lifecycle tp tp'.
Proof.
  unfold tp_position_fake_touches.
  pose proof (tp_fake_finger_count_lifecycle tp tp (same_lifecycle_refl tp))
    as H1.
  destruct (tp_fake_finger_count tp) as [nfake tp1]. cbn [snd] in H1.
  destruct ((nfake <=? num_slots tp1) || (nfingers_down tp1 =? 0));
    [intros [= <-]; exact H1|].
  destruct (for_each _ _ None) as [[topmost|]|]; [| |discriminate].
  - intros Hrun.
    refine (for_each_invariant (same_lifecycle tp) _ _ _ _ _ H1 Hrun).
    clear Hrun. intros s i s' _ Hs.
    destruct (tp_get_touch s i) as [t|]; [|discriminate].
    destruct (decide _); [intros [= <-]; exact Hs|].
    cbv zeta.
    match goal with
    | |- (if negb (t_dirty (touch ?tp2 t)) then _ else _) = _ -> _ =>
        assert (H2 : same_lifecycle tp tp2) by (lifecycle; exact Hs);
        destruct (negb (t_dirty (touch tp2 t))) eqn:Hdirty
    end; intros [= <-]; [|exact H2].
    apply same_lifecycle_set_touch; [exact H2|reflexivity|].
    intros Hd. rewrite Hd in Hdirty. discriminate.
  - intros [= <-]. lifecycle. exact H1.
Qed.

Lemma tp_process_state_touch_lifecycle (tp0 : tp_dispatch)
    (want_motion_reset : bool) (time : Z)
    (s s' : tp_dispatch * process_locals) (i : nat) :
  same_lifecycle tp0 (fst s) ->
  tp_process_state_touch ext want_motion_reset time s i = Some s' ->
  same_lifecycle tp0 (fst s').
Proof.
  destruct s as [tp l]. cbn [fst]. intros H0.
  cbv beta iota delta [tp_process_state_touch].
  destruct (decide _); [intros [= <-]; exact H0|].
  intros Hrun. name_let tp0 Hrun ltac:(lifecycle; exact H0).
  destruct (negb (t_dirty (touch tp1 i))).
  - name_let tp0 Hrun ltac:(lifecycle; exact HE).
    injection Hrun as <-. exact HE0.
  - pose proof (tp_detect_jumps_lifecycle ext tp1 i time) as Hj.
    destruct (tp_detect_jumps ext tp1 i time) as [is_jump tp2].
    cbn [snd] in Hj.
    assert (H2 : same_lifecycle tp0 tp2)
      by (eapply same_lifecycle_trans; eassumption).
    name_let tp0 Hrun ltac:(lifecycle; exact H2).
    name_let tp0 Hrun
      ltac:(eapply same_lifecycle_trans;
            [exact HE0|apply tp_thumb_detect_lifecycle]).
    destruct (tp_palm_detect ext tp4 i time) as [tp5|] eqn:Hpalm;
      [|discriminate].
    assert (H5 : same_lifecycle tp0 tp5)
      by (eapply same_lifecycle_trans;
          [exact HE1|eapply tp_palm_detect_lifecycle; exact Hpalm]).
    name_let tp0 Hrun
      ltac:(eapply same_lifecycle_trans;
            [exact H5|apply tp_detect_wobbling_lifecycle]).
    name_let tp0 Hrun
      ltac:(apply same_lifecycle_on_touch;
            [exact HE2|apply tp_motion_hysteresis_same_state]).
    name_let tp0 Hrun
      ltac:(apply same_lifecycle_on_touch;
            [exact HE3|apply tp_motion_history_push_same_state]).
    name_let tp0 Hrun ltac:(lifecycle; exact HE4).
    cbv zeta in Hrun. injection Hrun as <-. cbn [fst].
    apply same_lifecycle_on_touch;
      [|apply tp_unpin_finger_same_state].
    apply same_lifecycle_on_touch;
      [|apply tp_calculate_motion_speed_same_state].
    exact HE5.
Qed.

Lemma tp_process_state_touches_lifecycle (tp : tp_dispatch) (time : Z)
    (s' : tp_dispatch * process_locals) :
  tp_process_state_touches ext tp time = Some s' ->
  same_lifecycle tp (fst s').
Proof.
  unfold tp_process_state_touches.
  destruct (tp_position_fake_touches tp) as [tp1|] eqn:H1; [|discriminate].
  apply tp_position_fake_touches_lifecycle in H1.
  pose proof (tp_need_motion_history_reset_lifecycle tp1) as H2.
  destruct (tp_need_motion_history_reset tp1) as [want tp2]. cbn [snd] in H2.
  intros Hrun.
  refine (for_each_invariant (fun s => same_lifecycle tp (fst s))
            _ _ _ _ _ _ Hrun).
  - intros s i s1 _. apply tp_process_state_touch_lifecycle.
  - cbn [fst]. eapply same_lifecycle_trans; eassumption.
Qed.

Lemma tp_process_state_rest_lifecycle (tp tp' : tp_dispatch)
    (l : process_locals) (time : Z) :
  tp_process_state_rest ext tp l time = Some tp' -> same_lifecycle tp tp'.
Proof.
  cbv beta delta [tp_process_state_rest].
  assert (H1 : forall tp1,
            (if have_new_touch l && (nfingers_down tp =? 2)
                && (speed_exceeded_count_max l >? 5)
             then tp_detect_thumb_while_moving ext tp
             else Some tp) = Some tp1 -> same_lifecycle tp tp1).
  { intros tp1. destruct (_ && _).
    - apply tp_detect_thumb_while_moving_lifecycle.
    - intros [= <-]. apply same_lifecycle_refl. }
  destruct (if have_new_touch l && _ && _ then _ else _) as [tp1|];
    [|discriminate].
  specialize (H1 tp1 eq_refl). intros Hrun.
  name_let tp Hrun ltac:(unfold log; lifecycle; exact H1).
  destruct (_ && _); injection Hrun as <-; [|exact HE].
  eapply same_lifecycle_trans; [exact HE|apply tp_pin_fingers_lifecycle].
Qed.

Lemma tp_process_state_lifecycle (tp tp' : tp_dispatch) (time : Z) :
  tp_process_state ext tp time = Some tp' -> same_lifecycle tp tp'.
Proof.
  unfold tp_process_state.
  destruct (tp_process_state_touches ext tp time) as [[tp1 l]|] eqn:H1;
    [|discriminate].
  apply tp_process_state_touches_lifecycle in H1. cbn [fst] in H1.
  intros H2. apply tp_process_state_rest_lifecycle in H2.
  eapply same_lifecycle_trans; eassumption.
Qed.

End ProcessLifecycle3.

(** ** The finger count: the operations that change a state *)

Lemma touch_is_down_state (t : tp_touch) :
  touch_is_down t =
  match t_state t with
  | TOUCH_BEGIN | TOUCH_UPDATE => true
  | _ => false
  end.
Proof. unfold touch_is_down. destruct (t_state t); reflexivity. Qed.

Lemma down_bit_state (t : tp_touch) :
  down_bit t =
  match t_state t with
  | TOUCH_BEGIN | TOUCH_UPDATE => 1
  | _ => 0
  end.
Proof.
  unfold down_bit. rewrite touch_is_down_state.
  destruct (t_state t); reflexivity.
Qed.

Lemma count_down_insert (l : list tp_touch) (i : nat) (t t' : tp_touch) :
  l !! i = Some t ->
  count_down (<[i := t']> l) = count_down l - down_bit t + down_bit t'.
Proof.
  revert i. induction l as [|a l IH]; intros i Hi; [discriminate|].
  destruct i as [|i].
  - injection Hi as ->. cbn. unfold down_bit. lia.
  - change (<[S i := t']> (a :: l)) with (a :: <[i := t']> l).
    cbn [count_down]. rewrite (IH i Hi). lia.
Qed.

Lemma count_down_range (l : list tp_touch) :
  0 <= count_down l <= Z.of_nat (length l).
Proof.
  induction l as [|a l IH]; cbn [count_down length]; [lia|].
  destruct (touch_is_down a); lia.
Qed.

Lemma count_down_map (f : tp_touch -> tp_touch) (l : list tp_touch) :
  (forall t, touch_is_down (f t) = touch_is_down t) ->
  count_down (map f l) = count_down l.
Proof.
  intros Hf. induction l as [|a l IH]; [reflexivity|].
  cbn. rewrite Hf, IH. reflexivity.
Qed.

(** Writing the touch [i] and adjusting the count by what became of
    it. *)
Lemma fingers_down_inv_update (tp tp' : tp_dispatch) (i : nat)
    (t' : tp_touch) :
  fingers_down_inv tp -> (i < length (touches tp))%nat ->
  touches tp' = <[i := t']> (touches tp) ->
  nfingers_down tp'
  = u32 (nfingers_down tp - down_bit (touch tp i) + down_bit t') ->
  (t_state t' = TOUCH_BEGIN -> t_dirty t' = true) ->
  fingers_down_inv tp' /\
  nfingers_down tp'
  = nfingers_down tp - down_bit (touch tp i) + down_bit t'.
Proof.
  intros (Hc & Hlen & Hdirty) Hi Ht Hn Hb.
  pose proof (count_down_insert _ _ _ t' (touch_lookup_lt _ _ Hi)) as Hins.
  pose proof (count_down_range (<[i := t']> (touches tp))) as Hr.
  rewrite length_insert in Hr.
  assert (Hn' : nfingers_down tp'
                = nfingers_down tp - down_bit (touch tp i) + down_bit t').
  { rewrite Hn. apply u32_small. rewrite Hc. lia. }
  split; [|exact Hn']. split; [|split].
  - rewrite Hn', Ht, Hins, Hc. reflexivity.
  - rewrite Ht, length_insert. exact Hlen.
  - rewrite Ht. apply Forall_insert; assumption.
Qed.

(** The same when the touch stays down, or stays up. *)
Lemma fingers_down_inv_keep (tp tp' : tp_dispatch) (i : nat)
    (t' : tp_touch) :
  fingers_down_inv tp ->
  touches tp' = <[i := t']> (touches tp) ->
  nfingers_down tp' = nfingers_down tp ->
  touch_is_down t' = touch_is_down (touch tp i) ->
  (t_state t' = TOUCH_BEGIN -> t_dirty t' = true) ->
  fingers_down_inv tp'.
Proof.
  intros Hinv Ht Hn Hd Hb.
  destruct (Nat.lt_ge_cases i (length (touches tp))) as [Hi|Hi].
  - apply (fingers_down_inv_update tp tp' i t'); try assumption.
    rewrite Hn. unfold down_bit. rewrite Hd.
    destruct Hinv as (Hc & Hlen & _).
    pose proof (count_down_range (touches tp)).
    rewrite u32_small; lia.
  - rewrite list_insert_ge in Ht by exact Hi.
    destruct Hinv as (Hc & Hlen & Hdirty).
    split; [|split]; rewrite ?Ht, ?Hn; assumption.
Qed.

Lemma tp_new_touch_inv (tp : tp_dispatch) (i : nat) (time : Z) :
  fingers_down_inv tp -> fingers_down_inv (tp_new_touch tp i time).
Proof.
  intros Hinv. unfold tp_new_touch.
  destruct (t_state (touch tp i)) eqn:Hstate; try exact Hinv.
  - eapply fingers_down_inv_keep; [exact Hinv|reflexivity|reflexivity| |].
    + rewrite !touch_is_down_state. cbn. rewrite Hstate. reflexivity.
    + discriminate.
  - eapply fingers_down_inv_update;
      [exact Hinv|apply touch_in_range; rewrite Hstate; discriminate
      |reflexivity| |discriminate].
    cbn. rewrite !down_bit_state. cbn. rewrite Hstate.
    f_equal. lia.
  - eapply fingers_down_inv_keep; [exact Hinv|reflexivity|reflexivity| |].
    + rewrite !touch_is_down_state. cbn. rewrite Hstate. reflexivity.
    + discriminate.
Qed.

Lemma tp_begin_touch_inv (tp : tp_dispatch) (i : nat) (time : Z) :
  fingers_down_inv tp -> t_state (touch tp i) = TOUCH_HOVERING ->
  exists tp',
    tp_begin_touch tp i time = Some tp' /\
    fingers_down_inv tp' /\ nfingers_down tp' = nfingers_down tp + 1.
Proof.
  intros Hinv Hstate.
  assert (Hi : (i < length (touches tp))%nat)
    by (apply touch_in_range; rewrite Hstate; discriminate).
  unfold tp_begin_touch.
  match goal with
  | |- exists tp', (if _ then Some ?r else None) = _ /\ _ =>
      destruct (fingers_down_inv_update tp r i
                  (set_speed_exceeded_count 0
                     (set_tap_is_palm false
                        (set_tap_is_thumb false
                           (set_thumb_first_touch_time time
                              (set_thumb_state THUMB_STATE_MAYBE
                                 (set_palm_time time
                                    (set_t_was_down true
                                       (set_t_time time
                                          (set_t_state TOUCH_BEGIN
                                             (set_t_dirty true
                                                (touch tp i)))))))))))
                  Hinv Hi)
        as [Hinv' Hn];
        [reflexivity| |reflexivity|]
  end.
  - cbn. rewrite !down_bit_state. cbn. rewrite Hstate.
    f_equal. lia.
  - rewrite !down_bit_state in Hn. cbn in Hn. rewrite Hstate in Hn.
    cbn [nfingers_down set_nfingers_down set_hysteresis_last_motion_time
         set_touch set_touches] in *.
    destruct Hinv as (Hc & _ & _).
    pose proof (count_down_range (touches tp)).
    rewrite (proj2 (Z.geb_le _ _)) by lia.
    eexists. split; [reflexivity|]. split; [exact Hinv'|].
    cbn. lia.
Qed.

Lemma tp_maybe_end_touch_inv (tp : tp_dispatch) (i : nat) (time : Z) :
  fingers_down_inv tp ->
  exists tp',
    tp_maybe_end_touch tp i time = Some tp' /\
    fingers_down_inv tp' /\
    nfingers_down tp' = nfingers_down tp - down_bit (touch tp i).
Proof.
  intros Hinv. unfold tp_maybe_end_touch.
  assert (Hsame : fingers_down_inv tp /\
                  nfingers_down tp = nfingers_down tp - 0)
    by (split; [exact Hinv|lia]).
  rewrite down_bit_state.
  destruct (t_state (touch tp i)) eqn:Hstate;
    try (eexists; split; [reflexivity|exact Hsame]).
  - eexists. split; [reflexivity|]. split; [|cbn; lia].
    eapply fingers_down_inv_keep; [exact Hinv|reflexivity|reflexivity| |].
    + rewrite !touch_is_down_state. cbn. rewrite Hstate. reflexivity.
    + discriminate.
  - assert (Hi : (i < length (touches tp))%nat)
      by (apply touch_in_range; rewrite Hstate; discriminate).
    match goal with
    | |- exists tp', (if _ then Some ?r else None) = _ /\ _ =>
        destruct (fingers_down_inv_update tp r i
                    (set_t_dirty true
                       (set_t_state TOUCH_MAYBE_END (touch tp i))) Hinv Hi)
          as [Hinv' Hn]; [reflexivity| |discriminate|]
    end.
    + cbn. rewrite !down_bit_state. cbn. rewrite Hstate.
      f_equal. lia.
    + rewrite !down_bit_state in Hn. cbn in Hn. rewrite Hstate in Hn.
      destruct Hinv as (Hc & _ & _).
      pose proof (count_down_insert _ _ _
                    (set_t_dirty true
                       (set_t_state TOUCH_MAYBE_END (touch tp i)))
                    (touch_lookup_lt _ _ Hi)) as Hins.
      pose proof (count_down_range
                    (<[i := set_t_dirty true
                               (set_t_state TOUCH_MAYBE_END (touch tp i))]>
                       (touches tp))) as Hr.
      rewrite !down_bit_state in Hins. cbn in Hins. rewrite Hstate in Hins.
      rewrite (proj2 (Z.geb_le _ _)) by lia.
      eexists. split; [reflexivity|]. split; [exact Hinv'|]. cbn. lia.
  - assert (Hi : (i < length (touches tp))%nat)
      by (apply touch_in_range; rewrite Hstate; discriminate).
    match goal with
    | |- exists tp', (if _ then Some ?r else None) = _ /\ _ =>
        destruct (fingers_down_inv_update tp r i
                    (set_t_dirty true
                       (set_t_state TOUCH_MAYBE_END (touch tp i))) Hinv Hi)
          as [Hinv' Hn]; [reflexivity| |discriminate|]
    end.
    + cbn. rewrite !down_bit_state. cbn. rewrite Hstate.
      f_equal. lia.
    + rewrite !down_bit_state in Hn. cbn in Hn. rewrite Hstate in Hn.
      destruct Hinv as (Hc & _ & _).
      pose proof (count_down_insert _ _ _
                    (set_t_dirty true
                       (set_t_state TOUCH_MAYBE_END (touch tp i)))
                    (touch_lookup_lt _ _ Hi)) as Hins.
      pose proof (count_down_range
                    (<[i := set_t_dirty true
                               (set_t_state TOUCH_MAYBE_END (touch tp i))]>
                       (touches tp))) as Hr.
      rewrite !down_bit_state in Hins. cbn in Hins. rewrite Hstate in Hins.
      rewrite (proj2 (Z.geb_le _ _)) by lia.
      eexists. split; [reflexivity|]. split; [exact Hinv'|]. cbn. lia.
Qed.

Lemma touch_set_touch_out (tp : tp_dispatch) (i : nat) (t : tp_touch) :
  (length (touches tp) <= i)%nat -> touch (set_touch i t tp) i = touch tp i.
Proof.
  intros H. unfold touch. rewrite set_touch_out_of_range by exact H.
  reflexivity.
Qed.

Lemma tp_recover_ended_touch_inv (tp : tp_dispatch) (i : nat) :
  fingers_down_inv tp -> t_state (touch tp i) = TOUCH_MAYBE_END ->
  fingers_down_inv (tp_recover_ended_touch tp i) /\
  nfingers_down (tp_recover_ended_touch tp i) = nfingers_down tp + 1.
Proof.
  intros Hinv Hstate.
  assert (Hi : (i < length (touches tp))%nat)
    by (apply touch_in_range; rewrite Hstate; discriminate).
  destruct (fingers_down_inv_update tp (tp_recover_ended_touch tp i) i
              (set_t_state TOUCH_UPDATE (set_t_dirty true (touch tp i)))
              Hinv Hi) as [Hinv' Hn]; [reflexivity| |discriminate|].
  - cbn. rewrite !down_bit_state. cbn. rewrite Hstate. f_equal. lia.
  - rewrite !down_bit_state in Hn. cbn in Hn. rewrite Hstate in Hn.
    split; [exact Hinv'|]. etransitivity; [exact Hn|lia].
Qed.

Lemma tp_end_touch_inv (tp : tp_dispatch) (i : nat) (time : Z) :
  fingers_down_inv tp ->
  fingers_down_inv (tp_end_touch tp i time) /\
  nfingers_down (tp_end_touch tp i time) = nfingers_down tp.
Proof.
  intros Hinv. unfold tp_end_touch.
  destruct (decide (t_state (touch tp i) = TOUCH_MAYBE_END)) as [Hstate|_].
  - split; [|reflexivity].
    eapply fingers_down_inv_keep; [exact Hinv|reflexivity|reflexivity| |].
    + rewrite !touch_is_down_state. cbn. rewrite Hstate. reflexivity.
    + discriminate.
  - split; [|reflexivity].
    apply (fingers_down_inv_same_lifecycle tp); [|exact Hinv].
    unfold log. lifecycle.
Qed.

Lemma tp_end_sequence_inv (tp : tp_dispatch) (i : nat) (time : Z) :
  fingers_down_inv tp ->
  exists tp',
    tp_end_sequence tp i time = Some tp' /\
    fingers_down_inv tp' /\
    nfingers_down tp' = nfingers_down tp - down_bit (touch tp i).
Proof.
  intros Hinv. unfold tp_end_sequence.
  set (tp1 := set_touch i (set_t_has_ended true (touch tp i)) tp).
  assert (Hinv1 : fingers_down_inv tp1).
  { apply (fingers_down_inv_same_lifecycle tp); [|exact Hinv].
    subst tp1. lifecycle. }
  destruct (tp_maybe_end_touch_inv tp1 i time Hinv1) as (tp' & H1 & H2 & H3).
  exists tp'. split; [exact H1|]. split; [exact H2|].
  rewrite H3. subst tp1. cbn [nfingers_down set_touch set_touches].
  f_equal. rewrite !down_bit_state.
  destruct (Nat.lt_ge_cases i (length (touches tp))) as [Hi|Hi].
  - rewrite touch_set_touch_eq by exact Hi. reflexivity.
  - rewrite touch_set_touch_out by exact Hi. reflexivity.
Qed.

(** ** The finger count: what keeps the invariant *)

Lemma keeps_inv_some (tp : tp_dispatch) :
  fingers_down_inv tp -> keeps_inv (Some tp).
Proof. intros H tp' [= <-]. exact H. Qed.

Lemma keeps_inv_none : keeps_inv None.
Proof. intros tp' [=]. Qed.

Lemma keeps_inv_begin (tp : tp_dispatch) (i : nat) (time : Z) :
  fingers_down_inv tp -> t_state (touch tp i) = TOUCH_HOVERING ->
  keeps_inv (tp_begin_touch tp i time).
Proof.
  intros Hinv Hs tp' H.
  destruct (tp_begin_touch_inv tp i time Hinv Hs) as (tp1 & H1 & H2 & _).
  congruence.
Qed.

Lemma keeps_inv_maybe_end (tp : tp_dispatch) (i : nat) (time : Z) :
  fingers_down_inv tp -> keeps_inv (tp_maybe_end_touch tp i time).
Proof.
  intros Hinv tp' H.
  destruct (tp_maybe_end_touch_inv tp i time Hinv) as (tp1 & H1 & H2 & _).
  congruence.
Qed.

Lemma keeps_inv_end_sequence (tp : tp_dispatch) (i : nat) (time : Z) :
  fingers_down_inv tp -> keeps_inv (tp_end_sequence tp i time).
Proof.
  intros Hinv tp' H.
  destruct (tp_end_sequence_inv tp i time Hinv) as (tp1 & H1 & H2 & _).
  congruence.
Qed.

Lemma keeps_inv_for_each {A : Type} (l : list A)
    (body : tp_dispatch -> A -> option tp_dispatch) (tp : tp_dispatch) :
  (forall tp a, fingers_down_inv tp -> keeps_inv (body tp a)) ->
  fingers_down_inv tp -> keeps_inv (for_each l body tp).
Proof.
  intros Hbody Hinv tp'.
  apply (for_each_invariant fingers_down_inv); [|exact Hinv].
  intros s a s' _ Hs H. exact (Hbody s a Hs s' H).
Qed.

Lemma keeps_inv_for_each_break {A : Type} (l : list A)
    (body : tp_dispatch -> A -> option (loop_exit * tp_dispatch))
    (tp : tp_dispatch) :
  (forall tp a,
     fingers_down_inv tp ->
     forall e tp', body tp a = Some (e, tp') -> fingers_down_inv tp') ->
  fingers_down_inv tp -> keeps_inv (for_each_break l body tp).
Proof.
  intros Hbody Hinv tp'.
  apply (for_each_break_invariant fingers_down_inv); [|exact Hinv].
  intros s a e s' _ Hs H. exact (Hbody s a Hs e s' H).
Qed.

Lemma fingers_down_inv_reset (tp : tp_dispatch) (i : nat) :
  fingers_down_inv tp ->
  fingers_down_inv (on_touch i tp_motion_history_reset tp).
Proof.
  intros Hinv. apply (fingers_down_inv_same_lifecycle tp); [|exact Hinv].
  unfold tp_motion_history_reset. lifecycle.
Qed.

Lemma touch_state_reset (tp : tp_dispatch) (i : nat) :
  t_state (touch (on_touch i tp_motion_history_reset tp) i)
  = t_state (touch tp i).
Proof.
  unfold on_touch.
  destruct (Nat.lt_ge_cases i (length (touches tp))) as [Hi|Hi].
  - rewrite touch_set_touch_eq by exact Hi. reflexivity.
  - rewrite touch_set_touch_out by exact Hi. reflexivity.
Qed.

Lemma fingers_down_inv_fake_finger_count (tp : tp_dispatch) :
  fingers_down_inv tp -> fingers_down_inv (snd (tp_fake_finger_count tp)).
Proof.
  intros Hinv. apply (fingers_down_inv_same_lifecycle tp); [|exact Hinv].
  apply tp_fake_finger_count_lifecycle, same_lifecycle_refl.
Qed.

(** One step of a proof that a call keeps the invariant. *)
Ltac keeps_step :=
  lazymatch goal with
  | |- keeps_inv (Some _) => apply keeps_inv_some
  | |- keeps_inv None => apply keeps_inv_none
  | |- keeps_inv (tp_maybe_end_touch _ _ _) => apply keeps_inv_maybe_end
  | |- keeps_inv (tp_end_sequence _ _ _) => apply keeps_inv_end_sequence
  | |- keeps_inv (tp_begin_touch _ _ _) =>
      apply keeps_inv_begin; [|rewrite ?touch_state_reset; assumption]
  | |- keeps_inv (for_each _ _ _) =>
      apply keeps_inv_for_each;
      [let tp := fresh "tp" in let a := fresh "a" in
       let H := fresh "Hinv" in intros tp a H|]
  | |- keeps_inv (if ?b then _ else _) => destruct b eqn:?
  | |- keeps_inv (match ?x with _ => _ end) => destruct x eqn:?
  | |- fingers_down_inv (tp_new_touch _ _ _) => apply tp_new_touch_inv
  | |- fingers_down_inv (on_touch _ tp_motion_history_reset _) =>
      apply fingers_down_inv_reset
  | |- fingers_down_inv (tp_recover_ended_touch _ _) =>
      apply tp_recover_ended_touch_inv; [|assumption]
  | |- fingers_down_inv (tp_end_touch _ _ _) => apply tp_end_touch_inv
  | |- fingers_down_inv (snd (tp_fake_finger_count _)) =>
      apply fingers_down_inv_fake_finger_count
  | |- fingers_down_inv _ => assumption
  end.

Ltac keeps := cbv zeta; repeat keeps_step.

Lemma fingers_down_inv_lifecycle_of (tp tp' : tp_dispatch) :
  fingers_down_inv tp -> same_lifecycle tp tp' -> fingers_down_inv tp'.
Proof. intros H1 H2. exact (fingers_down_inv_same_lifecycle _ _ H2 H1). Qed.

Lemma tp_process_absolute_keeps (tp : tp_dispatch) (e : input_event)
    (time : Z) :
  fingers_down_inv tp -> keeps_inv (tp_process_absolute tp e time).
Proof.
  intros Hinv. unfold tp_process_absolute, queue. keeps;
    (apply (fingers_down_inv_lifecycle_of tp); [exact Hinv|];
     unfold set_point_x, set_point_y; lifecycle).
Qed.

Lemma tp_process_absolute_st_keeps (tp : tp_dispatch) (e : input_event)
    (time : Z) :
  fingers_down_inv tp -> keeps_inv (tp_process_absolute_st tp e time).
Proof.
  intros Hinv. unfold tp_process_absolute_st, queue. keeps;
    (apply (fingers_down_inv_lifecycle_of tp); [exact Hinv|];
     unfold set_point_x, set_point_y; lifecycle).
Qed.

Lemma tp_restore_synaptics_touches_keeps (tp : tp_dispatch) (time : Z) :
  fingers_down_inv tp -> keeps_inv (tp_restore_synaptics_touches tp time).
Proof.
  intros Hinv. unfold tp_restore_synaptics_touches.
  pose proof (fingers_down_inv_fake_finger_count tp Hinv) as Hinv1.
  destruct (tp_fake_finger_count tp) as [n tp1]. cbn [snd] in Hinv1.
  keeps.
Qed.

Lemma tp_process_fake_touches_keeps (tp : tp_dispatch) (time : Z) :
  fingers_down_inv tp -> keeps_inv (tp_process_fake_touches tp time).
Proof.
  intros Hinv. unfold tp_process_fake_touches.
  pose proof (fingers_down_inv_fake_finger_count tp Hinv) as Hinv1.
  destruct (tp_fake_finger_count tp) as [n tp1]. cbn [snd] in Hinv1.
  destruct (n =? FAKE_FINGER_OVERFLOW); [keeps|].
  match goal with
  | |- keeps_inv (match ?x with _ => _ end) =>
      assert (Hr : keeps_inv x)
        by (destruct (negb _);
            [apply tp_restore_synaptics_touches_keeps; exact Hinv1|keeps]);
      destruct x as [tp2|]; [specialize (Hr tp2 eq_refl)|keeps]
  end.
  keeps.
Qed.

Lemma keeps_inv_match_loop (r : option tp_dispatch)
    (k : tp_dispatch -> option tp_dispatch) :
  keeps_inv r -> (forall tp, fingers_down_inv tp -> keeps_inv (k tp)) ->
  keeps_inv (match r with Some tp => k tp | None => None end).
Proof.
  intros Hr Hk. destruct r as [tp|]; [|apply keeps_inv_none].
  apply Hk, Hr. reflexivity.
Qed.

(** The loop that begins hovering touches until the count matches. *)
Lemma begin_hovering_keeps (tp : tp_dispatch)
    (prepare : nat -> tp_dispatch -> tp_dispatch) (l : list nat)
    (stop : tp_dispatch -> bool) (time : Z) :
  (forall i tp, fingers_down_inv tp -> fingers_down_inv (prepare i tp)) ->
  (forall i tp, t_state (touch (prepare i tp) i) = t_state (touch tp i)) ->
  fingers_down_inv tp ->
  keeps_inv
    (for_each_break l
       (fun tp t =>
          if decide (t_state (touch tp t) = TOUCH_HOVERING) then
            match tp_begin_touch (prepare t tp) t time with
            | None => None
            | Some tp =>
                Some (if stop tp then loop_break else loop_continue, tp)
            end
          else Some (loop_continue, tp)) tp).
Proof.
  intros Hp Hs Hinv. apply keeps_inv_for_each_break; [|exact Hinv].
  clear tp Hinv. intros tp t Hinv e tp' H.
  destruct (decide (t_state (touch tp t) = TOUCH_HOVERING)) as [Hh|_].
  - destruct (tp_begin_touch (prepare t tp) t time) as [tp1|] eqn:Hb;
      [|discriminate].
    injection H as _ <-.
    apply (keeps_inv_begin (prepare t tp) t time); [apply Hp, Hinv| |exact Hb].
    rewrite Hs. exact Hh.
  - injection H as _ <-. exact Hinv.
Qed.

(** The loop that ends touches, in reverse order. *)
Ltac end_touches_loop :=
  apply keeps_inv_for_each_break; [|assumption];
  let tp := fresh "tp" in let i := fresh "i" in let Hinv := fresh "Hinv" in
  let e := fresh "e" in let tp' := fresh "tp'" in let H := fresh "H" in
  let t := fresh "t" in let He := fresh "He" in
  intros tp i Hinv e tp' H;
  destruct (tp_get_touch tp i) as [t|]; [|discriminate];
  destruct (t_state (touch tp t));
  try (injection H as _ <-; exact Hinv);
  (destruct (tp_maybe_end_touch tp t _) eqn:He; [|discriminate];
   injection H as _ <-;
   exact (keeps_inv_maybe_end _ _ _ Hinv _ He)).

Lemma tp_unhover_size_keeps (tp : tp_dispatch) (time : Z) :
  fingers_down_inv tp -> keeps_inv (tp_unhover_size tp time).
Proof. intros Hinv. unfold tp_unhover_size. keeps. Qed.

Lemma tp_unhover_fake_touches_keeps (tp : tp_dispatch) (time : Z) :
  fingers_down_inv tp -> keeps_inv (tp_unhover_fake_touches tp time).
Proof.
  intros Hinv. unfold tp_unhover_fake_touches.
  destruct ((fake_touches tp =? 0) && (nfingers_down tp =? 0)); [keeps|].
  pose proof (fingers_down_inv_fake_finger_count tp Hinv) as Hinv1.
  destruct (tp_fake_finger_count tp) as [n tp1]. cbn [snd] in Hinv1.
  destruct (n =? FAKE_FINGER_OVERFLOW); [keeps|].
  match goal with |- keeps_inv (if ?b then _ else _) => destruct b end;
    [keeps|].
  apply keeps_inv_match_loop.
  - destruct (tp_fake_finger_is_touching tp1 && (nfingers_down tp1 <? n));
      [|keeps].
    apply (begin_hovering_keeps tp1 (fun _ tp => tp) _
             (fun tp => nfingers_down tp >=? n) time);
      [intros; assumption|reflexivity|exact Hinv1].
  - intros tp2 Hinv2.
    match goal with |- keeps_inv (if ?b then _ else _) => destruct b end;
      [|keeps].
    end_touches_loop.
Qed.

Lemma tp_unhover_pressure_keeps (tp : tp_dispatch) (time : Z) :
  fingers_down_inv tp -> keeps_inv (tp_unhover_pressure tp time).
Proof.
  intros Hinv. unfold tp_unhover_pressure.
  pose proof (fingers_down_inv_fake_finger_count tp Hinv) as Hinv1.
  destruct (tp_fake_finger_count tp) as [n0 tp1]. cbn [snd] in Hinv1.
  cbv zeta. set (n := if n0 =? FAKE_FINGER_OVERFLOW then 0 else n0).
  clearbody n. clear n0.
  match goal with
  | |- keeps_inv (match ?x with _ => _ end) =>
      assert (Hr : forall s, x = Some s -> fingers_down_inv (fst s));
      [|destruct x as [[tp2 real]|];
        [specialize (Hr _ eq_refl); cbn [fst] in Hr|apply keeps_inv_none]]
  end.
  - intros s. apply (for_each_invariant (fun s => fingers_down_inv (fst s)));
      [|exact Hinv1].
    clear. intros [tp real] i s' _ Hinv H. cbn [fst] in Hinv.
    cbv beta iota in H.
    destruct (tp_get_touch tp i) as [t|]; [|discriminate].
    destruct (decide (t_state (touch tp t) = TOUCH_NONE));
      [injection H as <-; exact Hinv|].
    match type of H with
    | match ?x with _ => _ end = _ =>
        assert (Hr : keeps_inv x) by keeps;
        destruct x as [tp4|]; [|discriminate]
    end.
    injection H as <-. cbn [fst]. apply Hr. reflexivity.
  - match goal with |- keeps_inv (if ?b then _ else _) => destruct b end;
      [keeps|].
    apply keeps_inv_match_loop.
    + destruct (real >? 0); [|keeps].
      apply (begin_hovering_keeps tp2
               (fun t tp => on_touch t tp_motion_history_reset tp) _
               (fun tp => nfingers_down tp >=? n) time);
        [intros; apply fingers_down_inv_reset; assumption
        |intros; apply touch_state_reset|exact Hr].
    + intros tp3 Hinv3.
      match goal with |- keeps_inv (if ?b then _ else _) => destruct b end;
        [|keeps].
      end_touches_loop.
Qed.

Lemma tp_unhover_touches_keeps (tp : tp_dispatch) (time : Z) :
  fingers_down_inv tp -> keeps_inv (tp_unhover_touches tp time).
Proof.
  intros Hinv. unfold tp_unhover_touches.
  destruct (pressure_use_pressure tp);
    [apply tp_unhover_pressure_keeps; exact Hinv|].
  destruct (touch_size_use_touch_size tp);
    [apply tp_unhover_size_keeps|apply tp_unhover_fake_touches_keeps];
    exact Hinv.
Qed.

Section FrameInvariant.

Variable ext : collaborators.

Lemma tp_pre_process_state_keeps (tp : tp_dispatch) (time : Z) :
  fingers_down_inv tp -> keeps_inv (tp_pre_process_state tp time).
Proof.
  intros Hinv. unfold tp_pre_process_state. cbv zeta.
  match goal with
  | |- keeps_inv (match tp_process_fake_touches ?x _ with _ => _ end) =>
      assert (Hinv1 : fingers_down_inv x);
      [|generalize dependent x; intros tp1 Hinv1]
  end.
  { destruct (negb _); [|exact Hinv].
    exact (fingers_down_inv_lifecycle_of _ _ Hinv
             (tp_process_msc_timestamp_lifecycle tp time)). }
  apply keeps_inv_match_loop;
    [apply tp_process_fake_touches_keeps; exact Hinv1|].
  intros tp2 Hinv2.
  apply keeps_inv_match_loop;
    [apply tp_unhover_touches_keeps; exact Hinv2|].
  intros tp3 Hinv3.
  apply keeps_inv_for_each; [|exact Hinv3].
  clear. intros tp t Hinv.
  match goal with
  | |- keeps_inv (if _ && (history_count (touch ?x _) >? 0) then _ else _) =>
      assert (Hinv1 : fingers_down_inv x)
        by (destruct (decide _); [apply tp_end_touch_inv|]; assumption);
      generalize dependent x; intros tp1 Hinv1
  end.
  destruct (_ && _); apply keeps_inv_some; [|exact Hinv1].
  apply (fingers_down_inv_lifecycle_of tp1); [exact Hinv1|]. lifecycle.
Qed.

Lemma count_down_no_begin (l : list tp_touch) :
  Forall (fun t => t_state t <> TOUCH_BEGIN) l ->
  count_down l = count_update l.
Proof.
  induction 1 as [|t l Ht _ IH]; [reflexivity|].
  cbn [count_down count_update]. rewrite IH, touch_is_down_state.
  destruct (t_state t); try reflexivity. contradiction.
Qed.

(** The end of the frame commits TOUCH_BEGIN to TOUCH_UPDATE and TOUCH_END
    to TOUCH_NONE or TOUCH_HOVERING: no touch becomes down or stops being
    down, and no touch is left in TOUCH_BEGIN. *)
Lemma tp_post_process_state_inv (tp : tp_dispatch) (time : Z) :
  fingers_down_inv tp ->
  fingers_down_inv (tp_post_process_state tp time) /\
  nfingers_down (tp_post_process_state tp time) = nfingers_down tp /\
  old_nfingers_down (tp_post_process_state tp time) = nfingers_down tp /\
  Forall (fun t => t_state t <> TOUCH_BEGIN)
    (touches (tp_post_process_state tp time)).
Proof.
  intros (Hc & Hlen & Hdirty).
  assert (Hnb : Forall (fun t => t_state t <> TOUCH_BEGIN)
                  (touches (tp_post_process_state tp time))).
  { cbn. clear Hc Hlen.
    induction Hdirty as [|t l Ht _ IH]; [constructor|].
    cbn [map]. constructor; [|exact IH].
    destruct (t_dirty t) eqn:Hd; cbn [negb].
    - destruct (t_state t) eqn:Hs; try destruct (t_has_ended t); cbn;
        rewrite ?Hs; discriminate.
    - intros Hb. specialize (Ht Hb). congruence. }
  split; [|split; [reflexivity|split; [reflexivity|exact Hnb]]].
  split; [|split].
  - cbn. rewrite count_down_map; [exact Hc|].
    intros t. rewrite !touch_is_down_state.
    destruct (t_dirty t); cbn [negb]; [|reflexivity].
    destruct (t_state t) eqn:Hs; try destruct (t_has_ended t); cbn;
      rewrite ?Hs; reflexivity.
  - cbn. rewrite length_map. exact Hlen.
  - eapply Forall_impl; [exact Hnb|]. intros t Ht Hb. contradiction.
Qed.

Lemma tp_post_events_lifecycle (tp : tp_dispatch) (time : Z) :
  same_lifecycle tp (tp_post_events ext tp time).
Proof. unfold tp_post_events, log. lifecycle. Qed.

Lemma tp_handle_state_keeps (tp : tp_dispatch) (time : Z) :
  fingers_down_inv tp -> keeps_inv (tp_handle_state ext tp time).
Proof.
  intros Hinv. unfold tp_handle_state.
  apply keeps_inv_match_loop;
    [apply tp_pre_process_state_keeps; exact Hinv|].
  intros tp1 Hinv1.
  destruct (tp_process_state ext tp1 time) as [tp2|] eqn:H2;
    [|apply keeps_inv_none].
  apply keeps_inv_some, tp_post_process_state_inv.
  apply (fingers_down_inv_lifecycle_of tp2);
    [|apply tp_post_events_lifecycle].
  exact (fingers_down_inv_lifecycle_of _ _ Hinv1
           (tp_process_state_lifecycle ext _ _ _ H2)).
Qed.

Lemma tp_handle_state_frame_end (tp tp' : tp_dispatch) (time : Z) :
  fingers_down_inv tp -> tp_handle_state ext tp time = Some tp' ->
  nfingers_down tp' = count_down (touches tp') /\
  count_down (touches tp') = count_update (touches tp') /\
  Forall (fun t => t_state t <> TOUCH_BEGIN) (touches tp').
Proof.
  intros Hinv. unfold tp_handle_state.
  destruct (tp_pre_process_state tp time) as [tp1|] eqn:H1; [|discriminate].
  pose proof (tp_pre_process_state_keeps tp time Hinv tp1 H1) as Hinv1.
  destruct (tp_process_state ext tp1 time) as [tp2|] eqn:H2; [|discriminate].
  pose proof (fingers_down_inv_lifecycle_of _ _
                (fingers_down_inv_lifecycle_of _ _ Hinv1
                   (tp_process_state_lifecycle ext _ _ _ H2))
                (tp_post_events_lifecycle tp2 time)) as Hinv2.
  intros [= <-].
  destruct (tp_post_process_state_inv _ time Hinv2)
    as ((Hc & _) & _ & _ & Hnb).
  split; [exact Hc|]. split; [|exact Hnb].
  apply count_down_no_begin, Hnb.
Qed.

Lemma tp_interface_process_keeps (tp : tp_dispatch) (e : input_event)
    (time : Z) :
  fingers_down_inv tp -> keeps_inv (tp_interface_process ext tp e time).
Proof.
  intros Hinv. unfold tp_interface_process.
  destruct (ev_type e =? EV_ABS).
  { destruct (has_mt tp);
      [apply tp_process_absolute_keeps|apply tp_process_absolute_st_keeps];
      exact Hinv. }
  destruct (ev_type e =? EV_KEY).
  { apply keeps_inv_some.
    exact (fingers_down_inv_lifecycle_of _ _ Hinv
             (tp_process_key_lifecycle ext tp e time)). }
  destruct (ev_type e =? EV_MSC).
  { apply keeps_inv_some.
    exact (fingers_down_inv_lifecycle_of _ _ Hinv
             (tp_process_msc_lifecycle tp e time)). }
  destruct (ev_type e =? EV_SYN);
    [apply tp_handle_state_keeps|apply keeps_inv_some]; exact Hinv.
Qed.

Lemma tp_interface_process_all_keeps (tp : tp_dispatch)
    (events : list (input_event * Z)) :
  fingers_down_inv tp ->
  keeps_inv (tp_interface_process_all ext tp events).
Proof.
  intros Hinv. unfold tp_interface_process_all.
  apply keeps_inv_for_each; [|exact Hinv].
  intros tp1 [e time] Hinv1. apply tp_interface_process_keeps, Hinv1.
Qed.

(** Lifting all touches, as touch arbitration and suspending do. *)
Lemma tp_clear_state_keeps (tp : tp_dispatch) (now : Z) :
  fingers_down_inv tp -> keeps_inv (tp_clear_state ext tp now).
Proof.
  intros Hinv. unfold tp_clear_state, tp_release_fake_touches.
  apply keeps_inv_match_loop; [keeps|].
  intros tp1 Hinv1. apply tp_handle_state_keeps.
  apply (fingers_down_inv_lifecycle_of tp1); [exact Hinv1|]. lifecycle.
Qed.

Lemma tp_interface_toggle_touch_keeps (tp : tp_dispatch)
    (which : evdev_arbitration_state) (time now : Z) :
  fingers_down_inv tp ->
  keeps_inv (tp_interface_toggle_touch ext tp which time now).
Proof.
  intros Hinv. unfold tp_interface_toggle_touch, log.
  destruct (decide (which = arbitration_state tp));
    [apply keeps_inv_some, Hinv|].
  destruct which.
  all: try (apply keeps_inv_some;
            apply (fingers_down_inv_lifecycle_of tp); [exact Hinv|];
            lifecycle).
  all: match goal with
       | |- keeps_inv (match tp_clear_state _ ?x _ with _ => _ end) =>
           assert (Hr : keeps_inv (tp_clear_state ext x now))
             by (apply tp_clear_state_keeps;
                 apply (fingers_down_inv_lifecycle_of tp); [exact Hinv|];
                 lifecycle);
           destruct (tp_clear_state ext x now) as [tp1|];
           [specialize (Hr tp1 eq_refl)|apply keeps_inv_none]
       end.
  all: apply keeps_inv_some;
    apply (fingers_down_inv_lifecycle_of tp1); [exact Hr|]; lifecycle.
Qed.

End FrameInvariant.

(** The state the device starts in: no finger counted, every touch as
    [tp_init_touch] leaves it. *)
Lemma fingers_down_inv_init (tp : tp_dispatch) :
  nfingers_down tp = 0 ->
  Forall (fun t => t_state t = TOUCH_NONE) (touches tp) ->
  Z.of_nat (length (touches tp)) < 2 ^ 32 ->
  fingers_down_inv tp.
Proof.
  intros Hn Hnone Hlen. split; [|split; [exact Hlen|]].
  - rewrite Hn. clear Hn Hlen.
    induction Hnone as [|t l Ht _ IH]; [reflexivity|].
    cbn [count_down]. rewrite <- IH, touch_is_down_state, Ht. reflexivity.
  - eapply Forall_impl; [exact Hnone|]. intros t Ht Hb. congruence.
Qed.

Lemma tp_new_touch_count (tp : tp_dispatch) (i : nat) (time : Z) :
  fingers_down_inv tp ->
  nfingers_down (tp_new_touch tp i time)
  = nfingers_down tp
    + (if decide (t_state (touch tp i) = TOUCH_MAYBE_END) then 1 else 0).
Proof.
  intros Hinv. unfold tp_new_touch.
  destruct (t_state (touch tp i)) eqn:Hstate;
    (destruct (decide _) as [E|E];
     [try discriminate E|try (contradiction E; reflexivity)]);
    cbn; try lia.
  assert (Hi : (i < length (touches tp))%nat)
    by (apply touch_in_range; rewrite Hstate; discriminate).
  destruct Hinv as (Hc & Hlen & _).
  pose proof (count_down_insert _ _ _ (set_t_state TOUCH_UPDATE (touch tp i))
                (touch_lookup_lt _ _ Hi)) as Hins.
  pose proof (count_down_range
                (<[i := set_t_state TOUCH_UPDATE (touch tp i)]> (touches tp)))
    as Hr.
  rewrite length_insert in Hr.
  rewrite !down_bit_state in Hins. cbn in Hins. rewrite Hstate in Hins.
  apply u32_small. lia.
Qed.

(** C1.  In a dispatcher whose [nfingers_down] is the number of touches
    in TOUCH_BEGIN or TOUCH_UPDATE (and whose touches in TOUCH_BEGIN are
    dirty, as [tp_begin_touch] leaves them), which is how the device
    starts: after any stream of events the counter is again that number;
    at the end of any frame, after [tp_post_process_state], it is
    moreover the number of touches in TOUCH_UPDATE, no touch being left in
    TOUCH_BEGIN.  And every operation that moves a touch into or out of
    these two states adjusts the counter: [tp_begin_touch] on a hovering
    touch and [tp_recover_ended_touch] on a touch scheduled to end add
    one, [tp_new_touch] adds one when it revives a touch scheduled to
    end and nothing otherwise, [tp_maybe_end_touch] subtracts one when
    the touch was down and nothing otherwise, [tp_end_touch] and
    [tp_post_process_state] leave it as it is; none of them aborts. *)
Theorem nfingers_down_counts_touches_down (ext : collaborators)
    (tp : tp_dispatch) :
  fingers_down_inv tp ->
  (forall events tp1,
     tp_interface_process_all ext tp events = Some tp1 ->
     fingers_down_inv tp1 /\
     forall time tp2,
       tp_handle_state ext tp1 time = Some tp2 ->
       nfingers_down tp2 = count_down (touches tp2) /\
       nfingers_down tp2 = count_update (touches tp2) /\
       Forall (fun t => t_state t <> TOUCH_BEGIN) (touches tp2)) /\
  (forall i time,
     (t_state (touch tp i) = TOUCH_HOVERING ->
      exists tp',
        tp_begin_touch tp i time = Some tp' /\
        fingers_down_inv tp' /\
        nfingers_down tp' = nfingers_down tp + 1) /\
     (exists tp',
        tp_maybe_end_touch tp i time = Some tp' /\
        fingers_down_inv tp' /\
        nfingers_down tp' = nfingers_down tp - down_bit (touch tp i)) /\
     (t_state (touch tp i) = TOUCH_MAYBE_END ->
      fingers_down_inv (tp_recover_ended_touch tp i) /\
      nfingers_down (tp_recover_ended_touch tp i) = nfingers_down tp + 1) /\
     (fingers_down_inv (tp_new_touch tp i time) /\
      nfingers_down (tp_new_touch tp i time)
      = nfingers_down tp
        + (if decide (t_state (touch tp i) = TOUCH_MAYBE_END)
           then 1 else 0)) /\
     (fingers_down_inv (tp_end_touch tp i time) /\
      nfingers_down (tp_end_touch tp i time) = nfingers_down tp) /\
     (fingers_down_inv (tp_post_process_state tp time) /\
      nfingers_down (tp_post_process_state tp time) = nfingers_down tp)).
Proof.
  intros Hinv. split.
  - intros events tp1 H1.
    pose proof (tp_interface_process_all_keeps ext tp events Hinv tp1 H1)
      as Hinv1.
    split; [exact Hinv1|]. intros time tp2 H2.
    destruct (tp_handle_state_frame_end ext tp1 tp2 time Hinv1 H2)
      as (Hc & Hu & Hnb).
    split; [exact Hc|]. split; [congruence|exact Hnb].
  - intros i time. split; [|split; [|split; [|split; [|split]]]].
    + intros Hs. exact (tp_begin_touch_inv tp i time Hinv Hs).
    + exact (tp_maybe_end_touch_inv tp i time Hinv).
    + intros Hs. exact (tp_recover_ended_touch_inv tp i Hinv Hs).
    + split; [apply tp_new_touch_inv|apply tp_new_touch_count]; exact Hinv.
    + exact (tp_end_touch_inv tp i time Hinv).
    + destruct (tp_post_process_state_inv tp time Hinv) as (H1 & H2 & _).
      split; assumption.
Qed.

(** The clickpad of the examples starts in such a state; a finger lands
    on it and moves, a second one lands: two fingers are counted at the
    end of that frame, both in TOUCH_UPDATE. *)
Lemma nfingers_down_counts_touches_down_witness :
  fingers_down_inv click_device /\
  fingers_down_inv second_finger_state /\
  nfingers_down second_finger_frame_end
  = count_update (touches second_finger_frame_end) /\
  nfingers_down second_finger_frame_end = 2.
Proof.
  assert (H0 : fingers_down_inv click_device).
  { apply fingers_down_inv_init;
      [reflexivity|repeat constructor|vm_compute; reflexivity]. }
  destruct (proj1 (nfingers_down_counts_touches_down st_ext click_device H0)
              second_finger_events second_finger_state
              (proj1 second_finger_states_reached)) as [H1 H2].
  destruct (H2 156000 second_finger_frame_end
              (proj2 (proj2 (proj2 second_finger_states_reached))))
    as (_ & Hu & _).
  split; [exact H0|]. split; [exact H1|]. split; [exact Hu|].
  vm_compute. reflexivity.
Defined.

(** * More of the dispatcher and of its helpers: properties *)

(** ** The motion history ring *)

Ltac ring_cases t Hlen Hidx :=
  destruct t as [f1 f2 f3 f4 f5 f6 f7 f8 f9 f10 f11 f12 samples index count
                   f16 f17 f18 f19 f20 f21 f22 f23 f24 f25 f26 f27 f28 f29
                   f30];
  cbn [history_samples history_index history_count t_state t_point t_time]
    in *;
  change TOUCHPAD_HISTORY_LENGTH with 4 in *;
  destruct samples as [|a [|b [|c [|d [|]]]]]; try discriminate Hlen;
  let Hi := fresh "Hi" in
  assert (Hi : index = 0 \/ index = 1 \/ index = 2 \/ index = 3) by lia;
  destruct Hi as [->|[->|[-> | ->]]].

(** X1.  Pushing to the motion history of a touch whose ring is well
    formed: the ring stays well formed, the count grows by one up to the
    length of the ring, the entry at offset 0 is the position and time
    of the touch, and every older entry moves one offset back, the
    oldest being dropped. *)
Theorem tp_motion_history_push_offset (t : tp_touch) :
  history_wf t ->
  let t' := tp_motion_history_push t in
  history_wf t' /\
  history_count t' = Z.min (history_count t + 1) TOUCHPAD_HISTORY_LENGTH /\
  tp_motion_history_offset t' 0
  = {| hp_time := t_time t; hp_point := t_point t |} /\
  (forall k, 0 <= k < TOUCHPAD_HISTORY_LENGTH - 1 ->
     tp_motion_history_offset t' (k + 1) = tp_motion_history_offset t k).
Proof.
  intros (Hlen & Hidx & Hcnt) t'. subst t'.
  ring_cases t Hlen Hidx;
    (assert (Hc : count = 0 \/ count = 1 \/ count = 2 \/ count = 3
                  \/ count = 4) by lia;
     destruct Hc as [->|[->|[->|[-> | ->]]]];
     (split;
      [split; [reflexivity|];
       split; vm_compute; split; first [discriminate|reflexivity]|]);
     (split; [reflexivity|]); (split; [reflexivity|]);
     intros k Hk;
     assert (Hk' : k = 0 \/ k = 1 \/ k = 2) by lia;
     destruct Hk' as [->|[-> | ->]]; reflexivity).
Qed.

Lemma tp_motion_history_push_offset_witness :
  history_wf (tp_init_touch 0) /\
  tp_motion_history_offset
    (tp_motion_history_push
       (set_t_time 5 (set_t_point {| x := 3; y := 4 |} (tp_init_touch 0)))) 0
  = {| hp_time := 5; hp_point := {| x := 3; y := 4 |} |}.
Proof.
  assert (Hwf : history_wf
                  (set_t_time 5
                     (set_t_point {| x := 3; y := 4 |} (tp_init_touch 0))))
    by (vm_compute; repeat split; discriminate).
  split; [vm_compute; repeat split; discriminate|].
  exact (proj1 (proj2 (proj2 (tp_motion_history_push_offset _ Hwf)))).
Defined.

(** X2.  [tp_get_delta] is zero while the history has at most one entry,
    so the first push after [tp_motion_history_reset] gives no motion;
    with an older entry in the ring, the delta after a push is the step
    from that entry to the position of the touch. *)
Theorem tp_get_delta_after_push (t : tp_touch) :
  history_wf t ->
  tp_get_delta (tp_motion_history_reset t) = zero_coords /\
  tp_get_delta (tp_motion_history_push (tp_motion_history_reset t))
  = zero_coords /\
  (history_count t >= 1 ->
   tp_get_delta (tp_motion_history_push t)
   = {| x := x (t_point t) - x (hp_point (tp_motion_history_offset t 0));
        y := y (t_point t) - y (hp_point (tp_motion_history_offset t 0)) |}).
Proof.
  intros Hwf. split; [reflexivity|]. split; [reflexivity|].
  intros Hc.
  destruct (tp_motion_history_push_offset t Hwf) as (_ & Hcount & H0 & Hk).
  specialize (Hk 0). change (0 + 1) with 1 in Hk.
  unfold tp_get_delta. rewrite Hcount, H0, Hk.
  - destruct Hwf as (_ & _ & Hcnt). change TOUCHPAD_HISTORY_LENGTH with 4 in *.
    destruct (Z.leb_spec (Z.min (history_count t + 1) 4) 1); [lia|].
    reflexivity.
  - change TOUCHPAD_HISTORY_LENGTH with 4. lia.
Qed.

Lemma tp_get_delta_after_push_witness :
  let t :=
    tp_motion_history_push
      (set_t_point {| x := 10; y := 20 |} (tp_init_touch 0)) in
  tp_get_delta
    (tp_motion_history_push (set_t_point {| x := 13; y := 18 |} t))
  = {| x := 3; y := -2 |}.
Proof.
  cbv zeta.
  set (t := set_t_point {| x := 13; y := 18 |}
              (tp_motion_history_push
                 (set_t_point {| x := 10; y := 20 |} (tp_init_touch 0)))).
  assert (Hwf : history_wf t) by (vm_compute; repeat split; discriminate).
  rewrite (proj2 (proj2 (tp_get_delta_after_push t Hwf)));
    [reflexivity|vm_compute; discriminate].
Defined.

(** ** Bit arrays of libinput-util.h *)

Lemma long_bit_is_set_testbit (a : list Z) (bit : Z) :
  long_bit_is_set a bit
  = Z.testbit (default 0 (a !! Z.to_nat (bit / LONG_BITS)))
      (bit mod LONG_BITS).
Proof.
  unfold long_bit_is_set.
  assert (Hk : 0 <= bit mod LONG_BITS)
    by (apply Z.mod_pos_bound; reflexivity).
  rewrite Z.shiftl_1_l, land_pow2_eqb by exact Hk.
  apply negb_involutive.
Qed.

Lemma long_word_index (a : list Z) (bit : Z) :
  0 <= bit < LONG_BITS * Z.of_nat (length a) ->
  (Z.to_nat (bit / LONG_BITS) < length a)%nat.
Proof.
  intros H. change LONG_BITS with 64 in *.
  assert (bit / 64 < Z.of_nat (length a))
    by (apply Z.div_lt_upper_bound; lia).
  assert (0 <= bit / 64) by (apply Z.div_pos; lia). lia.
Qed.

Lemma long_bit_split (i j : Z) :
  0 <= i -> 0 <= j -> i <> j ->
  Z.to_nat (i / LONG_BITS) <> Z.to_nat (j / LONG_BITS)
  \/ i mod LONG_BITS <> j mod LONG_BITS.
Proof.
  intros Hi Hj Hne. change LONG_BITS with 64.
  destruct (Z.eq_dec (i mod 64) (j mod 64)) as [Hm|Hm]; [|right; exact Hm].
  left. intros Hd.
  assert (0 <= i / 64) by (apply Z.div_pos; lia).
  assert (0 <= j / 64) by (apply Z.div_pos; lia).
  assert (Hd' : i / 64 = j / 64) by lia.
  apply Hne.
  rewrite (Z.div_mod i 64), (Z.div_mod j 64) by lia. congruence.
Qed.

Lemma testbit_clear_mask (k j : Z) :
  0 <= k < 64 -> 0 <= j < 64 ->
  Z.testbit (u64 (Z.lnot (Z.shiftl 1 k))) j = negb (j =? k).
Proof.
  intros Hk Hj. unfold u64.
  rewrite Z.mod_pow2_bits_low by lia.
  rewrite Z.lnot_spec, Z.shiftl_1_l by lia.
  destruct (Z.eqb_spec j k) as [->|Hne].
  - rewrite Z.pow2_bits_true by lia. reflexivity.
  - rewrite Z.pow2_bits_false by lia. reflexivity.
Qed.

Lemma word64_lor_bit (w k : Z) :
  word64 w -> 0 <= k < 64 -> word64 (Z.lor w (Z.shiftl 1 k)).
Proof.
  intros [Hw0 Hw] Hk. rewrite Z.shiftl_1_l.
  assert (Hp : 0 < 2 ^ k) by (apply Z.pow_pos_nonneg; lia).
  split; [apply Z.lor_nonneg; lia|].
  destruct (Z.eq_dec w 0) as [->|Hne].
  - rewrite Z.lor_0_l. apply Z.pow_lt_mono_r; lia.
  - apply Z.log2_lt_pow2.
    + assert (0 <= Z.lor w (2 ^ k)) by (apply Z.lor_nonneg; lia).
      assert (Z.lor w (2 ^ k) <> 0).
      { intros H0. apply Z.lor_eq_0_iff in H0. lia. }
      lia.
    + rewrite Z.log2_lor by lia. rewrite Z.log2_pow2 by lia.
      assert (Z.log2 w < 64) by (apply Z.log2_lt_pow2; lia). lia.
Qed.

Lemma word64_land_mask (w m : Z) : word64 w -> word64 (Z.land w (u64 m)).
Proof.
  intros [Hw0 Hw].
  assert (Hm : 0 <= u64 m < 2 ^ 64) by (apply Z.mod_pos_bound; lia).
  split; [apply Z.land_nonneg; lia|].
  destruct (Z.eq_dec (Z.land w (u64 m)) 0) as [->|Hne]; [lia|].
  assert (0 <= Z.land w (u64 m)) by (apply Z.land_nonneg; lia).
  apply Z.log2_lt_pow2; [lia|].
  pose proof (Z.log2_land w (u64 m) Hw0 (proj1 Hm)).
  assert (Z.log2 w < 64).
  { destruct (Z.eq_dec w 0) as [->|?]; [cbn; lia|].
    apply Z.log2_lt_pow2; lia. }
  lia.
Qed.

Lemma long_set_clear_bit_spec (a : list Z) (bit : Z) :
  0 <= bit < LONG_BITS * Z.of_nat (length a) ->
  long_bit_is_set (long_set_bit a bit) bit = true /\
  long_bit_is_set (long_clear_bit a bit) bit = false /\
  (forall other, 0 <= other -> other <> bit ->
     long_bit_is_set (long_set_bit a bit) other = long_bit_is_set a other /\
     long_bit_is_set (long_clear_bit a bit) other
     = long_bit_is_set a other) /\
  (Forall word64 a ->
   Forall word64 (long_set_bit a bit) /\
   Forall word64 (long_clear_bit a bit)).
Proof.
  intros Hbit.
  pose proof (long_word_index a bit Hbit) as Hi.
  assert (Hk : 0 <= bit mod LONG_BITS < 64)
    by (apply Z.mod_pos_bound; reflexivity).
  destruct (lookup_lt_is_Some_2 a _ Hi) as [w Hw].
  rewrite !long_bit_is_set_testbit. unfold long_set_bit, long_clear_bit.
  split; [|split; [|split]].
  - rewrite list_lookup_alter_eq, Hw. cbn [fmap option_fmap option_map from_option id].
    rewrite Z.lor_spec, Z.shiftl_1_l, Z.pow2_bits_true by lia.
    apply orb_true_r.
  - rewrite list_lookup_alter_eq, Hw. cbn [fmap option_fmap option_map from_option id].
    rewrite Z.land_spec, testbit_clear_mask by lia.
    rewrite Z.eqb_refl. apply andb_false_r.
  - intros other Ho Hne. rewrite !long_bit_is_set_testbit.
    assert (Hko : 0 <= other mod LONG_BITS < 64)
      by (apply Z.mod_pos_bound; reflexivity).
    destruct (long_bit_split other bit Ho (proj1 Hbit) Hne) as [Hd|Hm].
    + rewrite !list_lookup_alter_ne by congruence. split; reflexivity.
    + destruct (decide (Z.to_nat (other / LONG_BITS)
                        = Z.to_nat (bit / LONG_BITS))) as [He|Hd];
        [|rewrite !list_lookup_alter_ne by congruence; split; reflexivity].
      rewrite He, !list_lookup_alter_eq, Hw.
      cbn [fmap option_fmap option_map from_option id]. split.
      * rewrite Z.lor_spec, Z.shiftl_1_l, Z.pow2_bits_false by lia.
        apply orb_false_r.
      * rewrite Z.land_spec, testbit_clear_mask by lia.
        rewrite (proj2 (Z.eqb_neq _ _) Hm). apply andb_true_r.
  - intros Hall. split.
    + apply Forall_alter; [exact Hall|].
      intros w' _ Hw'. apply word64_lor_bit; [exact Hw'|exact Hk].
    + apply Forall_alter; [exact Hall|].
      intros w' _ Hw'. apply word64_land_mask. exact Hw'.
Qed.

(** X3.  The bit arrays of [unsigned long]: within the array, setting a
    bit makes [long_bit_is_set] true for it, clearing it makes it false,
    and neither changes any other bit; the words stay 64-bit values. *)
Theorem long_set_clear_bit_is_set (a : list Z) (bit : Z) :
  0 <= bit < LONG_BITS * Z.of_nat (length a) ->
  long_bit_is_set (long_set_bit a bit) bit = true /\
  long_bit_is_set (long_clear_bit a bit) bit = false /\
  (forall other, 0 <= other -> other <> bit ->
     long_bit_is_set (long_set_bit a bit) other = long_bit_is_set a other /\
     long_bit_is_set (long_clear_bit a bit) other
     = long_bit_is_set a other) /\
  (Forall word64 a ->
   Forall word64 (long_set_bit a bit) /\
   Forall word64 (long_clear_bit a bit)).
Proof. exact (long_set_clear_bit_spec a bit). Qed.

Lemma long_set_clear_bit_is_set_witness :
  long_bit_is_set (long_set_bit [0; 0] 70) 70 = true /\
  long_bit_is_set (long_clear_bit [0; 64] 70) 70 = false.
Proof.
  destruct (long_set_clear_bit_is_set [0; 0] 70) as (H1 & _);
    [vm_compute; split; [discriminate|reflexivity]|].
  destruct (long_set_clear_bit_is_set [0; 64] 70) as (_ & H2 & _);
    [vm_compute; split; [discriminate|reflexivity]|].
  split; assumption.
Defined.

Lemma existsb_nonzero_take (a : list Z) :
  existsb (fun w => negb (w =? 0)) (take (length a) a) = true <->
  exists i w, a !! i = Some w /\ w <> 0.
Proof.
  rewrite firstn_all, existsb_exists. split.
  - intros (w & Hin & Hw). apply list_elem_of_In, list_elem_of_lookup in Hin.
    destruct Hin as [i Hi]. exists i, w. split; [exact Hi|].
    intros ->. discriminate.
  - intros (i & w & Hi & Hw). exists w. split.
    + apply list_elem_of_In, list_elem_of_lookup. exists i. exact Hi.
    + apply negb_true_iff, Z.eqb_neq. exact Hw.
Qed.

Lemma long_any_bit_set_spec (a : list Z) :
  Forall word64 a -> (0 < length a)%nat ->
  exists b,
    long_any_bit_set a (Z.of_nat (length a)) = Some b /\
    (b = true <->
     exists bit,
       0 <= bit < LONG_BITS * Z.of_nat (length a) /\
       long_bit_is_set a bit = true).
Proof.
  intros Hall Hlen. unfold long_any_bit_set.
  rewrite (proj2 (Z.gtb_lt _ _)) by lia.
  eexists. split; [reflexivity|]. rewrite Nat2Z.id.
  rewrite existsb_nonzero_take. change LONG_BITS with 64. split.
  - intros (i & w & Hi & Hw).
    assert (Hlt : (i < length a)%nat) by (eapply lookup_lt_Some; exact Hi).
    rewrite Forall_lookup in Hall. pose proof (Hall i w Hi) as [Hw0 Hw64].
    assert (Hpos : 0 < w) by lia.
    assert (Hlog : 0 <= Z.log2 w < 64).
    { split; [apply Z.log2_nonneg|]. apply Z.log2_lt_pow2; lia. }
    exists (64 * Z.of_nat i + Z.log2 w). split; [lia|].
    rewrite long_bit_is_set_testbit. change LONG_BITS with 64.
    replace ((64 * Z.of_nat i + Z.log2 w) / 64) with (Z.of_nat i)
      by (rewrite Z.mul_comm, Z.div_add_l, Z.div_small by lia; lia).
    replace ((64 * Z.of_nat i + Z.log2 w) mod 64) with (Z.log2 w)
      by (rewrite Z.add_comm, Z.mul_comm, Z.mod_add, Z.mod_small by lia;
          reflexivity).
    rewrite Nat2Z.id, Hi. cbn [from_option id]. apply Z.bit_log2. exact Hpos.
  - intros (bit & Hbit & Hset). rewrite long_bit_is_set_testbit in Hset.
    change LONG_BITS with 64 in Hset.
    destruct (a !! Z.to_nat (bit / 64)) as [w|] eqn:Hw.
    + exists (Z.to_nat (bit / 64)), w. split; [exact Hw|].
      intros ->. cbn [from_option id] in Hset. rewrite Z.bits_0 in Hset.
      discriminate.
    + cbn [from_option id] in Hset. rewrite Z.bits_0 in Hset. discriminate.
Qed.

(** X4.  [long_any_bit_set] aborts on a size that is not positive.  Over
    the whole of a nonempty array of 64-bit words it returns true
    exactly when [long_bit_is_set] is true for some bit of the array. *)
Theorem long_any_bit_set_iff (a : list Z) (size : Z) :
  Forall word64 a ->
  (size <= 0 -> long_any_bit_set a size = None) /\
  ((0 < length a)%nat ->
   exists b,
     long_any_bit_set a (Z.of_nat (length a)) = Some b /\
     (b = true <->
      exists bit,
        0 <= bit < LONG_BITS * Z.of_nat (length a) /\
        long_bit_is_set a bit = true)).
Proof.
  intros Hall. split.
  - intros Hsize. unfold long_any_bit_set.
    destruct (Z.gtb_spec size 0); [lia|reflexivity].
  - exact (long_any_bit_set_spec a Hall).
Qed.

Lemma long_any_bit_set_iff_witness :
  long_any_bit_set [0; 64] 0 = None /\
  long_any_bit_set [0; 64] 2 = Some true /\
  long_bit_is_set [0; 64] 70 = true.
Proof.
  assert (Hall : Forall word64 [0; 64])
    by (repeat constructor; vm_compute; discriminate).
  destruct (long_any_bit_set_iff [0; 64] 0 Hall) as [Hnone Hsome].
  split; [apply Hnone; lia|]. split; reflexivity.
Defined.

(** X5.  Times round-trip between microseconds and [struct timeval]:
    every [uint64_t] time comes back from [us2tv] and [tv2us], with
    [tv_usec] below a second and [tv_sec] within [time_t]; milliseconds
    that fit 32 bits come back from [ms2us] and [us2ms], and [us2ms]
    rounds down. *)
Theorem time_units_round_trip (time : Z) :
  0 <= time < 2 ^ 64 ->
  tv2us (us2tv time) = time /\
  0 <= tv_usec (us2tv time) < 1000000 /\
  0 <= tv_sec (us2tv time) < 2 ^ 63 /\
  (time < 2 ^ 32 -> us2ms (ms2us time) = time) /\
  (time / 1000 < 2 ^ 32 ->
   ms2us (us2ms time) <= time < ms2us (us2ms time) + 1000).
Proof.
  intros Ht. unfold tv2us, us2tv, s2us, us2ms, ms2us, us, u64, u32.
  cbn [tv_sec tv_usec].
  change (1000 * 1000 mod 2 ^ 64) with 1000000.
  assert (Hq : 0 <= time / 1000000 < 18446744073710)
    by (split; [apply Z.div_pos; lia|];
        apply Z.div_lt_upper_bound; lia).
  assert (Hr : 0 <= time mod 1000000 < 1000000)
    by (apply Z.mod_pos_bound; lia).
  pose proof (Z.div_mod time 1000000 ltac:(lia)) as Hdm.
  split; [|split; [exact Hr|split; [lia|split]]].
  - rewrite (Z.mod_small (time / 1000000)) by lia.
    rewrite (Z.mod_small (time / 1000000 * 1000)) by lia.
    rewrite (Z.mod_small (time / 1000000 * 1000 * 1000)) by lia.
    rewrite (Z.mod_small (time mod 1000000)) by lia.
    rewrite Z.mod_small by lia. lia.
  - intros H32. rewrite (Z.mod_small (time * 1000)) by lia.
    rewrite Z.div_mul by lia. apply Z.mod_small. lia.
  - intros H32.
    assert (0 <= time / 1000) by (apply Z.div_pos; lia).
    rewrite (Z.mod_small (time / 1000)) by lia.
    pose proof (Z.div_mod time 1000 ltac:(lia)).
    pose proof (Z.mod_pos_bound time 1000 ltac:(lia)).
    rewrite (Z.mod_small (time / 1000 * 1000)) by lia. lia.
Qed.

Lemma time_units_round_trip_witness :
  tv2us (us2tv 1234567890) = 1234567890 /\
  tv_usec (us2tv 1234567890) = 567890.
Proof.
  assert (H : 0 <= 1234567890 < 2 ^ 64)
    by (vm_compute; split; [discriminate|reflexivity]).
  split; [exact (proj1 (time_units_round_trip 1234567890 H))|reflexivity].
Defined.

(** ** Bit arrays of bytes *)

Lemma bit_is_set_testbit (a : list Z) (bit : Z) :
  bit_is_set a bit
  = Z.testbit (default 0 (a !! Z.to_nat (bit / 8))) (bit mod 8).
Proof.
  unfold bit_is_set.
  assert (Hk : 0 <= bit mod 8) by (apply Z.mod_pos_bound; reflexivity).
  rewrite Z.shiftl_1_l, land_pow2_eqb by exact Hk.
  apply negb_involutive.
Qed.

Lemma byte_bit_split (i j : Z) :
  0 <= i -> 0 <= j -> i <> j ->
  Z.to_nat (i / 8) <> Z.to_nat (j / 8) \/ i mod 8 <> j mod 8.
Proof.
  intros Hi Hj Hne.
  destruct (Z.eq_dec (i mod 8) (j mod 8)) as [Hm|Hm]; [|right; exact Hm].
  left. intros Hd.
  assert (0 <= i / 8) by (apply Z.div_pos; lia).
  assert (0 <= j / 8) by (apply Z.div_pos; lia).
  assert (Hd' : i / 8 = j / 8) by lia.
  apply Hne. rewrite (Z.div_mod i 8), (Z.div_mod j 8) by lia. congruence.
Qed.

(** X6.  The bit arrays of bytes: within the array, [set_bit] makes
    [bit_is_set] true for the bit, [clear_bit] makes it false, neither
    changes any other bit, and every entry stays a byte. *)
Theorem set_clear_bit_is_set (a : list Z) (bit : Z) :
  0 <= bit < 8 * Z.of_nat (length a) ->
  bit_is_set (set_bit a bit) bit = true /\
  bit_is_set (clear_bit a bit) bit = false /\
  (forall other, 0 <= other -> other <> bit ->
     bit_is_set (set_bit a bit) other = bit_is_set a other /\
     bit_is_set (clear_bit a bit) other = bit_is_set a other) /\
  (Forall (fun b => 0 <= b < 2 ^ 8) a ->
   Forall (fun b => 0 <= b < 2 ^ 8) (set_bit a bit) /\
   Forall (fun b => 0 <= b < 2 ^ 8) (clear_bit a bit)).
Proof.
  intros Hbit.
  assert (Hi : (Z.to_nat (bit / 8) < length a)%nat).
  { assert (bit / 8 < Z.of_nat (length a))
      by (apply Z.div_lt_upper_bound; lia).
    assert (0 <= bit / 8) by (apply Z.div_pos; lia). lia. }
  assert (Hk : 0 <= bit mod 8 < 8) by (apply Z.mod_pos_bound; reflexivity).
  destruct (lookup_lt_is_Some_2 a _ Hi) as [w Hw].
  rewrite !bit_is_set_testbit. unfold set_bit, clear_bit, u8.
  assert (Hset : forall b j, 0 <= j < 8 ->
            Z.testbit (Z.lor b (Z.shiftl 1 (bit mod 8)) mod 2 ^ 8) j
            = Z.testbit b j || (j =? bit mod 8)).
  { intros b j Hj. rewrite Z.mod_pow2_bits_low by lia.
    rewrite Z.lor_spec, Z.shiftl_1_l. f_equal.
    destruct (Z.eqb_spec j (bit mod 8)) as [->|Hne].
    - apply Z.pow2_bits_true. lia.
    - apply Z.pow2_bits_false. lia. }
  assert (Hclear : forall b j, 0 <= j < 8 ->
            Z.testbit (Z.land b (Z.lnot (Z.shiftl 1 (bit mod 8))) mod 2 ^ 8) j
            = Z.testbit b j && negb (j =? bit mod 8)).
  { intros b j Hj. rewrite Z.mod_pow2_bits_low by lia.
    rewrite Z.land_spec, Z.lnot_spec, Z.shiftl_1_l by lia. f_equal. f_equal.
    destruct (Z.eqb_spec j (bit mod 8)) as [->|Hne].
    - apply Z.pow2_bits_true. lia.
    - apply Z.pow2_bits_false. lia. }
  split; [|split; [|split]].
  - rewrite list_lookup_alter_eq, Hw.
    cbn [fmap option_fmap option_map from_option id].
    rewrite Hset by lia. rewrite Z.eqb_refl. apply orb_true_r.
  - rewrite list_lookup_alter_eq, Hw.
    cbn [fmap option_fmap option_map from_option id].
    rewrite Hclear by lia. rewrite Z.eqb_refl. apply andb_false_r.
  - intros other Ho Hne. rewrite !bit_is_set_testbit.
    assert (Hko : 0 <= other mod 8 < 8)
      by (apply Z.mod_pos_bound; reflexivity).
    destruct (decide (Z.to_nat (other / 8) = Z.to_nat (bit / 8)))
      as [He|Hd];
      [|rewrite !list_lookup_alter_ne by congruence; split; reflexivity].
    destruct (byte_bit_split other bit Ho (proj1 Hbit) Hne) as [Hd|Hm];
      [contradiction|].
    rewrite He, !list_lookup_alter_eq, Hw.
    cbn [fmap option_fmap option_map from_option id].
    rewrite Hset, Hclear by lia.
    rewrite (proj2 (Z.eqb_neq _ _) Hm).
    split; [apply orb_false_r|apply andb_true_r].
  - intros Hall.
    split; (apply Forall_alter; [exact Hall|]); intros b _ _;
      apply Z.mod_pos_bound; lia.
Qed.

Lemma set_clear_bit_is_set_witness :
  bit_is_set (set_bit [0; 0] 9) 9 = true /\
  bit_is_set (clear_bit [0; 255] 9) 9 = false /\
  clear_bit [0; 255] 9 = [0; 253].
Proof.
  destruct (set_clear_bit_is_set [0; 0] 9) as (H1 & _);
    [vm_compute; split; [discriminate|reflexivity]|].
  destruct (set_clear_bit_is_set [0; 255] 9) as (_ & H2 & _);
    [vm_compute; split; [discriminate|reflexivity]|].
  split; [exact H1|]. split; [exact H2|reflexivity].
Defined.

(** ** Left-handed rotation *)



(** ** The fake-finger tracker: pressing and releasing a tool *)

(** X8.  With no tool bit in the mask (BTN_TOUCH and the overflow flag
    may be set), the press of the tool for [i] fingers (BTN_TOOL_FINGER
    for 1, ..., BTN_TOOL_QUADTAP for 4) makes [tp_fake_finger_count]
    return [i] without a kernel-bug message, whatever the overflow flag
    was, and leaves [tp_fake_finger_is_touching] as it was; its release
    leaves BTN_TOUCH alone in the mask, and the count is 0. *)
Theorem tp_fake_finger_press_release (tp : tp_dispatch)
    (touching overflow : bool) (i : Z) :
  fake_touches tp
  = Z.lor (if touching then 1 else 0)
      (if overflow then FAKE_FINGER_OVERFLOW else 0) ->
  1 <= i <= 4 ->
  let code :=
    if i =? 1 then BTN_TOOL_FINGER else BTN_TOOL_DOUBLETAP + i - 2 in
  let pressed := tp_fake_finger_set tp code true in
  let released := tp_fake_finger_set pressed code false in
  tp_fake_finger_count pressed = (i, pressed) /\
  tp_fake_finger_is_touching pressed = touching /\
  fake_touches released = (if touching then 1 else 0) /\
  tp_fake_finger_count released = (0, released).
Proof.
  intros Hmask Hi.
  assert (Hcases : i = 1 \/ i = 2 \/ i = 3 \/ i = 4) by lia.
  destruct tp. simpl in Hmask. subst.
  destruct Hcases as [->|[->|[-> | ->]]]; destruct touching, overflow;
    vm_compute; repeat split.
Qed.

Lemma tp_fake_finger_press_release_witness :
  fst (tp_fake_finger_count
         (tp_fake_finger_set
            (set_fake_touches 129 st_device) BTN_TOOL_TRIPLETAP true)) = 3.
Proof.
  destruct (tp_fake_finger_press_release (set_fake_touches 129 st_device)
              true true 3) as (H & _);
    [reflexivity|lia|].
  change (if 3 =? 1 then BTN_TOOL_FINGER else BTN_TOOL_DOUBLETAP + 3 - 2)
    with BTN_TOOL_TRIPLETAP in H.
  rewrite H. reflexivity.
Defined.

(** ** The life cycle of a contact *)

Lemma count_down_lookup_down (l : list tp_touch) (i : nat) (t : tp_touch) :
  l !! i = Some t -> touch_is_down t = true -> 1 <= count_down l.
Proof.
  intros Hi Hd.
  pose proof (count_down_insert l i t (set_t_state TOUCH_NONE t) Hi) as Hins.
  pose proof (count_down_range (<[i := set_t_state TOUCH_NONE t]> l)).
  unfold down_bit in Hins. rewrite Hd in Hins.
  rewrite touch_is_down_state in Hins. cbn in Hins. lia.
Qed.

Lemma nfingers_down_positive (tp : tp_dispatch) (i : nat) :
  fingers_down_inv tp -> touch_is_down (touch tp i) = true ->
  1 <= nfingers_down tp < 2 ^ 32 /\ (i < length (touches tp))%nat.
Proof.
  intros (Hc & Hlen & _) Hd.
  assert (Hi : (i < length (touches tp))%nat).
  { apply touch_in_range. rewrite touch_is_down_state in Hd.
    destruct (t_state (touch tp i)); discriminate. }
  pose proof (count_down_lookup_down _ _ _ (touch_lookup_lt _ _ Hi) Hd).
  pose proof (count_down_range (touches tp)). lia.
Qed.

(** X9.  [tp_recover_ended_touch] undoes [tp_maybe_end_touch] on a touch
    in TOUCH_UPDATE: the finger count and every field of the dispatcher
    and of the touch are as before, the touch being dirty.  After a
    touch in TOUCH_BEGIN the count is restored as well, but the touch
    comes back in TOUCH_UPDATE. *)
Theorem tp_recover_ended_touch_inverse (tp : tp_dispatch) (i : nat)
    (time : Z) :
  fingers_down_inv tp -> touch_is_down (touch tp i) = true ->
  exists tp1,
    tp_maybe_end_touch tp i time = Some tp1 /\
    t_state (touch tp1 i) = TOUCH_MAYBE_END /\
    nfingers_down tp1 = nfingers_down tp - 1 /\
    tp_recover_ended_touch tp1 i
    = set_touch i (set_t_state TOUCH_UPDATE (set_t_dirty true (touch tp i)))
        tp /\
    (t_state (touch tp i) = TOUCH_UPDATE ->
     tp_recover_ended_touch tp1 i
     = set_touch i (set_t_dirty true (touch tp i)) tp).
Proof.
  intros Hinv Hd.
  destruct (nfingers_down_positive tp i Hinv Hd) as [Hn Hi].
  assert (Hrec :
    tp_recover_ended_touch
      (set_touch i (set_t_dirty true
                      (set_t_state TOUCH_MAYBE_END (touch tp i)))
         (set_nfingers_down (u32 (nfingers_down tp - 1)) tp)) i
    = set_touch i (set_t_state TOUCH_UPDATE (set_t_dirty true (touch tp i)))
        tp).
  { unfold tp_recover_ended_touch.
    rewrite touch_set_touch_eq by exact Hi.
    unfold set_touch. cbn [touches set_touches set_nfingers_down
                           nfingers_down].
    rewrite list_insert_insert_eq.
    rewrite (u32_small (nfingers_down tp - 1)) by lia.
    replace (nfingers_down tp - 1 + 1) with (nfingers_down tp) by lia.
    rewrite u32_small by lia.
    destruct tp, (touch _ i). reflexivity. }
  unfold tp_maybe_end_touch. rewrite touch_is_down_state in Hd.
  destruct (t_state (touch tp i)) eqn:Hs; try discriminate Hd;
    rewrite (proj2 (Z.geb_le _ _)) by lia;
    (eexists; split; [reflexivity|]);
    (split; [rewrite touch_set_touch_eq by exact Hi; reflexivity|]);
    (split; [cbn; apply u32_small; lia|]);
    (split; [exact Hrec|]); intros Hu; try discriminate Hu.
  rewrite Hrec. f_equal. rewrite <- Hs. destruct (touch tp i). reflexivity.
Qed.

Lemma tp_recover_ended_touch_inverse_witness :
  exists tp1,
    tp_maybe_end_touch second_finger_frame_end 0 200000 = Some tp1 /\
    nfingers_down tp1 = 1 /\
    nfingers_down (tp_recover_ended_touch tp1 0) = 2 /\
    t_state (touch (tp_recover_ended_touch tp1 0) 0) = TOUCH_UPDATE.
Proof.
  assert (H0 : fingers_down_inv click_device).
  { apply fingers_down_inv_init;
      [reflexivity|repeat constructor|vm_compute; reflexivity]. }
  pose proof (tp_interface_process_all_keeps st_ext click_device
                second_finger_events H0 second_finger_state
                (proj1 second_finger_states_reached)) as H1.
  pose proof (tp_handle_state_keeps st_ext second_finger_state 156000 H1
                second_finger_frame_end
                (proj2 (proj2 (proj2 second_finger_states_reached)))) as H2.
  destruct (tp_recover_ended_touch_inverse second_finger_frame_end 0 200000
              H2 eq_refl) as (tp1 & Hm & _ & Hn & Hr & _).
  exists tp1. split; [exact Hm|]. split; [rewrite Hn; reflexivity|].
  rewrite Hr. split; reflexivity.
Defined.

Lemma touch_post_process_state (tp : tp_dispatch) (time : Z) (j : nat) :
  (j < length (touches tp))%nat ->
  touch (tp_post_process_state tp time) j
  = (if negb (t_dirty (touch tp j)) then touch tp j
     else
       set_t_dirty false
         match t_state (touch tp j) with
         | TOUCH_END =>
             if t_has_ended (touch tp j)
             then set_t_state TOUCH_NONE (touch tp j)
             else set_t_state TOUCH_HOVERING (touch tp j)
         | TOUCH_BEGIN => set_t_state TOUCH_UPDATE (touch tp j)
         | _ => touch tp j
         end).
Proof.
  intros Hj. unfold tp_post_process_state.
  match goal with
  | |- context [set_old_nfingers_down _ ?x] =>
      change (touch (set_queued TOUCHPAD_EVENT_NONE
                       (set_old_nfingers_down (nfingers_down x) x)) j)
        with (touch x j)
  end.
  rewrite touch_map_touches. rewrite decide_True by exact Hj. reflexivity.
Qed.

(** X10.  The end of a contact.  A touch that is down and whose sequence
    ends ([tp_end_sequence]) is scheduled to end and no longer counted;
    [tp_end_touch] then ends it and clears its palm label; the end of
    the frame leaves it in TOUCH_NONE, clean.  When the touch is only
    scheduled to end ([tp_maybe_end_touch], as when its pressure or size
    falls below the threshold) while its sequence goes on, the end of
    the frame leaves it in TOUCH_HOVERING instead. *)
Theorem contact_end_of_life (tp : tp_dispatch) (i : nat) (time : Z) :
  fingers_down_inv tp -> touch_is_down (touch tp i) = true ->
  (exists tp1,
     tp_end_sequence tp i time = Some tp1 /\
     t_state (touch tp1 i) = TOUCH_MAYBE_END /\
     nfingers_down tp1 = nfingers_down tp - 1 /\
     let tp2 := tp_end_touch tp1 i time in
     let tp3 := tp_post_process_state tp2 time in
     t_state (touch tp2 i) = TOUCH_END /\
     palm_state (touch tp2 i) = PALM_NONE /\
     t_state (touch tp3 i) = TOUCH_NONE /\
     t_dirty (touch tp3 i) = false /\
     nfingers_down tp3 = nfingers_down tp - 1) /\
  (t_has_ended (touch tp i) = false ->
   exists tp1,
     tp_maybe_end_touch tp i time = Some tp1 /\
     t_state
       (touch (tp_post_process_state (tp_end_touch tp1 i time) time) i)
     = TOUCH_HOVERING).
Proof.
  intros Hinv Hd.
  destruct (nfingers_down_positive tp i Hinv Hd) as [Hn Hi].
  assert (Hend : forall tp1,
    (i < length (touches tp1))%nat ->
    t_state (touch tp1 i) = TOUCH_MAYBE_END ->
    t_state (touch (tp_end_touch tp1 i time) i) = TOUCH_END /\
    palm_state (touch (tp_end_touch tp1 i time) i) = PALM_NONE /\
    t_state
      (touch (tp_post_process_state (tp_end_touch tp1 i time) time) i)
    = (if t_has_ended (touch tp1 i) then TOUCH_NONE else TOUCH_HOVERING) /\
    t_dirty
      (touch (tp_post_process_state (tp_end_touch tp1 i time) time) i)
    = false /\
    nfingers_down (tp_post_process_state (tp_end_touch tp1 i time) time)
    = nfingers_down tp1).
  { intros tp1 Hi1 Hs1.
    assert (Ht : touch (tp_end_touch tp1 i time) i
                 = set_speed_exceeded_count 0
                     (set_palm_time 0
                        (set_t_time time
                           (set_pinned_is_pinned false
                              (set_t_state TOUCH_END
                                 (set_palm_state PALM_NONE
                                    (set_t_dirty true (touch tp1 i)))))))).
    { unfold tp_end_touch. rewrite decide_True by exact Hs1.
      match goal with
      | |- touch (set_queued _ (set_touch i ?t tp1)) i = _ =>
          change (touch (set_touch i t tp1) i = t)
      end.
      apply touch_set_touch_eq. exact Hi1. }
    assert (Hlen : (i < length (touches (tp_end_touch tp1 i time)))%nat).
    { unfold tp_end_touch. rewrite decide_True by exact Hs1.
      cbn [touches set_queued]. rewrite length_set_touch. exact Hi1. }
    rewrite touch_post_process_state by exact Hlen. rewrite Ht.
    split; [reflexivity|]. split; [reflexivity|].
    cbn [t_dirty set_speed_exceeded_count set_palm_time set_t_time
         set_pinned_is_pinned set_t_state set_palm_state set_t_dirty negb
         t_state t_has_ended].
    destruct (t_has_ended (touch tp1 i)); repeat split;
      unfold tp_end_touch; rewrite decide_True by exact Hs1; reflexivity. }
  split.
  - unfold tp_end_sequence.
    set (tp0 := set_touch i (set_t_has_ended true (touch tp i)) tp).
    assert (Hi0 : (i < length (touches tp0))%nat)
      by (subst tp0; rewrite length_set_touch; exact Hi).
    assert (Ht0 : touch tp0 i = set_t_has_ended true (touch tp i))
      by (apply touch_set_touch_eq; exact Hi).
    unfold tp_maybe_end_touch. rewrite Ht0.
    cbn [t_state set_t_has_ended]. rewrite touch_is_down_state in Hd.
    destruct (t_state (touch tp i)) eqn:Hs; try discriminate Hd;
      change (nfingers_down tp0) with (nfingers_down tp);
      rewrite (proj2 (Z.geb_le _ _)) by lia;
      (eexists; split; [reflexivity|]);
      match goal with
      | |- t_state (touch ?tp1 i) = _ /\ _ =>
          assert (Hi1 : (i < length (touches tp1))%nat)
            by (rewrite length_set_touch; exact Hi0);
          assert (Hs1 : t_state (touch tp1 i) = TOUCH_MAYBE_END)
            by (rewrite touch_set_touch_eq by exact Hi0; reflexivity);
          assert (He1 : t_has_ended (touch tp1 i) = true)
            by (rewrite touch_set_touch_eq by exact Hi0; reflexivity);
          assert (Hn1 : nfingers_down tp1 = nfingers_down tp - 1)
            by (cbn; apply u32_small; lia);
          destruct (Hend tp1 Hi1 Hs1) as (H1 & H2 & H3 & H4 & H5)
      end;
      rewrite He1 in H3; rewrite Hn1 in H5;
      (split; [exact Hs1|]); (split; [exact Hn1|]);
      cbv zeta; repeat split; assumption.
  - intros Hhe. unfold tp_maybe_end_touch.
    rewrite touch_is_down_state in Hd.
    destruct (t_state (touch tp i)) eqn:Hs; try discriminate Hd;
      rewrite (proj2 (Z.geb_le _ _)) by lia;
      (eexists; split; [reflexivity|]);
      match goal with
      | |- t_state (touch (tp_post_process_state
                             (tp_end_touch ?tp1 i time) time) i) = _ =>
          assert (Hi1 : (i < length (touches tp1))%nat)
            by (rewrite length_set_touch; exact Hi);
          assert (Hs1 : t_state (touch tp1 i) = TOUCH_MAYBE_END)
            by (rewrite touch_set_touch_eq by exact Hi; reflexivity);
          assert (He1 : t_has_ended (touch tp1 i) = false)
            by (rewrite touch_set_touch_eq by exact Hi; exact Hhe);
          destruct (Hend tp1 Hi1 Hs1) as (_ & _ & H3 & _)
      end;
      rewrite He1 in H3; exact H3.
Qed.

Lemma contact_end_of_life_witness :
  exists tp1,
    tp_end_sequence second_finger_frame_end 1 200000 = Some tp1 /\
    t_state
      (touch (tp_post_process_state (tp_end_touch tp1 1 200000) 200000) 1)
    = TOUCH_NONE /\
    nfingers_down (tp_post_process_state (tp_end_touch tp1 1 200000) 200000)
    = 1.
Proof.
  assert (H0 : fingers_down_inv click_device).
  { apply fingers_down_inv_init;
      [reflexivity|repeat constructor|vm_compute; reflexivity]. }
  pose proof (tp_interface_process_all_keeps st_ext click_device
                second_finger_events H0 second_finger_state
                (proj1 second_finger_states_reached)) as H1.
  pose proof (tp_handle_state_keeps st_ext second_finger_state 156000 H1
                second_finger_frame_end
                (proj2 (proj2 (proj2 second_finger_states_reached)))) as H2.
  destruct (proj1 (contact_end_of_life second_finger_frame_end 1 200000
                     H2 eq_refl)) as (tp1 & He & _ & _ & Hrest).
  cbv zeta in Hrest. destruct Hrest as (_ & _ & Hs & _ & Hn).
  exists tp1. split; [exact He|]. split; [exact Hs|].
  rewrite Hn. reflexivity.
Defined.

(** X11.  The end of a frame.  After [tp_post_process_state] nothing is
    queued, no touch is dirty, the finger count is remembered as the old
    one, and a touch that was not dirty is as before; with no event in
    between, a second run changes nothing. *)
Theorem tp_post_process_state_clean (tp : tp_dispatch) (time time' : Z) :
  let tp' := tp_post_process_state tp time in
  queued tp' = TOUCHPAD_EVENT_NONE /\
  old_nfingers_down tp' = nfingers_down tp' /\
  length (touches tp') = length (touches tp) /\
  Forall (fun t => t_dirty t = false) (touches tp') /\
  (forall j, t_dirty (touch tp j) = false -> touch tp' j = touch tp j) /\
  tp_post_process_state tp' time' = tp'.
Proof.
  cbv zeta.
  split; [reflexivity|]. split; [reflexivity|].
  split; [cbn; apply length_map|].
  assert (Hclean : Forall (fun t => t_dirty t = false)
                     (touches (tp_post_process_state tp time))).
  { cbn. apply List.Forall_forall. intros t' Hin.
    apply in_map_iff in Hin. destruct Hin as (t & <- & _).
    destruct (t_dirty t) eqn:Hd; cbn [negb]; [reflexivity|exact Hd]. }
  split; [exact Hclean|]. split.
  - intros j Hd.
    destruct (Nat.lt_ge_cases j (length (touches tp))) as [Hj|Hj].
    + rewrite touch_post_process_state by exact Hj. rewrite Hd. reflexivity.
    + rewrite !touch_out_of_range; [reflexivity|exact Hj|].
      cbn. rewrite length_map. exact Hj.
  - unfold tp_post_process_state at 1.
    match goal with
    | |- context [map ?f (touches ?x)] =>
        assert (Hid : map f (touches x) = touches x)
    end.
    { induction Hclean as [|t l Ht _ IH]; [reflexivity|].
      cbn [map]. rewrite Ht. cbn [negb]. f_equal. exact IH. }
    rewrite Hid. destruct tp. reflexivity.
Qed.

(** ** Disable-while-typing: a key held over the timeout *)

Lemma mask_bit_long_bit_is_set (a : list Z) (bit : Z) :
  mask_bit a bit = long_bit_is_set a bit.
Proof.
  rewrite long_bit_is_set_testbit. unfold mask_bit.
  rewrite nth_lookup. reflexivity.
Qed.

Lemma key_mask_range (mask : list Z) (key : Z) :
  key_mask_wf mask -> 0 <= key < KEY_CNT ->
  0 <= key < LONG_BITS * Z.of_nat (length mask).
Proof. intros [Hlen _] Hkey. rewrite Hlen. exact Hkey. Qed.

Lemma key_mask_wf_set_clear (mask : list Z) (key : Z) :
  key_mask_wf mask -> 0 <= key < KEY_CNT ->
  key_mask_wf (long_set_bit mask key) /\
  key_mask_wf (long_clear_bit mask key).
Proof.
  intros Hwf Hkey. pose proof (key_mask_range mask key Hwf Hkey) as Hr.
  destruct Hwf as [Hlen Hall].
  destruct (long_set_clear_bit_spec mask key Hr) as (_ & _ & _ & Hw).
  destruct (Hw Hall) as [Hs Hc].
  split; (split; [|assumption]); unfold long_set_bit, long_clear_bit;
    rewrite length_alter; exact Hlen.
Qed.

Lemma long_any_bit_set_after_set (mask : list Z) (key : Z) :
  key_mask_wf mask -> 0 <= key < KEY_CNT ->
  long_any_bit_set (long_set_bit mask key) (NLONGS KEY_CNT) = Some true.
Proof.
  intros Hwf Hkey.
  destruct (long_any_bit_set_key_mask (long_set_bit mask key)
              (proj1 (key_mask_wf_set_clear mask key Hwf Hkey)))
    as (b & Hb & Hiff).
  rewrite Hb. f_equal. apply Hiff. exists key. split; [exact Hkey|].
  rewrite mask_bit_long_bit_is_set.
  apply (long_set_clear_bit_spec mask key (key_mask_range _ _ Hwf Hkey)).
Qed.

Lemma long_any_bit_set_after_clear (mask : list Z) (key : Z) :
  key_mask_wf mask -> 0 <= key < KEY_CNT -> ~ some_key_set mask ->
  long_any_bit_set (long_clear_bit (long_set_bit mask key) key)
    (NLONGS KEY_CNT) = Some false.
Proof.
  intros Hwf Hkey Hnone.
  pose proof (proj1 (key_mask_wf_set_clear mask key Hwf Hkey)) as Hwf1.
  pose proof (proj2 (key_mask_wf_set_clear _ key Hwf1 Hkey)) as Hwf2.
  destruct (long_any_bit_set_key_mask _ Hwf2) as (b & Hb & Hiff).
  rewrite Hb. f_equal. apply not_true_is_false. intros Htrue.
  apply Hiff in Htrue. destruct Htrue as (bit & Hbit & Hset).
  rewrite mask_bit_long_bit_is_set in Hset.
  destruct (long_set_clear_bit_spec mask key (key_mask_range _ _ Hwf Hkey))
    as (_ & _ & Hother & _).
  destruct (long_set_clear_bit_spec _ key (key_mask_range _ _ Hwf1 Hkey))
    as (_ & Hclear & Hother' & _).
  destruct (Z.eq_dec bit key) as [->|Hne]; [congruence|].
  rewrite (proj2 (Hother' bit (proj1 Hbit) Hne)) in Hset.
  rewrite (proj1 (Hother bit (proj1 Hbit) Hne)) in Hset.
  apply Hnone. exists bit. split; [exact Hbit|].
  rewrite mask_bit_long_bit_is_set. exact Hset.
Qed.

Lemma long_any_bit_set_none_set (mask : list Z) :
  key_mask_wf mask -> ~ some_key_set mask ->
  long_any_bit_set mask (NLONGS KEY_CNT) = Some false.
Proof.
  intros Hwf Hnone.
  destruct (long_any_bit_set_key_mask _ Hwf) as (b & Hb & Hiff).
  rewrite Hb. f_equal. apply not_true_is_false. intros Htrue.
  apply Hnone, Hiff, Htrue.
Qed.

(** X13.  Typing with the touchpad idle.  With dwt enabled and no key
    held, the press of a key of the typewriter set activates dwt; a
    timeout that finds the key still held keeps dwt active and arms the
    timer 500 ms ahead; once the key is released, the next timeout
    ends dwt and resumes tapping.  None of the four calls aborts. *)
Theorem tp_keyboard_timeout_key_held (tp : tp_dispatch)
    (key t1 t2 t3 t4 : Z) :
  dwt_dwt_enabled tp = true -> dwt_keyboard_active tp = false ->
  key_mask_wf (dwt_key_mask tp) -> key_mask_wf (dwt_mod_mask tp) ->
  ~ some_key_set (dwt_key_mask tp) -> ~ some_key_set (dwt_mod_mask tp) ->
  0 <= key < KEY_F1 -> tp_key_is_modifier key = false ->
  exists pressed held released idle,
    tp_keyboard_event tp t1
      (LIBINPUT_EVENT_KEYBOARD_KEY key LIBINPUT_KEY_STATE_PRESSED)
    = Some pressed /\
    tp_keyboard_timeout pressed t2 = Some held /\
    tp_keyboard_event held t3
      (LIBINPUT_EVENT_KEYBOARD_KEY key LIBINPUT_KEY_STATE_RELEASED)
    = Some released /\
    tp_keyboard_timeout released t4 = Some idle /\
    dwt_keyboard_active pressed = true /\
    dwt_keyboard_active held = true /\
    trace held
    = trace pressed
      ++ [libinput_timer_set keyboard_timer (u64 (t2 + 500000))] /\
    dwt_keyboard_last_press_time held = t2 /\
    dwt_keyboard_active released = true /\
    trace released = trace held /\
    dwt_keyboard_active idle = false /\
    trace idle = trace held ++ [tp_tap_resume t4].
Proof.
  intros Hen Hact Hkwf Hmwf Hkeys Hmods Hkey Hmod.
  assert (Hign : tp_key_ignore_for_dwt key = false).
  { unfold tp_key_ignore_for_dwt. rewrite Hmod.
    rewrite Z.geb_leb. apply Z.leb_gt. lia. }
  assert (Hrange : 0 <= key < KEY_CNT)
    by (change KEY_F1 with 59 in Hkey; change KEY_CNT with 768; lia).
  pose (pressed :=
          log (libinput_timer_set keyboard_timer
                 (u64 (t1 + u32 DEFAULT_KEYBOARD_ACTIVITY_TIMEOUT_1)))
            (set_dwt_key_mask (long_set_bit (dwt_key_mask tp) key)
               (set_dwt_keyboard_last_press_time t1
                  (set_dwt_keyboard_active true (tp_stop_actions tp t1))))).
  assert (Hpressed :
    tp_keyboard_event tp t1
      (LIBINPUT_EVENT_KEYBOARD_KEY key LIBINPUT_KEY_STATE_PRESSED)
    = Some pressed).
  { unfold tp_keyboard_event. rewrite Hen, Hign, Hmod, Hact.
    cbn [negb]. rewrite (long_any_bit_set_none_set _ Hmwf Hmods).
    reflexivity. }
  pose (held :=
          set_dwt_keyboard_last_press_time t2
            (log (libinput_timer_set keyboard_timer
                    (u64 (t2 + DEFAULT_KEYBOARD_ACTIVITY_TIMEOUT_2)))
               pressed)).
  assert (Hheld : tp_keyboard_timeout pressed t2 = Some held).
  { unfold tp_keyboard_timeout.
    change (dwt_dwt_enabled pressed) with (dwt_dwt_enabled tp).
    change (dwt_key_mask pressed)
      with (long_set_bit (dwt_key_mask tp) key).
    rewrite Hen, long_any_bit_set_after_set by assumption.
    reflexivity. }
  pose (released :=
          set_dwt_mod_mask (long_clear_bit (dwt_mod_mask held) key)
            (set_dwt_key_mask (long_clear_bit (dwt_key_mask held) key)
               held)).
  pose (idle := set_dwt_keyboard_active false
                  (log (tp_tap_resume t4) released)).
  assert (Hidle : tp_keyboard_timeout released t4 = Some idle).
  { unfold tp_keyboard_timeout.
    change (dwt_dwt_enabled released) with (dwt_dwt_enabled tp).
    change (dwt_key_mask released)
      with (long_clear_bit (long_set_bit (dwt_key_mask tp) key) key).
    rewrite Hen, long_any_bit_set_after_clear by assumption.
    reflexivity. }
  exists pressed, held, released, idle.
  split; [exact Hpressed|]. split; [exact Hheld|]. split; [reflexivity|].
  split; [exact Hidle|]. repeat split.
Qed.

Lemma tp_keyboard_timeout_key_held_witness :
  exists pressed held,
    tp_keyboard_event mt_device 1000
      (LIBINPUT_EVENT_KEYBOARD_KEY KEY_A LIBINPUT_KEY_STATE_PRESSED)
    = Some pressed /\
    tp_keyboard_timeout pressed 201000 = Some held /\
    dwt_keyboard_active held = true.
Proof.
  assert (Hwf : key_mask_wf (replicate 12 0)).
  { split; [reflexivity|]. repeat constructor; vm_compute; discriminate. }
  assert (Hno : ~ some_key_set (replicate 12 0)).
  { intros (k & _ & Hk). rewrite mask_bit_zero in Hk; [discriminate|].
    repeat constructor. }
  destruct (tp_keyboard_timeout_key_held mt_device KEY_A
              1000 201000 300000 801000 eq_refl eq_refl Hwf Hwf Hno Hno)
    as (pressed & held & _ & _ & H1 & H2 & _ & _ & _ & H3 & _);
    [vm_compute; split; [discriminate|reflexivity]|reflexivity|].
  exists pressed, held. split; [exact H1|]. split; [exact H2|exact H3].
Defined.



(** ** Events of one slot *)

Lemma touch_same_touches (tp1 tp2 : tp_dispatch) (j : nat) :
  touches tp1 = touches tp2 -> touch tp1 j = touch tp2 j.
Proof. intros H. unfold touch. rewrite H. reflexivity. Qed.

Ltac other_touch Hne :=
  repeat
    match goal with
    | |- touch (set_touch ?i _ _) ?j = _ =>
        rewrite (touch_set_touch_ne _ i j) by exact Hne
    | |- touch (on_touch ?i _ _) ?j = _ =>
        unfold on_touch at 1;
        rewrite (touch_set_touch_ne _ i j) by exact Hne
    | |- touch ?tp ?j = touch ?tp ?j => reflexivity
    | |- touch (?f _ ?tp1) ?j = _ =>
        rewrite (touch_same_touches (f _ tp1) tp1 j) by reflexivity
    end.

Lemma tp_new_touch_other (tp : tp_dispatch) (i j : nat) (time : Z) :
  i <> j -> touch (tp_new_touch tp i time) j = touch tp j.
Proof.
  intros Hne. unfold tp_new_touch, log.
  destruct (t_state (touch tp i)); other_touch Hne.
Qed.

Lemma tp_maybe_end_touch_other (tp tp' : tp_dispatch) (i j : nat)
    (time : Z) :
  tp_maybe_end_touch tp i time = Some tp' -> i <> j ->
  touch tp' j = touch tp j.
Proof.
  intros H Hne. unfold tp_maybe_end_touch, log in H.
  destruct (t_state (touch tp i));
    try destruct (nfingers_down tp >=? 1); try discriminate H;
    injection H as <-; other_touch Hne.
Qed.

Lemma tp_end_sequence_other (tp tp' : tp_dispatch) (i j : nat) (time : Z) :
  tp_end_sequence tp i time = Some tp' -> i <> j ->
  touch tp' j = touch tp j.
Proof.
  intros H Hne. unfold tp_end_sequence in H.
  rewrite (tp_maybe_end_touch_other _ _ _ _ _ H Hne). other_touch Hne.
Qed.

Lemma tp_new_touch_slot (tp : tp_dispatch) (i : nat) (time : Z) :
  length (touches (tp_new_touch tp i time)) = length (touches tp) /\
  slot (tp_new_touch tp i time) = slot tp.
Proof.
  unfold tp_new_touch, log.
  destruct (t_state (touch tp i));
    cbn [touches set_queued set_trace set_nfingers_down slot set_touch
         set_touches];
    rewrite ?length_insert; split; reflexivity.
Qed.

Lemma tp_end_sequence_slot (tp tp' : tp_dispatch) (i : nat) (time : Z) :
  tp_end_sequence tp i time = Some tp' ->
  length (touches tp') = length (touches tp) /\
  slot tp' = slot tp.
Proof.
  unfold tp_end_sequence, tp_maybe_end_touch, log. intros H.
  destruct (t_state (touch _ i));
    try destruct (nfingers_down _ >=? 1); try discriminate H;
    injection H as <-;
    cbn [touches set_queued set_trace set_nfingers_down slot set_touch
         set_touches];
    rewrite ?length_insert; split; reflexivity.
Qed.

Lemma tp_current_touch_in_range (tp : tp_dispatch) :
  (0 < length (touches tp))%nat -> Z.of_nat (length (touches tp)) < 2 ^ 32 ->
  0 <= slot tp ->
  (tp_current_touch tp < length (touches tp))%nat /\
  (slot tp < ntouches tp -> tp_current_touch tp = Z.to_nat (slot tp)) /\
  (ntouches tp <= slot tp ->
   tp_current_touch tp = (length (touches tp) - 1)%nat).
Proof.
  intros Hlen H32 Hslot. unfold tp_current_touch, ntouches.
  rewrite u32_small by lia. repeat split; intros; lia.
Qed.

(** X14.  An event of the multitouch protocol only concerns the touch of
    the current slot: [tp_process_absolute] leaves every other touch as
    it is, and the number of touches; ABS_MT_SLOT changes the slot and
    nothing else, every other code leaves the slot alone.  The current
    touch is always one of the array: a slot beyond it addresses the
    last touch. *)
Theorem tp_process_absolute_other_touches (tp tp' : tp_dispatch)
    (e : input_event) (time : Z) :
  tp_process_absolute tp e time = Some tp' ->
  (forall j, j <> tp_current_touch tp -> touch tp' j = touch tp j) /\
  length (touches tp') = length (touches tp) /\
  (ev_code e = ABS_MT_SLOT -> tp' = set_slot (u32 (ev_value e)) tp) /\
  (ev_code e <> ABS_MT_SLOT -> slot tp' = slot tp) /\
  ((0 < length (touches tp))%nat ->
   Z.of_nat (length (touches tp)) < 2 ^ 32 -> 0 <= slot tp ->
   (tp_current_touch tp < length (touches tp))%nat /\
   (ntouches tp <= slot tp ->
    tp_current_touch tp = (length (touches tp) - 1)%nat)).
Proof.
  intros H.
  split; [|split; [|split; [|split]]].
  - intros j Hne.
    assert (Hne' : tp_current_touch tp <> j) by congruence.
    unfold tp_process_absolute, queue in H. cbv zeta in H.
    repeat
      match type of H with
      | (if ?b then _ else _) = _ => destruct b
      | match ?x with _ => _ end = _ => destruct x; [|discriminate H]
      end;
      try (injection H as <-; other_touch Hne';
           try apply tp_new_touch_other; try exact Hne'; reflexivity).
    exact (tp_end_sequence_other _ _ _ _ _ H Hne').
  - unfold tp_process_absolute, queue in H. cbv zeta in H.
    repeat
      match type of H with
      | (if ?b then _ else _) = _ => destruct b
      | match ?x with _ => _ end = _ => destruct x; [|discriminate H]
      end;
      try (injection H as <-; cbn [touches set_queued set_slot];
           rewrite ?length_set_touch; reflexivity).
    + injection H as <-. apply tp_new_touch_slot.
    + apply (tp_end_sequence_slot _ _ _ _ H).
  - intros Hcode. unfold tp_process_absolute in H. cbv zeta in H.
    rewrite Hcode in H. injection H as <-. reflexivity.
  - intros Hcode. unfold tp_process_absolute, queue in H. cbv zeta in H.
    rewrite (proj2 (Z.eqb_neq _ _) Hcode) in H.
    repeat
      match type of H with
      | (if ?b then _ else _) = _ => destruct b
      | match ?x with _ => _ end = _ => destruct x; [|discriminate H]
      end;
      try (injection H as <-; reflexivity).
    + injection H as <-. apply tp_new_touch_slot.
    + apply (tp_end_sequence_slot _ _ _ _ H).
  - intros H1 H2 H3.
    destruct (tp_current_touch_in_range tp H1 H2 H3) as (Ha & _ & Hb).
    split; assumption.
Qed.

(** On a pad of two slots, at slot 0: a new x position goes to touch 0
    and leaves touch 1, the number of touches and the slot as they
    were. *)
Lemma tp_process_absolute_other_touches_witness :
  exists tp',
    tp_process_absolute mt_device
      {| ev_type := EV_ABS; ev_code := ABS_MT_POSITION_X; ev_value := 300 |}
      1000
    = Some tp' /\
    tp_current_touch mt_device = 0%nat /\
    x (t_point (touch tp' 0)) = 300 /\
    touch tp' 1 = touch mt_device 1 /\
    length (touches tp') = 2%nat /\
    slot tp' = 0.
Proof.
  pose (e := {| ev_type := EV_ABS; ev_code := ABS_MT_POSITION_X;
                ev_value := 300 |}).
  pose (tp' := default mt_device (tp_process_absolute mt_device e 1000)).
  assert (H : tp_process_absolute mt_device e 1000 = Some tp')
    by (vm_compute; reflexivity).
  exists tp'. split; [exact H|].
  destruct (tp_process_absolute_other_touches mt_device tp' e 1000 H)
    as (Hother & Hlen & _ & Hslot & _).
  split; [reflexivity|]. split; [vm_compute; reflexivity|].
  split; [apply Hother; discriminate|].
  split; [rewrite Hlen; reflexivity|].
  rewrite Hslot; [reflexivity|discriminate].
Defined.

(** ** What a frame leaves alone *)

Lemma frame_setup_field (tp tp' : tp_dispatch) :
  frame_setup tp' = frame_setup tp ->
  slot tp' = slot tp /\ fake_touches tp' = fake_touches tp /\
  arbitration_state tp' = arbitration_state tp /\
  device_is_suspended tp' = device_is_suspended tp /\
  palm_trackpoint_active tp' = palm_trackpoint_active tp /\
  dwt_dwt_enabled tp' = dwt_dwt_enabled tp /\
  dwt_keyboard_active tp' = dwt_keyboard_active tp /\
  dwt_keyboard_last_press_time tp' = dwt_keyboard_last_press_time tp /\
  dwt_key_mask tp' = dwt_key_mask tp /\
  dwt_mod_mask tp' = dwt_mod_mask tp /\
  device_left_handed_enabled tp' = device_left_handed_enabled tp /\
  left_handed_rotate tp' = left_handed_rotate tp /\
  length (touches tp') = length (touches tp).
Proof. unfold frame_setup. intros [=]. repeat split; assumption. Qed.

Lemma frame_setup_set_touch (i : nat) (t : tp_touch) (tp : tp_dispatch) :
  frame_setup (set_touch i t tp) = frame_setup tp.
Proof.
  unfold frame_setup, set_touch. cbn [touches set_touches slot fake_touches
    arbitration_state device_is_suspended palm_trackpoint_active
    dwt_dwt_enabled dwt_keyboard_active dwt_keyboard_last_press_time
    dwt_key_mask dwt_mod_mask device_left_handed_enabled left_handed_rotate].
  rewrite length_insert. reflexivity.
Qed.

Lemma frame_setup_on_touch (i : nat) (f : tp_touch -> tp_touch)
    (tp : tp_dispatch) :
  frame_setup (on_touch i f tp) = frame_setup tp.
Proof. apply frame_setup_set_touch. Qed.

Lemma frame_setup_map (f : tp_touch -> tp_touch) (tp tp1 : tp_dispatch) :
  touches tp1 = touches tp ->
  frame_setup (set_touches (map f (touches tp1)) tp)
  = frame_setup tp.
Proof.
  intros H. unfold frame_setup. cbn [touches set_touches slot fake_touches
    arbitration_state device_is_suspended palm_trackpoint_active
    dwt_dwt_enabled dwt_keyboard_active dwt_keyboard_last_press_time
    dwt_key_mask dwt_mod_mask device_left_handed_enabled left_handed_rotate].
  rewrite length_map, H. reflexivity.
Qed.

Section KeptIn.

Context {X : Type} (view : tp_dispatch -> X).

Lemma kept_in_some {S : Type} (proj : S -> tp_dispatch) (c : X) (s : S) :
  view (proj s) = c -> kept_in view proj c (Some s).
Proof. intros H s' [= <-]. exact H. Qed.

Lemma kept_in_none {S : Type} (proj : S -> tp_dispatch) (c : X) :
  kept_in view proj c None.
Proof. intros s [=]. Qed.

Lemma kept_in_bind {S T : Type} (q : S -> tp_dispatch)
    (p : T -> tp_dispatch) (c : X) (r : option S)
    (k : S -> option T) :
  kept_in view q c r ->
  (forall s, view (q s) = c -> kept_in view p c (k s)) ->
  kept_in view p c (match r with Some s => k s | None => None end).
Proof.
  intros Hr Hk. destruct r as [s|]; [|apply kept_in_none].
  apply Hk, Hr. reflexivity.
Qed.

Lemma kept_in_for_each {A S : Type} (p : S -> tp_dispatch) (c : X)
    (l : list A) (body : S -> A -> option S) (s : S) :
  (forall s a, view (p s) = c -> kept_in view p c (body s a)) ->
  view (p s) = c -> kept_in view p c (for_each l body s).
Proof.
  intros Hbody Hs s'.
  apply (for_each_invariant (fun s => view (p s) = c)); [|exact Hs].
  intros s1 a s2 _ H1 H. exact (Hbody s1 a H1 s2 H).
Qed.

Lemma kept_in_for_each_break {A S : Type} (p : S -> tp_dispatch)
    (c : X) (l : list A) (body : S -> A -> option (loop_exit * S))
    (s : S) :
  (forall s a, view (p s) = c ->
               kept_in view (fun r => p (snd r)) c (body s a)) ->
  view (p s) = c -> kept_in view p c (for_each_break l body s).
Proof.
  intros Hbody Hs s'.
  apply (for_each_break_invariant (fun s => view (p s) = c));
    [|exact Hs].
  intros s1 a e s2 _ H1 H. exact (Hbody s1 a H1 (e, s2) H).
Qed.

End KeptIn.

(** One step of a proof that a view is kept, through the conditionals,
    loops and sequencing of calls that may abort. *)
Ltac kept_step :=
  lazymatch goal with
  | |- kept_in _ _ _ (Some _) => apply kept_in_some; cbn [fst snd]
  | |- kept_in _ _ _ None => apply kept_in_none
  | |- kept_in _ _ _ (if ?b then _ else _) => destruct b eqn:?
  | |- kept_in _ _ _ (for_each _ _ _) =>
      apply kept_in_for_each;
      [let s := fresh "s" in
       intros s ? ?;
       lazymatch type of s with
       | (_ * _)%type => destruct s as [? ?]
       | _ => idtac
       end;
       cbn [fst snd] in *;
       cbv beta iota zeta
      |cbn [fst snd]]
  | |- kept_in _ _ _ (for_each_break _ _ _) =>
      apply kept_in_for_each_break;
      [let s := fresh "s" in
       intros s ? ?;
       lazymatch type of s with
       | (_ * _)%type => destruct s as [? ?]
       | _ => idtac
       end;
       cbn [fst snd] in *;
       cbv beta iota zeta
      |cbn [fst snd]]
  | |- kept_in _ _ _
         (match ?scrutinee with Some _ => _ | None => None end) =>
      first
        [ apply (kept_in_bind _ (fun s : tp_dispatch => s));
          [|intros ? ?]
        | apply (kept_in_bind _ (@fst tp_dispatch _));
          [|intros [? ?] ?; cbn [fst snd] in *]
        | destruct scrutinee eqn:? ]
  | |- kept_in _ _ _ (match ?x with _ => _ end) => destruct x eqn:?
  end.

Lemma tp_fake_finger_count_setup (tp : tp_dispatch) :
  frame_setup (snd (tp_fake_finger_count tp)) = frame_setup tp.
Proof.
  destruct (tp_fake_finger_count_state tp) as [-> | ->]; reflexivity.
Qed.

(** One step of a proof that the setup is kept, down to the writes. *)
Ltac setup_step :=
  lazymatch goal with
  | |- context [tp_fake_finger_count ?tp] =>
      let H := fresh "Hcount" in
      pose proof (tp_fake_finger_count_setup tp) as H;
      destruct (tp_fake_finger_count tp) as [? ?]; cbn [snd] in H
  | |- kept_in _ _ _ _ => kept_step
  | |- frame_setup (if ?b then _ else _) = _ => destruct b eqn:?
  | |- frame_setup (match ?x with _ => _ end) = _ => destruct x eqn:?
  | |- frame_setup (snd (if ?b then _ else _)) = _ => destruct b eqn:?
  | |- frame_setup (snd (_, _)) = _ => cbn [snd]
  | |- frame_setup (fst (_, _)) = _ => cbn [fst]
  | |- frame_setup (set_touch _ _ _) = _ => rewrite frame_setup_set_touch
  | |- frame_setup (on_touch _ _ _) = _ => rewrite frame_setup_on_touch
  | |- frame_setup (set_touches (map _ (touches _)) _) = _ =>
      rewrite frame_setup_map by reflexivity
  | |- frame_setup ?e = ?c =>
      first
        [ is_var e; congruence
        | is_var e;
          match goal with Hc : frame_setup e = _ |- _ => rewrite Hc end
        | lazymatch e with
          | ?f _ ?tp1 => change (frame_setup tp1 = c)
          end ]
  end.

Ltac setup := cbv zeta; repeat setup_step.

Lemma tp_new_touch_setup (tp : tp_dispatch) (i : nat) (time : Z) :
  frame_setup (tp_new_touch tp i time) = frame_setup tp.
Proof. unfold tp_new_touch, log. setup. Qed.

Lemma tp_recover_ended_touch_setup (tp : tp_dispatch) (i : nat) :
  frame_setup (tp_recover_ended_touch tp i) = frame_setup tp.
Proof. unfold tp_recover_ended_touch. setup. Qed.

Lemma tp_end_touch_setup (tp : tp_dispatch) (i : nat) (time : Z) :
  frame_setup (tp_end_touch tp i time) = frame_setup tp.
Proof. unfold tp_end_touch, log. setup. Qed.

Lemma tp_begin_touch_kept (c : setup) (tp : tp_dispatch) (i : nat)
    (time : Z) :
  frame_setup tp = c -> kept_in frame_setup (fun tp => tp) c (tp_begin_touch tp i time).
Proof. intros H. unfold tp_begin_touch. setup. Qed.

Lemma tp_maybe_end_touch_kept (c : setup) (tp : tp_dispatch) (i : nat)
    (time : Z) :
  frame_setup tp = c ->
  kept_in frame_setup (fun tp => tp) c (tp_maybe_end_touch tp i time).
Proof. intros H. unfold tp_maybe_end_touch, log. setup. Qed.

Lemma tp_end_sequence_kept (c : setup) (tp : tp_dispatch) (i : nat)
    (time : Z) :
  frame_setup tp = c ->
  kept_in frame_setup (fun tp => tp) c (tp_end_sequence tp i time).
Proof.
  intros H. unfold tp_end_sequence. apply tp_maybe_end_touch_kept.
  setup.
Qed.

(** The same, through the calls that begin and end touches. *)
Ltac setup_calls_step :=
  lazymatch goal with
  | |- kept_in _ _ _ (tp_begin_touch _ _ _) => apply tp_begin_touch_kept
  | |- kept_in _ _ _ (tp_maybe_end_touch _ _ _) =>
      apply tp_maybe_end_touch_kept
  | |- kept_in _ _ _ (tp_end_sequence _ _ _) => apply tp_end_sequence_kept
  | |- frame_setup (tp_new_touch _ _ _) = _ => rewrite tp_new_touch_setup
  | |- frame_setup (tp_recover_ended_touch _ _) = _ =>
      rewrite tp_recover_ended_touch_setup
  | |- frame_setup (tp_end_touch _ _ _) = _ => rewrite tp_end_touch_setup
  | |- _ => setup_step
  end.

Ltac setup_calls := cbv zeta; repeat setup_calls_step.

(** The same, with [tac] for the other calls. *)
Ltac setup_using tac := cbv zeta; repeat first [tac | setup_calls_step].

Lemma tp_restore_synaptics_touches_kept (c : setup) (tp : tp_dispatch)
    (time : Z) :
  frame_setup tp = c ->
  kept_in frame_setup (fun tp => tp) c (tp_restore_synaptics_touches tp time).
Proof.
  intros H. unfold tp_restore_synaptics_touches. setup_calls.
Qed.

Lemma tp_process_fake_touches_kept (c : setup) (tp : tp_dispatch)
    (time : Z) :
  frame_setup tp = c ->
  kept_in frame_setup (fun tp => tp) c (tp_process_fake_touches tp time).
Proof.
  intros H. unfold tp_process_fake_touches.
  setup_using ltac:(apply tp_restore_synaptics_touches_kept).
Qed.

Lemma tp_unhover_size_kept (c : setup) (tp : tp_dispatch) (time : Z) :
  frame_setup tp = c -> kept_in frame_setup (fun tp => tp) c (tp_unhover_size tp time).
Proof. intros H. unfold tp_unhover_size. setup_calls. Qed.

Lemma tp_unhover_fake_touches_kept (c : setup) (tp : tp_dispatch)
    (time : Z) :
  frame_setup tp = c ->
  kept_in frame_setup (fun tp => tp) c (tp_unhover_fake_touches tp time).
Proof. intros H. unfold tp_unhover_fake_touches. setup_calls. Qed.

Lemma tp_unhover_pressure_kept (c : setup) (tp : tp_dispatch) (time : Z) :
  frame_setup tp = c ->
  kept_in frame_setup (fun tp => tp) c (tp_unhover_pressure tp time).
Proof. intros H. unfold tp_unhover_pressure. setup_calls. Qed.

Lemma tp_unhover_touches_kept (c : setup) (tp : tp_dispatch) (time : Z) :
  frame_setup tp = c ->
  kept_in frame_setup (fun tp => tp) c (tp_unhover_touches tp time).
Proof.
  intros H. unfold tp_unhover_touches.
  setup_using ltac:(first [ apply tp_unhover_pressure_kept
                          | apply tp_unhover_size_kept
                          | apply tp_unhover_fake_touches_kept ]).
Qed.

Lemma tp_process_msc_timestamp_setup (tp : tp_dispatch) (time : Z) :
  frame_setup (tp_process_msc_timestamp tp time) = frame_setup tp.
Proof. unfold tp_process_msc_timestamp, log. setup. Qed.

(** Name the result of a call that returns a value with the dispatcher,
    keeping that the setup is the one before the call. *)
Ltac split_call lem :=
  let H := fresh "Hcall" in
  pose proof lem as H;
  lazymatch type of H with
  | frame_setup (snd ?call) = _ => destruct call as [? ?]; cbn [snd] in H
  end.

Section FrameSetup.

Variable ext : collaborators.

Lemma tp_pre_process_state_kept (c : setup) (tp : tp_dispatch) (time : Z) :
  frame_setup tp = c ->
  kept_in frame_setup (fun tp => tp) c (tp_pre_process_state tp time).
Proof.
  intros H. unfold tp_pre_process_state.
  setup_using ltac:(first [ apply tp_process_fake_touches_kept
                          | apply tp_unhover_touches_kept
                          | rewrite tp_process_msc_timestamp_setup ]).
Qed.

Lemma tp_detect_jumps_setup (tp : tp_dispatch) (i : nat) (time : Z) :
  frame_setup (snd (tp_detect_jumps ext tp i time)) = frame_setup tp.
Proof. unfold tp_detect_jumps. setup. Qed.

Lemma tp_thumb_detect_setup (tp : tp_dispatch) (i : nat) (time : Z) :
  frame_setup (tp_thumb_detect ext tp i time) = frame_setup tp.
Proof. unfold tp_thumb_detect. setup. Qed.

Lemma tp_palm_detect_pressure_triggered_setup (tp : tp_dispatch) (i : nat)
    (time : Z) :
  frame_setup (snd (tp_palm_detect_pressure_triggered tp i time))
  = frame_setup tp.
Proof. unfold tp_palm_detect_pressure_triggered. setup. Qed.

Lemma tp_palm_detect_arbitration_triggered_setup (tp : tp_dispatch)
    (i : nat) (time : Z) :
  frame_setup (snd (tp_palm_detect_arbitration_triggered tp i time))
  = frame_setup tp.
Proof. unfold tp_palm_detect_arbitration_triggered. setup. Qed.

Lemma tp_palm_detect_dwt_triggered_setup (tp : tp_dispatch) (i : nat)
    (time : Z) :
  frame_setup (snd (tp_palm_detect_dwt_triggered tp i time))
  = frame_setup tp.
Proof. unfold tp_palm_detect_dwt_triggered. setup. Qed.

Lemma tp_palm_detect_trackpoint_triggered_setup (tp : tp_dispatch)
    (i : nat) (time : Z) :
  frame_setup (snd (tp_palm_detect_trackpoint_triggered tp i time))
  = frame_setup tp.
Proof. unfold tp_palm_detect_trackpoint_triggered. setup. Qed.

Lemma tp_palm_detect_tool_triggered_setup (tp : tp_dispatch) (i : nat)
    (time : Z) :
  frame_setup (snd (tp_palm_detect_tool_triggered tp i time))
  = frame_setup tp.
Proof. unfold tp_palm_detect_tool_triggered. setup. Qed.

Lemma tp_palm_detect_touch_size_triggered_setup (tp : tp_dispatch)
    (i : nat) (time : Z) :
  frame_setup (snd (tp_palm_detect_touch_size_triggered tp i time))
  = frame_setup tp.
Proof. unfold tp_palm_detect_touch_size_triggered. setup. Qed.

Lemma tp_palm_detect_edge_setup (tp : tp_dispatch) (i : nat) (time : Z) :
  frame_setup (snd (tp_palm_detect_edge ext tp i time)) = frame_setup tp.
Proof. unfold tp_palm_detect_edge. setup. Qed.

Lemma tp_palm_detect_out_kept (c : setup) (oldstate : touch_palm_state)
    (tp : tp_dispatch) (i : nat) :
  frame_setup tp = c ->
  kept_in frame_setup (fun tp => tp) c (tp_palm_detect_out oldstate tp i).
Proof. intros H. unfold tp_palm_detect_out. setup. Qed.

Lemma tp_palm_detect_kept (c : setup) (tp : tp_dispatch) (i : nat)
    (time : Z) :
  frame_setup tp = c ->
  kept_in frame_setup (fun tp => tp) c (tp_palm_detect ext tp i time).
Proof.
  intros H. unfold tp_palm_detect. cbv zeta.
  repeat
    first
      [ apply tp_palm_detect_out_kept
      | lazymatch goal with
        | |- context [tp_palm_detect_pressure_triggered ?tp ?i ?t] =>
            split_call (tp_palm_detect_pressure_triggered_setup tp i t)
        | |- context [tp_palm_detect_arbitration_triggered ?tp ?i ?t] =>
            split_call (tp_palm_detect_arbitration_triggered_setup tp i t)
        | |- context [tp_palm_detect_dwt_triggered ?tp ?i ?t] =>
            split_call (tp_palm_detect_dwt_triggered_setup tp i t)
        | |- context [tp_palm_detect_trackpoint_triggered ?tp ?i ?t] =>
            split_call (tp_palm_detect_trackpoint_triggered_setup tp i t)
        | |- context [tp_palm_detect_tool_triggered ?tp ?i ?t] =>
            split_call (tp_palm_detect_tool_triggered_setup tp i t)
        | |- context [tp_palm_detect_touch_size_triggered ?tp ?i ?t] =>
            split_call (tp_palm_detect_touch_size_triggered_setup tp i t)
        | |- context [tp_palm_detect_edge ext ?tp ?i ?t] =>
            split_call (tp_palm_detect_edge_setup tp i t)
        end
      | setup_step ].
Qed.

Lemma tp_detect_wobbling_setup (tp : tp_dispatch) (i : nat) (time : Z) :
  frame_setup (tp_detect_wobbling tp i time) = frame_setup tp.
Proof. unfold tp_detect_wobbling. setup. Qed.

Lemma tp_pin_fingers_setup (tp : tp_dispatch) :
  frame_setup (tp_pin_fingers tp) = frame_setup tp.
Proof. unfold tp_pin_fingers. setup. Qed.

Lemma tp_need_motion_history_reset_setup (tp : tp_dispatch) :
  frame_setup (snd (tp_need_motion_history_reset tp)) = frame_setup tp.
Proof.
  unfold tp_need_motion_history_reset.
  repeat match goal with
         | |- context [if ?b then _ else _] =>
             destruct b; cbv beta iota zeta
         end; setup.
Qed.

Lemma tp_detect_thumb_while_moving_kept (c : setup) (tp : tp_dispatch) :
  frame_setup tp = c ->
  kept_in frame_setup (fun tp => tp) c (tp_detect_thumb_while_moving ext tp).
Proof. intros H. unfold tp_detect_thumb_while_moving. setup. Qed.

Lemma tp_position_fake_touches_kept (c : setup) (tp : tp_dispatch) :
  frame_setup tp = c ->
  kept_in frame_setup (fun tp => tp) c (tp_position_fake_touches tp).
Proof. intros H. unfold tp_position_fake_touches. setup. Qed.

Lemma tp_process_state_touch_kept (c : setup) (want_motion_reset : bool)
    (time : Z) (s : tp_dispatch * process_locals) (i : nat) :
  frame_setup (fst s) = c ->
  kept_in frame_setup fst c (tp_process_state_touch ext want_motion_reset time s i).
Proof.
  intros H. unfold tp_process_state_touch. destruct s as [tp l].
  cbn [fst] in H. cbv zeta.
  repeat
    first
      [ apply tp_palm_detect_kept
      | rewrite tp_thumb_detect_setup
      | rewrite tp_detect_wobbling_setup
      | lazymatch goal with
        | |- context [tp_detect_jumps ext ?tp ?i ?t] =>
            split_call (tp_detect_jumps_setup tp i t)
        end
      | setup_step ].
Qed.

Lemma tp_process_state_touches_kept (c : setup) (tp : tp_dispatch)
    (time : Z) :
  frame_setup tp = c ->
  kept_in frame_setup fst c (tp_process_state_touches ext tp time).
Proof.
  intros H. unfold tp_process_state_touches.
  apply (kept_in_bind _ (fun s : tp_dispatch => s));
    [apply tp_position_fake_touches_kept; exact H|].
  intros tp1 H1.
  split_call (tp_need_motion_history_reset_setup tp1).
  apply kept_in_for_each; [|cbn [fst]; congruence].
  intros s i Hs. apply tp_process_state_touch_kept. exact Hs.
Qed.

Lemma tp_process_state_rest_kept (c : setup) (tp : tp_dispatch)
    (l : process_locals) (time : Z) :
  frame_setup tp = c ->
  kept_in frame_setup (fun tp => tp) c (tp_process_state_rest ext tp l time).
Proof.
  intros H. unfold tp_process_state_rest, log.
  setup_using ltac:(first [ apply tp_detect_thumb_while_moving_kept
                          | rewrite tp_pin_fingers_setup ]).
Qed.

Lemma tp_process_state_kept (c : setup) (tp : tp_dispatch) (time : Z) :
  frame_setup tp = c ->
  kept_in frame_setup (fun tp => tp) c (tp_process_state ext tp time).
Proof.
  intros H. unfold tp_process_state.
  apply (kept_in_bind _ (@fst tp_dispatch process_locals));
    [apply tp_process_state_touches_kept; exact H|].
  intros [tp1 l] H1. apply tp_process_state_rest_kept. exact H1.
Qed.

Lemma tp_post_process_state_setup (tp : tp_dispatch) (time : Z) :
  frame_setup (tp_post_process_state tp time) = frame_setup tp.
Proof. unfold tp_post_process_state. setup. Qed.

Lemma tp_post_events_setup (tp : tp_dispatch) (time : Z) :
  frame_setup (tp_post_events ext tp time) = frame_setup tp.
Proof. unfold tp_post_events, log. setup. Qed.

Lemma tp_handle_state_kept (c : setup) (tp : tp_dispatch) (time : Z) :
  frame_setup tp = c ->
  kept_in frame_setup (fun tp => tp) c (tp_handle_state ext tp time).
Proof.
  intros H. unfold tp_handle_state.
  setup_using ltac:(first [ apply tp_pre_process_state_kept
                          | apply tp_process_state_kept
                          | rewrite tp_post_process_state_setup
                          | rewrite tp_post_events_setup ]).
Qed.

End FrameSetup.






Section DeviceSetup.

Variable ext : collaborators.




End DeviceSetup.



Section TypingFrame.

Variable ext : collaborators.



End TypingFrame.



(** ** What the classification of the touches leaves alone *)

Lemma touches_life_set_touch (i : nat) (t : tp_touch) (tp : tp_dispatch) :
  touch_life t = touch_life (touch tp i) ->
  touches_life (set_touch i t tp) = touches_life tp.
Proof.
  intros H. unfold touches_life. rewrite touches_set_touch.
  change (map touch_life) with (fmap (M := list) touch_life).
  rewrite list_fmap_insert, H.
  destruct (Nat.lt_ge_cases i (length (touches tp))) as [Hi|Hi].
  - apply list_insert_id. rewrite list_lookup_fmap.
    rewrite (touch_lookup_lt _ _ Hi). reflexivity.
  - apply list_insert_ge. rewrite length_fmap. exact Hi.
Qed.

Lemma touches_life_on_touch (i : nat) (f : tp_touch -> tp_touch)
    (tp : tp_dispatch) :
  (forall t, touch_life (f t) = touch_life t) ->
  touches_life (on_touch i f tp) = touches_life tp.
Proof. intros H. apply touches_life_set_touch, H. Qed.

Lemma touches_life_map (f : tp_touch -> tp_touch) (tp tp1 : tp_dispatch) :
  (forall t, touch_life (f t) = touch_life t) ->
  touches_life (set_touches (map f (touches tp1)) tp) = touches_life tp1.
Proof.
  intros H. unfold touches_life. cbn [touches set_touches].
  rewrite map_map. apply map_ext. exact H.
Qed.

Lemma tp_fake_finger_count_life (tp : tp_dispatch) :
  touches_life (snd (tp_fake_finger_count tp)) = touches_life tp.
Proof.
  destruct (tp_fake_finger_count_state tp) as [-> | ->]; reflexivity.
Qed.

Lemma tp_motion_history_push_life (t : tp_touch) :
  touch_life (tp_motion_history_push t) = touch_life t.
Proof.
  unfold tp_motion_history_push.
  destruct (history_count t <? TOUCHPAD_HISTORY_LENGTH); reflexivity.
Qed.

Lemma tp_motion_history_fix_last_life (t : tp_touch)
    (jumping normal time : Z) :
  touch_life (tp_motion_history_fix_last t jumping normal time)
  = touch_life t.
Proof.
  unfold tp_motion_history_fix_last.
  destruct (negb (bool_decide (t_state t = TOUCH_UPDATE))); [reflexivity|].
  generalize (range 0 (history_count t)). intros l. revert t.
  induction l as [|i l IH]; intros t; [reflexivity|].
  cbn [fold_left]. rewrite IH. reflexivity.
Qed.

Section TouchLife.

Variable ext : collaborators.

Lemma tp_motion_hysteresis_life (tp : tp_dispatch) (t : tp_touch) :
  touch_life (tp_motion_hysteresis ext tp t) = touch_life t.
Proof.
  unfold tp_motion_hysteresis.
  destruct (negb (hysteresis_enabled tp)); [reflexivity|].
  destruct (history_count t >? 0); reflexivity.
Qed.

Lemma tp_calculate_motion_speed_life (tp : tp_dispatch) (t : tp_touch) :
  touch_life (tp_calculate_motion_speed ext tp t) = touch_life t.
Proof.
  unfold tp_calculate_motion_speed.
  repeat match goal with
         | |- touch_life (if ?b then _ else _) = _ => destruct b
         end; reflexivity.
Qed.

Lemma tp_unpin_finger_life (tp : tp_dispatch) (t : tp_touch) :
  touch_life (tp_unpin_finger ext tp t) = touch_life t.
Proof.
  unfold tp_unpin_finger.
  repeat match goal with
         | |- touch_life (if ?b then _ else _) = _ => destruct b
         end; reflexivity.
Qed.

End TouchLife.

(** A function of the touch that keeps its state and [has_ended]. *)
Ltac touch_life_fn :=
  intros;
  first
    [ reflexivity
    | apply tp_motion_history_push_life
    | apply tp_motion_history_fix_last_life
    | apply tp_motion_hysteresis_life
    | apply tp_calculate_motion_speed_life
    | apply tp_unpin_finger_life ].

(** One step of a proof that the states of the touches are kept. *)
Ltac life_step :=
  lazymatch goal with
  | |- context [tp_fake_finger_count ?tp] =>
      let H := fresh "Hcount" in
      pose proof (tp_fake_finger_count_life tp) as H;
      destruct (tp_fake_finger_count tp) as [? ?]; cbn [snd] in H
  | |- kept_in _ _ _ _ => kept_step
  | |- touches_life (if ?b then _ else _) = _ => destruct b eqn:?
  | |- touches_life (match ?x with _ => _ end) = _ => destruct x eqn:?
  | |- touches_life (snd (if ?b then _ else _)) = _ => destruct b eqn:?
  | |- touches_life (snd (_, _)) = _ => cbn [snd]
  | |- touches_life (fst (_, _)) = _ => cbn [fst]
  | |- touches_life (set_touch _ _ _) = _ =>
      rewrite touches_life_set_touch by reflexivity
  | |- touches_life (on_touch _ _ _) = _ =>
      rewrite touches_life_on_touch by touch_life_fn
  | |- touches_life (set_touches (map _ (touches _)) _) = _ =>
      rewrite touches_life_map by touch_life_fn
  | |- touches_life ?e = ?c =>
      first
        [ is_var e; congruence
        | is_var e;
          match goal with Hc : touches_life e = _ |- _ => rewrite Hc end
        | lazymatch e with
          | ?f _ ?tp1 => change (touches_life tp1 = c)
          end ]
  end.

Ltac life := cbv zeta; repeat life_step.

Ltac split_life_call lem :=
  let H := fresh "Hcall" in
  pose proof lem as H;
  lazymatch type of H with
  | touches_life (snd ?call) = _ => destruct call as [? ?]; cbn [snd] in H
  end.

Lemma tp_process_msc_timestamp_life (tp : tp_dispatch) (time : Z) :
  touches_life (tp_process_msc_timestamp tp time) = touches_life tp.
Proof. unfold tp_process_msc_timestamp, log. life. Qed.

Section ProcessLife.

Variable ext : collaborators.

Lemma tp_detect_jumps_life (tp : tp_dispatch) (i : nat) (time : Z) :
  touches_life (snd (tp_detect_jumps ext tp i time)) = touches_life tp.
Proof. unfold tp_detect_jumps. life. Qed.

Lemma tp_thumb_detect_life (tp : tp_dispatch) (i : nat) (time : Z) :
  touches_life (tp_thumb_detect ext tp i time) = touches_life tp.
Proof. unfold tp_thumb_detect. life. Qed.

Lemma tp_palm_detect_pressure_triggered_life (tp : tp_dispatch) (i : nat)
    (time : Z) :
  touches_life (snd (tp_palm_detect_pressure_triggered tp i time))
  = touches_life tp.
Proof. unfold tp_palm_detect_pressure_triggered. life. Qed.

Lemma tp_palm_detect_arbitration_triggered_life (tp : tp_dispatch)
    (i : nat) (time : Z) :
  touches_life (snd (tp_palm_detect_arbitration_triggered tp i time))
  = touches_life tp.
Proof. unfold tp_palm_detect_arbitration_triggered. life. Qed.

Lemma tp_palm_detect_dwt_triggered_life (tp : tp_dispatch) (i : nat)
    (time : Z) :
  touches_life (snd (tp_palm_detect_dwt_triggered tp i time))
  = touches_life tp.
Proof. unfold tp_palm_detect_dwt_triggered. life. Qed.

Lemma tp_palm_detect_trackpoint_triggered_life (tp : tp_dispatch)
    (i : nat) (time : Z) :
  touches_life (snd (tp_palm_detect_trackpoint_triggered tp i time))
  = touches_life tp.
Proof. unfold tp_palm_detect_trackpoint_triggered. life. Qed.

Lemma tp_palm_detect_tool_triggered_life (tp : tp_dispatch) (i : nat)
    (time : Z) :
  touches_life (snd (tp_palm_detect_tool_triggered tp i time))
  = touches_life tp.
Proof. unfold tp_palm_detect_tool_triggered. life. Qed.

Lemma tp_palm_detect_touch_size_triggered_life (tp : tp_dispatch)
    (i : nat) (time : Z) :
  touches_life (snd (tp_palm_detect_touch_size_triggered tp i time))
  = touches_life tp.
Proof. unfold tp_palm_detect_touch_size_triggered. life. Qed.

Lemma tp_palm_detect_edge_life (tp : tp_dispatch) (i : nat) (time : Z) :
  touches_life (snd (tp_palm_detect_edge ext tp i time)) = touches_life tp.
Proof. unfold tp_palm_detect_edge. life. Qed.

Lemma tp_palm_detect_out_life (c : list (touch_state * bool))
    (oldstate : touch_palm_state) (tp : tp_dispatch) (i : nat) :
  touches_life tp = c ->
  kept_in touches_life (fun tp => tp) c (tp_palm_detect_out oldstate tp i).
Proof. intros H. unfold tp_palm_detect_out. life. Qed.

Lemma tp_palm_detect_life (c : list (touch_state * bool))
    (tp : tp_dispatch) (i : nat) (time : Z) :
  touches_life tp = c ->
  kept_in touches_life (fun tp => tp) c (tp_palm_detect ext tp i time).
Proof.
  intros H. unfold tp_palm_detect. cbv zeta.
  repeat
    first
      [ apply tp_palm_detect_out_life
      | lazymatch goal with
        | |- context [tp_palm_detect_pressure_triggered ?tp ?i ?t] =>
            split_life_call (tp_palm_detect_pressure_triggered_life tp i t)
        | |- context [tp_palm_detect_arbitration_triggered ?tp ?i ?t] =>
            split_life_call
              (tp_palm_detect_arbitration_triggered_life tp i t)
        | |- context [tp_palm_detect_dwt_triggered ?tp ?i ?t] =>
            split_life_call (tp_palm_detect_dwt_triggered_life tp i t)
        | |- context [tp_palm_detect_trackpoint_triggered ?tp ?i ?t] =>
            split_life_call
              (tp_palm_detect_trackpoint_triggered_life tp i t)
        | |- context [tp_palm_detect_tool_triggered ?tp ?i ?t] =>
            split_life_call (tp_palm_detect_tool_triggered_life tp i t)
        | |- context [tp_palm_detect_touch_size_triggered ?tp ?i ?t] =>
            split_life_call
              (tp_palm_detect_touch_size_triggered_life tp i t)
        | |- context [tp_palm_detect_edge ext ?tp ?i ?t] =>
            split_life_call (tp_palm_detect_edge_life tp i t)
        end
      | life_step ].
Qed.

Lemma tp_detect_wobbling_life (tp : tp_dispatch) (i : nat) (time : Z) :
  touches_life (tp_detect_wobbling tp i time) = touches_life tp.
Proof. unfold tp_detect_wobbling. life. Qed.

Lemma tp_pin_fingers_life (tp : tp_dispatch) :
  touches_life (tp_pin_fingers tp) = touches_life tp.
Proof. unfold tp_pin_fingers. life. Qed.

Lemma tp_need_motion_history_reset_life (tp : tp_dispatch) :
  touches_life (snd (tp_need_motion_history_reset tp)) = touches_life tp.
Proof.
  unfold tp_need_motion_history_reset.
  repeat match goal with
         | |- context [if ?b then _ else _] =>
             destruct b; cbv beta iota zeta
         end; life.
Qed.

Lemma tp_detect_thumb_while_moving_life (c : list (touch_state * bool))
    (tp : tp_dispatch) :
  touches_life tp = c ->
  kept_in touches_life (fun tp => tp) c
    (tp_detect_thumb_while_moving ext tp).
Proof. intros H. unfold tp_detect_thumb_while_moving. life. Qed.

Lemma tp_position_fake_touches_life (c : list (touch_state * bool))
    (tp : tp_dispatch) :
  touches_life tp = c ->
  kept_in touches_life (fun tp => tp) c (tp_position_fake_touches tp).
Proof. intros H. unfold tp_position_fake_touches. life. Qed.

Lemma tp_process_state_touch_life (c : list (touch_state * bool))
    (want_motion_reset : bool) (time : Z)
    (s : tp_dispatch * process_locals) (i : nat) :
  touches_life (fst s) = c ->
  kept_in touches_life fst c
    (tp_process_state_touch ext want_motion_reset time s i).
Proof.
  intros H. unfold tp_process_state_touch. destruct s as [tp l].
  cbn [fst] in H. cbv zeta.
  repeat
    first
      [ apply tp_palm_detect_life
      | rewrite tp_thumb_detect_life
      | rewrite tp_detect_wobbling_life
      | lazymatch goal with
        | |- context [tp_detect_jumps ext ?tp ?i ?t] =>
            split_life_call (tp_detect_jumps_life tp i t)
        end
      | life_step ].
Qed.

Lemma tp_process_state_touches_life (c : list (touch_state * bool))
    (tp : tp_dispatch) (time : Z) :
  touches_life tp = c ->
  kept_in touches_life fst c (tp_process_state_touches ext tp time).
Proof.
  intros H. unfold tp_process_state_touches.
  apply (kept_in_bind _ (fun s : tp_dispatch => s));
    [apply tp_position_fake_touches_life; exact H|].
  intros tp1 H1.
  split_life_call (tp_need_motion_history_reset_life tp1).
  apply kept_in_for_each; [|cbn [fst]; congruence].
  intros s i Hs. apply tp_process_state_touch_life. exact Hs.
Qed.

Lemma tp_process_state_rest_life (c : list (touch_state * bool))
    (tp : tp_dispatch) (l : process_locals) (time : Z) :
  touches_life tp = c ->
  kept_in touches_life (fun tp => tp) c
    (tp_process_state_rest ext tp l time).
Proof.
  intros H. unfold tp_process_state_rest, log. cbv zeta.
  repeat first [ apply tp_detect_thumb_while_moving_life
               | rewrite tp_pin_fingers_life
               | life_step ].
Qed.

Lemma tp_process_state_life (c : list (touch_state * bool))
    (tp : tp_dispatch) (time : Z) :
  touches_life tp = c ->
  kept_in touches_life (fun tp => tp) c (tp_process_state ext tp time).
Proof.
  intros H. unfold tp_process_state.
  apply (kept_in_bind _ (@fst tp_dispatch process_locals));
    [apply tp_process_state_touches_life; exact H|].
  intros [tp1 l] H1. apply tp_process_state_rest_life. exact H1.
Qed.

Lemma tp_post_events_life (tp : tp_dispatch) (time : Z) :
  touches_life (tp_post_events ext tp time) = touches_life tp.
Proof. unfold tp_post_events, log. life. Qed.

End ProcessLife.

(** ** Lifting all touches *)

Lemma touch_forall (P : tp_touch -> Prop) (tp : tp_dispatch) :
  (forall j, P (touch tp j)) -> Forall P (touches tp).
Proof.
  intros H. apply Forall_lookup. intros i t Ht.
  rewrite <- (touch_lookup _ _ _ Ht). apply H.
Qed.

Lemma forall_touch (P : tp_touch -> Prop) (tp : tp_dispatch) (j : nat) :
  Forall P (touches tp) -> P (tp_init_touch (Z.of_nat j)) -> P (touch tp j).
Proof.
  intros H H0. destruct (Nat.lt_ge_cases j (length (touches tp))) as [Hj|Hj].
  - rewrite Forall_forall in H. apply H, list_elem_of_In, touch_elem_of, Hj.
  - rewrite touch_out_of_range by exact Hj. exact H0.
Qed.

Lemma count_down_none_down (l : list tp_touch) :
  Forall (fun t => touch_is_down t = false) l -> count_down l = 0.
Proof.
  induction 1 as [|t l Ht _ IH]; [reflexivity|].
  cbn [count_down]. rewrite Ht, IH. reflexivity.
Qed.

Lemma touch_lifted_not_down (t : tp_touch) :
  touch_lifted t = true -> touch_is_down t = false.
Proof.
  unfold touch_lifted. rewrite touch_is_down_state.
  destruct (t_state t); intros H; first [reflexivity|discriminate H].
Qed.

(** A loop that settles the touch it visits, and leaves the settled ones
    settled. *)
Lemma for_each_settles {S : Type} (I : S -> Prop) (Q : S -> nat -> Prop)
    (l : list nat) (body : S -> nat -> option S) (s s' : S) :
  (forall s a s', I s -> body s a = Some s' ->
                  I s' /\ Q s' a /\ forall j, Q s j -> Q s' j) ->
  I s -> for_each l body s = Some s' ->
  I s' /\ forall j, In j l \/ Q s j -> Q s' j.
Proof.
  intros Hbody. revert s. induction l as [|a l IH]; intros s Hs Hrun.
  - injection Hrun as <-. split; [exact Hs|]. intros j [[]|Hj]. exact Hj.
  - cbn in Hrun. destruct (body s a) as [s1|] eqn:H1; [|discriminate].
    destruct (Hbody s a s1 Hs H1) as (Hs1 & Ha & Hkeep).
    destruct (IH s1 Hs1 Hrun) as (Hs' & Hall).
    split; [exact Hs'|]. intros j [[<-|Hj]|Hj]; apply Hall.
    + right. exact Ha.
    + left. exact Hj.
    + right. apply Hkeep, Hj.
Qed.

Lemma tp_end_sequence_own (tp tp' : tp_dispatch) (i : nat) (time : Z) :
  tp_end_sequence tp i time = Some tp' ->
  ended_dirty (touch tp i) ->
  touch_lifted (touch tp' i) = true /\ ended_dirty (touch tp' i).
Proof.
  intros H Hd. unfold tp_end_sequence, tp_maybe_end_touch, log in H.
  destruct (Nat.lt_ge_cases i (length (touches tp))) as [Hi|Hi].
  - rewrite touch_set_touch_eq in H by exact Hi.
    cbn [t_state set_t_has_ended t_index] in H. unfold ended_dirty in *.
    destruct (t_state (touch tp i)) eqn:Hs;
      try match type of H with
          | (if ?b then _ else _) = _ => destruct b; [|discriminate H]
          end;
      injection H as <-;
      repeat match goal with
             | |- context [touch (set_trace ?l ?tp1) ?j] =>
                 change (touch (set_trace l tp1) j) with (touch tp1 j)
             | |- context [touch (set_nfingers_down ?l ?tp1) ?j] =>
                 change (touch (set_nfingers_down l tp1) j) with (touch tp1 j)
             end;
      rewrite ?touch_set_touch_eq
        by (cbn [touches set_nfingers_down set_touch set_touches];
            rewrite ?length_insert; exact Hi);
      unfold touch_lifted;
      cbn [t_state t_dirty t_has_ended set_t_has_ended set_t_dirty
           set_t_state];
      rewrite ?Hs; try (split; [reflexivity|]; first [discriminate|reflexivity]).
    + split; [|exact Hd]. rewrite (Hd eq_refl). reflexivity.
  - rewrite touch_set_touch_out in H by exact Hi.
    pose proof (touch_out_of_range tp i Hi) as Hout.
    rewrite Hout in H. cbn [t_state tp_init_touch] in H.
    injection H as <-. rewrite touch_set_touch_out by exact Hi.
    rewrite Hout. split; [reflexivity|]. intros [=].
Qed.

Lemma tp_end_sequence_lifts (tp tp' : tp_dispatch) (i : nat) (time : Z) :
  fingers_down_inv tp /\ (forall j, ended_dirty (touch tp j)) ->
  tp_end_sequence tp i time = Some tp' ->
  (fingers_down_inv tp' /\ (forall j, ended_dirty (touch tp' j))) /\
  touch_lifted (touch tp' i) = true /\
  (forall j, touch_lifted (touch tp j) = true ->
             touch_lifted (touch tp' j) = true).
Proof.
  intros [Hinv Hd] H.
  destruct (tp_end_sequence_own tp tp' i time H (Hd i)) as [Hl Hd'].
  split; [split|split].
  - exact (keeps_inv_end_sequence tp i time Hinv tp' H).
  - intros j. destruct (decide (i = j)) as [<-|Hne]; [exact Hd'|].
    rewrite (tp_end_sequence_other _ _ _ _ _ H Hne). apply Hd.
  - exact Hl.
  - intros j Hj. destruct (decide (i = j)) as [<-|Hne]; [exact Hl|].
    rewrite (tp_end_sequence_other _ _ _ _ _ H Hne). exact Hj.
Qed.

Lemma nfingers_down_lifted (tp : tp_dispatch) :
  fingers_down_inv tp -> (forall j, touch_lifted (touch tp j) = true) ->
  nfingers_down tp = 0.
Proof.
  intros (Hc & _) Hl. rewrite Hc. apply count_down_none_down.
  apply touch_forall. intros j. apply touch_lifted_not_down, Hl.
Qed.

(** The loop of [tp_clear_state], with [tp_release_fake_touches]. *)
Lemma tp_end_all_sequences_lifted (tp tp1 : tp_dispatch) (now : Z) :
  fingers_down_inv tp -> (forall j, ended_dirty (touch tp j)) ->
  for_each (tp_for_each_touch tp)
    (fun tp t => tp_end_sequence tp t now) tp = Some tp1 ->
  fingers_down_inv (tp_release_fake_touches tp1) /\
  lifted (tp_release_fake_touches tp1).
Proof.
  intros Hinv Hd Hrun.
  destruct (for_each_settles
              (fun s => fingers_down_inv s /\
                        forall j, ended_dirty (touch s j))
              (fun s j => touch_lifted (touch s j) = true)
              _ _ tp tp1
              (fun s a s' => tp_end_sequence_lifts s s' a now)
              (conj Hinv Hd) Hrun) as ((Hinv1 & _) & Hall).
  assert (Hl : forall j, touch_lifted (touch tp1 j) = true).
  { intros j. apply Hall.
    destruct (Nat.lt_ge_cases j (length (touches tp))) as [Hj|Hj].
    - left. apply in_seq. lia.
    - right. rewrite touch_out_of_range by exact Hj. reflexivity. }
  assert (Hinv2 : fingers_down_inv (tp_release_fake_touches tp1))
    by exact Hinv1.
  split; [exact Hinv2|]. split; [|split; [reflexivity|exact Hl]].
  exact (nfingers_down_lifted tp1 Hinv1 Hl).
Qed.

(** ** A frame on lifted touches *)

Lemma in_range (lo hi i : Z) : In i (range lo hi) -> lo <= i < hi.
Proof.
  unfold range. rewrite in_map_iff. intros (k & <- & Hk).
  apply in_seq in Hk. lia.
Qed.

Lemma tp_fake_finger_count_none (tp : tp_dispatch) :
  fake_touches tp = 0 -> tp_fake_finger_count tp = (0, tp).
Proof. intros H. unfold tp_fake_finger_count. rewrite H. reflexivity. Qed.

Lemma lifted_not_hovering (tp : tp_dispatch) (i : nat) :
  lifted tp -> t_state (touch tp i) <> TOUCH_HOVERING.
Proof.
  intros (_ & _ & Hl) Hs. specialize (Hl i). unfold touch_lifted in Hl.
  rewrite Hs in Hl. discriminate Hl.
Qed.

Lemma lifted_maybe_end_touch (tp tp' : tp_dispatch) (i : nat) (time : Z) :
  lifted tp -> tp_maybe_end_touch tp i time = Some tp' ->
  lifted tp' /\ num_slots tp' = num_slots tp.
Proof.
  intros Hl H. pose proof Hl as (_ & _ & Hi). specialize (Hi i).
  unfold touch_lifted in Hi. unfold tp_maybe_end_touch in H.
  destruct (t_state (touch tp i)); try discriminate Hi;
    injection H as <-; split; first [exact Hl|reflexivity].
Qed.

Lemma lifted_end_sequence (tp tp' : tp_dispatch) (i : nat) (time : Z) :
  lifted tp -> tp_end_sequence tp i time = Some tp' ->
  lifted tp' /\ num_slots tp' = num_slots tp.
Proof.
  intros (Hn & Hf & Hl) H. unfold tp_end_sequence in H.
  apply lifted_maybe_end_touch in H; [exact H|].
  split; [exact Hn|]. split; [exact Hf|]. intros j.
  destruct (decide (i = j)) as [<-|Hne];
    [|rewrite touch_set_touch_ne by exact Hne; apply Hl].
  destruct (Nat.lt_ge_cases i (length (touches tp))) as [Hi|Hi];
    [|rewrite touch_set_touch_out by exact Hi; apply Hl].
  rewrite touch_set_touch_eq by exact Hi.
  specialize (Hl i). unfold touch_lifted in *.
  cbn [t_state t_has_ended t_dirty set_t_has_ended].
  destruct (t_state (touch tp i)); first [reflexivity|exact Hl|idtac].
  apply andb_prop in Hl. destruct Hl as [_ ->]. reflexivity.
Qed.

(** The invariant of the frame: all touches lifted, and a number of
    slots that is not negative. *)
Lemma lifted_process_fake_touches (tp tp' : tp_dispatch) (time : Z) :
  lifted tp /\ 0 <= num_slots tp ->
  tp_process_fake_touches tp time = Some tp' ->
  lifted tp' /\ 0 <= num_slots tp'.
Proof.
  intros [Hl Hs] H. unfold tp_process_fake_touches in H.
  pose proof Hl as (_ & Hf & _).
  rewrite (tp_fake_finger_count_none tp Hf) in H.
  change (0 =? FAKE_FINGER_OVERFLOW) with false in H. cbv iota in H.
  assert (Hrestore :
    (if negb (Z.land (device_model_flags tp)
                EVDEV_MODEL_SYNAPTICS_SERIAL_TOUCHPAD =? 0)
     then tp_restore_synaptics_touches tp time
     else Some tp) = Some tp).
  { destruct (negb _); [|reflexivity].
    unfold tp_restore_synaptics_touches.
    rewrite (tp_fake_finger_count_none tp Hf). reflexivity. }
  rewrite Hrestore in H. clear Hrestore.
  revert H.
  apply (for_each_invariant (fun s => lifted s /\ 0 <= num_slots s));
    [|split; assumption].
  intros s i s' Hin [Hls Hss] Hbody.
  destruct (tp_get_touch s i) as [t|]; [|discriminate].
  apply in_range in Hin.
  assert (Hi : (i <? 0) = false).
  { apply Z.ltb_ge. destruct (has_mt tp); lia. }
  rewrite Hi in Hbody.
  destruct (lifted_end_sequence _ _ _ _ Hls Hbody) as [Hl' Hn'].
  split; [exact Hl'|]. rewrite Hn'. exact Hss.
Qed.

Lemma lifted_unhover_size (tp tp' : tp_dispatch) (time : Z) :
  lifted tp /\ 0 <= num_slots tp ->
  tp_unhover_size tp time = Some tp' ->
  lifted tp' /\ 0 <= num_slots tp'.
Proof.
  intros HL H. unfold tp_unhover_size in H. cbv zeta in H. revert H.
  apply (for_each_invariant (fun s => lifted s /\ 0 <= num_slots s));
    [|exact HL].
  clear. intros s i s' _ [Hls Hss] Hbody.
  destruct (tp_get_touch s i) as [t|]; [|discriminate].
  destruct (decide (t_state (touch s t) = TOUCH_NONE));
    [injection Hbody as <-; split; assumption|].
  destruct (negb (t_dirty (touch s t)));
    [injection Hbody as <-; split; assumption|].
  destruct (decide (t_state (touch s t) = TOUCH_HOVERING)) as [Hh|_];
    [destruct (lifted_not_hovering s t Hls Hh)|].
  destruct (_ || _); [|injection Hbody as <-; split; assumption].
  destruct (lifted_maybe_end_touch _ _ _ _ Hls Hbody) as [Hl' Hn'].
  split; [exact Hl'|]. rewrite Hn'. exact Hss.
Qed.

Lemma lifted_unhover_fake_touches (tp tp' : tp_dispatch) (time : Z) :
  lifted tp -> tp_unhover_fake_touches tp time = Some tp' -> tp' = tp.
Proof.
  intros (Hn & Hf & _) H. unfold tp_unhover_fake_touches in H.
  rewrite Hn, Hf in H. injection H as <-. reflexivity.
Qed.

Lemma lifted_unhover_pressure (tp tp' : tp_dispatch) (time : Z) :
  lifted tp /\ 0 <= num_slots tp ->
  tp_unhover_pressure tp time = Some tp' ->
  lifted tp' /\ 0 <= num_slots tp'.
Proof.
  intros [Hl Hs] H. unfold tp_unhover_pressure in H.
  pose proof Hl as (_ & Hf & _).
  rewrite (tp_fake_finger_count_none tp Hf) in H.
  change (0 =? FAKE_FINGER_OVERFLOW) with false in H. cbv iota zeta in H.
  match type of H with
  | match ?loop with _ => _ end = _ =>
      destruct loop as [[tp1 real]|] eqn:Hloop; [|discriminate]
  end.
  assert (H1 : lifted tp1 /\ 0 <= num_slots tp1).
  { revert Hloop.
    change (lifted tp1 /\ 0 <= num_slots tp1)
      with ((fun s : tp_dispatch * Z =>
               lifted (fst s) /\ 0 <= num_slots (fst s)) (tp1, real)).
    apply for_each_invariant; [|split; assumption].
    clear. intros [s r] i [s' r'] _ [Hls Hss] Hbody. cbn [fst] in *.
    destruct (tp_get_touch s i) as [t|]; [|discriminate].
    destruct (decide (t_state (touch s t) = TOUCH_NONE));
      [injection Hbody as <- _; split; assumption|].
    match type of Hbody with
    | match ?x with _ => _ end = _ =>
        destruct x as [s1|] eqn:Hx; [|discriminate]
    end.
    injection Hbody as <- _.
    destruct (t_dirty (touch s t));
      [|injection Hx as <-; split; assumption].
    destruct (decide (t_state (touch s t) = TOUCH_HOVERING)) as [Hh|_];
      [destruct (lifted_not_hovering s t Hls Hh)|].
    destruct (_ || _); [|injection Hx as <-; split; assumption].
    destruct (_ <? _); [|injection Hx as <-; split; assumption].
    destruct (lifted_maybe_end_touch _ _ _ _ Hls Hx) as [Hl' Hn'].
    split; [exact Hl'|]. rewrite Hn'. exact Hss. }
  destruct H1 as [Hl1 Hs1].
  replace (0 <=? num_slots tp1) with true in H
    by (symmetry; apply Z.leb_le; exact Hs1).
  injection H as <-. split; assumption.
Qed.

Lemma lifted_unhover_touches (tp tp' : tp_dispatch) (time : Z) :
  lifted tp /\ 0 <= num_slots tp ->
  tp_unhover_touches tp time = Some tp' ->
  lifted tp' /\ 0 <= num_slots tp'.
Proof.
  intros HL H. unfold tp_unhover_touches in H.
  destruct (pressure_use_pressure tp);
    [exact (lifted_unhover_pressure _ _ _ HL H)|].
  destruct (touch_size_use_touch_size tp);
    [exact (lifted_unhover_size _ _ _ HL H)|].
  rewrite (lifted_unhover_fake_touches _ _ _ (proj1 HL) H). exact HL.
Qed.

Lemma same_lifecycle_touch (tp tp' : tp_dispatch) (j : nat) :
  same_lifecycle tp tp' -> same_state (touch tp j) (touch tp' j).
Proof.
  intros [_ H]. unfold touch.
  destruct (touches tp !! j) as [t|] eqn:Ht.
  - destruct (Forall2_lookup_l _ _ _ _ _ H Ht) as (t' & Ht' & Hs).
    rewrite Ht'. exact Hs.
  - apply lookup_ge_None in Ht. rewrite (Forall2_length _ _ _ H) in Ht.
    rewrite lookup_ge_None_2 by exact Ht. apply same_state_refl.
Qed.

Lemma touches_life_touch (tp tp' : tp_dispatch) (j : nat) :
  touches_life tp' = touches_life tp ->
  touch_life (touch tp' j) = touch_life (touch tp j).
Proof.
  unfold touches_life, touch. intros H.
  assert (Hj : (touch_life <$> touches tp') !! j
               = (touch_life <$> touches tp) !! j)
    by (change (fmap (M := list) touch_life) with (map touch_life);
        rewrite H; reflexivity).
  rewrite !list_lookup_fmap in Hj.
  destruct (touches tp' !! j), (touches tp !! j); simpl in *;
    first [congruence|reflexivity].
Qed.

(** What keeps the states of the touches keeps them lifted. *)
Lemma lifted_transfer (tp tp' : tp_dispatch) :
  same_lifecycle tp tp' -> touches_life tp' = touches_life tp ->
  fake_touches tp' = fake_touches tp ->
  lifted tp ->
  lifted tp' /\
  ((forall j, t_state (touch tp j) <> TOUCH_MAYBE_END) ->
   forall j, t_state (touch tp' j) <> TOUCH_MAYBE_END).
Proof.
  intros Hsame Hlife Hfake (Hn & Hf & Hl).
  assert (Hstate : forall j,
            t_state (touch tp' j) = t_state (touch tp j) /\
            t_has_ended (touch tp' j) = t_has_ended (touch tp j) /\
            (t_dirty (touch tp j) = true -> t_dirty (touch tp' j) = true)).
  { intros j. pose proof (touches_life_touch tp tp' j Hlife) as H1.
    injection H1 as H1 H2.
    destruct (same_lifecycle_touch tp tp' j Hsame) as [_ H3]. auto. }
  split.
  - split; [destruct Hsame as [-> _]; exact Hn|].
    split; [congruence|]. intros j. specialize (Hl j).
    destruct (Hstate j) as (Hs & He & Hd). unfold touch_lifted in *.
    rewrite Hs, He. destruct (t_state (touch tp j)); try exact Hl.
    apply andb_prop in Hl. destruct Hl as [-> Hl]. rewrite (Hd Hl).
    reflexivity.
  - intros Hno j. destruct (Hstate j) as (-> & _). apply Hno.
Qed.

Lemma touch_set_touch_cases (tp : tp_dispatch) (i j : nat) (t : tp_touch) :
  touch (set_touch i t tp) j = t \/
  touch (set_touch i t tp) j = touch tp j.
Proof.
  destruct (decide (i = j)) as [<-|Hne];
    [|right; apply touch_set_touch_ne, Hne].
  destruct (Nat.lt_ge_cases i (length (touches tp))) as [Hi|Hi].
  - left. apply touch_set_touch_eq, Hi.
  - right. apply touch_set_touch_out, Hi.
Qed.

Lemma lifted_set_touch (tp : tp_dispatch) (i : nat) (t : tp_touch) :
  lifted tp -> touch_lifted t = true -> lifted (set_touch i t tp).
Proof.
  intros (Hn & Hf & Hl) Ht. split; [exact Hn|]. split; [exact Hf|].
  intros j. destruct (touch_set_touch_cases tp i j t) as [-> | ->];
    [exact Ht|apply Hl].
Qed.

Lemma lifted_end_touch (tp : tp_dispatch) (i : nat) (time : Z) :
  lifted tp ->
  lifted (tp_end_touch tp i time) /\
  t_state (touch (tp_end_touch tp i time) i) <> TOUCH_MAYBE_END /\
  (forall j, t_state (touch tp j) <> TOUCH_MAYBE_END ->
             t_state (touch (tp_end_touch tp i time) j) <> TOUCH_MAYBE_END).
Proof.
  intros Hl. unfold tp_end_touch.
  destruct (decide (t_state (touch tp i) = TOUCH_MAYBE_END)) as [Hs|Hs];
    [|split; [exact Hl|split; [exact Hs|intros j Hj; exact Hj]]].
  pose proof Hl as (_ & _ & Hi). specialize (Hi i).
  unfold touch_lifted in Hi. rewrite Hs in Hi.
  match goal with
  | |- context [set_touch i ?t tp] => set (t' := t)
  end.
  assert (Hstate : t_state t' = TOUCH_END) by reflexivity.
  assert (Hlift : touch_lifted t' = true)
    by (unfold touch_lifted; rewrite Hstate; subst t';
        cbn [t_has_ended t_dirty set_speed_exceeded_count set_palm_time
             set_t_time set_pinned_is_pinned set_t_state set_palm_state
             set_t_dirty];
        rewrite Hi; reflexivity).
  destruct (lifted_set_touch tp i t' Hl Hlift) as (H1 & H2 & H3).
  split; [split; [exact H1|split; [exact H2|exact H3]]|].
  assert (Hcases : forall j,
            t_state (touch tp j) <> TOUCH_MAYBE_END \/ j = i ->
            t_state (touch (set_touch i t' tp) j) <> TOUCH_MAYBE_END).
  { intros j Hj.
    destruct (touch_set_touch_cases tp i j t') as [-> | Hsame];
      [rewrite Hstate; discriminate|].
    rewrite Hsame. destruct Hj as [Hj | ->]; [exact Hj|].
    destruct (Nat.lt_ge_cases i (length (touches tp))) as [Hlt|Hge].
    - rewrite touch_set_touch_eq in Hsame by exact Hlt.
      rewrite <- Hsame, Hstate. discriminate.
    - rewrite touch_out_of_range by exact Hge. discriminate. }
  split; [exact (Hcases i (or_intror eq_refl))|].
  intros j Hj. exact (Hcases j (or_introl Hj)).
Qed.

Lemma lifted_on_touch_point (tp : tp_dispatch) (i : nat)
    (f : tp_touch -> device_coords) :
  lifted tp ->
  lifted (on_touch i (fun t => set_t_point (f t) t) tp) /\
  (forall j,
     t_state (touch tp j) <> TOUCH_MAYBE_END ->
     t_state (touch (on_touch i (fun t => set_t_point (f t) t) tp) j)
     <> TOUCH_MAYBE_END).
Proof.
  intros Hl. unfold on_touch. split.
  - apply lifted_set_touch; [exact Hl|]. apply (proj2 (proj2 Hl) i).
  - intros j Hj.
    destruct (touch_set_touch_cases tp i j
                (set_t_point (f (touch tp i)) (touch tp i)))
      as [Heq | ->]; [|exact Hj].
    destruct (decide (i = j)) as [<-|Hne].
    + rewrite Heq. exact Hj.
    + rewrite touch_set_touch_ne by exact Hne. exact Hj.
Qed.

(** The loop of [tp_pre_process_state]: the touches scheduled to end are
    ended. *)
Lemma lifted_end_touches (tp tp' : tp_dispatch) (time : Z) :
  lifted tp ->
  for_each (tp_for_each_touch tp)
    (fun tp t =>
       let tp :=
         if decide (t_state (touch tp t) = TOUCH_MAYBE_END)
         then tp_end_touch tp t time
         else tp in
       if bool_decide (t_state (touch tp t) = TOUCH_END)
          && (history_count (touch tp t) >? 0)
       then
         Some (on_touch t
                 (fun t =>
                    set_t_point
                      (hp_point (tp_motion_history_offset t 0)) t)
                 tp)
       else Some tp) tp = Some tp' ->
  lifted tp' /\ forall j, t_state (touch tp' j) <> TOUCH_MAYBE_END.
Proof.
  intros Hl Hrun.
  eapply (for_each_settles lifted
            (fun s j => t_state (touch s j) <> TOUCH_MAYBE_END)) in Hrun;
    [destruct Hrun as (Hl' & Hall)| |exact Hl]; cycle 1.
  - clear. intros s a s' Hl Hbody. cbv zeta in Hbody.
    assert (H1 :
      exists s1,
        (if decide (t_state (touch s a) = TOUCH_MAYBE_END)
         then tp_end_touch s a time else s) = s1 /\
        lifted s1 /\ t_state (touch s1 a) <> TOUCH_MAYBE_END /\
        forall j, t_state (touch s j) <> TOUCH_MAYBE_END ->
                  t_state (touch s1 j) <> TOUCH_MAYBE_END).
    { eexists. split; [reflexivity|].
      destruct (decide (t_state (touch s a) = TOUCH_MAYBE_END)) as [Hs|Hs];
        [apply lifted_end_touch; exact Hl
        |split; [exact Hl|split; [exact Hs|auto]]]. }
    destruct H1 as (s1 & Hs1 & Hl1 & Ha1 & Hk1). rewrite Hs1 in Hbody.
    match type of Hbody with
    | (if ?b then _ else _) = _ => destruct b
    end; injection Hbody as <-;
      [|split; [exact Hl1|split; [exact Ha1|exact Hk1]]].
    destruct (lifted_on_touch_point s1 a
                (fun t => hp_point (tp_motion_history_offset t 0)) Hl1)
      as [Hl2 Hk2].
    split; [exact Hl2|]. split; [apply Hk2, Ha1|].
    intros j Hj. apply Hk2, Hk1, Hj.
  - split; [exact Hl'|]. intros j. apply Hall.
    destruct (Nat.lt_ge_cases j (length (touches tp))) as [Hj|Hj].
    + left. apply in_seq. lia.
    + right. rewrite touch_out_of_range by exact Hj. discriminate.
Qed.

Lemma lifted_process_msc_timestamp (tp : tp_dispatch) (time : Z) :
  lifted tp ->
  lifted (tp_process_msc_timestamp tp time) /\
  num_slots (tp_process_msc_timestamp tp time) = num_slots tp.
Proof.
  intros Hl. split.
  - apply (lifted_transfer tp); [| | |exact Hl].
    + apply tp_process_msc_timestamp_lifecycle.
    + apply tp_process_msc_timestamp_life.
    + pose proof (frame_setup_field _ _
                    (tp_process_msc_timestamp_setup tp time))
        as (_ & Hf & _).
      exact Hf.
  - unfold tp_process_msc_timestamp, log.
    repeat match goal with
           | |- num_slots (if ?b then _ else _) = _ => destruct b
           | |- num_slots (match ?x with _ => _ end) = _ => destruct x
           end; reflexivity.
Qed.

Lemma lifted_pre_process_state (tp tp' : tp_dispatch) (time : Z) :
  lifted tp -> 0 <= num_slots tp ->
  tp_pre_process_state tp time = Some tp' ->
  lifted tp' /\ forall j, t_state (touch tp' j) <> TOUCH_MAYBE_END.
Proof.
  intros Hl Hs H. unfold tp_pre_process_state in H. cbv zeta in H.
  match type of H with
  | match tp_process_fake_touches ?x _ with _ => _ end = _ =>
      assert (H0 : lifted x /\ 0 <= num_slots x);
      [|generalize dependent x; intros tp0 H H0]
  end.
  { destruct (negb _); [|split; assumption].
    destruct (lifted_process_msc_timestamp tp time Hl) as [Hl0 ->].
    split; assumption. }
  destruct (tp_process_fake_touches tp0 time) as [tp1|] eqn:H1;
    [|discriminate].
  apply lifted_process_fake_touches in H1; [|exact H0].
  destruct (tp_unhover_touches tp1 time) as [tp2|] eqn:H2; [|discriminate].
  apply lifted_unhover_touches in H2; [|exact H1].
  exact (lifted_end_touches tp2 tp' time (proj1 H2) H).
Qed.

Section ClearState.

Variable ext : collaborators.

Lemma lifted_process_state (tp tp' : tp_dispatch) (time : Z) :
  lifted tp -> (forall j, t_state (touch tp j) <> TOUCH_MAYBE_END) ->
  tp_process_state ext tp time = Some tp' ->
  lifted (tp_post_events ext tp' time) /\
  forall j,
    t_state (touch (tp_post_events ext tp' time) j) <> TOUCH_MAYBE_END.
Proof.
  intros Hl Hno H.
  assert (Hsame : same_lifecycle tp (tp_post_events ext tp' time)).
  { apply (same_lifecycle_trans _ tp');
      [exact (tp_process_state_lifecycle ext _ _ _ H)
      |apply tp_post_events_lifecycle]. }
  assert (Hlife : touches_life (tp_post_events ext tp' time)
                  = touches_life tp).
  { rewrite tp_post_events_life.
    exact (tp_process_state_life ext _ _ _ eq_refl _ H). }
  assert (Hfake : fake_touches (tp_post_events ext tp' time)
                  = fake_touches tp).
  { assert (Hsetup : frame_setup (tp_post_events ext tp' time)
                     = frame_setup tp).
    { rewrite tp_post_events_setup.
      exact (tp_process_state_kept ext _ _ _ eq_refl _ H). }
    apply frame_setup_field in Hsetup. exact (proj1 (proj2 Hsetup)). }
  destruct (lifted_transfer _ _ Hsame Hlife Hfake Hl) as [Hl' Hno'].
  split; [exact Hl'|exact (Hno' Hno)].
Qed.

Lemma lifted_post_process_state (tp : tp_dispatch) (time : Z) :
  lifted tp -> (forall j, t_state (touch tp j) <> TOUCH_MAYBE_END) ->
  nfingers_down (tp_post_process_state tp time) = 0 /\
  Forall (fun t => t_state t = TOUCH_NONE)
    (touches (tp_post_process_state tp time)).
Proof.
  intros (Hn & _ & Hl) Hno. split; [exact Hn|].
  apply touch_forall. intros j.
  destruct (Nat.lt_ge_cases j (length (touches tp))) as [Hj|Hj].
  - rewrite touch_post_process_state by exact Hj.
    specialize (Hl j). specialize (Hno j). unfold touch_lifted in Hl.
    destruct (t_state (touch tp j)) eqn:Hs; try discriminate Hl;
      try contradiction.
    + destruct (t_dirty (touch tp j)); cbn [negb]; [|exact Hs].
      cbn [t_state set_t_dirty]. exact Hs.
    + apply andb_prop in Hl. destruct Hl as [-> ->]. reflexivity.
  - rewrite touch_out_of_range; [reflexivity|].
    unfold tp_post_process_state.
    cbn [touches set_queued set_old_nfingers_down set_touches].
    rewrite length_map. exact Hj.
Qed.

Lemma tp_clear_state_setup (tp tp' : tp_dispatch) (now : Z) :
  tp_clear_state ext tp now = Some tp' ->
  frame_setup tp' = frame_setup (tp_release_fake_touches tp).
Proof.
  unfold tp_clear_state. intros H.
  destruct (for_each _ _ tp) as [tp1|] eqn:H1; [|discriminate].
  assert (Hk : frame_setup tp1 = frame_setup tp).
  { refine (kept_in_for_each frame_setup (fun s : tp_dispatch => s) _ _ _
              tp _ eq_refl _ H1).
    intros s a Hs. apply tp_end_sequence_kept. exact Hs. }
  rewrite (tp_handle_state_kept ext _ _ _ eq_refl _ H).
  apply frame_setup_field in Hk.
  destruct Hk as (H2 & _ & H3 & H4 & H5 & H6 & H7 & H8 & H9 & H10 & H11
                  & H12 & H13).
  unfold frame_setup, tp_release_fake_touches.
  cbn [touches set_fake_touches slot fake_touches arbitration_state
       device_is_suspended palm_trackpoint_active dwt_dwt_enabled
       dwt_keyboard_active dwt_keyboard_last_press_time dwt_key_mask
       dwt_mod_mask device_left_handed_enabled left_handed_rotate].
  congruence.
Qed.

Lemma tp_clear_state_lifts (tp tp' : tp_dispatch) (now : Z) :
  fingers_down_inv tp -> Forall ended_dirty (touches tp) ->
  0 <= num_slots tp ->
  tp_clear_state ext tp now = Some tp' ->
  nfingers_down tp' = 0 /\
  Forall (fun t => t_state t = TOUCH_NONE) (touches tp').
Proof.
  intros Hinv Hd Hs H. unfold tp_clear_state in H.
  destruct (for_each _ _ tp) as [tp1|] eqn:H1; [|discriminate].
  assert (Hd' : forall j, ended_dirty (touch tp j)).
  { intros j. apply forall_touch; [exact Hd|]. intros [=]. }
  destruct (tp_end_all_sequences_lifted tp tp1 now Hinv Hd' H1)
    as [_ Hl2].
  assert (Hs2 : 0 <= num_slots (tp_release_fake_touches tp1)).
  { change (0 <= num_slots tp1).
    revert H1. apply (for_each_invariant (fun s => 0 <= num_slots s));
      [|exact Hs].
    intros s a s' _ Hss Hb. unfold tp_end_sequence, tp_maybe_end_touch in Hb.
    match type of Hb with
    | match ?x with _ => _ end = _ => destruct x
    end;
      try match type of Hb with
          | (if ?b then _ else _) = _ => destruct b; [|discriminate Hb]
          end;
      injection Hb as <-; exact Hss. }
  unfold tp_handle_state in H.
  destruct (tp_pre_process_state _ now) as [tp3|] eqn:H3; [|discriminate].
  destruct (lifted_pre_process_state _ _ _ Hl2 Hs2 H3) as [Hl3 Hno3].
  destruct (tp_process_state ext tp3 now) as [tp4|] eqn:H4; [|discriminate].
  destruct (lifted_process_state _ _ _ Hl3 Hno3 H4) as [Hl4 Hno4].
  injection H as <-.
  exact (lifted_post_process_state _ now Hl4 Hno4).
Qed.

End ClearState.



(** X18.  [tp_process_state] classifies the touches and begins or ends
    none: when it returns, every touch has the state and the
    [has_ended] flag it had, a dirty touch is still dirty, and the
    finger count and the setup are unchanged. *)
Theorem tp_process_state_keeps_touch_states (ext : collaborators)
    (tp tp' : tp_dispatch) (time : Z) :
  tp_process_state ext tp time = Some tp' ->
  nfingers_down tp' = nfingers_down tp /\
  length (touches tp') = length (touches tp) /\
  (forall j,
     t_state (touch tp' j) = t_state (touch tp j) /\
     t_has_ended (touch tp' j) = t_has_ended (touch tp j) /\
     (t_dirty (touch tp j) = true -> t_dirty (touch tp' j) = true)) /\
  frame_setup tp' = frame_setup tp.
Proof.
  intros H.
  pose proof (tp_process_state_lifecycle ext _ _ _ H) as Hsame.
  pose proof (tp_process_state_life ext _ _ _ eq_refl _ H) as Hlife.
  pose proof (tp_process_state_kept ext _ _ _ eq_refl _ H) as Hsetup.
  split; [exact (proj1 Hsame)|].
  split; [symmetry; exact (Forall2_length _ _ _ (proj2 Hsame))|].
  split; [|exact Hsetup].
  intros j. pose proof (touches_life_touch tp tp' j Hlife) as H1.
  injection H1 as H1 H2.
  destruct (same_lifecycle_touch tp tp' j Hsame) as [_ H3]. auto.
Qed.

(** The frame in which the second finger lands on the clickpad: the
    first touch stays in TOUCH_UPDATE and the second in TOUCH_BEGIN
    while they are classified. *)
Lemma tp_process_state_keeps_touch_states_witness :
  exists tp',
    tp_process_state st_ext second_finger_begun 156000 = Some tp' /\
    t_state (touch second_finger_begun 0) = TOUCH_UPDATE /\
    t_state (touch second_finger_begun 1) = TOUCH_BEGIN /\
    t_state (touch tp' 0) = TOUCH_UPDATE /\
    t_state (touch tp' 1) = TOUCH_BEGIN /\
    nfingers_down tp' = 2.
Proof.
  pose (tp' := default second_finger_begun
                 (tp_process_state st_ext second_finger_begun 156000)).
  assert (H : tp_process_state st_ext second_finger_begun 156000 = Some tp')
    by (vm_compute; reflexivity).
  destruct (tp_process_state_keeps_touch_states st_ext second_finger_begun
              tp' 156000 H) as (Hn & _ & Hstate & _).
  exists tp'. split; [exact H|]. split; [reflexivity|].
  split; [reflexivity|].
  split; [rewrite (proj1 (Hstate 0%nat)); reflexivity|].
  split; [rewrite (proj1 (Hstate 1%nat)); reflexivity|].
  rewrite Hn. reflexivity.
Defined.

(** X19.  Touch arbitration.  Toggling to the state the touchpad is in
    changes nothing.  Toggling to ARBITRATION_NOT_ACTIVE only arms the
    arbitration timer 90 ms ahead: the state changes when
    [tp_arbitration_timeout] runs.  Toggling to one of the two ignoring
    states, from a dispatcher whose finger count is right: when the call
    returns the arbitration state is the new one, no finger is down,
    every touch is in TOUCH_NONE and the fake-finger mask is empty. *)
Theorem tp_interface_toggle_touch_arbitration (ext : collaborators)
    (tp : tp_dispatch) (which : evdev_arbitration_state) (time now : Z) :
  (which = arbitration_state tp ->
   tp_interface_toggle_touch ext tp which time now = Some tp) /\
  (which <> arbitration_state tp -> which = ARBITRATION_NOT_ACTIVE ->
   let tp' :=
     log (libinput_timer_set arbitration_timer (u64 (time + ms2us 90))) tp in
   tp_interface_toggle_touch ext tp which time now = Some tp' /\
   arbitration_state tp' = arbitration_state tp /\
   arbitration_state (tp_arbitration_timeout tp' now)
   = ARBITRATION_NOT_ACTIVE) /\
  (which <> arbitration_state tp -> which <> ARBITRATION_NOT_ACTIVE ->
   fingers_down_inv tp -> Forall ended_dirty (touches tp) ->
   0 <= num_slots tp ->
   forall tp',
     tp_interface_toggle_touch ext tp which time now = Some tp' ->
     arbitration_state tp' = which /\
     nfingers_down tp' = 0 /\
     Forall (fun t => t_state t = TOUCH_NONE) (touches tp') /\
     fake_touches tp' = 0 /\
     length (touches tp') = length (touches tp)).
Proof.
  unfold tp_interface_toggle_touch. split; [|split].
  - intros ->. rewrite decide_True by reflexivity. reflexivity.
  - intros Hne ->. rewrite decide_False by exact Hne. cbv zeta.
    split; [reflexivity|]. split; [reflexivity|].
    unfold tp_arbitration_timeout.
    destruct (negb _) eqn:Hb; [reflexivity|].
    apply negb_false_iff, bool_decide_eq_true in Hb. exact Hb.
  - intros Hne Hactive Hinv Hd Hs tp' H.
    rewrite decide_False in H by exact Hne.
    assert (Hclear :
      exists tp1,
        tp_clear_state ext
          (log (libinput_timer_cancel arbitration_timer) tp) now
        = Some tp1 /\
        tp' = set_arbitration_state which tp1).
    { destruct which; [contradiction| |]; cbv zeta in H;
        destruct (tp_clear_state ext _ now) as [tp1|]; try discriminate H;
        injection H as <-; exists tp1; split; reflexivity. }
    destruct Hclear as (tp1 & H1 & ->).
    apply tp_clear_state_lifts in H1 as Hl; [|exact Hinv|exact Hd|exact Hs].
    apply tp_clear_state_setup in H1.
    apply frame_setup_field in H1.
    destruct H1 as (_ & Hf & Hrest).
    split; [reflexivity|]. split; [exact (proj1 Hl)|].
    split; [exact (proj2 Hl)|]. split; [exact Hf|].
    repeat match type of Hrest with
           | _ /\ ?B => destruct Hrest as [_ Hrest]
           end.
    exact Hrest.
Qed.

(** With two fingers down on the clickpad, a pen comes into proximity:
    the touches are released and arbitration ignores all.  The pen
    leaves: the timer is armed for 90 ms later. *)
Lemma tp_interface_toggle_touch_arbitration_witness :
  exists tp',
    tp_interface_toggle_touch st_ext second_finger_frame_end
      ARBITRATION_IGNORE_ALL 200000 200000 = Some tp' /\
    arbitration_state tp' = ARBITRATION_IGNORE_ALL /\
    nfingers_down tp' = 0 /\
    Forall (fun t => t_state t = TOUCH_NONE) (touches tp') /\
    tp_interface_toggle_touch st_ext tp' ARBITRATION_NOT_ACTIVE 300000
      300000
    = Some (log (libinput_timer_set arbitration_timer 390000) tp').
Proof.
  pose (tp' := default second_finger_frame_end
                 (tp_interface_toggle_touch st_ext second_finger_frame_end
                    ARBITRATION_IGNORE_ALL 200000 200000)).
  assert (H : tp_interface_toggle_touch st_ext second_finger_frame_end
                ARBITRATION_IGNORE_ALL 200000 200000 = Some tp')
    by (vm_compute; reflexivity).
  assert (Hinv : fingers_down_inv second_finger_frame_end).
  { split; [vm_compute; reflexivity|]. split; [vm_compute; reflexivity|].
    repeat constructor; intros Hs; vm_compute in Hs; discriminate Hs. }
  assert (Hd : Forall ended_dirty (touches second_finger_frame_end)).
  { repeat constructor; intros Hs; vm_compute in Hs; discriminate Hs. }
  assert (Hslots : 0 <= num_slots second_finger_frame_end)
    by (vm_compute; discriminate).
  destruct (tp_interface_toggle_touch_arbitration st_ext
              second_finger_frame_end ARBITRATION_IGNORE_ALL 200000 200000)
    as (_ & _ & Hignore).
  destruct (Hignore ltac:(discriminate) ltac:(discriminate) Hinv Hd Hslots
              tp' H) as (Hstate & Hn & Hall & _).
  exists tp'. split; [exact H|]. split; [exact Hstate|].
  split; [exact Hn|]. split; [exact Hall|].
  destruct (tp_interface_toggle_touch_arbitration st_ext tp'
              ARBITRATION_NOT_ACTIVE 300000 300000) as (_ & Hrelease & _).
  apply Hrelease; [rewrite Hstate; discriminate|reflexivity].
Defined.
